(** * DING HTML widget host: registry, per-instance host, manager and
      web context

    A shallow embedding of the widget-hosting subsystem of the
    gtk4-ding GNOME Shell extension:

    - [WidgetRegistry]   app/widgetRegistry.js
    - [HtmlWidgetHost]   the per-instance host class
    - [WidgetManager]    app/widgetManager.js
    - [WebWidgetContext] the shared WebKit runtime, its preferences
                         window and the ding-widget:// scheme handler

    JavaScript objects are records, [Map]s are insertion-ordered
    association lists or finite maps, and methods are computations in a
    state monad that can also end in a thrown [TypeError]. *)

From Stdlib Require Import ZArith QArith Qround Ascii String.
From stdpp Require Import gmap strings list fin_maps sorting.
Close Scope Q_scope.

(** * The program *)

(* ===================================================================== *)
(** ** JavaScript values, exceptions and the method monad                 *)
(* ===================================================================== *)

Module Js.

(** JSON-compatible JavaScript values, plus [undefined]. Numbers are
    only stored and copied by the modelled code, so rationals stand for
    them. *)
#[warnings="-register-all"]
Inductive jsval :=
| JUndefined
| JNull
| JBool (b : bool)
| JNum (q : Q)
| JStr (s : string)
| JArr (items : list jsval)
| JObj (fields : list (string * jsval)).

(** [v && typeof v === 'object'] (arrays are objects, [null] is falsy). *)
Definition is_object (v : jsval) : bool :=
  match v with
  | JArr _ | JObj _ => true
  | _ => false
  end.

(** JavaScript truthiness. *)
Definition truthy (v : jsval) : bool :=
  match v with
  | JUndefined | JNull => false
  | JBool b => b
  | JNum q => negb (Qeq_bool q 0)
  | JStr EmptyString => false
  | JStr _ => true
  | JArr _ | JObj _ => true
  end.

(** [a || b]. *)
Definition or_else (a b : jsval) : jsval := if truthy a then a else b.

Fixpoint assoc (k : string) (fields : list (string * jsval)) : jsval :=
  match fields with
  | [] => JUndefined
  | (k', v) :: rest => if decide (k = k') then v else assoc k rest
  end.

(** [v.k] on a parsed JSON value: [undefined] unless [v] is an object
    that has the key. *)
Definition field (k : string) (v : jsval) : jsval :=
  match v with
  | JObj fields => assoc k fields
  | _ => JUndefined
  end.

(** Truthiness of a string or of a nullable string. *)
Definition truthy_str (s : string) : bool :=
  match s with
  | EmptyString => false
  | _ => true
  end.

Definition truthy_ostr (o : option string) : bool :=
  match o with
  | Some s => truthy_str s
  | None => false
  end.

(** [a ?? b] on a nullable value. *)
Definition nullish {A} (o : option A) (d : A) : A :=
  match o with
  | Some a => a
  | None => d
  end.

Inductive JsError := TypeError.

Inductive outcome (A : Type) :=
| Returned (a : A)
| Threw (e : JsError).
Arguments Returned {A} a.
Arguments Threw {A} e.

(** A method over an object (or world) of type [S]: it returns the
    object as the method left it, also when it throws half-way. *)
Definition M (S A : Type) : Type := S -> S * outcome A.

Definition ret {S A} (a : A) : M S A := fun s => (s, Returned a).

Definition bind {S A B} (c : M S A) (k : A -> M S B) : M S B :=
  fun s =>
    match c s with
    | (s', Returned a) => k a s'
    | (s', Threw e) => (s', Threw e)
    end.

Definition throw {S A} (e : JsError) : M S A := fun s => (s, Threw e).
Definition get {S} : M S S := fun s => (s, Returned s).
Definition modify {S} (f : S -> S) : M S unit := fun s => (f s, Returned tt).

(** [o.field] used as a receiver: a [TypeError] when it is null. *)
Definition deref {S A} (field : S -> option A) : M S A :=
  fun s =>
    match field s with
    | Some a => (s, Returned a)
    | None => (s, Threw TypeError)
    end.

(** [for (const x of xs) body(x)] over a snapshot of the array. *)
Fixpoint for_each {S A} (xs : list A) (body : A -> M S unit) : M S unit :=
  match xs with
  | [] => ret tt
  | x :: rest => bind (body x) (fun _ => for_each rest body)
  end.

(** [try { c } catch (e) { }]: the exception is swallowed, the state
    stays as it was at the throw. *)
Definition try_catch {S} (c : M S unit) : M S unit :=
  fun s =>
    match c s with
    | (s', _) => (s', Returned tt)
    end.

Definition state_of {S A} (r : S * outcome A) : S := fst r.
Definition outcome_of {S A} (r : S * outcome A) : outcome A := snd r.

Definition returned {A} (o : outcome A) : bool :=
  match o with
  | Returned _ => true
  | Threw _ => false
  end.

End Js.

Import Js.

Declare Scope js_scope.
Delimit Scope js_scope with js.
Notation "x <- c ;; k" := (bind c (fun x => k))
  (at level 100, c at next level, k at level 200, right associativity)
  : js_scope.
Notation "c ;;; k" := (bind c (fun _ => k))
  (at level 100, k at level 200, right associativity) : js_scope.
Open Scope js_scope.

(* ===================================================================== *)
(** ** JavaScript [Map]: insertion-ordered, one entry per key             *)
(* ===================================================================== *)

Module JsMap.
Section Ops.
Context {K V : Type} `{EqDecision K}.

Fixpoint get (k : K) (m : list (K * V)) : option V :=
  match m with
  | [] => None
  | (k', v) :: rest => if decide (k = k') then Some v else get k rest
  end.

Definition has (k : K) (m : list (K * V)) : bool :=
  match get k m with
  | Some _ => true
  | None => false
  end.

(** [m.set(k, v)]: an existing key keeps its place, a new one goes last. *)
Fixpoint set (k : K) (v : V) (m : list (K * V)) : list (K * V) :=
  match m with
  | [] => [(k, v)]
  | (k', v') :: rest =>
      if decide (k = k') then (k, v) :: rest else (k', v') :: set k v rest
  end.

Fixpoint delete (k : K) (m : list (K * V)) : list (K * V) :=
  match m with
  | [] => []
  | (k', v') :: rest =>
      if decide (k = k') then rest else (k', v') :: delete k rest
  end.

Definition keys (m : list (K * V)) : list K := m.*1.
Definition values (m : list (K * V)) : list V := m.*2.

Lemma get_set_eq k v m : get k (set k v m) = Some v.
Proof.
  induction m as [|[k' v'] m IH]; simpl.
  - by rewrite decide_True.
  - destruct (decide (k = k')) as [->|Hne]; simpl.
    + by rewrite decide_True.
    + by rewrite decide_False.
Qed.

Lemma get_set_ne k k' v m : k <> k' -> get k' (set k v m) = get k' m.
Proof.
  intros Hne. induction m as [|[k0 v0] m IH]; simpl.
  - rewrite decide_False; [done | congruence].
  - destruct (decide (k = k0)) as [->|Hk]; simpl.
    + rewrite !decide_False; [done | congruence | congruence].
    + destruct (decide (k' = k0)); [done | exact IH].
Qed.

Lemma get_Some_elem k v m : get k m = Some v -> (k, v) ∈ m.
Proof.
  induction m as [|[k' v'] m IH]; simpl; [done |].
  destruct (decide (k = k')) as [->|Hne].
  - intros [= ->]. by left.
  - intros H. right. by apply IH.
Qed.

Lemma get_None_keys k m : get k m = None <-> k ∉ keys m.
Proof.
  unfold keys. induction m as [|[k' v'] m IH]; csimpl.
  - split; [intros _; apply not_elem_of_nil | done].
  - destruct (decide (k = k')) as [->|Hne].
    + split; [done | intros H; exfalso; apply H; by left].
    + rewrite IH. rewrite not_elem_of_cons. tauto.
Qed.

Lemma get_is_Some_keys k m : is_Some (get k m) <-> k ∈ keys m.
Proof.
  destruct (get k m) as [v|] eqn:E.
  - split; [intros _ | by eauto].
    destruct (decide (k ∈ keys m)) as [|Hn]; [done |].
    apply get_None_keys in Hn. congruence.
  - split; [by intros [? ?] |].
    intros Hin. apply get_None_keys in E. done.
Qed.

Lemma elem_get_NoDup k v m : NoDup (keys m) -> (k, v) ∈ m -> get k m = Some v.
Proof.
  unfold keys. induction m as [|[k' v'] m IH]; csimpl; intros Hnd Hin.
  - by apply elem_of_nil in Hin.
  - apply NoDup_cons in Hnd as [Hk Hnd].
    apply elem_of_cons in Hin as [[= -> ->]|Hin].
    + by rewrite decide_True.
    + rewrite decide_False; [by apply IH |].
      intros ->. apply Hk. apply list_elem_of_fmap. by exists (k', v).
Qed.

Lemma keys_set_present k v m : k ∈ keys m -> keys (set k v m) = keys m.
Proof.
  unfold keys. induction m as [|[k' v'] m IH]; csimpl; intros Hin.
  - by apply elem_of_nil in Hin.
  - destruct (decide (k = k')) as [->|Hne]; csimpl; [done |].
    apply elem_of_cons in Hin as [?|Hin]; [done |]. by rewrite IH.
Qed.

Lemma keys_set_absent k v m : k ∉ keys m -> keys (set k v m) = keys m ++ [k].
Proof.
  unfold keys. induction m as [|[k' v'] m IH]; csimpl; intros Hin; [done |].
  apply not_elem_of_cons in Hin as [Hne Hin].
  rewrite decide_False by done. csimpl. by rewrite IH.
Qed.

Lemma NoDup_keys_set k v m : NoDup (keys m) -> NoDup (keys (set k v m)).
Proof.
  intros Hnd. destruct (decide (k ∈ keys m)) as [Hin|Hin].
  - by rewrite keys_set_present.
  - rewrite keys_set_absent by done.
    apply NoDup_app. repeat split; [done | | apply NoDup_singleton].
    intros x Hx Hx'. apply list_elem_of_singleton in Hx'. by subst.
Qed.

Lemma keys_delete_subseteq k m : keys (delete k m) ⊆ keys m.
Proof.
  unfold keys. induction m as [|[k' v'] m IH]; csimpl; [done |].
  destruct (decide (k = k')); csimpl.
  - intros x Hx. by right.
  - intros x Hx. apply elem_of_cons in Hx as [->|Hx]; [by left |].
    right. by apply IH.
Qed.

Lemma NoDup_keys_delete k m : NoDup (keys m) -> NoDup (keys (delete k m)).
Proof.
  unfold keys. induction m as [|[k' v'] m IH]; csimpl; [done |].
  intros Hnd. apply NoDup_cons in Hnd as [Hk Hnd].
  destruct (decide (k = k')); csimpl; [done |].
  apply NoDup_cons. split; [|by apply IH].
  intros Hin. apply Hk. by apply (keys_delete_subseteq k m).
Qed.

Lemma get_delete_eq k m : NoDup (keys m) -> get k (delete k m) = None.
Proof.
  unfold keys. induction m as [|[k' v'] m IH]; csimpl; [done |].
  intros Hnd. apply NoDup_cons in Hnd as [Hk Hnd].
  destruct (decide (k = k')) as [->|Hne]; csimpl.
  - by apply get_None_keys.
  - rewrite decide_False by done. by apply IH.
Qed.

Lemma get_delete_ne k k' m : k <> k' -> get k' (delete k m) = get k' m.
Proof.
  intros Hne. induction m as [|[k0 v0] m IH]; simpl; [done |].
  destruct (decide (k = k0)) as [->|Hk]; simpl.
  - rewrite decide_False; [done | congruence].
  - destruct (decide (k' = k0)); [done | exact IH].
Qed.

End Ops.
End JsMap.

(* ===================================================================== *)
(** ** Strings of code units                                              *)
(* ===================================================================== *)

(** A [string] is read as a sequence of code units below 256. *)
Module Str.

Definition in_range (lo hi : N) (c : ascii) : bool :=
  (lo <=? N_of_ascii c)%N && (N_of_ascii c <=? hi)%N.

(** The white space [String.prototype.trim] strips, among code units
    below 256: TAB, LF, VT, FF, CR, SPACE and NBSP. *)
Definition is_whitespace (c : ascii) : bool :=
  in_range 9 13 c || in_range 32 32 c || in_range 160 160 c.

Fixpoint trim_start (s : string) : string :=
  match s with
  | EmptyString => EmptyString
  | String c rest => if is_whitespace c then trim_start rest else s
  end.

Definition trim (s : string) : string :=
  String.rev (trim_start (String.rev (trim_start s))).

Fixpoint all_chars (p : ascii -> bool) (s : string) : bool :=
  match s with
  | EmptyString => true
  | String c rest => p c && all_chars p rest
  end.

(** [s.startsWith(p)]. *)
Fixpoint startsWith (p s : string) : bool :=
  match p, s with
  | EmptyString, _ => true
  | String a p', String b s' => if decide (a = b) then startsWith p' s' else false
  | String _ _, EmptyString => false
  end.

(** [s.endsWith(p)]: [s] is [p], or what follows its first code unit
    ends with [p]. *)
Fixpoint endsWith (p s : string) : bool :=
  bool_decide (p = s)
  || match s with
     | EmptyString => false
     | String _ rest => endsWith p rest
     end.

(** [s] without the [c]s at its end. *)
Fixpoint strip_trailing (c : ascii) (s : string) : string :=
  match s with
  | EmptyString => EmptyString
  | String a rest =>
      match strip_trailing c rest with
      | EmptyString => if decide (a = c) then EmptyString else String a EmptyString
      | kept => String a kept
      end
  end.

(** [s.replace(/^c+/, '')]. *)
Fixpoint strip_leading (c : ascii) (s : string) : string :=
  match s with
  | EmptyString => EmptyString
  | String a rest => if decide (a = c) then strip_leading c rest else s
  end.

(** [s.replace(/^(\.\/)+/, '')]. *)
Fixpoint strip_dot_slashes (s : string) : string :=
  match s with
  | String "."%char (String "/"%char rest) => strip_dot_slashes rest
  | _ => s
  end.

(** [s.split(c)]. *)
Fixpoint split_on (c : ascii) (s : string) : list string :=
  match s with
  | EmptyString => [EmptyString]
  | String a rest =>
      if decide (a = c) then EmptyString :: split_on c rest
      else
        match split_on c rest with
        | [] => [String a EmptyString]
        | x :: xs => String a x :: xs
        end
  end.

End Str.

(* ===================================================================== *)
(** ** Gio files and WebKit views                                         *)
(* ===================================================================== *)

Module Gio.

(** A local [Gio.File]: GLocalFile keeps its path canonical, so a file
    is the list of its path components below the file-system root. *)
Definition File := list string.

(** Joins components with [/]. *)
Fixpoint join_path (segs : list string) : string :=
  match segs with
  | [] => ""
  | s :: rest => "/" +:+ s +:+ join_path rest
  end.

(** [file.get_path()]. *)
Definition get_path (f : File) : string :=
  match f with
  | [] => "/"
  | _ => join_path f
  end.

(** [file.get_child(name)] for a name without separator: the local
    file built from the joined path is canonical again, so [.] names
    the file itself and [..] its parent (the root is its own parent). *)
Definition get_child (f : File) (name : string) : File :=
  if decide (name = "") then f
  else if decide (name = ".") then f
  else if decide (name = "..") then removelast f
  else f ++ [name].

(** What [query_info] reports with NOFOLLOW_SYMLINKS. *)
Record FileInfo := mkFileInfo {
  is_symlink : bool;
  is_regular : bool
}.

(** The file system and the content sniffer as the handler sees them:
    [query_info] and [load_bytes] are [None] where the call throws. *)
Record FileSystem := mkFileSystem {
  query_info : File -> option FileInfo;
  load_bytes : File -> option string;
  content_type_guess : string -> string -> option string
}.

(** The error codes of [Gio.IOErrorEnum] the handler uses. *)
Inductive IOErrorEnum :=
| INVALID_ARGUMENT
| PERMISSION_DENIED
| NOT_FOUND
| FAILED.

End Gio.

Module GLib.

(** [GLib.build_filenamev([first, last])] for non-empty elements: the
    separators at the end of [first] and at the start of [last] are
    dropped and one separator joins what is left; a [first] made of
    separators only is kept as it is, and nothing is added for a [last]
    made of separators only. *)
Definition build_filenamev (first last : string) : string :=
  let tail := Str.strip_leading "/" last in
  match Str.strip_trailing "/" first with
  | EmptyString => first +:+ tail
  | head => if decide (tail = "") then head else head +:+ "/" +:+ tail
  end.

(** [GLib.canonicalize_filename(filename, null)] for an absolute name
    with one leading separator: purely lexical, it drops empty and [.]
    components and lets [..] remove the component before it, never
    rising above the root. *)
Definition canonicalize_filename (filename : string) : string :=
  Gio.get_path (foldl Gio.get_child [] (Str.split_on "/" filename)).

(** The parts of a URI the scheme handler reads off [GLib.Uri]. *)
Record Uri := mkUri {
  get_scheme : string;
  get_host : option string;
  get_path : option string
}.

End GLib.

Module WebKit.

(** A [WebKit.WebView] with the fields the web context pins on it and
    the URI it currently shows ([get_uri()]). *)
Record WebView := mkWebView {
  _dingWidgetRoot : option Gio.File;
  _dingWidgetId : string;
  _dingInstanceId : string;
  uri : option string
}.

Definition set_uri (u : option string) (wv : WebView) : WebView :=
  match wv with
  | mkWebView x0 x1 x2 _ =>
      mkWebView x0 x1 x2 u
  end.

End WebKit.

(* ===================================================================== *)
(** ** WidgetRegistry                                                     *)
(* ===================================================================== *)

Module WidgetRegistry.

Record Descriptor := mkDescriptor {
  id : string;
  kind : string;
  dir : Gio.File;
  manifestFile : Gio.File;
  isUser : bool;
  displayName : jsval;
  description : jsval;
  author : jsval;
  version : jsval;
  icon : jsval;
  defaultWidth : Z;
  defaultHeight : Z;
  defaultConfig : jsval;
  prefs : option string
}.

(** What the registry writes with [console.warn]. *)
Inductive Console :=
| WarnInvalidId (manifestPath : string)
| WarnDuplicateId (dupId : string)
    (existingPath : string) (existingIsUser : bool)
    (newPath : string) (newIsUser : bool) (replace : bool).

(** One child of a scanned root, as the enumeration and the manifest
    read report it: [manifest] is [None] when there is no regular
    [widget.json], otherwise what [readJsonFile] returned ([JNull] when
    the file could not be read or parsed). *)
Record DirEntry := mkDirEntry {
  name : string;
  is_directory : bool;
  manifest : option jsval
}.

(** A search root; [listing] is [None] when the root is no directory or
    cannot be enumerated. *)
Record Root := mkRoot {
  root : Gio.File;
  listing : option (list DirEntry)
}.

(** The state one load threads through its scans. *)
Record Scan := mkScan {
  outMap : list (string * Descriptor);
  _loggedDuplicateIds : gset string;
  console : list Console
}.

Record Registry := mkRegistry {
  _userRoot : option Root;
  _systemRoots : list Root;
  _widgets : list (string * Descriptor);
  _loaded : bool;
  warnings : list Console
}.

(** The class [[A-Za-z0-9._-]]. *)
Definition is_id_char (c : ascii) : bool :=
  Str.in_range 65 90 c || Str.in_range 97 122 c || Str.in_range 48 57 c
  || Str.in_range 46 46 c || Str.in_range 95 95 c || Str.in_range 45 45 c.

(** [!!idRaw && /^[A-Za-z0-9._-]+$/.test(idRaw)]. *)
Definition idOk (idRaw : string) : bool :=
  truthy_str idRaw && Str.all_chars is_id_char idRaw.

(** [typeof manifest.id === 'string' ? manifest.id.trim() : '']. *)
Definition idRaw (manifest : jsval) : string :=
  match field "id" manifest with
  | JStr s => Str.trim s
  | _ => ""
  end.

(** [Number.isFinite(x) ? Math.max(1, Math.floor(x)) : fallback]. *)
Definition dimension (x : jsval) (fallback : Z) : Z :=
  match x with
  | JNum q => Z.max 1 (Qfloor q)
  | _ => fallback
  end.

Definition _isObject (object : jsval) : bool :=
  match object with
  | JObj _ => true
  | _ => false
  end.

Definition _logDuplicateIds (dupId : string) (existing : Descriptor)
    (replace : bool) (widgetDir : Gio.File) (isUser : bool) (st : Scan) : Scan :=
  if bool_decide (dupId ∈ _loggedDuplicateIds st) then st
  else
    mkScan (outMap st)
      ({[dupId]} ∪ _loggedDuplicateIds st)
      (console st
       ++ [WarnDuplicateId dupId (Gio.get_path (dir existing))
             (WidgetRegistry.isUser existing)
             (Gio.get_path widgetDir) isUser replace]).

Definition set_outMap (m : list (string * Descriptor)) (st : Scan) : Scan :=
  match st with
  | mkScan _ x1 x2 => mkScan m x1 x2
  end.

Definition warn (w : Console) (st : Scan) : Scan :=
  match st with
  | mkScan x0 x1 x2 =>
      mkScan x0 x1 (x2 ++ [w])
  end.

(** The descriptor object [desc] the loop body builds from an accepted
    manifest. *)
Definition describe (widgetDir manifestFile : Gio.File) (isUser : bool)
    (manifest : jsval) : Descriptor :=
  mkDescriptor (idRaw manifest)
    (match field "kind" manifest with
     | JStr "gtk" => "gtk"
     | _ => "html"
     end)
    widgetDir manifestFile isUser
    (or_else (field "name" manifest) (JStr (idRaw manifest)))
    (or_else (field "description" manifest) (JStr ""))
    (or_else (field "author" manifest) (JStr ""))
    (or_else (field "version" manifest) (JStr ""))
    (or_else (field "icon" manifest) (JStr ""))
    (dimension (field "defaultWidth" manifest) 260)
    (dimension (field "defaultHeight" manifest) 160)
    (if _isObject (field "defaultConfig" manifest)
     then field "defaultConfig" manifest else JObj [])
    (match field "prefs" manifest with
     | JStr s => Some s
     | _ => None
     end).

(** The body of the [for (const finfo of files)] loop of
    [_scanRootAsync]. *)
Definition scan_entry (rootDir : Gio.File) (isUser : bool) (finfo : DirEntry)
    (st : Scan) : Scan :=
  if negb (is_directory finfo) then st
  else
    let widgetDir := rootDir ++ [name finfo] in
    let manifestFile := widgetDir ++ ["widget.json"] in
    match manifest finfo with
    | None => st
    | Some manifest =>
        if negb (truthy manifest) then st
        else if negb (idOk (idRaw manifest)) then
          warn (WarnInvalidId (Gio.get_path manifestFile)) st
        else
          let desc := describe widgetDir manifestFile isUser manifest in
          match JsMap.get (id desc) (outMap st) with
          | Some existing =>
              let replace := isUser && negb (WidgetRegistry.isUser existing) in
              let st :=
                _logDuplicateIds (id desc) existing replace widgetDir isUser st in
              if replace then set_outMap (JsMap.set (id desc) desc (outMap st)) st
              else st
          | None => set_outMap (JsMap.set (id desc) desc (outMap st)) st
          end
    end.

Definition _scanRootAsync (r : Root) (isUser : bool) (st : Scan) : Scan :=
  match listing r with
  | None => st
  | Some files => foldl (fun st finfo => scan_entry (root r) isUser finfo st) st files
  end.

(** [_loadOnceAsync()]: the user root first, then the system roots in
    their order; the result replaces the registry's map. *)
Definition _loadOnceAsync (reg : Registry) : Registry :=
  let st := mkScan [] ∅ [] in
  let st :=
    match _userRoot reg with
    | Some r => _scanRootAsync r true st
    | None => st
    end in
  let st := foldl (fun st r => _scanRootAsync r false st) st (_systemRoots reg) in
  mkRegistry (_userRoot reg) (_systemRoots reg) (outMap st) true
    (warnings reg ++ console st).

(** [_ensureLoadedAsync()], run to completion. *)
Definition _ensureLoadedAsync (reg : Registry) : Registry :=
  if _loaded reg then reg else _loadOnceAsync reg.

(** [listWidgets()] with the registry it leaves behind. *)
Definition listWidgets (reg : Registry) : Registry * list Descriptor :=
  let reg := _ensureLoadedAsync reg in
  (reg, JsMap.values (_widgets reg)).

Definition getDescriptor (wid : string) (reg : Registry)
  : Registry * option Descriptor :=
  if negb (truthy_str wid) then (reg, None)
  else
    let reg := _ensureLoadedAsync reg in
    (reg, JsMap.get wid (_widgets reg)).

(** Scanning roots in any given order, each with its scope. *)
Definition scan_roots (roots : list (Root * bool)) (st : Scan) : Scan :=
  foldl (fun st r => _scanRootAsync r.1 r.2 st) st roots.

(** The order [_loadOnceAsync] scans in. *)
Definition priority_roots (reg : Registry) : list (Root * bool) :=
  match _userRoot reg with
  | Some r => [(r, true)]
  | None => []
  end ++ ((fun r => (r, false)) <$> _systemRoots reg).

End WidgetRegistry.

(* ===================================================================== *)
(** ** HtmlWidgetHost                                                     *)
(* ===================================================================== *)

Module HtmlWidgetHost.

Inductive Mode := ModePrefs | ModeWidget.

(** The scripts the host evaluates in the surface. Their text is fixed
    by the payload, which stands for the text here:
    [window.ding._setHostState(<patch>)] and
    [window.postMessage(<msg>, "*")]. *)
Inductive Script :=
| SetHostStateScript (patch : jsval)
| PostMessageScript (msg : jsval).

(** What the host asks of its rendering surface, in program order. *)
Inductive SurfaceCall :=
| LoadUri (url : string)
| LoadHtml (reason : string)
| EvaluateJavascript (s : Script)
| Unparent
| RunDispose.

(** The [DingRoundedClip] frame: all that matters of it is whether the
    web view is its child. *)
Record Frame := mkFrame { _child : bool }.

Record Host := mkHost {
  _instanceId : string;
  _widgetId : string;
  _mode : Mode;
  _prefsUri : option string;
  _pendingHostStatePatches : list jsval;
  _pendingPostMessages : list jsval;
  _webView : option WebKit.WebView;
  _destroyed : bool;
  _frame : option Frame;
  (** [_webViewPromise] with the calls that await it, oldest first; a
      call is kept as the payload it goes on with. Empty when there is
      no promise. *)
  _webViewPromise : list jsval;
  (** ghost field: the calls made on the surface so far *)
  surface_calls : list SurfaceCall
}.

Definition set_patches (ps : list jsval) (h : Host) : Host :=
  match h with
  | mkHost x0 x1 x2 x3 _ x5 x6 x7 x8 x9 x10 =>
      mkHost x0 x1 x2 x3 ps x5 x6 x7 x8 x9 x10
  end.

Definition set_messages (ms : list jsval) (h : Host) : Host :=
  match h with
  | mkHost x0 x1 x2 x3 x4 _ x6 x7 x8 x9 x10 =>
      mkHost x0 x1 x2 x3 x4 ms x6 x7 x8 x9 x10
  end.

Definition set_webView (wv : option WebKit.WebView) (h : Host) : Host :=
  match h with
  | mkHost x0 x1 x2 x3 x4 x5 _ x7 x8 x9 x10 =>
      mkHost x0 x1 x2 x3 x4 x5 wv x7 x8 x9 x10
  end.

Definition set_destroyed (b : bool) (h : Host) : Host :=
  match h with
  | mkHost x0 x1 x2 x3 x4 x5 x6 _ x8 x9 x10 =>
      mkHost x0 x1 x2 x3 x4 x5 x6 b x8 x9 x10
  end.

Definition set_frame (f : option Frame) (h : Host) : Host :=
  match h with
  | mkHost x0 x1 x2 x3 x4 x5 x6 x7 _ x9 x10 =>
      mkHost x0 x1 x2 x3 x4 x5 x6 x7 f x9 x10
  end.

Definition set_webViewPromise (waiting : list jsval) (h : Host) : Host :=
  match h with
  | mkHost x0 x1 x2 x3 x4 x5 x6 x7 x8 _ x10 =>
      mkHost x0 x1 x2 x3 x4 x5 x6 x7 x8 waiting x10
  end.

Definition log_call (c : SurfaceCall) (h : Host) : Host :=
  match h with
  | mkHost x0 x1 x2 x3 x4 x5 x6 x7 x8 x9 x10 =>
      mkHost x0 x1 x2 x3 x4 x5 x6 x7 x8 x9 (x10 ++ [c])
  end.

Definition call (c : SurfaceCall) : M Host unit := modify (log_call c).

(** Constructor parameters. *)
Record Params := mkParams {
  p_instanceId : string;
  p_widgetId : string;
  p_mode : option string;
  p_prefsUri : option string
}.

(** [constructor(params)], up to the first suspension of [_start()]:
    nothing is pending, there is no web view yet and no promise of one,
    the frame exists. *)
Definition new (p : Params) : Host :=
  mkHost (p_instanceId p) (p_widgetId p)
         (match p_mode p with
          | Some "prefs" => ModePrefs
          | _ => ModeWidget
          end)
         (if truthy_ostr (p_prefsUri p) then p_prefsUri p else None)
         [] [] None false (Some (mkFrame false)) [] [].

Definition isAlive (h : Host) : bool := negb (_destroyed h).

(** [getWebViewAsync()] returns the view when there is one, and the
    promise of [_webViewReadyPromise()] otherwise. This is the second
    case, awaited: the promise is made on first use and the caller
    stays suspended on it until [_start()] resolves it. The caller is
    kept as [payload], what it goes on with. *)
Definition _webViewReadyPromise (payload : jsval) : M Host unit :=
  h <- get ;;
  modify (set_webViewPromise (_webViewPromise h ++ [payload])).

(** [DingRoundedClip.set_child(child)] on the host's frame. *)
Definition frame_set_child (child : bool) : M Host unit :=
  f <- deref _frame ;;
  if Bool.eqb child (_child f) then ret tt
  else
    (if _child f then call Unparent else ret tt) ;;;
    modify (set_frame (Some (mkFrame child))).

Definition destroy : M Host unit :=
  modify (set_destroyed true) ;;;
  frame_set_child false ;;;
  _ <- deref _webView ;;
  call Unparent ;;;
  call RunDispose ;;;
  modify (set_webView None) ;;;
  modify (set_frame None) ;;;
  modify (set_patches []).

Definition _evaluateScript (s : Script) : M Host unit :=
  h <- get ;;
  if _destroyed h || negb (bool_decide (is_Some (_webView h))) then ret tt
  else call (EvaluateJavascript s).

Definition _sendHostStatePatch (patch : jsval) : M Host unit :=
  _evaluateScript (SetHostStateScript patch).

Definition _postMessage (msg : jsval) : M Host unit :=
  _evaluateScript (PostMessageScript msg).

Definition setHostStatePatch (patch : jsval) : M Host unit :=
  if negb (is_object patch) then ret tt
  else
    h <- get ;;
    if _destroyed h || negb (bool_decide (is_Some (_webView h))) then
      modify (set_patches (_pendingHostStatePatches h ++ [patch]))
    else _sendHostStatePatch patch.

Definition postMessage (msg : jsval) : M Host unit :=
  if negb (is_object msg) then ret tt
  else
    h <- get ;;
    if _destroyed h || negb (bool_decide (is_Some (_webView h))) then
      modify (set_messages (_pendingPostMessages h ++ [msg]))
    else _postMessage msg.

Definition _flushPendingHostStatePatches : M Host unit :=
  h <- get ;;
  for_each (_pendingHostStatePatches h) _sendHostStatePatch ;;;
  modify (set_patches []).

Definition _flushPendingMessages : M Host unit :=
  h <- get ;;
  for_each (_pendingPostMessages h) _postMessage ;;;
  modify (set_messages []).

Definition load_uri (url : string) : M Host unit :=
  h <- get ;;
  modify (set_webView (WebKit.set_uri (Some url) <$> _webView h)) ;;;
  call (LoadUri url).

Definition _loadFallback (reason : string) : M Host unit :=
  h <- get ;;
  match _webView h with
  | None => ret tt
  | Some wv =>
      modify (set_webView (Some (WebKit.set_uri (Some "about:blank") wv))) ;;;
      call (LoadHtml reason)
  end.

(** The tail of [_makeWebView()], run when the web context hands over
    the view [wv]. *)
Definition _makeWebView_resume (wv : WebKit.WebView) : M Host unit :=
  modify (set_webView (Some wv)) ;;;
  frame_set_child true.

(** The part of [_start()] after its [await]: the surface [wv] and the
    resolved [url] (null when there is no entry file or preferences
    page) have arrived. This is the moment the surface becomes ready.
    The promise is resolved and dropped; the calls that awaited it go
    on once [_start()] has finished. *)
Definition _start_resume (wv : WebKit.WebView) (url : option string)
  : M Host unit :=
  _makeWebView_resume wv ;;;
  modify (set_webViewPromise []) ;;;
  h <- get ;;
  match _webView h with
  | None => ret tt
  | Some _ =>
      match url with
      | Some u => if truthy_str u then load_uri u
                  else _loadFallback "Missing entry/prefs URL"
      | None => _loadFallback "Missing entry/prefs URL"
      end ;;;
      _flushPendingHostStatePatches ;;;
      _flushPendingMessages
  end.

(** The scripts evaluated in the surface, oldest first. *)
Definition scripts_evaluated (h : Host) : list Script :=
  omap (fun c => match c with
                 | EvaluateJavascript s => Some s
                 | _ => None
                 end) (surface_calls h).

(** The surface has been handed over and the frame still holds it. *)
Definition surface_ready (h : Host) : Prop :=
  is_Some (_webView h) /\ is_Some (_frame h).

(** Client calls on a host. *)
Inductive Call :=
| CallSetHostStatePatch (patch : jsval)
| CallPostMessage (msg : jsval).

Definition do_call (c : Call) : M Host unit :=
  match c with
  | CallSetHostStatePatch p => setHostStatePatch p
  | CallPostMessage m => postMessage m
  end.

Definition do_calls (cs : list Call) : M Host unit := for_each cs do_call.

(** The script a call asks for; none when its argument is no object. *)
Definition script_of_call (c : Call) : option Script :=
  match c with
  | CallSetHostStatePatch p =>
      if is_object p then Some (SetHostStateScript p) else None
  | CallPostMessage m =>
      if is_object m then Some (PostMessageScript m) else None
  end.

Definition patch_scripts (cs : list Call) : list Script :=
  omap (fun c => match c with
                 | CallSetHostStatePatch p =>
                     if is_object p then Some (SetHostStateScript p) else None
                 | CallPostMessage _ => None
                 end) cs.

Definition message_scripts (cs : list Call) : list Script :=
  omap (fun c => match c with
                 | CallPostMessage m =>
                     if is_object m then Some (PostMessageScript m) else None
                 | CallSetHostStatePatch _ => None
                 end) cs.

End HtmlWidgetHost.

(* ===================================================================== *)
(** ** The toolkit objects the manager and the web context share          *)
(* ===================================================================== *)

Module Gtk.

(** A preferences window: [present()] counts how often it was shown. *)
Record Window := mkWindow {
  win_id : nat;
  alive : bool;
  presented : nat
}.

(** The widgets the manager puts into a monitor's widget container. *)
Inductive Widget :=
| WActor (actor_id : nat)
| WAddButton (monitor : Z)
| WCloseButton
| WPrefsButton.

#[global] Instance Widget_eq_dec : EqDecision Widget.
Proof. solve_decision. Defined.

(** A child of a [Gtk.Fixed] container with the [widgetInstanceId]
    property pinned on it, if any. Pixel positions, CSS classes, focus
    and visibility are not tracked. *)
Record Child := mkChild {
  widget : Widget;
  widgetInstanceId : option string
}.

End Gtk.

(* ===================================================================== *)
(** ** Records of the widget manager and of the web context               *)
(* ===================================================================== *)

Module Model.

(** A [WidgetInstance] as the manager keeps it. [hasPreferences] is
    [None] while the property is undefined. *)
Record Instance := mkInstance {
  instanceId : string;
  widgetId : string;
  kind : string;
  monitorIndex : Z;
  normX : Q;
  normY : Q;
  width : Q;
  height : Q;
  actor : option Gtk.Widget;
  host : option HtmlWidgetHost.Host;
  config : jsval;
  prefsUri : option string;
  hasPreferences : option bool;
  _isAddButton : bool
}.

(** One entry of a state document's [instances] array; a field is
    [None] when it is missing, [null] or [undefined]. *)
Record InstData := mkInstData {
  d_instanceId : option string;
  d_widgetId : option string;
  d_kind : option string;
  d_monitorIndex : option Z;
  d_normX : option Q;
  d_normY : option Q;
  d_width : option Q;
  d_height : option Q;
  d_config : option jsval;
  d_prefsUri : option string;
  d_hasPreferences : option bool
}.

(** The argument of [loadState]. *)
Inductive StateArg :=
| StateNullish                 (* null, undefined or another falsy value *)
| StatePrimitive               (* truthy, but no object *)
| StateObject (version : jsval) (instances : option (list InstData)).
                               (* [instances] is [None] when it is no array *)

(** One entry of the array [exportState()] builds. *)
Record Exported := mkExported {
  e_instanceId : string;
  e_widgetId : string;
  e_monitorIndex : Z;
  e_kind : string;
  e_normX : Q;
  e_normY : Q;
  e_width : Q;
  e_height : Q;
  e_config : jsval;
  e_prefsUri : option string;
  e_hasPreferences : bool
}.

Record StateDoc := mkStateDoc {
  version : Z;
  instances : list Exported
}.

Record Grid := mkGrid {
  normalizedWidth : Q;
  normalizedHeight : Q;
  isWidgetContainerOnTop : bool
}.

Record Surface := mkSurface {
  grid : Grid;
  widgetContainer : list Gtk.Child;
  s_monitorIndex : Z;
  addButton : bool
}.

(** The preferences object of the desktop manager: the settings the
    manager reads and the [widgetState] it writes. *)
Record Preferences := mkPreferences {
  showDesktopWidgets : bool;
  darkmode : bool;
  globalAnimations : bool;
  widgetState : option StateDoc
}.

(** The [WebWidgetContext]. [runtime] says whether the WebKit context,
    the content manager, the scheme handler and the message channel are
    set up. *)
Record Context := mkContext {
  runtime : bool;
  _prefsWindow : option nat;
  _prefsHost : option HtmlWidgetHost.Host;
  _prefsInstanceId : option string;
  _instanceRoots : list (string * Gio.File)
}.

Inductive ConsoleLine :=
| WarnUnknownStateVersion
| WarnNoInstanceForPreferences (instanceId : string).

(** The [WidgetManager] with what it owns. [gtk_windows], [next_actor]
    and [console] are ghost fields: every preferences window ever
    created, the next fresh actor, and the warnings written. *)
Record Manager := mkManager {
  _surfaces : list (Z * Surface);
  _instances : list (string * Instance);
  _chrome : bool;
  _selectedInstanceId : option string;
  _webWidgetContext : option Context;
  _suppressStateEvents : bool;
  _preferences : Preferences;
  gtk_windows : list Gtk.Window;
  next_actor : nat;
  console : list ConsoleLine
}.

(** *** Field updates *)

Definition set_surfaces (x : list (Z * Surface)) (m : Manager) : Manager :=
  match m with
  | mkManager _ x1 x2 x3 x4 x5 x6 x7 x8 x9 =>
      mkManager x x1 x2 x3 x4 x5 x6 x7 x8 x9
  end.

Definition set_instances (x : list (string * Instance)) (m : Manager) : Manager :=
  match m with
  | mkManager x0 _ x2 x3 x4 x5 x6 x7 x8 x9 =>
      mkManager x0 x x2 x3 x4 x5 x6 x7 x8 x9
  end.

Definition set_chrome (x : bool) (m : Manager) : Manager :=
  match m with
  | mkManager x0 x1 _ x3 x4 x5 x6 x7 x8 x9 =>
      mkManager x0 x1 x x3 x4 x5 x6 x7 x8 x9
  end.

Definition set_selectedInstanceId (x : option string) (m : Manager) : Manager :=
  match m with
  | mkManager x0 x1 x2 _ x4 x5 x6 x7 x8 x9 =>
      mkManager x0 x1 x2 x x4 x5 x6 x7 x8 x9
  end.

Definition set_webWidgetContext (x : option Context) (m : Manager) : Manager :=
  match m with
  | mkManager x0 x1 x2 x3 _ x5 x6 x7 x8 x9 =>
      mkManager x0 x1 x2 x3 x x5 x6 x7 x8 x9
  end.

Definition set_suppressStateEvents (x : bool) (m : Manager) : Manager :=
  match m with
  | mkManager x0 x1 x2 x3 x4 _ x6 x7 x8 x9 =>
      mkManager x0 x1 x2 x3 x4 x x6 x7 x8 x9
  end.

Definition set_preferences (x : Preferences) (m : Manager) : Manager :=
  match m with
  | mkManager x0 x1 x2 x3 x4 x5 _ x7 x8 x9 =>
      mkManager x0 x1 x2 x3 x4 x5 x x7 x8 x9
  end.

Definition set_gtk_windows (x : list Gtk.Window) (m : Manager) : Manager :=
  match m with
  | mkManager x0 x1 x2 x3 x4 x5 x6 _ x8 x9 =>
      mkManager x0 x1 x2 x3 x4 x5 x6 x x8 x9
  end.

Definition set_next_actor (x : nat) (m : Manager) : Manager :=
  match m with
  | mkManager x0 x1 x2 x3 x4 x5 x6 x7 _ x9 =>
      mkManager x0 x1 x2 x3 x4 x5 x6 x7 x x9
  end.

Definition warn (w : ConsoleLine) (m : Manager) : Manager :=
  match m with
  | mkManager x0 x1 x2 x3 x4 x5 x6 x7 x8 x9 =>
      mkManager x0 x1 x2 x3 x4 x5 x6 x7 x8 (x9 ++ [w])
  end.

Definition set_widgetState (d : option StateDoc) (p : Preferences) : Preferences :=
  match p with
  | mkPreferences x0 x1 x2 _ =>
      mkPreferences x0 x1 x2 d
  end.

Definition set_actor (a : option Gtk.Widget) (i : Instance) : Instance :=
  match i with
  | mkInstance x0 x1 x2 x3 x4 x5 x6 x7 _ x9 x10 x11 x12 x13 =>
      mkInstance x0 x1 x2 x3 x4 x5 x6 x7 a x9 x10 x11 x12 x13
  end.

Definition set_host (h : option HtmlWidgetHost.Host) (i : Instance) : Instance :=
  match i with
  | mkInstance x0 x1 x2 x3 x4 x5 x6 x7 x8 _ x10 x11 x12 x13 =>
      mkInstance x0 x1 x2 x3 x4 x5 x6 x7 x8 h x10 x11 x12 x13
  end.

Definition set_config (c : jsval) (i : Instance) : Instance :=
  match i with
  | mkInstance x0 x1 x2 x3 x4 x5 x6 x7 x8 x9 _ x11 x12 x13 =>
      mkInstance x0 x1 x2 x3 x4 x5 x6 x7 x8 x9 c x11 x12 x13
  end.

Definition set_prefs (w : option nat) (h : option HtmlWidgetHost.Host)
    (i : option string) (c : Context) : Context :=
  match c with
  | mkContext x0 _ _ _ x4 =>
      mkContext x0 w h i x4
  end.

Definition set_prefsHost (h : option HtmlWidgetHost.Host) (c : Context) : Context :=
  match c with
  | mkContext x0 x1 _ x3 x4 =>
      mkContext x0 x1 h x3 x4
  end.

Definition set_runtime (b : bool) (c : Context) : Context :=
  match c with
  | mkContext _ x1 x2 x3 x4 =>
      mkContext b x1 x2 x3 x4
  end.

Definition set_instanceRoots (r : list (string * Gio.File)) (c : Context) : Context :=
  match c with
  | mkContext x0 x1 x2 x3 _ => mkContext x0 x1 x2 x3 r
  end.

Definition set_container (cs : list Gtk.Child) (s : Surface) : Surface :=
  match s with
  | mkSurface x0 _ x2 x3 =>
      mkSurface x0 cs x2 x3
  end.

(** *** Reads *)

(** [getInstance(instanceId)]. *)
Definition getInstance (k : string) (m : Manager) : option Instance :=
  JsMap.get k (_instances m).

Definition getSelectedInstanceId (m : Manager) : option string :=
  _selectedInstanceId m.

(** [a === b] between a nullable id and an id. *)
Definition same_id (a : option string) (b : string) : bool :=
  bool_decide (a = Some b).

(** Replaces the instance stored under [k], if there is one. *)
Definition update_instance (k : string) (f : Instance -> Instance)
    (m : Manager) : Manager :=
  match JsMap.get k (_instances m) with
  | Some i => set_instances (JsMap.set k (f i) (_instances m)) m
  | None => m
  end.

(** Runs a host method on the host object [inst.host] refers to; the
    object keeps what the method did to it, also when it throws. *)
Definition on_instance_host {A} (k : string) (c : M HtmlWidgetHost.Host A)
    (absent : M Manager A) : M Manager A :=
  fun m =>
    match JsMap.get k (_instances m) with
    | Some i =>
        match host i with
        | Some h =>
            let r := c h in
            (update_instance k (set_host (Some (fst r))) m, snd r)
        | None => absent m
        end
    | None => absent m
    end.

(** The same for the preferences host of the web context. *)
Definition on_prefs_host {A} (c : M HtmlWidgetHost.Host A)
    (absent : M Manager A) : M Manager A :=
  fun m =>
    match _webWidgetContext m with
    | Some ctx =>
        match _prefsHost ctx with
        | Some h =>
            let r := c h in
            (set_webWidgetContext (Some (set_prefsHost (Some (fst r)) ctx)) m,
             snd r)
        | None => absent m
        end
    | None => absent m
    end.

(** The container that holds a widget: [widget.get_parent()]. *)
Definition holds (w : Gtk.Widget) (s : Surface) : bool :=
  bool_decide (w ∈ (Gtk.widget <$> widgetContainer s)).

Definition get_parent (w : Gtk.Widget) (m : Manager) : option Z :=
  fst <$> find (fun ks => holds w ks.2) (_surfaces m).

Definition remove_child (w : Gtk.Widget) (s : Surface) : Surface :=
  set_container
    (List.filter (fun c => negb (bool_decide (Gtk.widget c = w)))
       (widgetContainer s)) s.

(** [parent.remove(widget)] on whichever container holds the widget. *)
Definition unparent (w : Gtk.Widget) (m : Manager) : Manager :=
  match get_parent w m with
  | Some k =>
      match JsMap.get k (_surfaces m) with
      | Some s => set_surfaces (JsMap.set k (remove_child w s) (_surfaces m)) m
      | None => m
      end
  | None => m
  end.

(** [container.put(widget, x, y)]: the widget becomes the last child. *)
Definition put (k : Z) (c : Gtk.Child) (m : Manager) : Manager :=
  match JsMap.get k (_surfaces m) with
  | Some s =>
      set_surfaces
        (JsMap.set k (set_container (widgetContainer s ++ [c]) s)
           (_surfaces m)) m
  | None => m
  end.

(** [widget.insert_before(parent, null)]: the widget moves to the end of
    its container. *)
Definition raise_child (k : Z) (w : Gtk.Widget) (m : Manager) : Manager :=
  match JsMap.get k (_surfaces m) with
  | Some s =>
      match find (fun c => bool_decide (Gtk.widget c = w)) (widgetContainer s) with
      | Some c =>
          set_surfaces
            (JsMap.set k
               (set_container (widgetContainer (remove_child w s) ++ [c]) s)
               (_surfaces m)) m
      | None => m
      end
  | None => m
  end.

End Model.

(* ===================================================================== *)
(** ** WebWidgetContext: runtime, preferences window, pushes              *)
(* ===================================================================== *)

Module WebWidgetContext.
Import Model.

(** [constructor(desktopManager, widgetManager)]. *)
Definition new : Context := mkContext false None None None [].

(** Updates the fields of [this]. *)
Definition modify_this (f : Context -> Context) : M Manager unit :=
  modify (fun m => set_webWidgetContext (f <$> _webWidgetContext m) m).

(** [this._webWidgetContext?.method()] as the manager writes it. *)
Definition if_context (c : M Manager unit) : M Manager unit :=
  m <- get ;;
  match _webWidgetContext m with
  | Some _ => c
  | None => ret tt
  end.

Definition _initWebKitRuntime : M Manager unit :=
  this <- deref _webWidgetContext ;;
  if runtime this then ret tt else modify_this (set_runtime true).

Definition set_alive (b : bool) (w : Gtk.Window) : Gtk.Window :=
  match w with
  | Gtk.mkWindow x0 _ x2 =>
      Gtk.mkWindow x0 b x2
  end.

Definition add_presented (w : Gtk.Window) : Gtk.Window :=
  match w with
  | Gtk.mkWindow x0 x1 x2 =>
      Gtk.mkWindow x0 x1 (S x2)
  end.

Definition on_window (k : nat) (f : Gtk.Window -> Gtk.Window) : M Manager unit :=
  modify (fun m =>
    set_gtk_windows
      ((fun w => if decide (Gtk.win_id w = k) then f w else w) <$> gtk_windows m)
      m).

(** [window.present()] and [window.destroy()]. *)
Definition present (k : nat) : M Manager unit := on_window k add_presented.
Definition window_destroy (k : nat) : M Manager unit := on_window k (set_alive false).

Definition closePreferencesIfAny : M Manager unit :=
  this <- deref _webWidgetContext ;;
  match _prefsWindow this with
  | None => ret tt
  | Some w =>
      on_prefs_host HtmlWidgetHost.destroy (ret tt) ;;;
      modify_this (set_prefsHost None) ;;;
      window_destroy w ;;;
      modify_this (set_prefs None None None)
  end.

Definition closePreferencesForInstance (k : option string) : M Manager unit :=
  this <- deref _webWidgetContext ;;
  match k with
  | Some k =>
      if negb (truthy_str k) || negb (same_id (_prefsInstanceId this) k)
      then ret tt
      else closePreferencesIfAny
  | None => ret tt
  end.

(** [new Gtk.Window(...)]: a fresh, not yet presented window. *)
Definition new_window : M Manager nat :=
  m <- get ;;
  let k := length (gtk_windows m) in
  modify (set_gtk_windows (gtk_windows m ++ [Gtk.mkWindow k true 0])) ;;;
  ret k.

(** The rest of [openPreferencesForInstance] once it is settled that no
    window is open for [k]: close whatever is open, then build, record
    and present a window with a host in [prefs] mode. Constructing the
    host starts [_start()], which asks this context for a view and so
    sets up the runtime. *)
Definition open_new_preferences (k : string) (uri : option string)
  : M Manager unit :=
  closePreferencesIfAny ;;;
  m <- get ;;
  match getInstance k m with
  | None => modify (warn (WarnNoInstanceForPreferences k))
  | Some inst =>
      w <- new_window ;;
      _initWebKitRuntime ;;;
      modify_this
        (set_prefsHost
           (Some (HtmlWidgetHost.new
                    (HtmlWidgetHost.mkParams k (widgetId inst)
                       (Some "prefs") uri)))) ;;;
      this <- deref _webWidgetContext ;;
      modify_this (set_prefs (Some w) (_prefsHost this) (Some k)) ;;;
      present w
  end.

Definition openPreferencesForInstance (k : option string)
    (uri : option string) : M Manager unit :=
  match k with
  | None => ret tt
  | Some k =>
      if negb (truthy_str k) || negb (truthy_ostr uri) then ret tt
      else
        m <- get ;;
        if negb (truthy_ostr (getSelectedInstanceId m))
           || negb (same_id (getSelectedInstanceId m) k)
        then ret tt
        else
          this <- deref _webWidgetContext ;;
          match _prefsWindow this with
          | Some w =>
              if same_id (_prefsInstanceId this) k then present w
              else open_new_preferences k uri
          | None => open_new_preferences k uri
          end
  end.

(** The [close-request] handler installed on a preferences window, then
    the default handler, which destroys the window. An exception of the
    handler is logged by the signal machinery and ends there. *)
Definition close_request (w : nat) : M Manager unit :=
  try_catch
    (on_prefs_host HtmlWidgetHost.destroy (ret tt) ;;;
     modify_this (set_prefs None None None)) ;;;
  window_destroy w.

Definition destroy : M Manager unit :=
  closePreferencesIfAny ;;;
  modify_this (set_runtime false).

(** *** Posting to the widget and to the preferences surface *)

Definition _postToWidget (k : string) (msg : jsval) : M Manager unit :=
  on_instance_host k (HtmlWidgetHost.postMessage msg) (ret tt).

Definition _postToPrefs (k : string) (msg : jsval) : M Manager unit :=
  m <- get ;;
  match getInstance k m with
  | None => ret tt
  | Some inst =>
      this <- deref _webWidgetContext ;;
      if same_id (_prefsInstanceId this) (instanceId inst)
      then on_prefs_host (HtmlWidgetHost.postMessage msg) (ret tt)
      else ret tt
  end.

Definition _postToBoth (k : string) (msg : jsval) : M Manager unit :=
  _postToWidget k msg ;;; _postToPrefs k msg.

Definition _routeAndPost (mode : jsval) (k : string) (msg : jsval)
  : M Manager unit :=
  match mode with
  | JStr "prefs" => _postToPrefs k msg
  | JStr "widget" => _postToWidget k msg
  | _ => _postToBoth k msg
  end.

Definition configChanged (inst : Instance) (mode : jsval) : jsval :=
  JObj [("_dingInternal", JBool true);
        ("type", JStr "configChanged");
        ("instanceId", JStr (instanceId inst));
        ("config", or_else (config inst) (JObj []));
        ("reason", JStr "configSaved");
        ("sourceMode", mode)].

(** The instance is passed by its id: the callers hold an instance of
    the map, so the lookup finds that very object. *)
Definition _pushConfigChangedForInstance (k : string) (mode : jsval)
  : M Manager unit :=
  m <- get ;;
  match getInstance k m with
  | None => ret tt
  | Some inst => _postToBoth k (configChanged inst mode)
  end.

Definition _doWidgetGetConfig (k : string) (mode requestId : jsval)
  : M Manager unit :=
  m <- get ;;
  match getInstance k m with
  | None => ret tt
  | Some inst =>
      _routeAndPost mode k
        (JObj [("_dingInternal", JBool true);
               ("requestId", requestId);
               ("config", or_else (config inst) (JObj []))])
  end.

Definition _pushPatchtoTarget (k : string) (patch : jsval) : M Manager unit :=
  m <- get ;;
  match getInstance k m with
  | None => ret tt
  | Some inst =>
      if negb (bool_decide (kind inst = "html"))
         || negb (bool_decide (is_Some (host inst)))
      then ret tt
      else
        on_instance_host k (HtmlWidgetHost.setHostStatePatch patch) (ret tt) ;;;
        this <- deref _webWidgetContext ;;
        if same_id (_prefsInstanceId this) (instanceId inst)
        then on_prefs_host (HtmlWidgetHost.setHostStatePatch patch) (ret tt)
        else ret tt
  end.

Definition updateHtmlWidgetSelected (k : string) (selected : bool)
  : M Manager unit :=
  _pushPatchtoTarget k (JObj [("selected", JBool selected)]).

Definition updateHtmlWidgetAnimation (k : string) (reducedMotion : bool)
  : M Manager unit :=
  _pushPatchtoTarget k (JObj [("reducedMotion", JBool reducedMotion)]).

Definition updateHtmlWidgetLayer (k : string) (onTop : bool) : M Manager unit :=
  _pushPatchtoTarget k (JObj [("editMode", JBool onTop)]).

Definition updateHtmlWidgetTheme (k : string) (theme : string) : M Manager unit :=
  _pushPatchtoTarget k (JObj [("theme", JStr theme)]).

End WebWidgetContext.

(* ===================================================================== *)
(** ** WidgetManager                                                      *)
(* ===================================================================== *)

Module WidgetManager.
Import Model.

(** Methods that take an instance object take its id here: the callers
    pass instances of [_instances], which the id finds again. *)

(** [getInstanceFrame(instanceId)]: null exactly when the instance is
    unknown. The frame's geometry comes from the grid and is not
    tracked. *)
Definition getInstanceFrame (k : string) (m : Manager) : option unit :=
  match JsMap.get k (_instances m) with
  | Some _ => Some tt
  | None => None
  end.

Definition _ensureWebWidgetContext : M Manager unit :=
  m <- get ;;
  match _webWidgetContext m with
  | Some _ => ret tt
  | None => modify (set_webWidgetContext (Some WebWidgetContext.new))
  end.

(** *** Export *)

(** The scan of one container in [_computeZIndexByInstanceId]: child
    number [i] first. *)
Fixpoint scan_children (insts : list (string * Instance))
    (children : list Gtk.Child) (i : nat) (z : list (string * nat))
  : list (string * nat) :=
  match children with
  | [] => z
  | child :: rest =>
      let z :=
        match Gtk.widgetInstanceId child with
        | Some k =>
            if truthy_str k then
              match JsMap.get k insts with
              | Some inst =>
                  if negb (_isAddButton inst) && negb (JsMap.has k z)
                  then JsMap.set k i z else z
              | None => z
              end
            else z
        | None => z
        end in
      scan_children insts rest (S i) z
  end.

Definition _computeZIndexByInstanceId : M Manager (list (string * nat)) :=
  m <- get ;;
  ret (foldl (fun z surface =>
               scan_children (_instances m) (widgetContainer surface) 0 z)
             [] (JsMap.values (_surfaces m))).

(** The comparator of [_sortedInstancesForExport]. *)
Definition compare_for_export (z : list (string * nat)) (a b : Instance) : Z :=
  if negb (bool_decide (monitorIndex a = monitorIndex b))
  then (monitorIndex a - monitorIndex b)%Z
  else
    let za := match JsMap.get (instanceId a) z with
              | Some i => Z.of_nat i
              | None => (-1)%Z
              end in
    let zb := match JsMap.get (instanceId b) z with
              | Some i => Z.of_nat i
              | None => (-1)%Z
              end in
    (za - zb)%Z.

(** [Array.prototype.sort(cmp)]: a stable sort. *)
Fixpoint insert_sorted {A} (cmp : A -> A -> Z) (x : A) (l : list A) : list A :=
  match l with
  | [] => [x]
  | y :: rest =>
      if (cmp x y <=? 0)%Z then x :: l else y :: insert_sorted cmp x rest
  end.

Fixpoint array_sort {A} (cmp : A -> A -> Z) (l : list A) : list A :=
  match l with
  | [] => []
  | x :: rest => insert_sorted cmp x (array_sort cmp rest)
  end.

Definition _sortedInstancesForExport (z : list (string * nat))
  : M Manager (list Instance) :=
  m <- get ;;
  ret (array_sort (compare_for_export z)
         (List.filter (fun inst => negb (_isAddButton inst))
            (JsMap.values (_instances m)))).

(** [v ?? {}] on a config value. *)
Definition config_or_empty (v : jsval) : jsval :=
  match v with
  | JUndefined | JNull => JObj []
  | _ => v
  end.

Definition export_instance (inst : Instance) : Exported :=
  mkExported (instanceId inst) (widgetId inst) (monitorIndex inst) (kind inst)
    (normX inst) (normY inst) (width inst) (height inst)
    (config_or_empty (config inst)) (prefsUri inst)
    (match hasPreferences inst with
     | Some b => b
     | None => false
     end).

Definition exportState : M Manager StateDoc :=
  zIndexByInstanceId <- _computeZIndexByInstanceId ;;
  sortedInstances <- _sortedInstancesForExport zIndexByInstanceId ;;
  ret (mkStateDoc 1 (export_instance <$> sortedInstances)).

(** The setter of [preferences.widgetState] keeps the document. *)
Definition _stateChanged : M Manager unit :=
  m <- get ;;
  if _suppressStateEvents m then ret tt
  else
    stateObj <- exportState ;;
    modify (fun m => set_preferences
                       (set_widgetState (Some stateObj) (_preferences m)) m).

Definition updateInstanceConfig (k : string) (newConfig : jsval)
  : M Manager unit :=
  m <- get ;;
  match JsMap.get k (_instances m) with
  | None => ret tt
  | Some _ =>
      modify (update_instance k (set_config newConfig)) ;;;
      _stateChanged
  end.

(** *** Actors *)

Definition _createActorForInstance (k : string) : M Manager unit :=
  m <- get ;;
  match getInstanceFrame k m, JsMap.get k (_instances m) with
  | Some _, Some inst =>
      (* _getWidgetKind() answers 'html' for every widget *)
      _ensureWebWidgetContext ;;;
      (* new HtmlWidgetHost(...): its [_start()] asks the context for a
         view, which sets up the runtime *)
      WebWidgetContext._initWebKitRuntime ;;;
      m <- get ;;
      modify (set_next_actor (S (next_actor m))) ;;;
      modify (update_instance k
                (fun i =>
                   set_actor (Some (Gtk.WActor (next_actor m)))
                     (set_host
                        (Some (HtmlWidgetHost.new
                                 (HtmlWidgetHost.mkParams (instanceId inst)
                                    (widgetId inst) None None))) i)))
  | _, _ => ret tt
  end.

Definition _ensureInstanceActor (k : string) : M Manager unit :=
  m <- get ;;
  if negb (showDesktopWidgets (_preferences m)) then ret tt
  else
    match JsMap.get k (_instances m) with
    | None => throw TypeError
    | Some inst =>
        match actor inst with
        | Some _ => ret tt
        | None =>
            _createActorForInstance k ;;;
            (* inst.actor.widgetInstanceId = inst.instanceId *)
            m <- get ;;
            match JsMap.get k (_instances m) with
            | Some inst =>
                match actor inst with
                | Some _ => ret tt
                | None => throw TypeError
                end
            | None => throw TypeError
            end
        end
    end.

Definition _positionInstanceActor (k : string) : M Manager unit :=
  m <- get ;;
  match JsMap.get k (_instances m) with
  | None => ret tt
  | Some inst =>
      match actor inst with
      | None => ret tt
      | Some a =>
          match JsMap.get (monitorIndex inst) (_surfaces m),
                getInstanceFrame k m with
          | Some _, Some _ =>
              match get_parent a m with
              | None =>
                  modify (put (monitorIndex inst)
                            (Gtk.mkChild a (Some (instanceId inst))))
              | Some _ => (* widgetContainer.move(actor, x, y) *)
                  _stateChanged
              end
          | _, _ => ret tt
          end
      end
  end.

(** [inst.actor.destroy] is no function on the widgets the manager
    creates, so that branch does nothing. *)
Definition _removeActor (k : string) : M Manager unit :=
  m <- get ;;
  match JsMap.get k (_instances m) with
  | None => ret tt
  | Some inst =>
      match actor inst with
      | Some a => modify (unparent a)
      | None => ret tt
      end ;;;
      on_instance_host k HtmlWidgetHost.destroy (ret tt) ;;;
      modify (fun m => set_instances (JsMap.delete k (_instances m)) m)
  end.

(** *** Selection and chrome *)

Definition _ensureChrome : M Manager unit :=
  m <- get ;;
  if _chrome m then ret tt else modify (set_chrome true).

Definition _detachChrome : M Manager unit :=
  m <- get ;;
  if negb (_chrome m) then ret tt
  else
    modify (unparent Gtk.WCloseButton) ;;;
    modify (unparent Gtk.WPrefsButton).

Definition place_button (mon : Z) (w : Gtk.Widget) : M Manager unit :=
  m <- get ;;
  match get_parent w m with
  | None => modify (put mon (Gtk.mkChild w None))
  | Some _ => ret tt
  end.

Definition _attachChromeToInstance (k : string) : M Manager unit :=
  m <- get ;;
  if negb (_chrome m) then ret tt
  else
    match JsMap.get k (_instances m) with
    | None => ret tt
    | Some inst =>
        match JsMap.get (monitorIndex inst) (_surfaces m),
              getInstanceFrame k m with
        | Some _, Some _ =>
            place_button (monitorIndex inst) Gtk.WCloseButton ;;;
            place_button (monitorIndex inst) Gtk.WPrefsButton
        | _, _ => ret tt
        end
    end.

Definition _raiseAddButton (mon : Z) : M Manager unit :=
  m <- get ;;
  match JsMap.get mon (_surfaces m) with
  | None => ret tt
  | Some surface =>
      if negb (addButton surface) then ret tt
      else if bool_decide (get_parent (Gtk.WAddButton mon) m = Some mon)
      then modify (raise_child mon (Gtk.WAddButton mon))
      else ret tt
  end.

Definition _raiseInstance (k : string) : M Manager unit :=
  m <- get ;;
  match JsMap.get k (_instances m) with
  | None => ret tt
  | Some inst =>
      match actor inst, JsMap.get (monitorIndex inst) (_surfaces m) with
      | Some a, Some _ =>
          if bool_decide (get_parent a m = Some (monitorIndex inst)) then
            modify (raise_child (monitorIndex inst) a) ;;;
            _raiseAddButton (monitorIndex inst)
          else ret tt
      | _, _ => ret tt
      end
  end.

Definition _updateWidgetsSelectionState : M Manager unit :=
  m <- get ;;
  for_each (JsMap.keys (_instances m))
    (fun k =>
       m <- get ;;
       match JsMap.get k (_instances m) with
       | None => ret tt
       | Some inst =>
           if bool_decide (kind inst = "html")
              && bool_decide (is_Some (actor inst))
              && bool_decide (is_Some (host inst))
           then
             WebWidgetContext.if_context
               (WebWidgetContext.updateHtmlWidgetSelected k
                  (same_id (_selectedInstanceId m) (instanceId inst)))
           else ret tt
       end).

Definition selectInstance (k : option string) : M Manager unit :=
  m <- get ;;
  match _selectedInstanceId m with
  | Some old =>
      if truthy_str old && negb (bool_decide (Some old = k)) then
        match JsMap.get old (_instances m) with
        | Some oldInst =>
            match actor oldInst with
            | Some _ =>
                WebWidgetContext.if_context WebWidgetContext.closePreferencesIfAny
            | None => ret tt
            end
        | None => ret tt
        end
      else ret tt
  | None => ret tt
  end ;;;
  modify (set_selectedInstanceId (if truthy_ostr k then k else None)) ;;;
  match (if truthy_ostr k then k else None) with
  | None =>
      _detachChrome ;;;
      _updateWidgetsSelectionState ;;;
      WebWidgetContext.if_context WebWidgetContext.closePreferencesIfAny
  | Some k =>
      m <- get ;;
      match JsMap.get k (_instances m) with
      | Some (mkInstance _ _ _ _ _ _ _ _ (Some _) _ _ _ _ false) =>
          _raiseInstance k ;;;
          _ensureChrome ;;;
          _attachChromeToInstance k ;;;
          _updateWidgetsSelectionState
      | _ =>
          modify (set_selectedInstanceId None) ;;;
          _detachChrome ;;;
          _updateWidgetsSelectionState ;;;
          WebWidgetContext.if_context
            (WebWidgetContext.closePreferencesForInstance None)
      end
  end.

Definition clearSelectedInstance : M Manager unit :=
  modify (set_selectedInstanceId None) ;;;
  _detachChrome ;;;
  _updateWidgetsSelectionState.

Definition _openPreferencesForSelectedInstance : M Manager unit :=
  m <- get ;;
  match _selectedInstanceId m with
  | Some selectedId =>
      if truthy_str selectedId then
        match JsMap.get selectedId (_instances m) with
        | Some (mkInstance _ _ _ _ _ _ _ _ _ _ _ uri (Some true) _) =>
            _ensureWebWidgetContext ;;;
            WebWidgetContext.openPreferencesForInstance (Some selectedId) uri
        | _ => ret tt
        end
      else ret tt
  | None => ret tt
  end.

(** *** Persistence *)

(** An instance object built or refreshed from a state entry. *)
Definition instance_of_data (k w : string) (d : InstData)
    (a : option Gtk.Widget) (h : option HtmlWidgetHost.Host) (isAdd : bool)
  : Instance :=
  mkInstance k w
    (nullish (d_kind d) "html")
    (nullish (d_monitorIndex d) 0%Z)
    (nullish (d_normX d) 0%Q)
    (nullish (d_normY d) 0%Q)
    (nullish (d_width d) 200%Q)
    (nullish (d_height d) 150%Q)
    a h
    (nullish (d_config d) (JObj []))
    (d_prefsUri d)
    (Some (nullish (d_hasPreferences d) (truthy_ostr (d_prefsUri d))))
    isAdd.

(** The body of the first loop of [loadState]. *)
Definition load_instance (seen : gset string) (instData : InstData)
  : M Manager (gset string) :=
  match d_instanceId instData, d_widgetId instData with
  | Some k, Some w =>
      if negb (truthy_str k) || negb (truthy_str w) then ret seen
      else
        m <- get ;;
        match JsMap.get k (_instances m) with
        | Some instance =>
            modify (update_instance k
                      (fun i => instance_of_data (instanceId i) w instData
                                  (actor i) (host i) (_isAddButton i)))
        | None =>
            modify (set_instances
                      (JsMap.set k (instance_of_data k w instData None None false)
                         (_instances m)))
        end ;;;
        m <- get ;;
        match JsMap.get k (_instances m) with
        | None => ret ({[k]} ∪ seen)
        | Some instance =>
            match JsMap.get (monitorIndex instance) (_surfaces m) with
            | Some _ =>
                _ensureInstanceActor k ;;;
                _positionInstanceActor k
            | None => ret tt
            end ;;;
            ret ({[instanceId instance]} ∪ seen)
        end
  | _, _ => ret seen
  end.

Fixpoint load_instances (seen : gset string) (l : list InstData)
  : M Manager (gset string) :=
  match l with
  | [] => ret seen
  | instData :: rest =>
      seen <- load_instance seen instData ;;
      load_instances seen rest
  end.

(** The body of the second loop of [loadState]. *)
Definition drop_unseen (seen : gset string) (k : string) : M Manager unit :=
  m <- get ;;
  match JsMap.get k (_instances m) with
  | Some instance =>
      if _isAddButton instance then ret tt
      else if bool_decide (k ∈ seen) then ret tt
      else _removeActor k
  | None =>
      if bool_decide (k ∈ seen) then ret tt else _removeActor k
  end.

Definition loadState (state : StateArg) : M Manager unit :=
  match state with
  | StateNullish | StatePrimitive => ret tt
  | StateObject version instances =>
      match version with
      | JNum q => if Qeq_bool q 1 then ret tt
                  else modify (warn WarnUnknownStateVersion)
      | _ => modify (warn WarnUnknownStateVersion)
      end ;;;
      match instances with
      | None => ret tt
      | Some instances =>
          m <- get ;;
          let prevSelection := _selectedInstanceId m in
          let previousSuppressionState := _suppressStateEvents m in
          modify (set_suppressStateEvents true) ;;;
          seen <- load_instances ∅ instances ;;
          m <- get ;;
          for_each (JsMap.keys (_instances m)) (drop_unseen seen) ;;;
          m <- get ;;
          match prevSelection with
          | Some p =>
              if truthy_str p && JsMap.has p (_instances m)
              then selectInstance prevSelection
              else selectInstance None
          | None => selectInstance None
          end ;;;
          modify (set_suppressStateEvents previousSuppressionState)
      end
  end.

End WidgetManager.

(* ===================================================================== *)
(** ** WebWidgetContext: the script-message channel                       *)
(* ===================================================================== *)

Module WidgetMessages.
Import Model.

(** What [computeHostStateForInstance] takes from the toolkit. *)
Record Locale := mkLocale {
  locale : string;
  direction : string
}.

Definition computeHostStateForInstance (env : Locale) (inst : Instance)
    (m : Manager) : jsval :=
  JObj [("editMode",
         JBool (match JsMap.get (monitorIndex inst) (_surfaces m) with
                | Some surface => isWidgetContainerOnTop (grid surface)
                | None => false
                end));
        ("selected", JBool (same_id (_selectedInstanceId m) (instanceId inst)));
        ("theme", JStr (if darkmode (_preferences m) then "dark" else "light"));
        ("reducedMotion", JBool (negb (globalAnimations (_preferences m))));
        ("direction", JStr (direction env));
        ("locale", JStr (locale env))].

Definition _pushFullHostStateForInstance (env : Locale) (k : string)
  : M Manager unit :=
  m <- get ;;
  match getInstance k m with
  | None => ret tt
  | Some inst =>
      WebWidgetContext._pushPatchtoTarget k (computeHostStateForInstance env inst m)
  end.

(** A parameter declared as [mode = null]: [undefined] becomes [null]. *)
Definition default_null (v : jsval) : jsval :=
  match v with
  | JUndefined => JNull
  | _ => v
  end.

(** [_dispatchWidgetMessage(manager, payload)] from the point where
    [await inst.host.getWebViewAsync()] has given it [webView]: [k] is
    the [instanceId] of the payload and [inst] the instance found under
    it. *)
Definition _dispatchWidgetMessage_resume (env : Locale) (payload : jsval)
    (k : string) (inst : Instance) (webView : WebKit.WebView)
  : M Manager unit :=
  if negb (Str.startsWith ("ding-widget://" +:+ k +:+ "/")
             (nullish (WebKit.uri webView) ""))
  then ret tt
  else
    match field "type" payload with
    | JStr "updateConfig" =>
        (if is_object (field "config" payload)
         then WidgetManager.updateInstanceConfig k
                (field "config" payload)
         else ret tt) ;;;
        WebWidgetContext._pushConfigChangedForInstance k
          (default_null (field "mode" payload))
    | JStr "getConfig" =>
        WebWidgetContext._doWidgetGetConfig k
          (field "mode" payload) (field "requestId" payload)
    | JStr "hostReady" =>
        _pushFullHostStateForInstance env k ;;;
        WebWidgetContext._pushConfigChangedForInstance k JNull
    | JStr "openPreferences" =>
        match hasPreferences inst with
        | Some true =>
            if truthy_ostr (prefsUri inst) then
              WebWidgetContext.openPreferencesForInstance
                (Some k) (prefsUri inst)
            else ret tt
        | _ => ret tt
        end
    | JStr "closePreferences" =>
        WebWidgetContext.closePreferencesForInstance (Some k)
    | _ => ret tt
    end.

(** [_dispatchWidgetMessage(manager, payload)]. A missing host makes
    the call throw inside the [try], which returns. While the host has
    no view the call is suspended on the host's promise; with a view it
    goes on at once. *)
Definition _dispatchWidgetMessage (env : Locale) (payload : jsval)
  : M Manager unit :=
  m <- get ;;
  match field "instanceId" payload with
  | JStr k =>
      match getInstance k m with
      | None => ret tt
      | Some inst =>
          match host inst with
          | None => ret tt
          | Some h =>
              match HtmlWidgetHost._webView h with
              | None =>
                  on_instance_host k
                    (HtmlWidgetHost._webViewReadyPromise payload) (ret tt)
              | Some webView =>
                  _dispatchWidgetMessage_resume env payload k inst webView
              end
          end
      end
  | _ => ret tt
  end.

(** A suspended [_dispatchWidgetMessage] goes on after [_start()] has
    resolved the promise with the view of the host: the call still
    holds its payload and the instance it had found under the
    [instanceId] of the payload, whose host it awaited. A promise
    resolved with no view gives the empty URI, and the call returns. *)
Definition _dispatchWidgetMessage_continue (env : Locale) (payload : jsval)
  : M Manager unit :=
  m <- get ;;
  match field "instanceId" payload with
  | JStr k =>
      match getInstance k m with
      | None => ret tt
      | Some inst =>
          match host inst with
          | None => ret tt
          | Some h =>
              match HtmlWidgetHost._webView h with
              | None => ret tt
              | Some webView =>
                  _dispatchWidgetMessage_resume env payload k inst webView
              end
          end
      end
  | _ => ret tt
  end.

(** The calls suspended on the promise of the host of [k]. *)
Definition suspended (k : string) (m : Manager) : list jsval :=
  match getInstance k m with
  | Some inst =>
      match host inst with
      | Some h => HtmlWidgetHost._webViewPromise h
      | None => []
      end
  | None => []
  end.

(** The surface of the host of instance [k] arrives: [_start()] goes
    on, resolves the promise, loads the page and flushes the queues;
    after it the calls that were suspended on the promise go on,
    oldest first, each as a job of its own, so that one that raises
    does not keep the next from running. When [_start()] raises before
    it resolves the promise, nobody goes on. *)
Definition surface_arrives (env : Locale) (k : string)
    (wv : WebKit.WebView) (url : option string) : M Manager unit :=
  m <- get ;;
  on_instance_host k (HtmlWidgetHost._start_resume wv url) (ret tt) ;;;
  for_each (suspended k m)
    (fun payload => try_catch (_dispatchWidgetMessage_continue env payload)).

(** [_onWidgetScriptMessage], from the parsed payload on. Log messages
    end here; they change nothing in the manager. *)
Definition _onWidgetScriptMessage (env : Locale) (payload : jsval)
  : M Manager unit :=
  if negb (is_object payload) then ret tt
  else
    match field "type" payload with
    | JStr "log" => ret tt
    | _ =>
        match field "instanceId" payload with
        | JStr k =>
            if truthy_str k then _dispatchWidgetMessage env payload else ret tt
        | _ => ret tt
        end
    end.

End WidgetMessages.

(* ===================================================================== *)
(** ** WebWidgetContext: the ding-widget:// scheme handler                *)
(* ===================================================================== *)

Module DingWidgetScheme.
Import Model.

(** What the handler does to the file system and to the request, in
    program order. *)
Inductive Event :=
| QueryInfo (f : Gio.File)
| LoadBytes (f : Gio.File)
| FinishError (code : Gio.IOErrorEnum) (message : string)
| FinishResponse (contentType : string) (body : string) (csp : option string).

(** A [WebKit.URISchemeRequest]: its URI ([None] when there is none or
    the getter throws), what [GLib.Uri.parse] makes of it ([None] when
    parsing throws) and the view that asks. *)
Record Request := mkRequest {
  get_uri : option string;
  parsed : option GLib.Uri;
  get_web_view : WebKit.WebView
}.

(** [_getInstanceRoot(instanceId)], with the registry it consults. *)
Definition _getInstanceRoot (reg : WidgetRegistry.Registry) (k : string)
  : M Manager (option Gio.File) :=
  this <- deref _webWidgetContext ;;
  match JsMap.get k (_instanceRoots this) with
  | Some d => ret (Some d)
  | None =>
      m <- get ;;
      match getInstance k m with
      | None => throw TypeError
      | Some inst =>
          match (WidgetRegistry.getDescriptor (widgetId inst) reg).2 with
          | None => ret None
          | Some desc =>
              WebWidgetContext.modify_this
                (set_instanceRoots
                   (JsMap.set k (WidgetRegistry.dir desc) (_instanceRoots this))) ;;;
              ret (Some (WidgetRegistry.dir desc))
          end
      end
  end.

(** The normalized relative path of a request path. *)
Definition effectiveRelPath (path : string) : string :=
  Str.strip_dot_slashes (Str.strip_leading "/" path).

(** [effectiveRelPath.split('/').filter(p => p.length > 0)]. *)
Definition parts_of (rel : string) : list string :=
  List.filter truthy_str (Str.split_on "/" rel).

(** The component-wise walk below the root with its symlink check. *)
Fixpoint walk (fs : Gio.FileSystem) (file : Gio.File) (parts : list string)
  : list Event * (Gio.File + Gio.IOErrorEnum * string) :=
  match parts with
  | [] => ([], inl file)
  | part :: rest =>
      let file := Gio.get_child file part in
      match Gio.query_info fs file with
      | None =>
          ([QueryInfo file], inr (Gio.NOT_FOUND, "File not found in widget root"))
      | Some info =>
          if Gio.is_symlink info then
            ([QueryInfo file],
             inr (Gio.PERMISSION_DENIED,
                  "Symlinks are not allowed in widget paths"))
          else
            let r := walk fs file rest in
            (QueryInfo file :: r.1, r.2)
      end
  end.

(** The content type: sniffed, but forced for HTML, CSS and JS. *)
Definition mime_type (fs : Gio.FileSystem) (filePath body : string) : string :=
  if Str.endsWith ".html" filePath || Str.endsWith ".htm" filePath
  then "text/html"
  else if Str.endsWith ".css" filePath then "text/css"
  else if Str.endsWith ".js" filePath then "application/javascript"
  else
    match Gio.content_type_guess fs filePath body with
    | Some t => if truthy_str t then t else "application/octet-stream"
    | None => "application/octet-stream"
    end.

(** The canonicalize-and-prefix test of the handler. *)
Definition confined (rootPath rel : string) : bool :=
  let candidatePath := GLib.build_filenamev rootPath rel in
  let canonRoot := GLib.canonicalize_filename rootPath in
  let canonFile := GLib.canonicalize_filename candidatePath in
  let normalizedRoot :=
    if Str.endsWith "/" canonRoot then canonRoot else canonRoot +:+ "/" in
  Str.startsWith normalizedRoot canonFile.

(** The handler from "Normalize relPath" on, for the root [rootDir] it
    has settled on. A local file always has a path, and building,
    canonicalizing and answering do not throw here, so the three
    [FAILED] exits of the source are not taken. *)
Definition serve (fs : Gio.FileSystem) (csp : string) (rootDir : Gio.File)
    (path : string) : list Event :=
  let rel := effectiveRelPath path in
  if negb (truthy_str rel) then [FinishError Gio.NOT_FOUND "No file specified"]
  else if negb (confined (Gio.get_path rootDir) rel) then
    [FinishError Gio.PERMISSION_DENIED "Path escapes widget root"]
  else
    match walk fs rootDir (parts_of rel) with
    | (queried, inr (code, message)) => queried ++ [FinishError code message]
    | (queried, inl file) =>
        queried
        ++ LoadBytes file
           :: match Gio.load_bytes fs file with
              | None => [FinishError Gio.NOT_FOUND "File not found in widget root"]
              | Some body =>
                  [FinishResponse (mime_type fs (Gio.get_path file) body) body
                     (if truthy_str csp then Some csp else None)]
              end
    end.

(** [_onDingWidgetUriRequestAsync(request)]; [csp] is the context's
    [_cspString]. The result lists what the handler did. *)
Definition _onDingWidgetUriRequestAsync (fs : Gio.FileSystem)
    (reg : WidgetRegistry.Registry) (csp : string) (request : Request)
  : M Manager (list Event) :=
  match get_uri request with
  | None => ret [FinishError Gio.INVALID_ARGUMENT "Missing URI"]
  | Some uri =>
      if negb (truthy_str uri) then
        ret [FinishError Gio.INVALID_ARGUMENT "Missing URI"]
      else
        match parsed request with
        | None => ret [FinishError Gio.INVALID_ARGUMENT "Invalid URI"]
        | Some guri =>
            if negb (bool_decide (GLib.get_scheme guri = "ding-widget")) then
              ret [FinishError Gio.INVALID_ARGUMENT "Unexpected URI scheme"]
            else if negb (truthy_ostr (GLib.get_host guri)) then
              ret [FinishError Gio.INVALID_ARGUMENT
                     "Missing instanceId in widget URI"]
            else
              let webView := get_web_view request in
              match WebKit._dingWidgetRoot webView with
              | Some boundRoot =>
                  if negb (bool_decide (Some (WebKit._dingInstanceId webView)
                                        = GLib.get_host guri)) then
                    ret [FinishError Gio.PERMISSION_DENIED
                           "Widget root not bound to this view"]
                  else
                    rootDir <- _getInstanceRoot reg
                                 (WebKit._dingInstanceId webView) ;;
                    match rootDir with
                    | None =>
                        ret [FinishError Gio.NOT_FOUND
                               "Widget root not registered for this instance"]
                    | Some rootDir =>
                        if negb (bool_decide (Gio.get_path boundRoot
                                              = Gio.get_path rootDir)) then
                          ret [FinishError Gio.PERMISSION_DENIED
                                 "Widget root mismatch for this view"]
                        else
                          ret (serve fs csp rootDir
                                 (nullish (GLib.get_path guri) ""))
                    end
              | None =>
                  ret [FinishError Gio.PERMISSION_DENIED
                         "Widget root not bound to this view"]
              end
        end
  end.

End DingWidgetScheme.

(* ===================================================================== *)
(** ** WidgetRegistry: the rest of the public interface                   *)
(* ===================================================================== *)

Module WidgetRegistryApi.
Import WidgetRegistry.

(** [getKind(id)]: ['gtk'] only for a known descriptor of that kind. *)
Definition getKind (wid : string) (reg : Registry) : Registry * string :=
  let r := getDescriptor wid reg in
  (r.1,
   match r.2 with
   | Some desc => if decide (kind desc = "gtk") then "gtk" else "html"
   | None => "html"
   end).

(** [preload()]: a load whose failure is only logged. *)
Definition preload (reg : Registry) : Registry := _ensureLoadedAsync reg.

(** [reload()]: forget what was loaded, then load again. *)
Definition reload (reg : Registry) : Registry :=
  preload
    (mkRegistry (_userRoot reg) (_systemRoots reg) [] false (warnings reg)).

End WidgetRegistryApi.

(* ===================================================================== *)
(** ** WidgetManager: removal, theme, animation and layer                 *)
(* ===================================================================== *)

Module WidgetManagerApi.
Import Model WidgetManager.

(** [_stopWebkitIfUnneeded()]: the web context goes when no instance
    has a host that is alive. *)
Definition _stopWebkitIfUnneeded : M Manager unit :=
  m <- get ;;
  match _webWidgetContext m with
  | None => ret tt
  | Some _ =>
      if existsb (fun inst => match host inst with
                              | Some h => HtmlWidgetHost.isAlive h
                              | None => false
                              end) (JsMap.values (_instances m))
      then ret tt
      else
        WebWidgetContext.destroy ;;;
        modify (set_webWidgetContext None)
  end.

Definition removeInstance (k : string) : M Manager unit :=
  _removeActor k ;;;
  _stateChanged.

Definition deleteSelectedInstance : M Manager bool :=
  m <- get ;;
  match _selectedInstanceId m with
  | None => ret false
  | Some toRemove =>
      if negb (truthy_str toRemove) then ret false
      else
        selectInstance None ;;;
        removeInstance toRemove ;;;
        _stopWebkitIfUnneeded ;;;
        ret true
  end.

(** *** Telling the widgets about theme, animation and layer *)

Definition _updateTheme (k : string) (theme : string) : M Manager unit :=
  m <- get ;;
  match JsMap.get k (_instances m) with
  | None => ret tt
  | Some inst =>
      if bool_decide (kind inst = "html")
         && bool_decide (is_Some (actor inst))
         && bool_decide (is_Some (host inst))
      then
        WebWidgetContext.if_context
          (WebWidgetContext.updateHtmlWidgetTheme k theme)
      else ret tt
  end.

Definition _updateAnimation (k : string) (reducedMotion : bool)
  : M Manager unit :=
  m <- get ;;
  match JsMap.get k (_instances m) with
  | None => ret tt
  | Some inst =>
      if bool_decide (kind inst = "html")
         && bool_decide (is_Some (actor inst))
         && bool_decide (is_Some (host inst))
      then
        WebWidgetContext.if_context
          (WebWidgetContext.updateHtmlWidgetAnimation k reducedMotion)
      else ret tt
  end.

Definition onThemeChanged : M Manager unit :=
  m <- get ;;
  let theme := if darkmode (_preferences m) then "dark" else "light" in
  for_each (JsMap.keys (_instances m)) (fun k => _updateTheme k theme).

Definition onAnimationChanged : M Manager unit :=
  m <- get ;;
  let reducedMotion := negb (globalAnimations (_preferences m)) in
  for_each (JsMap.keys (_instances m))
    (fun k => _updateAnimation k reducedMotion).

Definition _sendLayerStateToInstance (k : string) (onTop : bool)
  : M Manager unit :=
  m <- get ;;
  match JsMap.get k (_instances m) with
  | None => ret tt
  | Some inst =>
      if bool_decide (kind inst = "html") && bool_decide (is_Some (host inst))
      then
        WebWidgetContext.if_context
          (WebWidgetContext.updateHtmlWidgetLayer k onTop)
      else ret tt
  end.

Definition _updateWidgetLayerChange (monitorIndex : Z) (onTop : bool)
  : M Manager unit :=
  m <- get ;;
  for_each (JsMap.keys (_instances m))
    (fun k =>
       m <- get ;;
       match JsMap.get k (_instances m) with
       | None => ret tt
       | Some inst =>
           if negb (bool_decide (monitorIndex = Model.monitorIndex inst))
              || negb (bool_decide (is_Some (actor inst)))
           then ret tt
           else _sendLayerStateToInstance k onTop
       end).

(** The visibility of the add button is not tracked. *)
Definition handleWidgetContainerLayerChange (monitorIndex : Z) (onTop : bool)
  : M Manager unit :=
  m <- get ;;
  match JsMap.get monitorIndex (_surfaces m) with
  | None => ret tt
  | Some _ =>
      _raiseAddButton monitorIndex ;;;
      _updateWidgetLayerChange monitorIndex onTop
  end.

End WidgetManagerApi.

(* ===================================================================== *)
(** ** WebWidgetContext: views and the scheme entry point                 *)
(* ===================================================================== *)

Module WebViews.
Import Model.

(** [newViewForInstance(widgetId, instanceId)]: the view carries the
    root the context has for the instance ([null] when there is none),
    the widget id and the instance id; it shows no page yet. *)
Definition newViewForInstance (reg : WidgetRegistry.Registry)
    (widgetId instanceId : string) : M Manager WebKit.WebView :=
  WebWidgetContext._initWebKitRuntime ;;;
  rootDir <- DingWidgetScheme._getInstanceRoot reg instanceId ;;
  ret (WebKit.mkWebView rootDir widgetId instanceId None).

(** [_onDingWidgetUriRequest(request)]: a rejection of the asynchronous
    handler is logged and ends there, so nothing was done to the
    request. *)
Definition _onDingWidgetUriRequest (fs : Gio.FileSystem)
    (reg : WidgetRegistry.Registry) (csp : string)
    (request : DingWidgetScheme.Request)
  : M Manager (list DingWidgetScheme.Event) :=
  fun m =>
    match DingWidgetScheme._onDingWidgetUriRequestAsync fs reg csp request m with
    | (m', Returned events) => (m', Returned events)
    | (m', Threw _) => (m', Returned [])
    end.

End WebViews.

(** * What the program guarantees *)

(** Running a method step by step. *)
Module JsFacts.

Lemma run_bind_get {S B} (k : S -> M S B) (s : S) :
  (x <- get ;; k x) s = k s s.
Proof. reflexivity. Qed.

Lemma run_bind_modify {S B} (f : S -> S) (k : M S B) (s : S) :
  (modify f ;;; k) s = k (f s).
Proof. reflexivity. Qed.

Lemma run_bind_ret {S A B} (a : A) (k : A -> M S B) (s : S) :
  (x <- ret a ;; k x) s = k a s.
Proof. reflexivity. Qed.

Lemma run_bind_returned {S A B} (c : M S A) (k : A -> M S B) (s s' : S) (a : A) :
  c s = (s', Returned a) -> (x <- c ;; k x) s = k a s'.
Proof. intros H. unfold bind. by rewrite H. Qed.

Lemma run_bind_threw {S A B} (c : M S A) (k : A -> M S B) (s s' : S) e :
  c s = (s', Threw e) -> (x <- c ;; k x) s = (s', Threw e).
Proof. intros H. unfold bind. by rewrite H. Qed.

Lemma run_bind_deref_some {S A B} (field : S -> option A) (k : A -> M S B)
    (s : S) (a : A) :
  field s = Some a -> (x <- deref field ;; k x) s = k a s.
Proof. intros H. unfold bind, deref. by rewrite H. Qed.

Lemma run_bind_deref_none {S A B} (field : S -> option A) (k : A -> M S B)
    (s : S) :
  field s = None -> (x <- deref field ;; k x) s = (s, Threw TypeError).
Proof. intros H. unfold bind, deref. by rewrite H. Qed.

Lemma run_bind_assoc {S A B C} (c : M S A) (k : A -> M S B) (k' : B -> M S C)
    (s : S) :
  (y <- (x <- c ;; k x) ;; k' y) s = (x <- c ;; y <- k x ;; k' y) s.
Proof. unfold bind. destruct (c s) as [s1 [a|e]]; reflexivity. Qed.

End JsFacts.
Import JsFacts.

(* ===================================================================== *)
(** ** WidgetRegistry: one descriptor per id, user scope first            *)
(* ===================================================================== *)

Module WidgetRegistryFacts.
Import WidgetRegistry.

(** The descriptor a directory entry stands for, when its manifest is
    accepted: a directory with a readable manifest whose trimmed id is
    valid. *)
Definition candidate (rootDir : Gio.File) (isUser : bool) (finfo : DirEntry)
  : option Descriptor :=
  match manifest finfo with
  | Some m =>
      if is_directory finfo && truthy m && idOk (idRaw m) then
        Some (describe (rootDir ++ [name finfo])
                ((rootDir ++ [name finfo]) ++ ["widget.json"]) isUser m)
      else None
  | None => None
  end.

(** Every accepted bundle of the scanned roots, in discovery order. *)
Definition discovered (roots : list (Root * bool)) : list Descriptor :=
  r ← roots;
  match listing r.1 with
  | Some files => omap (candidate (root r.1) r.2) files
  | None => []
  end.

Definition has_id (k : string) (d : Descriptor) : bool :=
  bool_decide (id d = k).

Definition user_with_id (k : string) (d : Descriptor) : bool :=
  bool_decide (id d = k) && isUser d.

(** The bundle that should represent id [k]: the first user-scoped one
    if there is any, else the first one. *)
Definition preferred (k : string) (l : list Descriptor) : option Descriptor :=
  match find (user_with_id k) l with
  | Some d => Some d
  | None => find (has_id k) l
  end.

(** How many discovered bundles carry id [k]. *)
Definition occurrences (k : string) (l : list Descriptor) : nat :=
  length (filter (fun d => id d = k) l).

Definition is_duplicate_warning (k : string) (w : Console) : bool :=
  match w with
  | WarnDuplicateId k' _ _ _ _ _ => bool_decide (k' = k)
  | WarnInvalidId _ => false
  end.

(** How many collision warnings name id [k]. *)
Definition duplicate_warnings (k : string) (ws : list Console) : nat :=
  length (List.filter (is_duplicate_warning k) ws).

(** Collision handling alone, for a descriptor already built. *)
Definition resolve (desc : Descriptor) (st : Scan) : Scan :=
  match JsMap.get (id desc) (outMap st) with
  | Some existing =>
      let replace := isUser desc && negb (isUser existing) in
      let st :=
        _logDuplicateIds (id desc) existing replace (dir desc) (isUser desc) st in
      if replace then set_outMap (JsMap.set (id desc) desc (outMap st)) st
      else st
  | None => set_outMap (JsMap.set (id desc) desc (outMap st)) st
  end.

(** What a scan has established once the bundles [l] are merged. *)
Record merged (l : list Descriptor) (st : Scan) : Prop := mkMerged {
  merged_nodup : NoDup (JsMap.keys (outMap st));
  merged_get : forall k, JsMap.get k (outMap st) = preferred k l;
  merged_logged : forall k, k ∈ _loggedDuplicateIds st <-> 2 <= occurrences k l;
  merged_warned : forall k,
    duplicate_warnings k (console st)
    = if decide (2 <= occurrences k l) then 1 else 0
}.

Lemma outMap_set_outMap m st : outMap (set_outMap m st) = m.
Proof. by destruct st. Qed.

Lemma logged_set_outMap m st :
  _loggedDuplicateIds (set_outMap m st) = _loggedDuplicateIds st.
Proof. by destruct st. Qed.

Lemma console_set_outMap m st : console (set_outMap m st) = console st.
Proof. by destruct st. Qed.

Lemma find_snoc {A} (P : A -> bool) (l : list A) (x : A) :
  find P (l ++ [x])
  = match find P l with
    | Some y => Some y
    | None => if P x then Some x else None
    end.
Proof.
  induction l as [|a l IH]; simpl; [done |].
  destruct (P a); [done | exact IH].
Qed.

Lemma find_has_id k l d :
  find (has_id k) l = Some d -> id d = k /\ d ∈ l /\ 1 <= occurrences k l.
Proof.
  unfold occurrences. induction l as [|a l IH]; simpl; [done |].
  unfold has_id at 1. case_bool_decide as Ha.
  - intros [= ->]. rewrite filter_cons_True by done.
    repeat split; [done | by left | simpl; lia].
  - intros H. destruct (IH H) as (? & ? & ?).
    rewrite filter_cons_False by done. repeat split; [done | by right | done].
Qed.

Lemma find_has_id_None k l :
  find (has_id k) l = None -> occurrences k l = 0.
Proof.
  unfold occurrences. induction l as [|a l IH]; simpl; [done |].
  unfold has_id at 1. case_bool_decide as Ha; [done |].
  intros H. rewrite filter_cons_False by done. by apply IH.
Qed.

Lemma find_user_has_id k l d :
  find (user_with_id k) l = Some d ->
  id d = k /\ isUser d = true /\ d ∈ l /\ is_Some (find (has_id k) l).
Proof.
  induction l as [|a l IH]; simpl; [done |].
  unfold user_with_id at 1, has_id at 1.
  case_bool_decide as Ha; simpl.
  - destruct (isUser a) eqn:Hu.
    + intros [= ->]. repeat split; [done | done | by left | by eauto].
    + intros H. destruct (IH H) as (? & ? & ? & ?).
      repeat split; [done | done | by right | by eauto].
  - intros H. destruct (IH H) as (? & ? & ? & ?).
    repeat split; [done | done | by right | done].
Qed.

Lemma find_user_None k l d :
  find (user_with_id k) l = None -> d ∈ l -> id d = k -> isUser d = false.
Proof.
  induction l as [|a l IH]; simpl; intros Hf Hin Hid.
  - by apply elem_of_nil in Hin.
  - unfold user_with_id at 1 in Hf.
    destruct (bool_decide (id a = k) && isUser a) eqn:Ha; [done |].
    apply elem_of_cons in Hin as [->|Hin]; [|by apply IH].
    rewrite bool_decide_eq_true_2 in Ha by done. done.
Qed.

Lemma preferred_spec k l d :
  preferred k l = Some d ->
  id d = k /\ d ∈ l /\ 1 <= occurrences k l /\
  (forall d', d' ∈ l -> id d' = k -> isUser d' = true -> isUser d = true).
Proof.
  unfold preferred. destruct (find (user_with_id k) l) as [u|] eqn:Hu.
  - intros [= ->]. destruct (find_user_has_id _ _ _ Hu) as (? & ? & ? & [e He]).
    destruct (find_has_id _ _ _ He) as (_ & _ & ?). done.
  - intros Hf. destruct (find_has_id _ _ _ Hf) as (? & ? & ?).
    repeat split; [done | done | done |].
    intros d' Hd' Hid Hus. pose proof (find_user_None _ _ _ Hu Hd' Hid). congruence.
Qed.

Lemma preferred_None k l : preferred k l = None -> occurrences k l = 0.
Proof.
  unfold preferred. destruct (find (user_with_id k) l); [done |].
  apply find_has_id_None.
Qed.

Lemma occurrences_snoc k l d :
  occurrences k (l ++ [d])
  = occurrences k l + (if decide (id d = k) then 1 else 0).
Proof.
  unfold occurrences. rewrite filter_app, length_app. f_equal.
  destruct (decide (id d = k)).
  - by rewrite filter_cons_True.
  - by rewrite filter_cons_False.
Qed.

Lemma preferred_snoc_other k l d :
  id d <> k -> preferred k (l ++ [d]) = preferred k l.
Proof.
  intros Hne. unfold preferred. rewrite !find_snoc.
  unfold user_with_id at 2, has_id at 2.
  rewrite !bool_decide_eq_false_2 by done. simpl.
  destruct (find (user_with_id k) l); [done |].
  by destruct (find (has_id k) l).
Qed.

Lemma duplicate_warnings_snoc k ws w :
  duplicate_warnings k (ws ++ [w])
  = duplicate_warnings k ws + (if is_duplicate_warning k w then 1 else 0).
Proof.
  unfold duplicate_warnings. rewrite List.filter_app, length_app. simpl.
  by destruct (is_duplicate_warning k w).
Qed.

Lemma merged_nil : merged [] (mkScan [] ∅ []).
Proof.
  split; simpl.
  - apply NoDup_nil_2.
  - done.
  - intros k. unfold occurrences. simpl. split; [set_solver | lia].
  - done.
Qed.

Lemma merged_warn_invalid l st path :
  merged l st -> merged l (warn (WarnInvalidId path) st).
Proof.
  intros [H1 H2 H3 H4]. destruct st as [om lg ws]; simpl in *.
  split; simpl; try done.
  intros k. rewrite duplicate_warnings_snoc. simpl. rewrite H4. lia.
Qed.

(** Merging one more bundle keeps the scan consistent with the list of
    bundles seen so far. *)
Lemma merged_resolve l st d :
  merged l st -> merged (l ++ [d]) (resolve d st).
Proof.
  intros [Hnd Hget Hlog Hwarn]. unfold resolve.
  destruct st as [om lg ws]; simpl in *.
  destruct (JsMap.get (id d) om) as [existing|] eqn:Hex.
  - (* a collision *)
    rewrite Hget in Hex.
    destruct (preferred_spec _ _ _ Hex) as (Hid & Hin & Hocc & Huser).
    assert (Hocc' : 2 <= occurrences (id d) (l ++ [d])).
    { rewrite occurrences_snoc, decide_True by done. lia. }
    set (replace := isUser d && negb (isUser existing)).
    set (st1 := _logDuplicateIds (id d) existing replace (dir d) (isUser d)
                  (mkScan om lg ws)).
    assert (Hmap1 : outMap st1 = om).
    { unfold st1, _logDuplicateIds. by case_bool_decide. }
    assert (Hlog1 : forall k,
              k ∈ _loggedDuplicateIds st1 <-> 2 <= occurrences k (l ++ [d])).
    { intros k. unfold st1, _logDuplicateIds. rewrite occurrences_snoc.
      case_bool_decide as Hl; simpl.
      - destruct (decide (id d = k)) as [<-|Hne].
        + split; [lia | done].
        + rewrite Hlog. lia.
      - rewrite elem_of_union, elem_of_singleton, Hlog.
        destruct (decide (id d = k)) as [<-|Hne].
        + split; [lia | by left].
        + split; [intros [?|?]; [congruence | lia] | right; lia]. }
    assert (Hwarn1 : forall k,
              duplicate_warnings k (console st1)
              = if decide (2 <= occurrences k (l ++ [d])) then 1 else 0).
    { intros k. unfold st1, _logDuplicateIds.
      case_bool_decide as Hl; simpl.
      - rewrite Hwarn. rewrite occurrences_snoc.
        destruct (decide (id d = k)) as [<-|Hne].
        + apply Hlog in Hl. rewrite !decide_True by lia. done.
        + by rewrite Nat.add_0_r.
      - rewrite duplicate_warnings_snoc, Hwarn. simpl.
        rewrite occurrences_snoc.
        destruct (decide (id d = k)) as [<-|Hne].
        + rewrite bool_decide_eq_true_2 by done.
          rewrite Hlog in Hl.
          rewrite decide_False by done. rewrite decide_True by lia. done.
        + rewrite bool_decide_eq_false_2 by done.
          by rewrite !Nat.add_0_r. }
    destruct replace eqn:Hrep; unfold replace in Hrep.
    + (* the user bundle overrides a system one *)
      apply andb_true_iff in Hrep as [Hdu Hexu]. apply negb_true_iff in Hexu.
      split;
        rewrite ?outMap_set_outMap, ?logged_set_outMap, ?console_set_outMap,
          ?Hmap1.
      * by apply JsMap.NoDup_keys_set.
      * intros k. destruct (decide (id d = k)) as [<-|Hne].
        -- rewrite JsMap.get_set_eq. unfold preferred. rewrite find_snoc.
           destruct (find (user_with_id (id d)) l) as [u|] eqn:Hu.
           ++ destruct (find_user_has_id _ _ _ Hu) as (Hu1 & Hu2 & Hu3 & _).
              pose proof (Huser u Hu3 Hu1 Hu2). congruence.
           ++ unfold user_with_id. rewrite bool_decide_eq_true_2 by done.
              by rewrite Hdu.
        -- rewrite JsMap.get_set_ne by done.
           rewrite preferred_snoc_other by done. apply Hget.
      * exact Hlog1.
      * exact Hwarn1.
    + (* the first bundle stays *)
      split; rewrite ?Hmap1; try done.
      intros k. rewrite Hget.
      destruct (decide (id d = k)) as [<-|Hne];
        [|by rewrite preferred_snoc_other].
      rewrite Hex. unfold preferred in *. rewrite !find_snoc.
      destruct (find (user_with_id (id d)) l) as [u|] eqn:Hu; [done |].
      destruct (find (has_id (id d)) l) as [e|] eqn:He; [|done].
      injection Hex as ->.
      unfold user_with_id. rewrite bool_decide_eq_true_2 by done. simpl.
      apply andb_false_iff in Hrep as [->|Hexu]; [done |].
      apply negb_false_iff in Hexu.
      destruct (find_has_id _ _ _ He) as (He1 & He2 & _).
      pose proof (find_user_None _ _ _ Hu He2 He1). congruence.
  - (* a new id *)
    rewrite Hget in Hex. pose proof (preferred_None _ _ Hex) as Hzero.
    split; cbn [set_outMap outMap _loggedDuplicateIds console].
    + by apply JsMap.NoDup_keys_set.
    + intros k. destruct (decide (id d = k)) as [<-|Hne].
      * rewrite JsMap.get_set_eq. unfold preferred in *. rewrite !find_snoc.
        destruct (find (user_with_id (id d)) l); [done |]. rewrite Hex.
        unfold user_with_id, has_id. rewrite bool_decide_eq_true_2 by done.
        simpl. by destruct (isUser d).
      * rewrite JsMap.get_set_ne by done.
        rewrite preferred_snoc_other by done. apply Hget.
    + intros k. rewrite Hlog, occurrences_snoc.
      destruct (decide (id d = k)) as [<-|Hne]; lia.
    + intros k. rewrite Hwarn, occurrences_snoc.
      destruct (decide (id d = k)) as [<-|Hne].
      * rewrite !decide_False by lia. done.
      * by rewrite Nat.add_0_r.
Qed.

Lemma merged_scan_entry l st rootDir isUser finfo :
  merged l st ->
  merged (l ++ option_list (candidate rootDir isUser finfo))
         (scan_entry rootDir isUser finfo st).
Proof.
  intros Hm. unfold scan_entry, candidate.
  destruct (manifest finfo) as [m|];
    [|destruct (is_directory finfo); simpl; by rewrite app_nil_r].
  destruct (is_directory finfo); simpl; [|by rewrite app_nil_r].
  destruct (truthy m); simpl; [|by rewrite app_nil_r].
  destruct (idOk (idRaw m)); simpl.
  - by apply (merged_resolve l st).
  - rewrite app_nil_r. by apply merged_warn_invalid.
Qed.

Lemma merged_scan_files l st rootDir isUser files :
  merged l st ->
  merged (l ++ omap (candidate rootDir isUser) files)
         (foldl (fun st finfo => scan_entry rootDir isUser finfo st) st files).
Proof.
  revert l st. induction files as [|f files IH]; intros l st Hm; simpl.
  - by rewrite app_nil_r.
  - pose proof (merged_scan_entry _ _ rootDir isUser f Hm) as Hm'.
    apply IH in Hm'. revert Hm'.
    destruct (candidate rootDir isUser f); simpl;
      by rewrite <- ?app_assoc, ?app_nil_r.
Qed.

Lemma merged_scan_roots l st roots :
  merged l st -> merged (l ++ discovered roots) (scan_roots roots st).
Proof.
  revert l st. induction roots as [|[r u] roots IH]; intros l st Hm.
  - unfold discovered; simpl. by rewrite app_nil_r.
  - unfold scan_roots, discovered in *. simpl. rewrite app_assoc.
    apply IH. unfold _scanRootAsync.
    destruct (listing r); [by apply merged_scan_files | by rewrite app_nil_r].
Qed.

Lemma load_is_scan_in_priority_order reg :
  _widgets (_loadOnceAsync reg)
  = outMap (scan_roots (priority_roots reg) (mkScan [] ∅ [])) /\
  warnings (_loadOnceAsync reg)
  = warnings reg ++ console (scan_roots (priority_roots reg) (mkScan [] ∅ [])).
Proof.
  unfold _loadOnceAsync, priority_roots, scan_roots.
  rewrite foldl_app, foldl_fmap. simpl.
  by destruct (_userRoot reg).
Qed.

Lemma values_ids_are_keys (m : list (string * Descriptor)) :
  (forall k d, (k, d) ∈ m -> id d = k) -> id <$> JsMap.values m = JsMap.keys m.
Proof.
  unfold JsMap.values, JsMap.keys.
  induction m as [|[k d] m IH]; intros H; csimpl; [done |].
  rewrite (H k d) by by left. f_equal. apply IH.
  intros k' d' Hin. apply H. by right.
Qed.

Lemma occurrences_elem k l d : d ∈ l -> id d = k -> 1 <= occurrences k l.
Proof.
  intros Hin Hid. unfold occurrences.
  assert (Hf : d ∈ filter (fun d => id d = k) l) by by apply list_elem_of_filter.
  destruct (filter (fun d => id d = k) l); [by apply elem_of_nil in Hf |].
  simpl. lia.
Qed.

(** *** The bundles on disk *)

(** The id a manifest declares: its [id] when that is a string, white
    space at both ends removed; the empty string otherwise. *)
Definition declared_id (manifest : jsval) : string :=
  match field "id" manifest with
  | JStr s => Str.trim s
  | _ => ""
  end.

(** A letter, a digit, [.], [_] or [-]. *)
Definition id_char (c : ascii) : bool :=
  let n := N_of_ascii c in
  ((65 <=? n) && (n <=? 90) || (97 <=? n) && (n <=? 122)
   || (48 <=? n) && (n <=? 57)
   || (n =? 46) || (n =? 95) || (n =? 45))%N.

(** A valid id: not empty, and made of such characters only. *)
Definition valid_id (k : string) : bool :=
  negb (bool_decide (k = "")) && forallb id_char (list_ascii_of_string k).

(** A bundle with a valid id: a directory under a search root whose
    [widget.json] was read and declares a valid id. *)
Record Bundle := mkBundle {
  b_dir : Gio.File;
  b_user : bool;
  b_manifest : jsval
}.

Definition bundle_of (rootDir : Gio.File) (isUser : bool) (finfo : DirEntry)
  : option Bundle :=
  match manifest finfo with
  | Some m =>
      if is_directory finfo && truthy m && valid_id (declared_id m)
      then Some (mkBundle (rootDir ++ [name finfo]) isUser m)
      else None
  | None => None
  end.

(** The bundles with a valid id under the scanned roots, in the order
    they are discovered. *)
Definition bundles (roots : list (Root * bool)) : list Bundle :=
  r ← roots;
  match listing r.1 with
  | Some files => omap (bundle_of (root r.1) r.2) files
  | None => []
  end.

(** How many of the bundles declare id [k]. *)
Definition declaring (k : string) (l : list Bundle) : nat :=
  length (filter (fun b => declared_id (b_manifest b) = k) l).

(** The bundle that should represent id [k]: the first user-scoped one
    that declares it if there is any, else the first one. *)
Definition first_choice (k : string) (l : list Bundle) : option Bundle :=
  match find (fun b => bool_decide (declared_id (b_manifest b) = k) && b_user b) l
  with
  | Some b => Some b
  | None => find (fun b => bool_decide (declared_id (b_manifest b) = k)) l
  end.

Definition descriptor_of (b : Bundle) : Descriptor :=
  describe (b_dir b) (b_dir b ++ ["widget.json"]) (b_user b) (b_manifest b).

Lemma id_char_is_id_char c : is_id_char c = id_char c.
Proof.
  unfold is_id_char, id_char, Str.in_range.
  destruct (N.eqb_spec (N_of_ascii c) 46) as [->|?];
    [done |].
  destruct (N.eqb_spec (N_of_ascii c) 95) as [->|?];
    [done |].
  destruct (N.eqb_spec (N_of_ascii c) 45) as [->|?];
    [done |].
  rewrite !orb_false_r.
  assert (H46 : ((46 <=? N_of_ascii c) && (N_of_ascii c <=? 46) = false)%N).
  { apply andb_false_iff.
    destruct (N.leb_spec 46 (N_of_ascii c)); [right | by left].
    apply N.leb_gt. lia. }
  assert (H95 : ((95 <=? N_of_ascii c) && (N_of_ascii c <=? 95) = false)%N).
  { apply andb_false_iff.
    destruct (N.leb_spec 95 (N_of_ascii c)); [right | by left].
    apply N.leb_gt. lia. }
  assert (H45 : ((45 <=? N_of_ascii c) && (N_of_ascii c <=? 45) = false)%N).
  { apply andb_false_iff.
    destruct (N.leb_spec 45 (N_of_ascii c)); [right | by left].
    apply N.leb_gt. lia. }
  by rewrite H46, H95, H45, !orb_false_r.
Qed.

Lemma idOk_valid_id k : idOk k = valid_id k.
Proof.
  unfold idOk, valid_id. f_equal.
  - by destruct k.
  - induction k as [|c k IH]; simpl; [done |].
    by rewrite id_char_is_id_char, IH.
Qed.

Lemma declared_id_idRaw m : idRaw m = declared_id m.
Proof. done. Qed.

Lemma id_descriptor_of b : id (descriptor_of b) = declared_id (b_manifest b).
Proof. done. Qed.

Lemma candidate_bundle rootDir isUser finfo :
  candidate rootDir isUser finfo
  = descriptor_of <$> bundle_of rootDir isUser finfo.
Proof.
  unfold candidate, bundle_of. destruct (manifest finfo) as [m|]; [|done].
  rewrite idOk_valid_id, declared_id_idRaw.
  by destruct (is_directory finfo && truthy m && valid_id (declared_id m)).
Qed.

Lemma omap_candidate rootDir isUser (files : list DirEntry) :
  omap (candidate rootDir isUser) files
  = descriptor_of <$> omap (bundle_of rootDir isUser) files.
Proof.
  induction files as [|f files IH]; csimpl; [done |].
  rewrite candidate_bundle, IH.
  by destruct (bundle_of rootDir isUser f).
Qed.

Lemma discovered_bundles roots :
  discovered roots = descriptor_of <$> bundles roots.
Proof.
  unfold discovered, bundles.
  induction roots as [|[r u] roots IH]; csimpl; [done |].
  rewrite fmap_app, IH. f_equal.
  destruct (listing r); [apply omap_candidate | done].
Qed.

Lemma occurrences_bundles k (l : list Bundle) :
  occurrences k (descriptor_of <$> l) = declaring k l.
Proof.
  unfold occurrences, declaring.
  induction l as [|b l IH]; csimpl; [done |].
  destruct (decide (declared_id (b_manifest b) = k)) as [Hk|Hk].
  - rewrite !filter_cons_True by done. simpl. by rewrite IH.
  - by rewrite !filter_cons_False.
Qed.

Lemma find_fmap {A B} (f : A -> B) (P : B -> bool) (l : list A) :
  find P (f <$> l) = f <$> find (fun a => P (f a)) l.
Proof.
  induction l as [|a l IH]; csimpl; [done |].
  by destruct (P (f a)).
Qed.

Lemma preferred_bundles k (l : list Bundle) :
  preferred k (descriptor_of <$> l) = descriptor_of <$> first_choice k l.
Proof.
  unfold preferred, first_choice. rewrite !find_fmap.
  unfold user_with_id, has_id.
  change (fun a : Bundle =>
            bool_decide (id (descriptor_of a) = k) && isUser (descriptor_of a))
    with (fun b : Bundle =>
            bool_decide (declared_id (b_manifest b) = k) && b_user b).
  change (fun a : Bundle => bool_decide (id (descriptor_of a) = k))
    with (fun b : Bundle => bool_decide (declared_id (b_manifest b) = k)).
  by destruct (find _ l).
Qed.

(** C3. Whatever the order in which roots and bundles are discovered
    (the order of [_loadOnceAsync], user root first, is one such order):
    the loaded map lists exactly one descriptor per valid id that the
    manifest of some scanned bundle declares, and no other; the
    descriptor kept for an id is built from the manifest of a bundle
    that declares that id, carries that bundle's directory and scope,
    and is user-scoped as soon as any bundle declaring the id is; and
    the number of collision warnings naming an id is one when at least
    two bundles declare it, zero otherwise. [listWidgets()] on a
    registry that is not loaded yet returns the values of that map. *)
Theorem load_keeps_one_descriptor_per_id (roots : list (Root * bool)) :
  let st := scan_roots roots (mkScan [] ∅ []) in
  let found := bundles roots in
  let kept := JsMap.values (outMap st) in
  NoDup (id <$> kept) /\
  (forall k, k ∈ (id <$> kept)
             <-> exists b, b ∈ found /\ declared_id (b_manifest b) = k) /\
  (forall d, d ∈ kept ->
     exists b,
       b ∈ found /\ d = descriptor_of b
       /\ id d = declared_id (b_manifest b)
       /\ dir d = b_dir b /\ isUser d = b_user b
       /\ forall b', b' ∈ found ->
            declared_id (b_manifest b') = id d -> b_user b' = true ->
            isUser d = true) /\
  (forall k, duplicate_warnings k (console st)
             = if decide (2 <= declaring k found) then 1 else 0) /\
  (forall reg, _loaded reg = false -> priority_roots reg = roots ->
     (listWidgets reg).2 = kept /\
     warnings (listWidgets reg).1 = warnings reg ++ console st).
Proof.
  intros st found kept.
  pose proof (merged_scan_roots [] _ roots merged_nil) as Hm.
  simpl in Hm. rewrite discovered_bundles in Hm. fold st found in Hm.
  destruct Hm as [Hnd Hget Hlog Hwarn].
  assert (Hpair : forall k d, (k, d) ∈ outMap st ->
            id d = k /\ descriptor_of <$> first_choice k found = Some d).
  { intros k d Hin. apply JsMap.elem_get_NoDup in Hin; [|done].
    rewrite Hget in Hin. destruct (preferred_spec _ _ _ Hin) as (? & _).
    by rewrite <- preferred_bundles. }
  assert (Hchoice : forall k b, first_choice k found = Some b ->
            b ∈ found /\ declared_id (b_manifest b) = k
            /\ forall b', b' ∈ found -> declared_id (b_manifest b') = k ->
                          b_user b' = true -> b_user b = true).
  { intros k b Hb.
    assert (Hp : preferred k (descriptor_of <$> found) = Some (descriptor_of b))
      by by rewrite preferred_bundles, Hb.
    destruct (preferred_spec _ _ _ Hp) as (Hid & _ & _ & Huser).
    unfold first_choice in Hb.
    assert (Hin : b ∈ found).
    { destruct (find _ found) as [u|] eqn:Hu.
      - injection Hb as <-. apply list_elem_of_In.
        by apply find_some in Hu as [? _].
      - apply list_elem_of_In. by apply find_some in Hb as [? _]. }
    split; [done |]. split; [exact Hid |].
    intros b' Hb' Hk' Hu'.
    apply (Huser (descriptor_of b')); [|done | done].
    apply list_elem_of_fmap. by exists b'. }
  assert (Hids : id <$> kept = JsMap.keys (outMap st)).
  { apply values_ids_are_keys. intros k d Hin. by apply Hpair. }
  assert (Hkept : forall d, d ∈ kept -> exists k, (k, d) ∈ outMap st).
  { intros d Hd. unfold kept, JsMap.values in Hd.
    apply list_elem_of_fmap in Hd as [[k d'] [-> Hin]]. by exists k. }
  split; [by rewrite Hids |].
  split.
  { intros k. rewrite Hids. split.
    - intros Hk. apply JsMap.get_is_Some_keys in Hk as [d Hd].
      apply JsMap.get_Some_elem in Hd.
      destruct (Hpair k d Hd) as [_ Hc].
      destruct (first_choice k found) as [b|] eqn:Hb; [|done].
      exists b. by destruct (Hchoice k b Hb) as (? & ? & _).
    - intros (b & Hb & Hk). apply JsMap.get_is_Some_keys. rewrite Hget.
      destruct (preferred k (descriptor_of <$> found)) eqn:Hp; [by eauto |].
      apply preferred_None in Hp.
      assert (Hd : descriptor_of b ∈ descriptor_of <$> found)
        by (apply list_elem_of_fmap; by exists b).
      pose proof (occurrences_elem k _ _ Hd Hk). lia. }
  split.
  { intros d Hd. destruct (Hkept d Hd) as [k Hin].
    destruct (Hpair k d Hin) as [Hid Hc].
    destruct (first_choice k found) as [b|] eqn:Hb; [|done].
    injection Hc as <-.
    destruct (Hchoice k b Hb) as (Hin' & Hk & Huser).
    exists b. repeat split; try done.
    intros b' Hb' Hk' Hu'. apply (Huser b'); [done | | done].
    by rewrite Hk', Hid. }
  split.
  { intros k. rewrite Hwarn. by rewrite occurrences_bundles. }
  intros reg Hnl Hroots. unfold listWidgets, _ensureLoadedAsync. rewrite Hnl.
  destruct (load_is_scan_in_priority_order reg) as [Hw Hc].
  cbn [fst snd]. rewrite Hw, Hc, Hroots. done.
Qed.

End WidgetRegistryFacts.

(* ===================================================================== *)
(** ** HtmlWidgetHost: queueing, flushing and teardown                    *)
(* ===================================================================== *)

Module HtmlWidgetHostFacts.
Import HtmlWidgetHost.

(** Appending a batch of surface calls to the ghost log. *)
Definition log_calls (cs : list SurfaceCall) (h : Host) : Host :=
  match h with
  | mkHost x0 x1 x2 x3 x4 x5 x6 x7 x8 x9 x10 =>
      mkHost x0 x1 x2 x3 x4 x5 x6 x7 x8 x9 (x10 ++ cs)
  end.

(** The object-valued arguments a call sequence leaves in each queue. *)
Definition queued_patches (cs : list Call) : list jsval :=
  omap (fun c => match c with
                 | CallSetHostStatePatch p => if is_object p then Some p else None
                 | CallPostMessage _ => None
                 end) cs.

Definition queued_messages (cs : list Call) : list jsval :=
  omap (fun c => match c with
                 | CallPostMessage m => if is_object m then Some m else None
                 | CallSetHostStatePatch _ => None
                 end) cs.

(** Operations the event loop can run on a host, each in its own turn:
    an exception ends the turn, not the sequence. *)
Inductive Op :=
| OpDestroy
| OpCall (c : Call)
| OpStartResume (wv : WebKit.WebView) (url : option string).

Definition do_op (o : Op) : M Host unit :=
  match o with
  | OpDestroy => destroy
  | OpCall c => do_call c
  | OpStartResume wv url => _start_resume wv url
  end.

Fixpoint run_ops (ops : list Op) (h : Host) : Host * list (outcome unit) :=
  match ops with
  | [] => (h, [])
  | o :: rest =>
      let r := do_op o h in
      let rs := run_ops rest (fst r) in
      (fst rs, snd r :: snd rs)
  end.

Lemma log_calls_nil h : log_calls [] h = h.
Proof. destruct h; unfold log_calls; simpl. by rewrite app_nil_r. Qed.

Lemma log_calls_app a b h : log_calls b (log_calls a h) = log_calls (a ++ b) h.
Proof. destruct h; unfold log_calls; simpl. by rewrite app_assoc. Qed.

Lemma patch_scripts_queued (cs : list Call) :
  patch_scripts cs = SetHostStateScript <$> queued_patches cs.
Proof.
  induction cs as [|[p|m] cs IH]; simpl; [done | | done].
  unfold patch_scripts, queued_patches in *; simpl.
  destruct (is_object p); simpl; by rewrite IH.
Qed.

Lemma message_scripts_queued (cs : list Call) :
  message_scripts cs = PostMessageScript <$> queued_messages cs.
Proof.
  induction cs as [|[p|m] cs IH]; simpl; [done | done |].
  unfold message_scripts, queued_messages in *; simpl.
  destruct (is_object m); simpl; by rewrite IH.
Qed.

Lemma scripts_evaluated_app_calls h cs :
  scripts_evaluated (log_calls cs h)
  = scripts_evaluated h
    ++ omap (fun c => match c with
                      | EvaluateJavascript s => Some s
                      | _ => None
                      end) cs.
Proof. destruct h. unfold scripts_evaluated; simpl. by rewrite omap_app. Qed.

Lemma omap_evaluate (ss : list Script) :
  omap (fun c => match c with
                 | EvaluateJavascript s => Some s
                 | _ => None
                 end) (EvaluateJavascript <$> ss) = ss.
Proof. induction ss as [|s ss IH]; csimpl; [done | by rewrite IH]. Qed.

(** A script reaches the surface exactly when the host is alive and has
    its web view. *)
Lemma evaluate_live h s :
  _destroyed h = false -> is_Some (_webView h) ->
  _evaluateScript s h = (log_calls [EvaluateJavascript s] h, Returned tt).
Proof.
  intros Hd [wv Hwv]. destruct h; simpl in *. subst.
  reflexivity.
Qed.

Lemma evaluate_dead h s :
  _destroyed h = true \/ _webView h = None ->
  _evaluateScript s h = (h, Returned tt).
Proof.
  intros Hc. destruct h; simpl in *. unfold _evaluateScript, bind, get.
  destruct Hc as [-> | ->]; [done |].
  simpl. by rewrite orb_true_r.
Qed.

Lemma destroyed_log_calls cs h : _destroyed (log_calls cs h) = _destroyed h.
Proof. by destruct h. Qed.

Lemma webView_log_calls cs h : _webView (log_calls cs h) = _webView h.
Proof. by destruct h. Qed.

Lemma patches_log_calls cs h :
  _pendingHostStatePatches (log_calls cs h) = _pendingHostStatePatches h.
Proof. by destruct h. Qed.

Lemma messages_log_calls cs h :
  _pendingPostMessages (log_calls cs h) = _pendingPostMessages h.
Proof. by destruct h. Qed.

Lemma flush_live (mk : jsval -> Script) (vs : list jsval) h :
  _destroyed h = false -> is_Some (_webView h) ->
  for_each vs (fun v => _evaluateScript (mk v)) h
  = (log_calls (EvaluateJavascript <$> (mk <$> vs)) h, Returned tt).
Proof.
  revert h. induction vs as [|v vs IH]; intros h Hd Hwv; simpl.
  - by rewrite log_calls_nil.
  - unfold bind at 1. rewrite evaluate_live by done.
    rewrite IH by (by rewrite ?destroyed_log_calls, ?webView_log_calls).
    by rewrite log_calls_app.
Qed.

Lemma flush_dead (mk : jsval -> Script) (vs : list jsval) h :
  _destroyed h = true \/ _webView h = None ->
  for_each vs (fun v => _evaluateScript (mk v)) h = (h, Returned tt).
Proof.
  intros Hc. induction vs as [|v vs IH]; simpl; [done |].
  unfold bind at 1. by rewrite evaluate_dead.
Qed.

(** Before the surface exists every object-valued argument is queued,
    in call order, and nothing is evaluated. *)
Lemma do_calls_queued cs h :
  _webView h = None ->
  do_calls cs h
  = (set_messages (_pendingPostMessages h ++ queued_messages cs)
       (set_patches (_pendingHostStatePatches h ++ queued_patches cs) h),
     Returned tt).
Proof.
  revert h. induction cs as [|c cs IH]; intros h Hwv.
  - destruct h; unfold do_calls, set_messages, set_patches; simpl in *.
    by rewrite !app_nil_r.
  - unfold do_calls in *. simpl. unfold bind at 1.
    assert (Hno : negb (bool_decide (is_Some (_webView h))) = true).
    { by rewrite Hwv. }
    destruct c as [p|m]; simpl.
    + unfold setHostStatePatch. destruct (is_object p) eqn:Hp; simpl.
      * unfold bind, get, modify. rewrite Hno, orb_true_r.
        rewrite IH by (destruct h; done).
        destruct h; unfold set_messages, set_patches; simpl.
        by rewrite <- app_assoc.
      * unfold ret. by rewrite IH.
    + unfold postMessage. destruct (is_object m) eqn:Hm; simpl.
      * unfold bind, get, modify. rewrite Hno, orb_true_r.
        rewrite IH by (destruct h; done).
        destruct h; unfold set_messages, set_patches; simpl.
        by rewrite <- app_assoc.
      * unfold ret. by rewrite IH.
Qed.

(** Once the surface is there and the host alive, every object-valued
    argument is evaluated at once and nothing is queued. *)
Lemma do_calls_live cs h :
  _destroyed h = false -> is_Some (_webView h) ->
  do_calls cs h
  = (log_calls (EvaluateJavascript <$> omap script_of_call cs) h, Returned tt).
Proof.
  revert h. induction cs as [|c cs IH]; intros h Hd Hwv.
  - unfold do_calls; simpl. by rewrite log_calls_nil.
  - unfold do_calls in *. simpl. unfold bind at 1.
    assert (Hyes : _destroyed h
                   || negb (bool_decide (is_Some (_webView h))) = false).
    { rewrite Hd. by destruct Hwv as [wv ->]. }
    assert (Hstep : forall s, do_call c h = _evaluateScript s h ->
              script_of_call c = Some s ->
              match do_call c h with
              | (s', Returned _) => for_each cs do_call s'
              | (s', Threw e) => (s', Threw e)
              end
              = (log_calls (EvaluateJavascript
                              <$> omap script_of_call (c :: cs)) h,
                 Returned tt)).
    { intros s -> Hs. rewrite evaluate_live by done.
      rewrite IH by (by rewrite ?destroyed_log_calls, ?webView_log_calls).
      simpl. rewrite Hs. simpl.
      by rewrite log_calls_app. }
    destruct c as [p|m]; simpl in *.
    + unfold setHostStatePatch in *. destruct (is_object p) eqn:Hp; simpl in *.
      * apply (Hstep (SetHostStateScript p)); [|done].
        unfold bind, get. by rewrite Hyes.
      * unfold ret. by rewrite IH.
    + unfold postMessage in *. destruct (is_object m) eqn:Hm; simpl in *.
      * apply (Hstep (PostMessageScript m)); [|done].
        unfold bind, get. by rewrite Hyes.
      * unfold ret. by rewrite IH.
Qed.

(** What [_start()] loads into a fresh surface: the resolved URL, or the
    fallback page when there is none. *)
Definition first_load (url : option string) : SurfaceCall * string :=
  match url with
  | Some u => if truthy_str u then (LoadUri u, u)
              else (LoadHtml "Missing entry/prefs URL", "about:blank")
  | None => (LoadHtml "Missing entry/prefs URL", "about:blank")
  end.

(** Readiness of a live host that was waiting for its surface: the page
    is loaded, then the queued patches are evaluated, then the queued
    messages, and both queues end empty. *)
Lemma start_resume_waiting wv url h :
  _webView h = None -> _frame h = Some (mkFrame false) ->
  _destroyed h = false ->
  _start_resume wv url h
  = (mkHost (_instanceId h) (_widgetId h) (_mode h) (_prefsUri h) [] []
       (Some (WebKit.set_uri (Some (snd (first_load url))) wv)) false
       (Some (mkFrame true)) []
       (surface_calls h
        ++ [fst (first_load url)]
        ++ (EvaluateJavascript
              <$> (SetHostStateScript <$> _pendingHostStatePatches h))
        ++ (EvaluateJavascript
              <$> (PostMessageScript <$> _pendingPostMessages h))),
     Returned tt).
Proof.
  intros Hwv Hf Hd. destruct h as [i w m pu ps ms v d f wp cs]; simpl in *.
  subst v f d.
  assert (Hload : forall h0 : Host,
    _webView h0 = Some wv ->
    match url with
    | Some u => if truthy_str u then load_uri u
                else _loadFallback "Missing entry/prefs URL"
    | None => _loadFallback "Missing entry/prefs URL"
    end h0
    = (log_call (fst (first_load url))
         (set_webView
            (Some (WebKit.set_uri (Some (snd (first_load url))) wv)) h0),
       Returned tt)).
  { intros h0 Hh0. unfold first_load, load_uri, _loadFallback.
    destruct url as [u|]; [destruct (truthy_str u)|];
      rewrite run_bind_get, Hh0; reflexivity. }
  unfold _start_resume, _makeWebView_resume.
  rewrite run_bind_assoc, run_bind_modify.
  unfold frame_set_child.
  rewrite run_bind_assoc.
  erewrite run_bind_deref_some by reflexivity.
  cbn [_child Bool.eqb]. rewrite run_bind_assoc, run_bind_ret, run_bind_modify.
  rewrite run_bind_modify, run_bind_get.
  cbn [_webView set_frame set_webView set_webViewPromise].
  erewrite run_bind_returned by (apply Hload; reflexivity).
  unfold _flushPendingHostStatePatches.
  rewrite run_bind_assoc, run_bind_get.
  change (for_each ?l _sendHostStatePatch)
    with (for_each l (fun v => _evaluateScript (SetHostStateScript v))).
  rewrite run_bind_assoc.
  erewrite run_bind_returned by (apply flush_live; simpl; eauto).
  rewrite run_bind_modify.
  unfold _flushPendingMessages.
  rewrite run_bind_get.
  change (for_each ?l _postMessage)
    with (for_each l (fun v => _evaluateScript (PostMessageScript v))).
  erewrite run_bind_returned by (apply flush_live; simpl; eauto).
  unfold modify, log_calls, log_call, set_messages, set_patches, set_webView,
    set_frame.
  simpl. by rewrite <- !app_assoc.
Qed.

(** *** The promise of a view *)

Lemma flush_any (mk : jsval -> Script) (vs : list jsval) h :
  exists cs,
    for_each vs (fun v => _evaluateScript (mk v)) h
    = (log_calls cs h, Returned tt).
Proof.
  destruct (_destroyed h) eqn:Hd.
  - exists []. rewrite log_calls_nil. apply flush_dead. by left.
  - destruct (_webView h) as [wv|] eqn:Hwv.
    + eexists. by apply flush_live.
    + exists []. rewrite log_calls_nil. apply flush_dead. by right.
Qed.

(** [_start()] resolves the promise when it gets that far: when its
    continuation returns, nobody is left waiting; when it raises, it
    has not reached the promise and whoever waited still waits. *)
Lemma start_resume_resolves wv url h :
  match _start_resume wv url h with
  | (h', Returned _) => _webViewPromise h' = []
  | (h', Threw _) => _webViewPromise h' = _webViewPromise h
  end.
Proof.
  destruct h as [i w m pu ps ms v d f wp cs].
  unfold _start_resume, _makeWebView_resume, frame_set_child.
  rewrite run_bind_assoc, run_bind_modify. cbn [set_webView].
  rewrite !run_bind_assoc.
  destruct f as [[c]|].
  2:{ by erewrite run_bind_deref_none by reflexivity. }
  erewrite run_bind_deref_some by reflexivity. cbn [_child].
  assert (Hrest : forall cs0 fr,
    match
      (modify (set_webViewPromise []) ;;;
       h <- get ;;
       match _webView h with
       | Some _ =>
           match url with
           | Some u => if truthy_str u then load_uri u
                       else _loadFallback "Missing entry/prefs URL"
           | None => _loadFallback "Missing entry/prefs URL"
           end ;;;
           _flushPendingHostStatePatches ;;;
           _flushPendingMessages
       | None => ret tt
       end) (mkHost i w m pu ps ms (Some wv) d fr wp cs0)
    with
    | (h', Returned _) => _webViewPromise h' = []
    | (h', Threw _) => _webViewPromise h' = wp
    end).
  { intros cs0 fr. rewrite run_bind_modify, run_bind_get.
    cbn [set_webViewPromise _webView].
    assert (Hload : exists wv1 cs1,
      match url with
      | Some u => if truthy_str u then load_uri u
                  else _loadFallback "Missing entry/prefs URL"
      | None => _loadFallback "Missing entry/prefs URL"
      end (mkHost i w m pu ps ms (Some wv) d fr [] cs0)
      = (mkHost i w m pu ps ms (Some wv1) d fr [] cs1, Returned tt)).
    { destruct url as [u|]; [destruct (truthy_str u)|]; by eexists _, _. }
    destruct Hload as (wv1 & cs1 & Hload).
    erewrite run_bind_returned by exact Hload.
    unfold _flushPendingHostStatePatches, _flushPendingMessages.
    rewrite run_bind_assoc, run_bind_get. cbn [_pendingHostStatePatches].
    change (for_each ?l _sendHostStatePatch)
      with (for_each l (fun v => _evaluateScript (SetHostStateScript v))).
    change (for_each ?l _postMessage)
      with (for_each l (fun v => _evaluateScript (PostMessageScript v))).
    rewrite run_bind_assoc.
    destruct (flush_any SetHostStateScript ps
                (mkHost i w m pu ps ms (Some wv1) d fr [] cs1)) as [cs2 Hf2].
    erewrite run_bind_returned by exact Hf2.
    rewrite run_bind_modify, run_bind_get.
    cbn [log_calls set_patches _pendingPostMessages].
    destruct (flush_any PostMessageScript ms
                (mkHost i w m pu [] ms (Some wv1) d fr [] (cs1 ++ cs2)))
      as [cs3 Hf3].
    erewrite run_bind_returned by exact Hf3.
    reflexivity. }
  destruct c; cbn [Bool.eqb].
  - rewrite run_bind_ret. apply Hrest.
  - rewrite !run_bind_assoc, run_bind_ret, run_bind_modify. cbn [set_frame].
    apply Hrest.
Qed.

(** C5 (as the code has it). Calls made on a host before its surface is
    ready evaluate nothing; when the surface becomes ready every queued
    object-valued patch and message is evaluated exactly once, patches
    first and messages second, each kind in its original call order,
    and both queues are left empty. Calls made after readiness are
    evaluated at once, in call order, and are never queued. *)
Theorem queued_calls_flushed_once_per_kind
    (p : Params) (cs later : list Call)
    (wv : WebKit.WebView) (url : option string) :
  let queued := do_calls cs (new p) in
  let ready := _start_resume wv url (state_of queued) in
  let after := do_calls later (state_of ready) in
  outcome_of queued = Returned tt /\
  scripts_evaluated (state_of queued) = [] /\
  outcome_of ready = Returned tt /\
  scripts_evaluated (state_of ready) = patch_scripts cs ++ message_scripts cs /\
  _pendingHostStatePatches (state_of ready) = [] /\
  _pendingPostMessages (state_of ready) = [] /\
  outcome_of after = Returned tt /\
  scripts_evaluated (state_of after)
  = scripts_evaluated (state_of ready) ++ omap script_of_call later /\
  _pendingHostStatePatches (state_of after) = [] /\
  _pendingPostMessages (state_of after) = [].
Proof.
  intros queued ready after.
  assert (Hq : queued
               = (set_messages (queued_messages cs)
                    (set_patches (queued_patches cs) (new p)),
                  Returned tt)).
  { unfold queued. by rewrite do_calls_queued. }
  set (hr := mkHost (p_instanceId p) (p_widgetId p) (_mode (new p))
                (_prefsUri (new p)) [] []
                (Some (WebKit.set_uri (Some (snd (first_load url))) wv))
                false (Some (mkFrame true)) []
                ([fst (first_load url)]
                 ++ (EvaluateJavascript <$> patch_scripts cs)
                 ++ (EvaluateJavascript <$> message_scripts cs))).
  assert (Hrr : ready = (hr, Returned tt)).
  { unfold ready. rewrite Hq. unfold state_of. cbn [fst].
    rewrite start_resume_waiting by done. unfold hr.
    rewrite patch_scripts_queued, message_scripts_queued. reflexivity. }
  assert (Hr : state_of ready = hr) by (by rewrite Hrr).
  assert (Hro : outcome_of ready = Returned tt) by (by rewrite Hrr).
  assert (Hev : scripts_evaluated (state_of ready)
                = patch_scripts cs ++ message_scripts cs).
  { rewrite Hr. unfold scripts_evaluated, hr. cbn [surface_calls].
    rewrite !omap_app, !omap_evaluate.
    unfold first_load. destruct url as [u|]; [destruct (truthy_str u)|]; done. }
  assert (Ha : after
               = (log_calls (EvaluateJavascript <$> omap script_of_call later)
                    (state_of ready), Returned tt)).
  { unfold after. rewrite do_calls_live; [done | |]; rewrite Hr; simpl; eauto. }
  repeat split.
  - by rewrite Hq.
  - by rewrite Hq.
  - done.
  - done.
  - by rewrite Hr.
  - by rewrite Hr.
  - by rewrite Ha.
  - rewrite Ha. unfold state_of at 1. simpl fst.
    by rewrite scripts_evaluated_app_calls, omap_evaluate.
  - rewrite Ha, Hr. done.
  - rewrite Ha, Hr. done.
Qed.

(** *** Teardown *)

(** A host torn down for good: flagged destroyed, its frame released. *)
Definition torn_down (h : Host) : Prop :=
  _destroyed h = true /\ _frame h = None.

Lemma destroy_ready h :
  surface_ready h ->
  outcome_of (destroy h) = Returned tt /\
  torn_down (state_of (destroy h)) /\
  _webView (state_of (destroy h)) = None /\
  _pendingHostStatePatches (state_of (destroy h)) = [] /\
  scripts_evaluated (state_of (destroy h)) = scripts_evaluated h.
Proof.
  intros [[wv Hwv] [f Hf]].
  destruct h as [i w m pu ps ms v d fr wp cs]; simpl in *. subst v fr.
  unfold destroy, frame_set_child, scripts_evaluated, torn_down.
  destruct f as [[|]]; cbn; rewrite ?omap_app; cbn;
    rewrite ?app_nil_r; done.
Qed.

(** Whatever runs on a torn-down host leaves it torn down and evaluates
    nothing; patches and messages return normally, [destroy()] throws
    on the released frame. *)
Lemma torn_down_op o h :
  torn_down h ->
  torn_down (state_of (do_op o h)) /\
  scripts_evaluated (state_of (do_op o h)) = scripts_evaluated h /\
  match o with
  | OpCall _ => outcome_of (do_op o h) = Returned tt
  | OpDestroy => outcome_of (do_op o h) = Threw TypeError
  | OpStartResume _ _ => True
  end.
Proof.
  intros [Hd Hf]. destruct h as [i w m pu ps ms v d fr wp cs]; simpl in *.
  subst d fr. unfold torn_down.
  destruct o as [|[p|msg]|wv url]; simpl.
  - done.
  - unfold setHostStatePatch. by destruct (is_object p).
  - unfold postMessage. by destruct (is_object msg).
  - done.
Qed.

Lemma torn_down_run ops h :
  torn_down h ->
  torn_down (fst (run_ops ops h)) /\
  scripts_evaluated (fst (run_ops ops h)) = scripts_evaluated h /\
  (forall i c, ops !! i = Some (OpCall c) ->
               snd (run_ops ops h) !! i = Some (Returned tt)) /\
  (forall i, ops !! i = Some OpDestroy ->
             snd (run_ops ops h) !! i = Some (Threw TypeError)).
Proof.
  revert h. induction ops as [|o ops IH]; intros h Hh; simpl.
  - split; [done |]. split; [done |].
    split; intros i; by rewrite lookup_nil.
  - destruct (torn_down_op o h Hh) as (Ht & Hs & Ho).
    destruct (IH _ Ht) as (Ht' & Hs' & Hc & Hdz).
    unfold state_of, outcome_of in *.
    repeat split; try apply Ht'.
    + by rewrite Hs'.
    + intros [|i] c Hi; simpl in *; [|by eapply Hc].
      injection Hi as ->. by rewrite Ho.
    + intros [|i] Hi; simpl in *; [|by eapply Hdz].
      injection Hi as ->. by rewrite Ho.
Qed.

(** C9 (as the code has it). [destroy()] on a host whose surface is
    ready returns normally, drops the queued patches and leaves the host
    non-alive; whatever runs on the host afterwards, it stays non-alive
    and no script reaches a surface, later patches and messages return
    normally, and every later [destroy()] throws a [TypeError] (the
    frame it dereferences is gone). *)
Theorem destroy_once_then_quiescent (h : Host) (ops : list Op) :
  surface_ready h ->
  let d := destroy h in
  let r := run_ops ops (state_of d) in
  outcome_of d = Returned tt /\
  _pendingHostStatePatches (state_of d) = [] /\
  isAlive (state_of d) = false /\
  isAlive (fst r) = false /\
  scripts_evaluated (fst r) = scripts_evaluated h /\
  (forall i c, ops !! i = Some (OpCall c) ->
               snd r !! i = Some (Returned tt)) /\
  (forall i, ops !! i = Some OpDestroy ->
             snd r !! i = Some (Threw TypeError)).
Proof.
  intros Hready d r.
  destruct (destroy_ready h Hready) as (Ho & Ht & _ & Hp & Hs).
  destruct (torn_down_run ops _ Ht) as (Ht' & Hs' & Hc & Hdz).
  unfold isAlive. repeat split.
  - exact Ho.
  - exact Hp.
  - destruct Ht as [Hd' _]. unfold d. by rewrite Hd'.
  - destruct Ht' as [Hd' _]. unfold r, d. by rewrite Hd'.
  - unfold r, d. by rewrite Hs'.
  - exact Hc.
  - exact Hdz.
Qed.

(** A host that became ready with one patch evaluated, used below. *)
Definition ready_host_example : Host :=
  state_of
    (do_calls [CallSetHostStatePatch (JObj [("selected", JBool true)])]
       (state_of
          (_start_resume
             (WebKit.mkWebView (Some ["w"; "clock"]) "clock" "abc" None)
             (Some "ding-widget://abc/index.html")
             (new (mkParams "abc" "clock" None None))))).

Lemma destroy_once_then_quiescent_witness :
  surface_ready ready_host_example /\
  let ops := [OpCall (CallPostMessage (JObj [])); OpDestroy] in
  let d := destroy ready_host_example in
  let r := run_ops ops (state_of d) in
  outcome_of d = Returned tt /\
  _pendingHostStatePatches (state_of d) = [] /\
  isAlive (state_of d) = false /\
  isAlive (fst r) = false /\
  scripts_evaluated (fst r) = scripts_evaluated ready_host_example /\
  (forall i c, ops !! i = Some (OpCall c) ->
               snd r !! i = Some (Returned tt)) /\
  (forall i, ops !! i = Some OpDestroy ->
             snd r !! i = Some (Threw TypeError)).
Proof.
  assert (Hr : surface_ready ready_host_example).
  { split; vm_compute; eauto. }
  split; [exact Hr |].
  exact (destroy_once_then_quiescent ready_host_example _ Hr).
Defined.

(** The claim as worded has a second [destroy()] return normally. On a
    ready host the first call succeeds and the second one throws. *)
Lemma second_destroy_throws :
  let d := destroy ready_host_example in
  outcome_of d = Returned tt /\
  outcome_of (destroy (state_of d)) <> Returned tt /\
  outcome_of (destroy (state_of d)) = Threw TypeError.
Proof.
  split; [reflexivity |].
  split; [intros H; vm_compute in H; discriminate H | reflexivity].
Qed.

(** The claim as worded asks for one order across both kinds of call.
    A message posted before a patch is nevertheless evaluated after
    it. *)
Lemma flush_is_not_in_call_order :
  let cs := [CallPostMessage (JObj [("type", JStr "hello")]);
             CallSetHostStatePatch (JObj [("selected", JBool true)])] in
  let p := mkParams "abc" "clock" None None in
  let wv := WebKit.mkWebView (Some ["w"; "clock"]) "clock" "abc" None in
  let ready :=
    _start_resume wv (Some "ding-widget://abc/index.html")
      (state_of (do_calls cs (new p))) in
  scripts_evaluated (state_of ready) <> omap script_of_call cs /\
  scripts_evaluated (state_of ready)
  = [SetHostStateScript (JObj [("selected", JBool true)]);
     PostMessageScript (JObj [("type", JStr "hello")])].
Proof. split; [intros H; vm_compute in H; discriminate H | reflexivity]. Qed.

End HtmlWidgetHostFacts.

(* ===================================================================== *)
(** ** WidgetManager: persistence facts                                   *)
(* ===================================================================== *)

Module WidgetManagerFacts.
Import Model WidgetManager.

Lemma insert_sorted_Permutation {A} (cmp : A -> A -> Z) (x : A) (l : list A) :
  insert_sorted cmp x l ≡ₚ x :: l.
Proof.
  induction l as [|y l IH]; simpl; [done |].
  destruct (cmp x y <=? 0)%Z; [done |].
  rewrite IH. apply Permutation_swap.
Qed.

Lemma array_sort_Permutation {A} (cmp : A -> A -> Z) (l : list A) :
  array_sort cmp l ≡ₚ l.
Proof.
  induction l as [|x l IH]; simpl; [done |].
  rewrite insert_sorted_Permutation. by rewrite IH.
Qed.

(** C7. [loadState(null)] and [loadState({version: 1})] return at once
    and leave the whole manager as it was, so no instance is added,
    removed or changed; with any other version and no [instances] array
    only a warning is written and the instances stay as they were. *)
Theorem loadState_without_instances_is_noop (m : Manager) :
  loadState StateNullish m = (m, Returned tt) /\
  loadState (StateObject (JNum 1) None) m = (m, Returned tt) /\
  forall version : jsval,
    outcome_of (loadState (StateObject version None) m) = Returned tt /\
    _instances (state_of (loadState (StateObject version None) m))
    = _instances m /\
    _selectedInstanceId (state_of (loadState (StateObject version None) m))
    = _selectedInstanceId m.
Proof.
  split; [reflexivity |].
  split; [reflexivity |].
  intros version. destruct m as [sf ins ch sel ctx sup pr wins na cons].
  unfold loadState.
  destruct version as [| |b|q|s|items|fields]; try (repeat split; reflexivity).
  destruct (Qeq_bool q 1) eqn:Hq.
  - rewrite run_bind_ret. repeat split; reflexivity.
  - rewrite run_bind_modify. repeat split; reflexivity.
Qed.

(** C10. [exportState()] returns a document and leaves the manager
    exactly as it found it: the same instance map with the same
    records, the same surfaces, selection and preferences. The document
    lists the non-chrome instances, each once. *)
Theorem exportState_observes_only (m : Manager) :
  state_of (exportState m) = m /\
  JsMap.keys (_instances (state_of (exportState m))) = JsMap.keys (_instances m) /\
  (forall k, getInstance k (state_of (exportState m)) = getInstance k m) /\
  exists doc,
    outcome_of (exportState m) = Returned doc /\
    version doc = 1%Z /\
    instances doc
    ≡ₚ export_instance
         <$> List.filter (fun inst => negb (_isAddButton inst))
               (JsMap.values (_instances m)).
Proof.
  assert (Hstate : state_of (exportState m) = m) by reflexivity.
  split; [exact Hstate |].
  split; [by rewrite Hstate |].
  split; [intros k; by rewrite Hstate |].
  eexists. split; [reflexivity |]. split; [reflexivity |].
  cbn [instances]. apply fmap_Permutation, array_sort_Permutation.
Qed.

End WidgetManagerFacts.

(* ===================================================================== *)
(** ** The updateConfig message                                           *)
(* ===================================================================== *)

Module WidgetMessagesFacts.
Import Model WidgetMessages.

(** The preferences window is open for instance [k]. *)
Definition preferences_open_for (k : string) (m : Manager)
    (ph : HtmlWidgetHost.Host) : Prop :=
  exists ctx w,
    _webWidgetContext m = Some ctx /\
    _prefsWindow ctx = Some w /\
    _prefsHost ctx = Some ph /\
    _prefsInstanceId ctx = Some k.

(** The preferences host of the manager's context, if any. *)
Definition prefs_host (m : Manager) : option HtmlWidgetHost.Host :=
  ctx ← _webWidgetContext m; _prefsHost ctx.

Definition prefs_instance (m : Manager) : option string :=
  ctx ← _webWidgetContext m; _prefsInstanceId ctx.

(** An instance with a live widget surface that still shows its own
    ding-widget:// page. *)
Record live_surface (k : string) (m : Manager) (inst : Instance)
    (h : HtmlWidgetHost.Host) : Prop := mkLive {
  live_instance : getInstance k m = Some inst;
  live_id : instanceId inst = k;
  live_host : host inst = Some h;
  live_alive : HtmlWidgetHost._destroyed h = false;
  live_uri :
    exists wv, HtmlWidgetHost._webView h = Some wv /\
      Str.startsWith ("ding-widget://" +:+ k +:+ "/")
        (nullish (WebKit.uri wv) "") = true
}.

Lemma stateChanged_touches_preferences (m : Manager) :
  exists p, WidgetManager._stateChanged m = (set_preferences p m, Returned tt).
Proof.
  destruct m as [sf ins ch sel ctx sup pr wins na cons].
  unfold WidgetManager._stateChanged. rewrite run_bind_get.
  destruct sup; cbn [_suppressStateEvents].
  - by exists pr.
  - eexists. reflexivity.
Qed.

Lemma get_update_instance k f m inst :
  getInstance k m = Some inst ->
  getInstance k (update_instance k f m) = Some (f inst).
Proof.
  destruct m as [sf ins ch sel ctx sup pr wins na cons].
  unfold getInstance, update_instance. simpl. intros ->. simpl.
  apply JsMap.get_set_eq.
Qed.

Lemma postMessage_live msg h :
  is_object msg = true ->
  HtmlWidgetHost._destroyed h = false ->
  is_Some (HtmlWidgetHost._webView h) ->
  HtmlWidgetHost.postMessage msg h
  = (HtmlWidgetHostFacts.log_calls
       [HtmlWidgetHost.EvaluateJavascript (HtmlWidgetHost.PostMessageScript msg)]
       h, Returned tt).
Proof.
  intros Hm Hd [wv Hwv]. destruct h; simpl in *. subst.
  unfold HtmlWidgetHost.postMessage. rewrite Hm. reflexivity.
Qed.

Lemma postMessage_waiting msg h :
  is_object msg = true ->
  HtmlWidgetHost._webView h = None ->
  HtmlWidgetHost.postMessage msg h
  = (HtmlWidgetHost.set_messages
       (HtmlWidgetHost._pendingPostMessages h ++ [msg]) h, Returned tt).
Proof.
  intros Hm Hwv. destruct h; simpl in *. subst.
  unfold HtmlWidgetHost.postMessage. rewrite Hm. simpl.
  rewrite run_bind_get. simpl. by rewrite orb_true_r.
Qed.

Lemma postMessage_returns msg h :
  snd (HtmlWidgetHost.postMessage msg h) = Returned tt.
Proof.
  destruct h as [i w m pu ps ms v d f wp cs].
  unfold HtmlWidgetHost.postMessage. destruct (is_object msg); [|done].
  destruct d; [done |]. by destruct v.
Qed.

Lemma is_object_truthy v : is_object v = true -> or_else v (JObj []) = v.
Proof. by destruct v. Qed.

(** The [configChanged] message for instance [k] carrying [cfg]. *)
Definition config_changed_message (k : string) (cfg mode : jsval) : jsval :=
  JObj [("_dingInternal", JBool true);
        ("type", JStr "configChanged");
        ("instanceId", JStr k);
        ("config", cfg);
        ("reason", JStr "configSaved");
        ("sourceMode", mode)].

(** C6. An [updateConfig] message with an object-valued config, for an
    instance whose live surface still shows its ding-widget:// page:
    the instance's config becomes the supplied object, and one
    [configChanged] message carrying it is evaluated in the widget
    surface. If the context's preferences host belongs to that instance
    the same message is posted to it (evaluated at once when its
    surface is ready, queued for the flush otherwise); a preferences
    host of another instance is left alone. *)
Theorem updateConfig_replaces_config_and_broadcasts
    (env : Locale) (m : Manager) (k : string) (payload : jsval)
    (inst : Instance) (h : HtmlWidgetHost.Host) (ctx : Context) :
  field "instanceId" payload = JStr k ->
  field "type" payload = JStr "updateConfig" ->
  is_object (field "config" payload) = true ->
  _webWidgetContext m = Some ctx ->
  live_surface k m inst h ->
  let r := _dispatchWidgetMessage env payload m in
  let msg := config_changed_message k (field "config" payload)
               (default_null (field "mode" payload)) in
  outcome_of r = Returned tt /\
  (exists inst' h',
     getInstance k (state_of r) = Some inst' /\
     config inst' = field "config" payload /\
     host inst' = Some h' /\
     HtmlWidgetHost.scripts_evaluated h'
     = HtmlWidgetHost.scripts_evaluated h
       ++ [HtmlWidgetHost.PostMessageScript msg]) /\
  match _prefsHost ctx with
  | Some ph =>
      if same_id (_prefsInstanceId ctx) k then
        prefs_host (state_of r)
        = Some (state_of (HtmlWidgetHost.postMessage msg ph)) /\
        (HtmlWidgetHost._destroyed ph = false ->
         is_Some (HtmlWidgetHost._webView ph) ->
         HtmlWidgetHost.scripts_evaluated
           (state_of (HtmlWidgetHost.postMessage msg ph))
         = HtmlWidgetHost.scripts_evaluated ph
           ++ [HtmlWidgetHost.PostMessageScript msg]) /\
        (HtmlWidgetHost._webView ph = None ->
         HtmlWidgetHost._pendingPostMessages
           (state_of (HtmlWidgetHost.postMessage msg ph))
         = HtmlWidgetHost._pendingPostMessages ph ++ [msg])
      else prefs_host (state_of r) = Some ph
  | None => prefs_host (state_of r) = None
  end.
Proof.
  intros Hid Hty Hobj Hctx [Hget Hiid Hhost Halive (wv & Hwv & Huri)] r msg.
  destruct m as [sf ins ch sel octx sup pr wins na cons].
  simpl in Hctx. subst octx.
  unfold getInstance in Hget. simpl in Hget.
  set (cfg := field "config" payload) in *.
  set (mode := default_null (field "mode" payload)) in *.
  set (inst1 := set_config cfg inst).
  assert (Hmsg : WebWidgetContext.configChanged inst1 mode = msg).
  { unfold WebWidgetContext.configChanged, msg, config_changed_message, inst1.
    destruct inst; simpl in *. subst. by rewrite is_object_truthy. }
  assert (Hhost1 : host inst1 = Some h) by (unfold inst1; by destruct inst).
  assert (Hid1 : instanceId inst1 = k) by (unfold inst1; by destruct inst).
  assert (Hpost : HtmlWidgetHost.postMessage msg h
                  = (HtmlWidgetHostFacts.log_calls
                       [HtmlWidgetHost.EvaluateJavascript
                          (HtmlWidgetHost.PostMessageScript msg)] h,
                     Returned tt)).
  { apply postMessage_live; [done | done | by eauto]. }
  set (h1 := HtmlWidgetHostFacts.log_calls
               [HtmlWidgetHost.EvaluateJavascript
                  (HtmlWidgetHost.PostMessageScript msg)] h) in *.
  set (ins1 := JsMap.set k inst1 ins).
  set (ins2 := JsMap.set k (set_host (Some h1) inst1) ins1).
  (* the manager after the config is stored and the state written out *)
  destruct (stateChanged_touches_preferences
              (mkManager sf ins1 ch sel (Some ctx) sup pr wins na cons))
    as [p Hsc].
  simpl in Hsc.
  assert (Hr : r = (match _prefsHost ctx with
                    | Some ph =>
                        if same_id (_prefsInstanceId ctx) k then
                          mkManager sf ins2 ch sel
                            (Some (set_prefsHost
                                     (Some (state_of
                                              (HtmlWidgetHost.postMessage msg ph)))
                                     ctx))
                            sup p wins na cons
                        else mkManager sf ins2 ch sel (Some ctx) sup p wins na cons
                    | None => mkManager sf ins2 ch sel (Some ctx) sup p wins na cons
                    end, Returned tt)).
  { unfold r, _dispatchWidgetMessage. rewrite run_bind_get, Hid.
    unfold getInstance. cbn [_instances]. rewrite Hget, Hhost, Hwv.
    unfold _dispatchWidgetMessage_resume. rewrite Huri.
    cbn [negb]. rewrite Hty. fold cfg mode. rewrite Hobj.
    unfold WidgetManager.updateInstanceConfig.
    rewrite run_bind_assoc, run_bind_get. cbn [_instances]. rewrite Hget.
    rewrite run_bind_assoc, run_bind_modify.
    unfold update_instance. cbn [_instances]. rewrite Hget.
    cbn [set_instances]. fold inst1 ins1.
    erewrite run_bind_returned by exact Hsc.
    unfold WebWidgetContext._pushConfigChangedForInstance.
    rewrite run_bind_get. unfold getInstance. cbn [_instances].
    unfold ins1 at 1. rewrite JsMap.get_set_eq. rewrite Hmsg.
    unfold WebWidgetContext._postToBoth, WebWidgetContext._postToWidget.
    unfold on_instance_host at 1. unfold bind at 1. cbn [_instances].
    unfold ins1 at 1. rewrite JsMap.get_set_eq, Hhost1. cbn zeta.
    rewrite Hpost. cbn [fst snd]. unfold update_instance. cbn [_instances].
    unfold ins1 at 1. rewrite JsMap.get_set_eq. cbn [set_instances].
    fold ins1 ins2.
    unfold WebWidgetContext._postToPrefs. rewrite run_bind_get.
    unfold getInstance. cbn [_instances].
    unfold ins2 at 1. rewrite JsMap.get_set_eq.
    erewrite run_bind_deref_some by reflexivity.
    assert (Hid2 : instanceId (set_host (Some h1) inst1) = k)
      by (unfold inst1; by destruct inst).
    rewrite Hid2.
    destruct (same_id (_prefsInstanceId ctx) k) eqn:Hsame.
    - unfold on_prefs_host. cbn [_webWidgetContext].
      destruct (_prefsHost ctx) as [ph|]; [|reflexivity].
      cbn zeta. rewrite postMessage_returns. reflexivity.
    - by destruct (_prefsHost ctx). }
  assert (Hinst2 : forall c p', getInstance k
            (mkManager sf ins2 ch sel c sup p' wins na cons)
            = Some (set_host (Some h1) inst1)).
  { intros c p'. unfold getInstance. cbn [_instances]. unfold ins2.
    apply JsMap.get_set_eq. }
  split; [by rewrite Hr |].
  split.
  - exists (set_host (Some h1) inst1), h1.
    assert (Hstate : getInstance k (state_of r) = Some (set_host (Some h1) inst1)).
    { rewrite Hr. unfold state_of. cbn [fst].
      destruct (_prefsHost ctx) as [ph|];
        [destruct (same_id (_prefsInstanceId ctx) k)|]; apply Hinst2. }
    split; [exact Hstate |].
    split; [unfold inst1; by destruct inst |].
    split; [unfold inst1; by destruct inst |].
    unfold h1. rewrite HtmlWidgetHostFacts.scripts_evaluated_app_calls.
    reflexivity.
  - destruct (_prefsHost ctx) as [ph|] eqn:Hph.
    + destruct (same_id (_prefsInstanceId ctx) k) eqn:Hsame.
      * split; [|split].
        -- rewrite Hr. unfold prefs_host, state_of. cbn.
           by destruct ctx.
        -- intros Hd Hv. rewrite postMessage_live by done.
           unfold state_of. cbn [fst].
           by rewrite HtmlWidgetHostFacts.scripts_evaluated_app_calls.
        -- intros Hv. rewrite postMessage_waiting by done.
           unfold state_of. cbn [fst]. by destruct ph.
      * rewrite Hr. unfold prefs_host, state_of. cbn. exact Hph.
    + rewrite Hr. unfold prefs_host, state_of. cbn. exact Hph.
Qed.

(** Instance [X] with a live surface, its preferences window open and
    the preferences surface still under construction. *)
Definition example_widget_host : HtmlWidgetHost.Host :=
  state_of
    (HtmlWidgetHost._start_resume
       (WebKit.mkWebView (Some ["usr"; "share"; "widgets"; "clock"])
          "clock" "X" None)
       (Some "ding-widget://X/index.html?dingMode=widget&dingInstanceId=X")
       (HtmlWidgetHost.new (HtmlWidgetHost.mkParams "X" "clock" None None))).

Definition example_instance : Instance :=
  mkInstance "X" "clock" "html" 0 0.5 0.5 200 150
    (Some (Gtk.WActor 0)) (Some example_widget_host)
    (JObj [("color", JStr "blue")]) (Some "prefs.html") (Some true) false.

Definition example_context : Context :=
  mkContext true (Some 0)
    (Some (HtmlWidgetHost.new
             (HtmlWidgetHost.mkParams "X" "clock" (Some "prefs")
                (Some "prefs.html"))))
    (Some "X") [("X", ["usr"; "share"; "widgets"; "clock"])].

Definition example_manager : Manager :=
  mkManager
    [(0%Z, mkSurface (mkGrid 1000 800 true)
             [Gtk.mkChild (Gtk.WActor 0) (Some "X")] 0 false)]
    [("X", example_instance)] false (Some "X") (Some example_context) false
    (mkPreferences true false true None) [Gtk.mkWindow 0 true 1] 1 [].

Definition example_updateConfig : jsval :=
  JObj [("instanceId", JStr "X"); ("type", JStr "updateConfig");
        ("config", JObj [("color", JStr "red")]); ("mode", JStr "widget")].

Lemma updateConfig_replaces_config_and_broadcasts_witness :
  let r := _dispatchWidgetMessage (mkLocale "en_US" "ltr")
             example_updateConfig example_manager in
  outcome_of r = Returned tt /\
  config <$> getInstance "X" (state_of r)
  = Some (JObj [("color", JStr "red")]).
Proof.
  assert (Hlive : live_surface "X" example_manager example_instance
                    example_widget_host).
  { split; try reflexivity. eexists. split; reflexivity. }
  destruct (updateConfig_replaces_config_and_broadcasts
              (mkLocale "en_US" "ltr") example_manager "X"
              example_updateConfig example_instance example_widget_host
              example_context eq_refl eq_refl eq_refl eq_refl Hlive)
    as (Hout & (inst' & h' & Hget & Hcfg & _) & _).
  split; [exact Hout |].
  rewrite Hget. simpl. by rewrite Hcfg.
Defined.

End WidgetMessagesFacts.

(* ===================================================================== *)
(** ** The preferences window                                             *)
(* ===================================================================== *)

Module PreferencesWindowFacts.
Import Model WebWidgetContext.

(** The preferences window the context refers to, if any. *)
Definition prefs_window (m : Manager) : option nat :=
  ctx ← _webWidgetContext m; _prefsWindow ctx.

(** Opening for an instance that is not the selected one changes
    nothing. *)
Lemma open_for_unselected_is_noop (m : Manager) (k : string)
    (uri : option string) :
  _selectedInstanceId m <> Some k ->
  openPreferencesForInstance (Some k) uri m = (m, Returned tt).
Proof.
  intros Hsel. unfold openPreferencesForInstance.
  destruct (negb (truthy_str k) || negb (truthy_ostr uri)); [done |].
  rewrite run_bind_get. unfold getSelectedInstanceId, same_id.
  rewrite (bool_decide_eq_false_2 _ Hsel). by rewrite orb_true_r.
Qed.

(** Opening for the selected instance whose window is already open
    presents that window again and changes nothing else. *)
Lemma open_again_presents (m : Manager) (ctx : Context) (k uri : string)
    (w : nat) :
  truthy_str k = true -> truthy_str uri = true ->
  _selectedInstanceId m = Some k ->
  _webWidgetContext m = Some ctx ->
  _prefsWindow ctx = Some w -> _prefsInstanceId ctx = Some k ->
  openPreferencesForInstance (Some k) (Some uri) m = present w m.
Proof.
  intros Hk Huri Hsel Hctx Hw Hi. unfold openPreferencesForInstance.
  cbn [truthy_ostr]. rewrite Hk, Huri. cbn [negb orb].
  rewrite run_bind_get. unfold getSelectedInstanceId, same_id. rewrite Hsel.
  cbn [truthy_ostr]. rewrite Hk. rewrite bool_decide_eq_true_2 by done.
  cbn [negb orb]. erewrite run_bind_deref_some by exact Hctx.
  rewrite Hw, Hi. by rewrite bool_decide_eq_true_2.
Qed.

(** *** At most one window *)

(** Windows are numbered as they are created, and a window that is
    still open is the one the context refers to. *)
Definition one_window (m : Manager) : Prop :=
  Gtk.win_id <$> gtk_windows m = seq 0 (length (gtk_windows m))
  /\ forall w, w ∈ gtk_windows m -> Gtk.alive w = true ->
       prefs_window m = Some (Gtk.win_id w).

Definition open_windows (m : Manager) : list Gtk.Window :=
  List.filter Gtk.alive (gtk_windows m).

Lemma NoDup_fmap_filter {A B} (f : A -> B) (p : A -> bool) (l : list A) :
  NoDup (f <$> l) -> NoDup (f <$> List.filter p l).
Proof.
  induction l as [|x l IH]; [done |]. csimpl. intros Hnd.
  apply NoDup_cons in Hnd as [Hx Hnd].
  destruct (p x); csimpl; [|by apply IH].
  apply NoDup_cons. split; [|by apply IH].
  intros Hin. apply Hx. apply list_elem_of_fmap in Hin as (y & -> & Hy).
  apply list_elem_of_fmap. exists y. split; [done |].
  apply list_elem_of_In in Hy. apply filter_In in Hy as [Hy _].
  by apply list_elem_of_In.
Qed.

(** At most one window is open. *)
Lemma one_window_open m : one_window m -> length (open_windows m) <= 1.
Proof.
  intros [Hids Halive]. unfold open_windows.
  assert (Hnd : NoDup (Gtk.win_id <$> List.filter Gtk.alive (gtk_windows m))).
  { apply NoDup_fmap_filter. rewrite Hids. apply NoDup_seq. }
  assert (Hsame : forall w, w ∈ List.filter Gtk.alive (gtk_windows m) ->
                    prefs_window m = Some (Gtk.win_id w)).
  { intros w Hw. apply list_elem_of_In in Hw. apply filter_In in Hw as [Hw Ha].
    apply Halive; [by apply list_elem_of_In | done]. }
  destruct (List.filter Gtk.alive (gtk_windows m)) as [|w1 [|w2 l]]; simpl; try lia.
  exfalso. csimpl in Hnd. apply NoDup_cons in Hnd as [Hne _]. apply Hne.
  pose proof (Hsame w1 ltac:(by left)) as H1.
  pose proof (Hsame w2 ltac:(right; by left)) as H2.
  rewrite H1 in H2. injection H2 as ->. by left.
Qed.

#[local] Arguments HtmlWidgetHost.destroy : simpl never.

Definition on_id (k : nat) (f : Gtk.Window -> Gtk.Window) (w : Gtk.Window)
  : Gtk.Window :=
  if decide (Gtk.win_id w = k) then f w else w.

Lemma ids_on_id k f (l : list Gtk.Window) :
  (forall w, Gtk.win_id (f w) = Gtk.win_id w) ->
  Gtk.win_id <$> (on_id k f <$> l) = Gtk.win_id <$> l.
Proof.
  intros Hf. rewrite <- list_fmap_compose. apply list_fmap_ext.
  intros i w _. unfold on_id. simpl. by destruct (decide _).
Qed.

Lemma one_window_present k m :
  one_window m -> one_window (state_of (present k m)).
Proof.
  intros [Hids Halive]. destruct m as [sf ins ch sel ctx sup pr wins na cons].
  unfold one_window, prefs_window in *. simpl in *.
  change (fun w => if decide (Gtk.win_id w = k) then add_presented w else w)
    with (on_id k add_presented).
  split.
  - rewrite ids_on_id by (by intros []). by rewrite length_fmap.
  - intros w' Hw' Ha. apply list_elem_of_fmap in Hw' as (w & -> & Hw).
    assert (Gtk.win_id (on_id k add_presented w) = Gtk.win_id w
            /\ Gtk.alive (on_id k add_presented w) = Gtk.alive w) as [Hi Hal].
    { unfold on_id. destruct (decide _); by destruct w. }
    rewrite Hi. apply Halive; [done | by rewrite <- Hal].
Qed.

(** Once the context's window is destroyed and forgotten, none is open. *)
Lemma one_window_destroyed sf ins ch sel ctx sup pr wins na cons k ctx' :
  one_window (mkManager sf ins ch sel (Some ctx) sup pr wins na cons) ->
  _prefsWindow ctx = Some k -> _prefsWindow ctx' = None ->
  one_window
    (mkManager sf ins ch sel (Some ctx') sup pr
       (on_id k (set_alive false) <$> wins) na cons).
Proof.
  intros [Hids Halive] Hk Hk'. unfold one_window, prefs_window in *.
  simpl in *. split.
  - rewrite ids_on_id by (by intros []). by rewrite length_fmap.
  - intros w' Hw' Ha. apply list_elem_of_fmap in Hw' as (w & -> & Hw).
    exfalso. unfold on_id in Ha. destruct (decide (Gtk.win_id w = k)) as [He|Hne].
    + by destruct w.
    + apply Hne. specialize (Halive w Hw Ha). rewrite Hk in Halive.
      by injection Halive.
Qed.

Lemma one_window_closePreferencesIfAny m :
  one_window m ->
  one_window (state_of (closePreferencesIfAny m))
  /\ (outcome_of (closePreferencesIfAny m) = Returned tt ->
      exists ctx,
        _webWidgetContext (state_of (closePreferencesIfAny m)) = Some ctx
        /\ _prefsWindow ctx = None).
Proof.
  intros Hone. destruct m as [sf ins ch sel ctx sup pr wins na cons].
  destruct ctx as [[rt pw ph pi roots]|]; [|by split].
  remember (closePreferencesIfAny
              (mkManager sf ins ch sel (Some (mkContext rt pw ph pi roots))
                 sup pr wins na cons)) as r eqn:Hr.
  unfold closePreferencesIfAny, bind, deref, on_prefs_host, modify_this,
    window_destroy, on_window, modify, ret in Hr.
  destruct pw as [k|]; [|subst r; split; [done | by eexists]].
  destruct ph as [h|]; simpl in Hr.
  - destruct (HtmlWidgetHost.destroy h) as [h' [[]|e]] eqn:Hd;
      rewrite ?Hd in Hr; simpl in Hr; subst r.
    + split; [|by eexists].
      by apply (one_window_destroyed _ _ _ _ (mkContext rt (Some k) (Some h) pi roots)).
    + split; [|done]. destruct Hone as [Hids Halive]. by split.
  - subst r. split; [|by eexists].
    by apply (one_window_destroyed _ _ _ _ (mkContext rt (Some k) None pi roots)).
Qed.

Lemma one_window_same sf ins ch sel ctx sup pr wins na cons
    sf' ins' ch' sel' sup' pr' na' cons' :
  one_window (mkManager sf ins ch sel ctx sup pr wins na cons) ->
  one_window (mkManager sf' ins' ch' sel' ctx sup' pr' wins na' cons').
Proof. intros [Hids Halive]. by split. Qed.

Lemma one_window_open_new m k uri :
  one_window m -> one_window (state_of (open_new_preferences k uri m)).
Proof.
  intros Hone. unfold open_new_preferences.
  destruct (one_window_closePreferencesIfAny m Hone) as [Hone1 Hnone].
  unfold bind at 1.
  destruct (closePreferencesIfAny m) as [m1 [[]|e]]; [|done].
  destruct (Hnone eq_refl) as (ctx & Hctx & Hw). clear Hnone.
  simpl in Hone1, Hctx. rewrite run_bind_get.
  destruct m1 as [sf ins ch sel c0 sup pr wins na cons]. simpl in Hctx. subst c0.
  unfold getInstance. cbn [_instances].
  destruct (JsMap.get k ins) as [inst|].
  2:{ eapply one_window_same. exact Hone1. }
  destruct ctx as [rt pw ph pi roots]. simpl in Hw. subst pw.
  destruct Hone1 as [Hids Halive]. unfold prefs_window in Halive.
  simpl in Hids, Halive.
  assert (Hdead : forall w, w ∈ wins -> Gtk.alive w = false).
  { intros w Hw. destruct (Gtk.alive w) eqn:Ha; [|done].
    by specialize (Halive w Hw Ha). }
  destruct rt; simpl.
  all: change (fun w => if decide (Gtk.win_id w = length wins)
                        then add_presented w else w)
         with (on_id (length wins) add_presented).
  all: split; simpl.
  all: try (rewrite ids_on_id by (by intros []);
            rewrite length_fmap, fmap_app, length_app, Hids; simpl;
            by rewrite Nat.add_1_r, seq_S).
  all: intros w' Hw' Ha; apply list_elem_of_fmap in Hw' as (w & -> & Hw);
    unfold prefs_window; simpl;
    apply elem_of_app in Hw as [Hw|Hw];
    [ exfalso; specialize (Hdead w Hw); unfold on_id in Ha;
      destruct (decide _); destruct w; simpl in *; congruence
    | apply list_elem_of_singleton in Hw as ->; unfold on_id; simpl;
      by rewrite decide_True ].
Qed.

(** Opening preferences keeps at most one window open, whether the
    call returns or raises. *)
Lemma one_window_openPreferencesForInstance m k uri :
  one_window m ->
  one_window (state_of (openPreferencesForInstance k uri m)).
Proof.
  intros Hone. unfold openPreferencesForInstance.
  destruct k as [k|]; [|done].
  destruct (negb (truthy_str k) || negb (truthy_ostr uri)); [done |].
  rewrite run_bind_get.
  destruct (negb (truthy_ostr (getSelectedInstanceId m))
            || negb (same_id (getSelectedInstanceId m) k)); [done |].
  destruct (_webWidgetContext m) as [this|] eqn:Hctx.
  2:{ by erewrite run_bind_deref_none by exact Hctx. }
  erewrite run_bind_deref_some by exact Hctx.
  destruct (_prefsWindow this) as [w|]; [|by apply one_window_open_new].
  destruct (same_id (_prefsInstanceId this) k);
    [by apply one_window_present | by apply one_window_open_new].
Qed.

Lemma one_window_closePreferencesForInstance m k :
  one_window m ->
  one_window (state_of (closePreferencesForInstance k m)).
Proof.
  intros Hone. unfold closePreferencesForInstance.
  destruct (_webWidgetContext m) as [this|] eqn:Hctx.
  2:{ by erewrite run_bind_deref_none by exact Hctx. }
  erewrite run_bind_deref_some by exact Hctx.
  destruct k as [k|]; [|done].
  destruct (negb (truthy_str k) || negb (same_id (_prefsInstanceId this) k));
    [done |].
  by apply one_window_closePreferencesIfAny.
Qed.

(** The user closes the window [w]: the handler runs, then the window
    goes. *)
Lemma one_window_close_request m w :
  one_window m -> prefs_window m = Some w ->
  one_window (state_of (close_request w m)).
Proof.
  intros Hone Hw. destruct m as [sf ins ch sel ctx sup pr wins na cons].
  destruct ctx as [[rt pw ph pi roots]|]; [|done].
  unfold prefs_window in Hw. simpl in Hw. subst pw.
  destruct Hone as [Hids Halive]. unfold prefs_window in Halive.
  simpl in Hids, Halive.
  remember (close_request w
              (mkManager sf ins ch sel (Some (mkContext rt (Some w) ph pi roots))
                 sup pr wins na cons)) as r eqn:Hr.
  unfold close_request, try_catch, bind, on_prefs_host, modify_this,
    window_destroy, on_window, modify, ret in Hr.
  destruct ph as [h|]; simpl in Hr.
  1: destruct (HtmlWidgetHost.destroy h) as [h' [[]|e]] eqn:Hd;
       rewrite ?Hd in Hr; simpl in Hr.
  all: subst r; simpl.
  all: change (fun w0 => if decide (Gtk.win_id w0 = w)
                         then set_alive false w0 else w0)
         with (on_id w (set_alive false)).
  all: split; simpl;
    [ rewrite ids_on_id by (by intros []); by rewrite length_fmap | ].
  all: intros w' Hw' Ha; apply list_elem_of_fmap in Hw' as (w0 & -> & Hw0);
    exfalso; unfold on_id in Ha;
    destruct (decide (Gtk.win_id w0 = w)) as [He|Hne];
    [ by destruct w0
    | apply Hne; specialize (Halive w0 Hw0 Ha); by injection Halive ].
Qed.

(** What can happen to the preferences window: the three methods of
    the context, and the user closing the window that is open. *)
Inductive PrefsCall :=
| CallOpen (k uri : option string)
| CallCloseIfAny
| CallCloseFor (k : option string)
| UserCloses.

Definition do_prefs_call (c : PrefsCall) : M Manager unit :=
  match c with
  | CallOpen k uri => openPreferencesForInstance k uri
  | CallCloseIfAny => closePreferencesIfAny
  | CallCloseFor k => closePreferencesForInstance k
  | UserCloses =>
      m <- get ;;
      match find Gtk.alive (gtk_windows m) with
      | Some w => close_request (Gtk.win_id w)
      | None => ret tt
      end
  end.

(** The managers after each call of a sequence; a call that raises
    ends there and the next one runs on what it left. *)
Fixpoint prefs_trace (cs : list PrefsCall) (m : Manager) : list Manager :=
  match cs with
  | [] => []
  | c :: cs =>
      let m' := state_of (do_prefs_call c m) in
      m' :: prefs_trace cs m'
  end.

Lemma one_window_do_prefs_call c m :
  one_window m -> one_window (state_of (do_prefs_call c m)).
Proof.
  intros Hone. destruct c as [k uri| |k|]; simpl.
  - by apply one_window_openPreferencesForInstance.
  - by apply one_window_closePreferencesIfAny.
  - by apply one_window_closePreferencesForInstance.
  - rewrite run_bind_get.
    destruct (find Gtk.alive (gtk_windows m)) as [w|] eqn:Hfind; [|done].
    apply find_some in Hfind as [Hw Ha].
    apply one_window_close_request; [done |].
    apply (proj2 Hone); [by apply list_elem_of_In | done].
Qed.

(** Whatever is called in whatever order, starting before any window
    was made, at most one preferences window is open after each call. *)
Lemma at_most_one_preferences_window cs m :
  gtk_windows m = [] ->
  Forall (fun m' => length (open_windows m') <= 1) (prefs_trace cs m).
Proof.
  intros Hnone. assert (Hone : one_window m).
  { split; rewrite Hnone; [done |]. intros w Hw. by apply elem_of_nil in Hw. }
  clear Hnone. revert m Hone.
  induction cs as [|c cs IH]; intros m Hone; simpl; [constructor |].
  pose proof (one_window_do_prefs_call c m Hone) as Hone'.
  constructor; [by apply one_window_open | by apply IH].
Qed.

(** *** Opening for another instance while a surface is pending *)

(** A manager with a monitor surface and no widgets. *)
Definition empty_desktop : Manager :=
  mkManager [(0%Z, mkSurface (mkGrid 1000 800 true) [] 0 false)] [] false
    None None false (mkPreferences true false true None) [] 0 [].

Definition clock_entry (k : string) : InstData :=
  mkInstData (Some k) (Some "clock") (Some "html") (Some 0%Z)
    (Some 0.5%Q) (Some 0.5%Q) (Some 200%Q) (Some 150%Q)
    (Some (JObj [])) (Some "prefs.html") (Some true).

(** Two widgets [A] and [B] were loaded; [A] was selected and its
    preferences opened; then the selection was cleared and [B]
    selected, all in one turn of the event loop, so the preferences
    surface of [A] has not been handed over yet. *)
Definition preferences_of_A_pending : Manager :=
  state_of
    ((WidgetManager.loadState
        (StateObject (JNum 1) (Some [clock_entry "A"; clock_entry "B"])) ;;;
      WidgetManager.selectInstance (Some "A") ;;;
      WidgetManager._openPreferencesForSelectedInstance ;;;
      WidgetManager.clearSelectedInstance ;;;
      WidgetManager.selectInstance (Some "B")) empty_desktop).

(** C8, where the code falls short of it. With the window of [A] open
    and its surface still under construction, opening the preferences
    of the selected instance [B] does not close the window of [A] and
    open one for [B]: tearing down the pending host throws a
    [TypeError] out of [openPreferencesForInstance], the window of [A]
    stays open and stays the context's window, and no window is
    created. There is still only one window. *)
Theorem open_for_other_instance_raises_while_surface_pending :
  let m := preferences_of_A_pending in
  let r := openPreferencesForInstance (Some "B") (Some "prefs.html") m in
  _selectedInstanceId m = Some "B" /\
  prefs_window m = Some 0 /\
  gtk_windows m = [Gtk.mkWindow 0 true 1] /\
  outcome_of r = Threw TypeError /\
  gtk_windows (state_of r) = [Gtk.mkWindow 0 true 1] /\
  prefs_window (state_of r) = Some 0 /\
  (_webWidgetContext (state_of r) ≫= _prefsInstanceId) = Some "A".
Proof.
  repeat split; vm_compute; reflexivity.
Qed.

End PreferencesWindowFacts.

(* ===================================================================== *)
(** ** Paths as strings and as component lists                            *)
(* ===================================================================== *)

Module PathFacts.

#[local] Arguments String.append !_ _ / : simpl nomatch.

Definition slash_free (s : string) : Prop :=
  Str.all_chars (fun c => negb (bool_decide (c = "/"%char))) s = true.

(** A component of a canonical path. *)
Definition valid_component (s : string) : Prop :=
  slash_free s /\ s <> "" /\ s <> "." /\ s <> "..".

(** A canonical local file: what [Gio.File] objects for local paths
    are. *)
Definition canonical (f : Gio.File) : Prop := Forall valid_component f.

Lemma slash_free_cons a s :
  slash_free (String a s) <-> a <> "/"%char /\ slash_free s.
Proof.
  unfold slash_free. simpl. rewrite andb_true_iff, negb_true_iff.
  by rewrite bool_decide_eq_false.
Qed.

Lemma slash_free_nil : slash_free "".
Proof. reflexivity. Qed.

Lemma append_nil_r (s : string) : s +:+ "" = s.
Proof. induction s as [|a s IH]; simpl; [done | by rewrite IH]. Qed.

Lemma append_assoc (a b c : string) : (a +:+ b) +:+ c = a +:+ (b +:+ c).
Proof. induction a as [|x a IH]; simpl; [done | by rewrite IH]. Qed.

Lemma split_on_not_nil c s : Str.split_on c s <> [].
Proof.
  destruct s as [|a s]; simpl; [done |].
  destruct (decide (a = c)); [done |]. by destruct (Str.split_on c s).
Qed.

Lemma split_on_slash_free s : Forall slash_free (Str.split_on "/" s).
Proof.
  induction s as [|a s IH]; simpl.
  - constructor; [apply slash_free_nil | constructor].
  - destruct (decide (a = "/"%char)) as [->|Hne].
    + constructor; [apply slash_free_nil | exact IH].
    + destruct (Str.split_on "/" s) as [|x xs].
      * constructor; [|constructor]. by apply slash_free_cons.
      * apply Forall_cons in IH as [Hx Hxs].
        constructor; [|done]. by apply slash_free_cons.
Qed.

Lemma split_on_app_slash a b :
  Str.split_on "/" (a +:+ String "/" b)
  = Str.split_on "/" a ++ Str.split_on "/" b.
Proof.
  induction a as [|x a IH]; simpl.
  - done.
  - destruct (decide (x = "/"%char)); rewrite IH; [done |].
    pose proof (split_on_not_nil "/" a).
    by destruct (Str.split_on "/" a).
Qed.

Lemma split_on_app_free r s :
  slash_free r ->
  Str.split_on "/" (r +:+ s)
  = match Str.split_on "/" s with
    | x :: xs => (r +:+ x) :: xs
    | [] => [r]
    end.
Proof.
  induction r as [|a r IH]; intros Hr; simpl.
  - pose proof (split_on_not_nil "/" s). by destruct (Str.split_on "/" s).
  - apply slash_free_cons in Hr as [Ha Hr].
    rewrite decide_False by done. rewrite IH by done.
    pose proof (split_on_not_nil "/" s). by destruct (Str.split_on "/" s).
Qed.

Lemma split_join (root : list string) :
  Forall slash_free root ->
  Str.split_on "/" (Gio.join_path root) = "" :: root.
Proof.
  induction root as [|r root IH]; intros Hf; simpl; [done |].
  apply Forall_cons in Hf as [Hr Hroot].
  rewrite split_on_app_free by done. rewrite IH by done.
  by rewrite append_nil_r.
Qed.

Lemma get_child_valid f p : valid_component p -> Gio.get_child f p = f ++ [p].
Proof.
  intros (_ & H1 & H2 & H3). unfold Gio.get_child.
  by rewrite !decide_False.
Qed.

Lemma foldl_get_child_canonical base l :
  canonical l -> foldl Gio.get_child base l = base ++ l.
Proof.
  revert base. induction l as [|p l IH]; intros base Hl; simpl.
  - by rewrite app_nil_r.
  - apply Forall_cons in Hl as [Hp Hl].
    rewrite get_child_valid by done. rewrite IH by done.
    by rewrite <- app_assoc.
Qed.

Lemma canonical_removelast f : canonical f -> canonical (removelast f).
Proof.
  unfold canonical. induction f as [|a f IH]; intros Hf; simpl; [done |].
  apply Forall_cons in Hf as [Ha Hf].
  destruct f; [constructor |]. constructor; [done | by apply IH].
Qed.

Lemma canonical_get_child f p :
  canonical f -> slash_free p -> canonical (Gio.get_child f p).
Proof.
  intros Hf Hp. unfold Gio.get_child.
  destruct (decide (p = "")); [done |].
  destruct (decide (p = ".")); [done |].
  destruct (decide (p = "..")); [by apply canonical_removelast |].
  apply Forall_app. split; [done |]. by repeat constructor.
Qed.

Lemma canonical_foldl f ps :
  canonical f -> Forall slash_free ps -> canonical (foldl Gio.get_child f ps).
Proof.
  revert f. induction ps as [|p ps IH]; intros f Hf Hps; simpl; [done |].
  apply Forall_cons in Hps as [Hp Hps].
  apply IH; [by apply canonical_get_child | done].
Qed.

(** *** Trailing separators *)

Lemma strip_trailing_free r : slash_free r -> Str.strip_trailing "/" r = r.
Proof.
  induction r as [|a r IH]; intros Hr; simpl; [done |].
  apply slash_free_cons in Hr as [Ha Hr]. rewrite IH by done.
  destruct r; [by rewrite decide_False | done].
Qed.

Lemma strip_trailing_app c a b :
  Str.strip_trailing c b <> "" ->
  Str.strip_trailing c (a +:+ b) = a +:+ Str.strip_trailing c b.
Proof.
  intros Hb. induction a as [|x a IH]; simpl; [done |].
  rewrite IH. destruct a; simpl; [|done].
  by destruct (Str.strip_trailing c b).
Qed.

Lemma endsWith_free r : slash_free r -> Str.endsWith "/" r = false.
Proof.
  induction r as [|a r IH]; intros Hr; simpl; [done |].
  apply slash_free_cons in Hr as [Ha Hr]. rewrite IH by done.
  rewrite orb_false_r. apply bool_decide_eq_false. intros [= <- _]. done.
Qed.

Lemma endsWith_app a b :
  b <> "" -> Str.endsWith "/" (a +:+ b) = Str.endsWith "/" b.
Proof.
  intros Hb. induction a as [|x a IH]; simpl; [done |].
  rewrite IH. replace (bool_decide ("/" = String x (a +:+ b))) with false; [done |].
  symmetry. apply bool_decide_eq_false. intros [= _ H].
  destruct a; simpl in H; [by subst | done].
Qed.

Lemma join_path_not_empty r root : Gio.join_path (r :: root) <> "".
Proof. done. Qed.

(** The path of a canonical file other than the root neither ends in a
    separator nor loses anything when trailing separators are
    stripped. *)
Lemma join_path_end r root :
  canonical (r :: root) ->
  Str.endsWith "/" (Gio.join_path (r :: root)) = false
  /\ Str.strip_trailing "/" (Gio.join_path (r :: root))
     = Gio.join_path (r :: root).
Proof.
  revert r. induction root as [|r' root IH]; intros r Hc.
  - apply Forall_cons in Hc as [(Hf & Hne & _) _].
    cbn [Gio.join_path]. rewrite append_nil_r. split.
    + rewrite endsWith_app by done. by apply endsWith_free.
    + rewrite strip_trailing_app; rewrite strip_trailing_free; done.
  - apply Forall_cons in Hc as [Hr Hc]. destruct (IH r' Hc) as [He Hs].
    change (Gio.join_path (r :: r' :: root))
      with (("/" +:+ r) +:+ Gio.join_path (r' :: root)).
    split.
    + rewrite endsWith_app; done.
    + rewrite strip_trailing_app; rewrite Hs; done.
Qed.

(** *** The prefix test on paths is the prefix test on components *)

(** [target] is [root] followed by at least one more component. *)
Fixpoint strictly_below (root target : Gio.File) : bool :=
  match root, target with
  | [], _ :: _ => true
  | r :: root', t :: target' => bool_decide (r = t) && strictly_below root' target'
  | _, [] => false
  end.

Lemma strictly_below_spec root target :
  strictly_below root target = true
  <-> exists x rest, target = root ++ x :: rest.
Proof.
  revert target. induction root as [|r root IH]; intros [|t target]; simpl.
  - split; [done | by intros (x & rest & [=])].
  - split; [by exists t, target | done].
  - split; [done | by intros (x & rest & [=])].
  - rewrite andb_true_iff, bool_decide_eq_true, IH. split.
    + intros [-> (x & rest & ->)]. by exists x, rest.
    + intros (x & rest & [= -> ->]). split; [done | by exists x, rest].
Qed.

Lemma startsWith_component r t X Y :
  slash_free r -> slash_free t ->
  Y = "" \/ (exists Y', Y = String "/" Y') ->
  Str.startsWith (r +:+ String "/" X) (t +:+ Y)
  = bool_decide (r = t) && Str.startsWith (String "/" X) Y.
Proof.
  revert t. induction r as [|a r IH]; intros t Hr Ht HY.
  - destruct t as [|c t]; [done |].
    apply slash_free_cons in Ht as [Hc _]. simpl.
    rewrite decide_False by done. done.
  - apply slash_free_cons in Hr as [Ha Hr]. destruct t as [|c t].
    + destruct HY as [-> | (Y' & ->)]; simpl; [done |].
      by rewrite decide_False.
    + apply slash_free_cons in Ht as [Hc Ht]. simpl.
      destruct (decide (a = c)) as [->|Hne].
      * rewrite IH by done. f_equal.
        apply bool_decide_ext. split; [by intros -> | by intros [=]].
      * symmetry. rewrite bool_decide_eq_false_2; [done |]. by intros [=].
Qed.

Lemma join_path_shape f :
  Gio.join_path f = "" \/ (exists Y', Gio.join_path f = String "/" Y').
Proof. destruct f; [by left | right; by eexists]. Qed.

Lemma startsWith_join root target :
  canonical root -> canonical target ->
  Str.startsWith (Gio.join_path root +:+ "/") (Gio.join_path target)
  = strictly_below root target.
Proof.
  revert target. induction root as [|r root IH]; intros [|t target] Hr Ht.
  - done.
  - done.
  - done.
  - apply Forall_cons in Hr as [(Hr & _) Hroot].
    apply Forall_cons in Ht as [(Ht & _) Htarget].
    cbn [Gio.join_path strictly_below]. rewrite <- IH by done.
    change ("/" +:+ r +:+ Gio.join_path root) with (String "/" (r +:+ Gio.join_path root)).
    change ("/" +:+ t +:+ Gio.join_path target) with (String "/" (t +:+ Gio.join_path target)).
    cbn [String.append Str.startsWith]. rewrite decide_True by done.
    rewrite append_assoc.
    destruct root as [|r' root].
    + cbn [Gio.join_path]. change ("" +:+ "/") with (String "/" "").
      apply startsWith_component; [done | done | apply join_path_shape].
    + change (Gio.join_path (r' :: root) +:+ "/")
        with (String "/" ((r' +:+ Gio.join_path root) +:+ "/")).
      apply startsWith_component; [done | done | apply join_path_shape].
Qed.

(** *** Lexical resolution *)

(** Where a relative path leads from [root] when it is read component
    by component, [.] staying in place and [..] going up. *)
Definition resolve (root : Gio.File) (rel : string) : Gio.File :=
  foldl Gio.get_child root (Str.split_on "/" rel).

Lemma resolve_strip_leading root rel :
  resolve root (Str.strip_leading "/" rel) = resolve root rel.
Proof.
  unfold resolve. induction rel as [|a rel IH]; [done |]. simpl.
  destruct (decide (a = "/"%char)) as [->|Hne]; [by rewrite IH |].
  simpl. by rewrite decide_False.
Qed.

Lemma canonical_resolve root rel : canonical root -> canonical (resolve root rel).
Proof. intros Hr. apply canonical_foldl; [done | apply split_on_slash_free]. Qed.

Lemma canonical_slash_free f : canonical f -> Forall slash_free f.
Proof. intros Hf. eapply Forall_impl; [exact Hf |]. by intros ? []. Qed.

(** The canonical name of the candidate path is the path of the
    lexical resolution. *)
Lemma canonicalize_candidate r root rel :
  canonical (r :: root) ->
  GLib.canonicalize_filename
    (GLib.build_filenamev (Gio.get_path (r :: root)) rel)
  = Gio.get_path (resolve (r :: root) rel).
Proof.
  intros Hc. destruct (join_path_end r root Hc) as [_ Hs].
  unfold GLib.build_filenamev, GLib.canonicalize_filename.
  cbn [Gio.get_path]. rewrite Hs.
  rewrite <- (resolve_strip_leading _ rel).
  set (tail := Str.strip_leading "/" rel).
  assert (Hroot : foldl Gio.get_child [] (Str.split_on "/" (Gio.join_path (r :: root)))
                  = r :: root).
  { rewrite split_join by by apply canonical_slash_free.
    change (foldl Gio.get_child [] ("" :: r :: root))
      with (foldl Gio.get_child [] (r :: root)).
    by rewrite foldl_get_child_canonical. }
  destruct (Gio.join_path (r :: root)) as [|c p] eqn:Hj; [done |].
  rewrite <- Hj in Hroot |- *. clear Hj.
  destruct (decide (tail = "")) as [->|Hne].
  - by rewrite Hroot.
  - change ("/" +:+ tail) with (String "/" tail).
    rewrite split_on_app_slash, foldl_app, Hroot. done.
Qed.

End PathFacts.

(* ===================================================================== *)
(** ** The scheme handler keeps requests inside the widget root           *)
(* ===================================================================== *)

Module DingWidgetSchemeFacts.
Import Model DingWidgetScheme.

(** A request that gets past the guards on the URI and on the view:
    the URI is there and parses to a [ding-widget] URI whose host is
    the instance the asking view is pinned to, that view carries a
    root, and the root [rootDir] the context has for the instance has
    the same path. [path] is the path the parsed URI reports and [m']
    the manager once the root has been looked up. *)
Record bound_request (reg : WidgetRegistry.Registry) (request : Request)
    (m m' : Manager) (rootDir : Gio.File) (path : string) : Prop := {
  bound_uri : exists uri, get_uri request = Some uri /\ truthy_str uri = true;
  bound_parsed :
    exists guri,
      parsed request = Some guri
      /\ GLib.get_scheme guri = "ding-widget"
      /\ GLib.get_host guri
         = Some (WebKit._dingInstanceId (get_web_view request))
      /\ nullish (GLib.get_path guri) "" = path;
  bound_instance :
    truthy_str (WebKit._dingInstanceId (get_web_view request)) = true;
  bound_view :
    exists boundRoot,
      WebKit._dingWidgetRoot (get_web_view request) = Some boundRoot
      /\ Gio.get_path boundRoot = Gio.get_path rootDir;
  bound_root :
    _getInstanceRoot reg (WebKit._dingInstanceId (get_web_view request)) m
    = (m', Returned (Some rootDir))
}.

(** The files the component-wise walk looks at, in order. *)
Fixpoint visited (file : Gio.File) (parts : list string) : list Gio.File :=
  match parts with
  | [] => []
  | part :: rest => Gio.get_child file part :: visited (Gio.get_child file part) rest
  end.

(** Some file on the walk is a symbolic link, and every file the walk
    looks at before it exists. *)
Definition has_symlink_component (fs : Gio.FileSystem) (file : Gio.File)
    (parts : list string) : Prop :=
  exists (k : nat) (link : Gio.File) (info : Gio.FileInfo),
    visited file parts !! k = Some link
    /\ Gio.query_info fs link = Some info
    /\ Gio.is_symlink info = true
    /\ forall (j : nat) (f : Gio.File),
         j < k -> visited file parts !! j = Some f ->
         is_Some (Gio.query_info fs f).

(** *** Examples *)

Definition clock_root : Gio.File := ["home"; "u"; "widgets"; "clock"].

(** A widget directory with a page, a subdirectory and a link that
    points out of it. *)
Definition clock_files : Gio.FileSystem :=
  Gio.mkFileSystem
    (fun f =>
       if decide (f = clock_root) then Some (Gio.mkFileInfo false false)
       else if decide (f = clock_root ++ ["a"]) then
         Some (Gio.mkFileInfo false false)
       else if decide (f = clock_root ++ ["index.html"]) then
         Some (Gio.mkFileInfo false true)
       else if decide (f = clock_root ++ ["link"]) then
         Some (Gio.mkFileInfo true false)
       else None)
    (fun f =>
       if decide (f = clock_root ++ ["index.html"]) then Some "<html/>"
       else None)
    (fun _ _ => None).

Definition no_widgets : WidgetRegistry.Registry :=
  WidgetRegistry.mkRegistry None [] [] true [].

(** A manager whose context knows the root of instance [abc]. *)
Definition desktop_with_abc : Manager :=
  mkManager [] [] false None
    (Some (mkContext true None None None [("abc", clock_root)]))
    false (mkPreferences true false true None) [] 0 [].

(** The request of the view of instance [abc] for [path]. *)
Definition request_of_abc (path : string) : Request :=
  mkRequest (Some ("ding-widget://abc" +:+ path))
    (Some (GLib.mkUri "ding-widget" (Some "abc") (Some path)))
    (WebKit.mkWebView (Some clock_root) "clock" "abc" None).

Definition policy : string := "default-src 'self'".

(** *** The handler on a bound request *)

Lemma handler_bound fs reg csp request m m' rootDir path :
  bound_request reg request m m' rootDir path ->
  _onDingWidgetUriRequestAsync fs reg csp request m
  = (m', Returned (serve fs csp rootDir path)).
Proof.
  intros [(uri & Huri & Ht) (guri & Hp & Hs & Hh & Hpath) Hi
          (boundRoot & Hb & Hsame) Hroot].
  unfold _onDingWidgetUriRequestAsync.
  rewrite Huri, Ht, Hp, Hs, Hh, Hb. cbn [negb truthy_ostr].
  rewrite Hi. cbn [negb].
  rewrite !bool_decide_eq_true_2 by done. cbn [negb].
  unfold bind. rewrite Hroot.
  rewrite bool_decide_eq_true_2 by done. cbn [negb].
  by rewrite Hpath.
Qed.

Lemma bound_request_of_abc path :
  bound_request no_widgets (request_of_abc path) desktop_with_abc
    desktop_with_abc clock_root path.
Proof.
  split.
  - by eexists.
  - by eexists.
  - done.
  - by eexists.
  - done.
Qed.

(** *** The prefix test *)

Lemma canonicalize_root root :
  PathFacts.canonical root ->
  GLib.canonicalize_filename (Gio.get_path root) = Gio.get_path root.
Proof.
  intros Hc. unfold GLib.canonicalize_filename. destruct root as [|r root].
  - done.
  - cbn [Gio.get_path].
    rewrite PathFacts.split_join by by apply PathFacts.canonical_slash_free.
    change (foldl Gio.get_child [] ("" :: r :: root))
      with (foldl Gio.get_child [] (r :: root)).
    by rewrite PathFacts.foldl_get_child_canonical.
Qed.

(** Below a canonical root other than [/], the canonicalize-and-prefix
    test accepts a relative path exactly when it resolves, lexically,
    to a file strictly below the root. *)
Lemma confined_spec root rel :
  PathFacts.canonical root -> root <> [] ->
  confined (Gio.get_path root) rel
  = PathFacts.strictly_below root (PathFacts.resolve root rel).
Proof.
  intros Hc Hne. destruct root as [|r root]; [done |].
  unfold confined. rewrite canonicalize_root by done.
  rewrite PathFacts.canonicalize_candidate by done.
  cbn [Gio.get_path].
  destruct (PathFacts.join_path_end r root Hc) as [-> _].
  pose proof (PathFacts.canonical_resolve (r :: root) rel Hc) as Ht.
  destruct (PathFacts.resolve (r :: root) rel) as [|t target] eqn:Hres.
  - apply Forall_cons in Hc as [(_ & Hr & _) _].
    destruct r; [done | reflexivity].
  - cbn [Gio.get_path]. by apply PathFacts.startsWith_join.
Qed.

(** *** The walk *)

Lemma walk_symlink fs parts : forall file,
  has_symlink_component fs file parts ->
  exists queried,
    walk fs file parts
    = (QueryInfo <$> queried,
       inr (Gio.PERMISSION_DENIED, "Symlinks are not allowed in widget paths")).
Proof.
  induction parts as [|part rest IH]; intros file (k & link & info & Hk & Hq & Hl & Hex).
  - done.
  - cbn [walk visited] in *. destruct k as [|k].
    + injection Hk as <-. rewrite Hq, Hl. by exists [Gio.get_child file part].
    + destruct (Hex 0 (Gio.get_child file part)) as [info0 Hq0]; [lia | done |].
      rewrite Hq0. destruct (Gio.is_symlink info0).
      * by exists [Gio.get_child file part].
      * destruct (IH (Gio.get_child file part)) as [queried ->].
        { exists k, link, info. repeat split; try done.
          intros j f Hj Hf. apply (Hex (S j)); [lia | done]. }
        by exists (Gio.get_child file part :: queried).
Qed.

Lemma parts_of_empty : parts_of "" = [].
Proof. reflexivity. Qed.

Lemma clock_root_canonical : PathFacts.canonical clock_root.
Proof. repeat constructor; done. Qed.

(** *** Path traversal *)

(** C1, as the handler has it. A request that passes the guards on the
    URI and on the view, and whose path, once its leading separators
    and leading [./] segments are gone, is not empty and does not
    resolve, read component by component with [..] going up, to a file
    strictly below the root of the instance, is finished with the
    permission-denied error [Path escapes widget root] and with nothing
    else: no file is looked at, none is read, no response is made. The
    root is any canonical directory but [/], and the path is the one
    the parsed URI reports. *)
Theorem path_leaving_root_is_denied fs reg csp request m m' rootDir path :
  bound_request reg request m m' rootDir path ->
  PathFacts.canonical rootDir -> rootDir <> [] ->
  effectiveRelPath path <> "" ->
  PathFacts.strictly_below rootDir
    (PathFacts.resolve rootDir (effectiveRelPath path)) = false ->
  _onDingWidgetUriRequestAsync fs reg csp request m
  = (m', Returned [FinishError Gio.PERMISSION_DENIED "Path escapes widget root"]).
Proof.
  intros Hb Hc Hne Hrel Hout. rewrite (handler_bound _ _ _ _ _ _ _ _ Hb).
  unfold serve. destruct (effectiveRelPath path) as [|c rel] eqn:He; [done |].
  cbn [truthy_str negb]. rewrite confined_spec by done. by rewrite Hout.
Qed.

(** The request [ding-widget://abc/../../etc/passwd] of instance [abc],
    its path kept as written. *)
Lemma path_leaving_root_is_denied_witness :
  _onDingWidgetUriRequestAsync clock_files no_widgets policy
    (request_of_abc "/../../etc/passwd") desktop_with_abc
  = (desktop_with_abc,
     Returned [FinishError Gio.PERMISSION_DENIED "Path escapes widget root"]).
Proof.
  apply (path_leaving_root_is_denied clock_files no_widgets policy
           (request_of_abc "/../../etc/passwd") desktop_with_abc
           desktop_with_abc clock_root "/../../etc/passwd").
  - apply bound_request_of_abc.
  - apply clock_root_canonical.
  - discriminate.
  - discriminate.
  - reflexivity.
Defined.

(** C1, where the code falls short of its words. A path with a [..]
    segment that stays below the root is served, and so is a path
    written with a further leading separator, as an absolute path is:
    both are read relative to the root of the instance. *)
Lemma dotdot_and_absolute_paths_are_served :
  Str.split_on "/" (effectiveRelPath "/a/../index.html")
  = ["a"; ".."; "index.html"]
  /\ outcome_of
       (_onDingWidgetUriRequestAsync clock_files no_widgets policy
          (request_of_abc "/a/../index.html") desktop_with_abc)
     = Returned [QueryInfo (clock_root ++ ["a"]);
                 QueryInfo clock_root;
                 QueryInfo (clock_root ++ ["index.html"]);
                 LoadBytes (clock_root ++ ["index.html"]);
                 FinishResponse "text/html" "<html/>" (Some policy)]
  /\ outcome_of
       (_onDingWidgetUriRequestAsync clock_files no_widgets policy
          (request_of_abc "//index.html") desktop_with_abc)
     = Returned [QueryInfo (clock_root ++ ["index.html"]);
                 LoadBytes (clock_root ++ ["index.html"]);
                 FinishResponse "text/html" "<html/>" (Some policy)].
Proof. repeat split; vm_compute; reflexivity. Qed.

(** *** Symbolic links *)

(** C2. A request that passes the guards on the URI and on the view,
    and on whose component-wise walk below the root of the instance
    some file is a symbolic link, every file looked at before it being
    there, is finished with a permission-denied error, whatever the
    canonicalize-and-prefix test said: the handler only looks at files
    of the walk, reads none and makes no response. *)
Theorem symlink_component_is_denied fs reg csp request m m' rootDir path :
  bound_request reg request m m' rootDir path ->
  has_symlink_component fs rootDir (parts_of (effectiveRelPath path)) ->
  exists queried message,
    _onDingWidgetUriRequestAsync fs reg csp request m
    = (m', Returned ((QueryInfo <$> queried)
                     ++ [FinishError Gio.PERMISSION_DENIED message])).
Proof.
  intros Hb Hlink. rewrite (handler_bound _ _ _ _ _ _ _ _ Hb).
  unfold serve. destruct (effectiveRelPath path) as [|c rel] eqn:He.
  { rewrite parts_of_empty in Hlink.
    by destruct Hlink as (k & link & info & Hk & _). }
  cbn [truthy_str negb].
  destruct (confined (Gio.get_path rootDir) (String c rel)).
  - destruct (walk_symlink fs _ _ Hlink) as [queried ->].
    by exists queried, "Symlinks are not allowed in widget paths".
  - by exists [], "Path escapes widget root".
Qed.

(** The request of instance [abc] for [link/x], [link] being a link. *)
Lemma symlink_component_is_denied_witness :
  exists queried message,
    _onDingWidgetUriRequestAsync clock_files no_widgets policy
      (request_of_abc "/link/x") desktop_with_abc
    = (desktop_with_abc,
       Returned ((QueryInfo <$> queried)
                 ++ [FinishError Gio.PERMISSION_DENIED message])).
Proof.
  apply (symlink_component_is_denied clock_files no_widgets policy
           (request_of_abc "/link/x") desktop_with_abc desktop_with_abc
           clock_root "/link/x").
  - apply bound_request_of_abc.
  - exists 0, (clock_root ++ ["link"]), (Gio.mkFileInfo true false).
    repeat split; try reflexivity. intros j f Hj. lia.
Defined.

End DingWidgetSchemeFacts.

(* ===================================================================== *)
(** ** WidgetManager: loading a document and exporting it again            *)
(* ===================================================================== *)

Module RoundTripFacts.
Import Model WidgetManager.

(** *** What a step of the manager leaves alone *)

(** The stored part of an instance: all but its actor and its host. *)
Definition data (i : Instance) : Instance := set_actor None (set_host None i).

Definition view (k : string) (m : Manager) : option Instance :=
  data <$> getInstance k m.

(** A host, if there is one, has received its surface. *)
Definition settled (h : option HtmlWidgetHost.Host) : Prop :=
  forall h', h = Some h' -> HtmlWidgetHost.surface_ready h'.

(** The preferences surface, if one is open, has been handed over. *)
Definition calm (m : Manager) : Prop :=
  forall ctx, _webWidgetContext m = Some ctx -> settled (_prefsHost ctx).

(** From [m] to [m'] the stored part of every instance stays, the
    instances outside [T] stay as they are, no key comes or goes, a web
    context stays, and so does a settled preferences surface. *)
Record step (T : string -> Prop) (m m' : Manager) : Prop := mkStep {
  step_view : forall k, view k m' = view k m;
  step_frame : forall k, ~ T k -> getInstance k m' = getInstance k m;
  step_keys : JsMap.keys (_instances m') = JsMap.keys (_instances m);
  step_context : is_Some (_webWidgetContext m) -> is_Some (_webWidgetContext m');
  step_calm : calm m -> calm m'
}.

(** A method that returns normally and makes a [step]; [needs] says
    whether it relies on the web context being there. *)
Definition quiet (T : string -> Prop) (needs : bool) {A} (c : M Manager A)
  : Prop :=
  forall m, calm m -> (needs = true -> is_Some (_webWidgetContext m)) ->
    exists a m', c m = (m', Returned a) /\ step T m m'.

(** A field update that touches neither the instances nor the context. *)
Class Inert (f : Manager -> Manager) : Prop := {
  inert_instances : forall m, _instances (f m) = _instances m;
  inert_context : forall m, _webWidgetContext (f m) = _webWidgetContext m
}.

Ltac inert :=
  split; intros m; unfold unparent, put, raise_child;
  repeat case_match; destruct m; reflexivity.

#[local] Instance inert_unparent w : Inert (unparent w).
Proof. inert. Qed.
#[local] Instance inert_put k c : Inert (put k c).
Proof. inert. Qed.
#[local] Instance inert_raise_child k w : Inert (raise_child k w).
Proof. inert. Qed.
#[local] Instance inert_set_chrome b : Inert (set_chrome b).
Proof. inert. Qed.
#[local] Instance inert_set_selectedInstanceId x : Inert (set_selectedInstanceId x).
Proof. inert. Qed.
#[local] Instance inert_set_suppressStateEvents b : Inert (set_suppressStateEvents b).
Proof. inert. Qed.
#[local] Instance inert_warn w : Inert (warn w).
Proof. inert. Qed.
#[local] Instance inert_set_next_actor n : Inert (set_next_actor n).
Proof. inert. Qed.
#[local] Instance inert_set_preferences g :
  Inert (fun m => set_preferences (g m) m).
Proof. inert. Qed.
#[local] Instance inert_set_gtk_windows g :
  Inert (fun m => set_gtk_windows (g m) m).
Proof. inert. Qed.

Lemma step_refl T m : step T m m.
Proof. by split. Qed.

Lemma step_trans T m1 m2 m3 : step T m1 m2 -> step T m2 m3 -> step T m1 m3.
Proof.
  intros [v1 f1 k1 c1 q1] [v2 f2 k2 c2 q2]. split.
  - intros k. by rewrite v2.
  - intros k Hk. rewrite f2 by done. by apply f1.
  - by rewrite k2.
  - auto.
  - auto.
Qed.

Lemma step_mono (T T' : string -> Prop) m m' :
  (forall k, T k -> T' k) -> step T m m' -> step T' m m'.
Proof. intros HT [v f k c q]. split; auto. Qed.

Lemma step_inert T f m : Inert f -> step T m (f m).
Proof.
  intros [Hi Hc]. split.
  - intros k. unfold view, getInstance. by rewrite Hi.
  - intros k _. unfold getInstance. by rewrite Hi.
  - by rewrite Hi.
  - by rewrite Hc.
  - unfold calm. by rewrite Hc.
Qed.

(** *** Rules *)

Lemma quiet_ret T n {A} (a : A) : quiet T n (ret a).
Proof. intros m _ _. exists a, m. split; [done | apply step_refl]. Qed.

Lemma quiet_bind T n {A B} (c : M Manager A) (k : A -> M Manager B) :
  quiet T n c -> (forall a, quiet T n (k a)) -> quiet T n (x <- c ;; k x).
Proof.
  intros Hc Hk m Hcalm Hn.
  destruct (Hc m Hcalm Hn) as (a & m1 & Hrun & Hs).
  destruct (Hk a m1) as (b & m2 & Hrun2 & Hs2).
  { by apply (step_calm _ _ _ Hs). }
  { intros Hneeds. apply (step_context _ _ _ Hs). by apply Hn. }
  exists b, m2. split; [|by eapply step_trans].
  by rewrite (run_bind_returned _ _ _ _ _ Hrun).
Qed.

Lemma quiet_get T n {B} (k : Manager -> M Manager B) :
  (forall s, quiet T n (k s)) -> quiet T n (x <- get ;; k x).
Proof. intros Hk m Hcalm Hn. rewrite run_bind_get. by apply Hk. Qed.

Lemma quiet_deref T {B} (k : Context -> M Manager B) :
  (forall this, quiet T true (k this)) ->
  quiet T true (this <- deref _webWidgetContext ;; k this).
Proof.
  intros Hk m Hcalm Hn. destruct (Hn eq_refl) as [this Hthis].
  rewrite (run_bind_deref_some _ _ _ _ Hthis). by apply Hk.
Qed.

Lemma quiet_needs T {A} (c : M Manager A) : quiet T false c -> quiet T true c.
Proof. intros Hc m Hcalm _. by apply Hc. Qed.

Lemma quiet_mono (T T' : string -> Prop) n {A} (c : M Manager A) :
  (forall k, T k -> T' k) -> quiet T n c -> quiet T' n c.
Proof.
  intros HT Hc m Hcalm Hn. destruct (Hc m Hcalm Hn) as (a & m' & Hrun & Hs).
  exists a, m'. split; [done | by eapply step_mono].
Qed.

Lemma quiet_modify T n f : Inert f -> quiet T n (modify f).
Proof.
  intros Hf m _ _. exists tt, (f m). split; [done | by apply step_inert].
Qed.

Lemma quiet_for_each T n {A} (xs : list A) (body : A -> M Manager unit) :
  (forall x, quiet T n (body x)) -> quiet T n (for_each xs body).
Proof.
  intros Hb. induction xs as [|x xs IH]; simpl.
  - apply quiet_ret.
  - apply quiet_bind; [apply Hb | intros _; apply IH].
Qed.

Lemma quiet_if_context T n (c : M Manager unit) :
  quiet T true c -> quiet T n (WebWidgetContext.if_context c).
Proof.
  intros Hc m Hcalm _. unfold WebWidgetContext.if_context.
  rewrite run_bind_get. destruct (_webWidgetContext m) eqn:Hctx.
  - apply Hc; [done | by rewrite Hctx].
  - exists tt, m. split; [done | apply step_refl].
Qed.



(** *** Updates of one instance *)

Lemma getInstance_update_eq k f m i :
  getInstance k m = Some i ->
  getInstance k (update_instance k f m) = Some (f i).
Proof.
  unfold getInstance, update_instance. intros H. rewrite H.
  destruct m; simpl in *. apply JsMap.get_set_eq.
Qed.

Lemma getInstance_update_ne k k' f m :
  k <> k' -> getInstance k' (update_instance k f m) = getInstance k' m.
Proof.
  unfold getInstance, update_instance. intros H.
  destruct (JsMap.get k (_instances m)) eqn:E; [|done].
  destruct m; simpl in *. by apply JsMap.get_set_ne.
Qed.

Lemma getInstance_update_None k f m :
  getInstance k m = None -> update_instance k f m = m.
Proof. unfold getInstance, update_instance. by intros ->. Qed.

Lemma keys_update k f m :
  JsMap.keys (_instances (update_instance k f m)) = JsMap.keys (_instances m).
Proof.
  unfold update_instance.
  destruct (JsMap.get k (_instances m)) eqn:E; [|done].
  assert (k ∈ JsMap.keys (_instances m)) by (apply JsMap.get_is_Some_keys; eauto).
  destruct m; simpl in *. by apply JsMap.keys_set_present.
Qed.

Lemma context_update k f m :
  _webWidgetContext (update_instance k f m) = _webWidgetContext m.
Proof.
  unfold update_instance. destruct (JsMap.get k (_instances m)); [|done].
  by destruct m.
Qed.

Lemma step_update (T : string -> Prop) k f m :
  T k -> (forall i, data (f i) = data i) -> step T m (update_instance k f m).
Proof.
  intros HT Hf. split.
  - intros k'. unfold view. destruct (decide (k = k')) as [<-|Hne].
    + destruct (getInstance k m) as [i|] eqn:E.
      * rewrite (getInstance_update_eq _ _ _ _ E). simpl. by rewrite Hf.
      * rewrite getInstance_update_None by done. by rewrite E.
    + by rewrite getInstance_update_ne.
  - intros k' Hk'. apply getInstance_update_ne. by intros ->.
  - apply keys_update.
  - by rewrite context_update.
  - unfold calm. by rewrite context_update.
Qed.

Lemma data_set_host h i : data (set_host h i) = data i.
Proof. by destruct i. Qed.

Lemma data_set_actor a i : data (set_actor a i) = data i.
Proof. by destruct i. Qed.

Lemma quiet_on_instance_host (T : string -> Prop) n {A} k
    (c : M HtmlWidgetHost.Host A) (absent : M Manager A) :
  T k -> (forall h, exists a, outcome_of (c h) = Returned a) ->
  quiet T n absent -> quiet T n (on_instance_host k c absent).
Proof.
  intros HT Hc Habs m Hcalm Hn. unfold on_instance_host.
  destruct (JsMap.get k (_instances m)) as [i|] eqn:E; [|by apply Habs].
  destruct (host i) as [h|] eqn:Hh; [|by apply Habs].
  destruct (Hc h) as [a Ha]. unfold outcome_of in Ha. rewrite Ha.
  eexists a, _. split; [reflexivity |].
  apply step_update; [done | intros; apply data_set_host].
Qed.

Lemma quiet_on_prefs_host T n {A} (c : M HtmlWidgetHost.Host A)
    (absent : M Manager A) :
  (forall h, HtmlWidgetHost.surface_ready h ->
     (exists a, outcome_of (c h) = Returned a)
     /\ HtmlWidgetHost.surface_ready (state_of (c h))) ->
  quiet T n absent -> quiet T n (on_prefs_host c absent).
Proof.
  intros Hc Habs m Hcalm Hn. unfold on_prefs_host.
  destruct (_webWidgetContext m) as [ctx|] eqn:Hctx;
    [|apply Habs; [done | by rewrite Hctx]].
  destruct (_prefsHost ctx) as [h|] eqn:Hh;
    [|apply Habs; [done | by rewrite Hctx]].
  destruct (Hc h) as [[a Ha] Hready]; [by apply (Hcalm ctx) |].
  unfold outcome_of in Ha. rewrite Ha. eexists a, _. split; [reflexivity |].
  destruct m as [sf ins ch sel c0 sup pr wins na cons]. simpl in *. subst c0.
  split; try done.
  unfold calm. simpl. intros _ c' [= <-] h' Hh'.
  destruct ctx; simpl in *. by injection Hh' as <-.
Qed.

(** *** Patches never throw and keep a surface ready *)

Lemma setHostStatePatch_returns patch h :
  exists a, outcome_of (HtmlWidgetHost.setHostStatePatch patch h) = Returned a.
Proof.
  exists tt. destruct h as [i w m pu ps ms v d f wp cs].
  unfold HtmlWidgetHost.setHostStatePatch. destruct (is_object patch); [|done].
  destruct d; [done |]. by destruct v.
Qed.

Lemma setHostStatePatch_ready patch h :
  HtmlWidgetHost.surface_ready h ->
  HtmlWidgetHost.surface_ready
    (state_of (HtmlWidgetHost.setHostStatePatch patch h)).
Proof.
  destruct h as [i w m pu ps ms v d f wp cs].
  unfold HtmlWidgetHost.setHostStatePatch, HtmlWidgetHost.surface_ready.
  destruct (is_object patch); [|done].
  destruct d; [done |]. by destruct v.
Qed.

(** *** Selection, chrome and preferences make quiet steps *)

Definition any (k : string) : Prop := True.

Ltac quiet_step :=
  lazymatch goal with
  | |- quiet _ _ (ret _) => apply quiet_ret
  | |- quiet _ _ (bind get _) => apply quiet_get; intros ?
  | |- quiet _ true (bind (deref _webWidgetContext) _) =>
      apply quiet_deref; intros ?
  | |- quiet _ _ (bind _ _) => apply quiet_bind; [| intros ?]
  | |- quiet _ _ (modify _) => apply quiet_modify; apply _
  | |- quiet _ _ (WebWidgetContext.if_context _) => apply quiet_if_context
  | |- quiet _ _ (for_each _ _) => apply quiet_for_each; intros ?
  | |- quiet _ _ (match ?x with _ => _ end) => destruct x
  end.

Lemma quiet_closePreferencesIfAny T :
  quiet T true WebWidgetContext.closePreferencesIfAny.
Proof.
  intros m Hcalm Hn. destruct (Hn eq_refl) as [this Hthis].
  unfold WebWidgetContext.closePreferencesIfAny.
  rewrite (run_bind_deref_some _ _ _ _ Hthis).
  destruct (_prefsWindow this) as [w|] eqn:Hw.
  2:{ exists tt, m. split; [done | apply step_refl]. }
  destruct m as [sf ins ch sel c0 sup pr wins na cons]. simpl in Hthis. subst c0.
  destruct (_prefsHost this) as [h|] eqn:Hh.
  - destruct (HtmlWidgetHostFacts.destroy_ready h) as (Hret & _).
    { by apply (Hcalm this). }
    unfold outcome_of in Hret.
    unfold bind at 1. unfold on_prefs_host at 1. cbn [_webWidgetContext].
    rewrite Hh. cbv zeta. rewrite Hret. cbn [snd].
    eexists tt, _. split; [reflexivity |].
    split; try done.
    unfold calm. simpl. intros _ c' [= <-]. by destruct this.
  - unfold bind at 1. unfold on_prefs_host at 1. cbn [_webWidgetContext].
    rewrite Hh. eexists tt, _. split; [reflexivity |].
    split; try done.
    unfold calm. simpl. intros _ c' [= <-]. by destruct this.
Qed.

Create HintDb quiet discriminated.

Ltac quiet_known :=
  solve [auto with quiet | apply quiet_needs; auto with quiet].

Ltac quiet_auto :=
  repeat first
    [ quiet_step
    | lazymatch goal with
      | |- quiet _ _ (on_instance_host _ _ _) =>
          apply quiet_on_instance_host;
          [exact I | apply setHostStatePatch_returns |]
      | |- quiet _ _ (on_prefs_host _ _) =>
          apply quiet_on_prefs_host;
          [intros ? ?; split;
           [apply setHostStatePatch_returns | by apply setHostStatePatch_ready] |]
      end
    | quiet_known ].

Lemma quiet_closePreferencesForInstance T k :
  quiet T true (WebWidgetContext.closePreferencesForInstance k).
Proof.
  pose proof (quiet_closePreferencesIfAny T).
  unfold WebWidgetContext.closePreferencesForInstance. quiet_auto; done.
Qed.

Lemma quiet_pushPatchtoTarget k patch :
  quiet any true (WebWidgetContext._pushPatchtoTarget k patch).
Proof. unfold WebWidgetContext._pushPatchtoTarget. quiet_auto. Qed.

#[local] Hint Resolve quiet_closePreferencesIfAny
  quiet_closePreferencesForInstance quiet_pushPatchtoTarget : quiet.

Lemma quiet_updateWidgetsSelectionState :
  quiet any false _updateWidgetsSelectionState.
Proof.
  unfold _updateWidgetsSelectionState,
    WebWidgetContext.updateHtmlWidgetSelected.
  quiet_auto.
Qed.

Lemma quiet_detachChrome T : quiet T false _detachChrome.
Proof. unfold _detachChrome. quiet_auto. Qed.

Lemma quiet_ensureChrome T : quiet T false _ensureChrome.
Proof. unfold _ensureChrome. quiet_auto. Qed.

Lemma quiet_place_button T mon w : quiet T false (place_button mon w).
Proof. unfold place_button. quiet_auto. Qed.

#[local] Hint Resolve quiet_updateWidgetsSelectionState quiet_detachChrome
  quiet_ensureChrome quiet_place_button : quiet.

Lemma quiet_attachChromeToInstance T k :
  quiet T false (_attachChromeToInstance k).
Proof. unfold _attachChromeToInstance. quiet_auto. Qed.

Lemma quiet_raiseAddButton T mon : quiet T false (_raiseAddButton mon).
Proof. unfold _raiseAddButton. quiet_auto. Qed.

#[local] Hint Resolve quiet_attachChromeToInstance quiet_raiseAddButton : quiet.

Lemma quiet_raiseInstance T k : quiet T false (_raiseInstance k).
Proof. unfold _raiseInstance. quiet_auto. Qed.

#[local] Hint Resolve quiet_raiseInstance : quiet.

Lemma quiet_selectInstance k : quiet any false (selectInstance k).
Proof. unfold selectInstance. quiet_auto. Qed.

(** *** Building the actor of a loaded instance *)

Lemma quiet_exportState T : quiet T false exportState.
Proof.
  unfold exportState, _computeZIndexByInstanceId, _sortedInstancesForExport.
  quiet_auto.
Qed.

#[local] Hint Resolve quiet_exportState : quiet.

Lemma quiet_stateChanged T : quiet T false _stateChanged.
Proof. unfold _stateChanged. quiet_auto. Qed.

#[local] Hint Resolve quiet_stateChanged : quiet.




Lemma quiet_modify_update (T : string -> Prop) n k f :
  T k -> (forall i, data (f i) = data i) ->
  quiet T n (modify (update_instance k f)).
Proof.
  intros HT Hf m _ _. eexists tt, _. split; [reflexivity |].
  by apply step_update.
Qed.



(** *** The first loop of [loadState] *)


(** Every instance is stored under its own id. *)
Definition keyed (m : Manager) : Prop :=
  forall k i, getInstance k m = Some i -> instanceId i = k.

(** What [load_instance] does once the instance is in the map. *)
Definition load_tail (seen : gset string) (k : string)
  : M Manager (gset string) :=
  m <- get ;;
  match JsMap.get k (_instances m) with
  | None => ret ({[k]} ∪ seen)
  | Some instance =>
      match JsMap.get (monitorIndex instance) (_surfaces m) with
      | Some _ =>
          _ensureInstanceActor k ;;;
          _positionInstanceActor k
      | None => ret tt
      end ;;;
      ret ({[instanceId instance]} ∪ seen)
  end.









(** *** The second loop of [loadState] *)





(** *** The round trip *)




(** The instance map is a map, and files every instance under its id. *)
Definition consistent (m : Manager) : Prop :=
  NoDup (JsMap.keys (_instances m)) /\ keyed m.










#[local] Hint Resolve quiet_selectInstance : quiet.





(** *** The same, for a method that may raise *)

(** From [m] to [m'] the stored part of every instance stays, the
    instances outside [T] stay as they are, and no key comes or goes. *)
Record kept (T : string -> Prop) (m m' : Manager) : Prop := mkKept {
  kept_view : forall k, view k m' = view k m;
  kept_frame : forall k, ~ T k -> getInstance k m' = getInstance k m;
  kept_keys : JsMap.keys (_instances m') = JsMap.keys (_instances m)
}.

(** A method that, when it returns, has [kept] the instances. *)
Definition keeps (T : string -> Prop) {A} (c : M Manager A) : Prop :=
  forall m a m', c m = (m', Returned a) -> kept T m m'.

Lemma kept_refl T m : kept T m m.
Proof. by split. Qed.

Lemma kept_trans T m1 m2 m3 : kept T m1 m2 -> kept T m2 m3 -> kept T m1 m3.
Proof.
  intros [v1 f1 k1] [v2 f2 k2]. split.
  - intros k. by rewrite v2.
  - intros k Hk. rewrite f2 by done. by apply f1.
  - by rewrite k2.
Qed.

Lemma kept_same T m m' : _instances m' = _instances m -> kept T m m'.
Proof.
  intros H. split.
  - intros k. unfold view, getInstance. by rewrite H.
  - intros k _. unfold getInstance. by rewrite H.
  - by rewrite H.
Qed.

Lemma kept_step T m m' : step T m m' -> kept T m m'.
Proof. intros [v f k _ _]. by split. Qed.

Lemma bind_returned_inv {S A B} (c : M S A) (k : A -> M S B) s s' b :
  (x <- c ;; k x) s = (s', Returned b) ->
  exists a s1, c s = (s1, Returned a) /\ k a s1 = (s', Returned b).
Proof.
  unfold bind. destruct (c s) as [s1 [a|e]]; [|done]. intros H. by exists a, s1.
Qed.

Lemma keeps_ret T {A} (a : A) : keeps T (ret a).
Proof. intros m a' m' [= <- _]. apply kept_refl. Qed.

Lemma keeps_throw T {A} e : keeps T (@throw Manager A e).
Proof. by intros m a m'. Qed.

Lemma keeps_bind T {A B} (c : M Manager A) (k : A -> M Manager B) :
  keeps T c -> (forall a, keeps T (k a)) -> keeps T (x <- c ;; k x).
Proof.
  intros Hc Hk m b m' Hrun.
  apply bind_returned_inv in Hrun as (a & m1 & Hrun1 & Hrun2).
  eapply kept_trans; [by eapply Hc | by eapply Hk].
Qed.

Lemma keeps_get T {B} (k : Manager -> M Manager B) :
  (forall s, keeps T (k s)) -> keeps T (x <- get ;; k x).
Proof. intros Hk m b m' Hrun. rewrite run_bind_get in Hrun. by eapply Hk. Qed.

Lemma keeps_deref T {A B} (field : Manager -> option A) (k : A -> M Manager B) :
  (forall x, keeps T (k x)) -> keeps T (x <- deref field ;; k x).
Proof.
  intros Hk m b m' Hrun. unfold bind, deref in Hrun.
  destruct (field m) as [x|]; [|done]. by eapply Hk.
Qed.

(** A field update that leaves the instances alone. *)
Class KeepsInstances (f : Manager -> Manager) : Prop :=
  keeps_instances : forall m, _instances (f m) = _instances m.

#[local] Instance keeps_instances_inert f : Inert f -> KeepsInstances f.
Proof. intros [H _]. exact H. Qed.
#[local] Instance keeps_instances_context g :
  KeepsInstances (fun m => set_webWidgetContext (g m) m).
Proof. by intros []. Qed.
#[local] Instance keeps_instances_set_context c :
  KeepsInstances (set_webWidgetContext c).
Proof. by intros []. Qed.

Lemma keeps_modify T f : KeepsInstances f -> keeps T (modify f).
Proof. intros Hf m a m' [= <- _]. by apply kept_same. Qed.

Lemma keeps_modify_update (T : string -> Prop) k f :
  T k -> (forall i, data (f i) = data i) -> keeps T (modify (update_instance k f)).
Proof.
  intros HT Hf m a m' [= <- _]. by apply kept_step, step_update.
Qed.

Lemma keeps_for_each T {A} (xs : list A) (body : A -> M Manager unit) :
  (forall x, keeps T (body x)) -> keeps T (for_each xs body).
Proof.
  intros Hb. induction xs as [|x xs IH]; simpl.
  - apply keeps_ret.
  - apply keeps_bind; [apply Hb | intros _; apply IH].
Qed.

Lemma keeps_on_instance_host (T : string -> Prop) {A} k
    (c : M HtmlWidgetHost.Host A) (absent : M Manager A) :
  T k -> keeps T absent -> keeps T (on_instance_host k c absent).
Proof.
  intros HT Habs m a m' Hrun. unfold on_instance_host in Hrun.
  destruct (JsMap.get k (_instances m)) as [i|] eqn:E; [|by eapply Habs].
  destruct (host i) as [h|] eqn:Hh; [|by eapply Habs].
  injection Hrun as <- _.
  apply kept_step, step_update; [done | intros; apply data_set_host].
Qed.

Lemma keeps_on_prefs_host T {A} (c : M HtmlWidgetHost.Host A)
    (absent : M Manager A) :
  keeps T absent -> keeps T (on_prefs_host c absent).
Proof.
  intros Habs m a m' Hrun. unfold on_prefs_host in Hrun.
  destruct (_webWidgetContext m) as [ctx|] eqn:Hctx; [|by eapply Habs].
  destruct (_prefsHost ctx) as [h|] eqn:Hh; [|by eapply Habs].
  injection Hrun as <- _. apply kept_same. by destruct m.
Qed.

Create HintDb keeps discriminated.

Ltac keeps_step :=
  lazymatch goal with
  | |- keeps _ (ret _) => apply keeps_ret
  | |- keeps _ (throw _) => apply keeps_throw
  | |- keeps _ (bind get _) => apply keeps_get; intros ?
  | |- keeps _ (bind (deref _) _) => apply keeps_deref; intros ?
  | |- keeps _ (bind _ _) => apply keeps_bind; [| intros ?]
  | |- keeps _ (modify (update_instance _ _)) =>
      apply keeps_modify_update;
      [done | intros ?; by rewrite ?data_set_actor, ?data_set_host]
  | |- keeps _ (modify _) => apply keeps_modify; apply _
  | |- keeps _ (WebWidgetContext.modify_this _) =>
      apply keeps_modify; apply _
  | |- keeps _ (WebWidgetContext.if_context _) =>
      unfold WebWidgetContext.if_context
  | |- keeps _ (for_each _ _) => apply keeps_for_each; intros ?
  | |- keeps _ (on_instance_host _ _ _) =>
      apply keeps_on_instance_host; [done |]
  | |- keeps _ (on_prefs_host _ _) => apply keeps_on_prefs_host
  | |- keeps _ (match ?x with _ => _ end) => destruct x
  end.

Ltac keeps_auto := repeat first [keeps_step | solve [auto with keeps]].

Lemma keeps_closePreferencesIfAny T :
  keeps T WebWidgetContext.closePreferencesIfAny.
Proof.
  unfold WebWidgetContext.closePreferencesIfAny,
    WebWidgetContext.window_destroy, WebWidgetContext.on_window.
  keeps_auto.
Qed.

#[local] Hint Resolve keeps_closePreferencesIfAny : keeps.

Lemma keeps_selectInstance k : keeps any (selectInstance k).
Proof.
  unfold selectInstance, _detachChrome, _updateWidgetsSelectionState,
    _raiseInstance, _raiseAddButton, _ensureChrome, _attachChromeToInstance,
    place_button, WebWidgetContext.closePreferencesForInstance,
    WebWidgetContext.updateHtmlWidgetSelected,
    WebWidgetContext._pushPatchtoTarget.
  keeps_auto.
Qed.





(** [_removeActor], when it returns. *)
Lemma removeActor_returned k m m' :
  NoDup (JsMap.keys (_instances m)) ->
  _removeActor k m = (m', Returned tt) ->
  getInstance k m' = None
  /\ (forall k', k <> k' -> getInstance k' m' = getInstance k' m)
  /\ NoDup (JsMap.keys (_instances m')).
Proof.
  intros Hnd. unfold _removeActor. rewrite run_bind_get.
  change (JsMap.get k (_instances m)) with (getInstance k m).
  destruct (getInstance k m) as [inst|] eqn:Hk.
  2:{ intros [= <-]. by repeat split. }
  intros Hrun.
  apply bind_returned_inv in Hrun as ([] & m1 & Hrun1 & Hrun).
  apply bind_returned_inv in Hrun as ([] & m2 & Hrun2 & Hrun).
  assert (Hf : keeps (eq k)
                 (match actor inst with
                  | Some a => modify (unparent a)
                  | None => ret tt
                  end)) by keeps_auto.
  pose proof (Hf _ _ _ Hrun1) as H1.
  assert (Hh : keeps (eq k)
                 (on_instance_host k HtmlWidgetHost.destroy (ret tt)))
    by keeps_auto.
  pose proof (Hh _ _ _ Hrun2) as H2.
  pose proof (kept_trans _ _ _ _ H1 H2) as H12.
  injection Hrun as <-.
  assert (Hnd2 : NoDup (JsMap.keys (_instances m2))).
  { by rewrite (kept_keys _ _ _ H12). }
  destruct m2 as [sf ins ch sel c0 sup pr wins na cons].
  unfold getInstance in *. simpl in *. split; [|split].
  - by apply JsMap.get_delete_eq.
  - intros k' Hne. rewrite JsMap.get_delete_ne by done.
    by apply (kept_frame _ _ _ H12).
  - by apply JsMap.NoDup_keys_delete.
Qed.


#[local] Hint Resolve keeps_selectInstance : keeps.


(** *** An example: two clocks replace an old widget *)

Definition clock (k : string) (x : Q) : InstData :=
  mkInstData (Some k) (Some "clock") (Some "html") (Some 0%Z)
    (Some x) (Some 0.5%Q) (Some 200%Q) (Some 150%Q)
    (Some (JObj [("color", JStr "blue")])) (Some "prefs.html") (Some true).

Definition two_clocks : list InstData := [clock "A" 0.25%Q; clock "B" 0.75%Q].

(** A host whose surface has arrived. *)
Definition old_host : HtmlWidgetHost.Host :=
  state_of
    (HtmlWidgetHost._start_resume
       (WebKit.mkWebView (Some ["usr"; "share"; "widgets"; "notes"])
          "notes" "old" None)
       (Some "ding-widget://old/index.html")
       (HtmlWidgetHost.new (HtmlWidgetHost.mkParams "old" "notes" None None))).

(** A desktop that shows one widget, [old], on its only monitor. *)
Definition desktop_with_old : Manager :=
  mkManager
    [(0%Z, mkSurface (mkGrid 1000 800 true)
             [Gtk.mkChild (Gtk.WActor 0) (Some "old")] 0 false)]
    [("old", mkInstance "old" "notes" "html" 0 0.5 0.5 200 150
               (Some (Gtk.WActor 0)) (Some old_host) (JObj []) None
               (Some false) false)]
    false None None false (mkPreferences true false true None) [] 1 [].



Lemma getInstance_desktop_with_old k i :
  getInstance k desktop_with_old = Some i ->
  k = "old" /\ instanceId i = "old" /\ host i = Some old_host.
Proof.
  unfold getInstance. simpl. destruct (decide (k = "old")) as [->|]; [|done].
  by intros [= <-].
Qed.

Lemma desktop_with_old_consistent : consistent desktop_with_old.
Proof.
  split.
  - apply NoDup_singleton.
  - intros k i Hk. by destruct (getInstance_desktop_with_old k i Hk) as (-> & ? & _).
Qed.



(** The same load while the surface of [old] is still being built:
    tearing [old] down raises, and [old] stays in the map next to the
    loaded widgets. *)
Definition desktop_with_pending_old : Manager :=
  update_instance "old"
    (set_host (Some (HtmlWidgetHost.new
                       (HtmlWidgetHost.mkParams "old" "notes" None None))))
    desktop_with_old.

Lemma loadState_raises_while_surface_pending :
  outcome_of (loadState (StateObject (JNum 1) (Some two_clocks))
                desktop_with_pending_old)
  = Threw TypeError
  /\ JsMap.keys
       (_instances
          (state_of (loadState (StateObject (JNum 1) (Some two_clocks))
                       desktop_with_pending_old)))
     = ["old"; "A"; "B"].
Proof. split; vm_compute; reflexivity. Qed.

End RoundTripFacts.

(* ===================================================================== *)
(** ** WidgetRegistry: what a lookup answers                              *)
(* ===================================================================== *)

Module WidgetRegistryApiFacts.
Import WidgetRegistry WidgetRegistryApi WidgetRegistryFacts.

(** The directories on disk change: the roots list other entries. *)
Definition with_roots (user : option Root) (system : list Root)
    (reg : Registry) : Registry :=
  match reg with
  | mkRegistry _ _ x2 x3 x4 => mkRegistry user system x2 x3 x4
  end.

(** What an accepted manifest always yields. *)
Record sound (d : Descriptor) : Prop := mkSound {
  sound_id : idOk (id d) = true;
  sound_kind : kind d = "html" \/ kind d = "gtk";
  sound_manifest : manifestFile d = dir d ++ ["widget.json"];
  sound_width : (1 <= defaultWidth d)%Z;
  sound_height : (1 <= defaultHeight d)%Z;
  sound_config : _isObject (defaultConfig d) = true
}.

Lemma dimension_positive x fallback :
  (1 <= fallback)%Z -> (1 <= dimension x fallback)%Z.
Proof. intros H. destruct x; simpl; lia. Qed.

Lemma describe_sound widgetDir isUser manifest :
  idOk (idRaw manifest) = true ->
  sound (describe widgetDir (widgetDir ++ ["widget.json"]) isUser manifest).
Proof.
  intros Hid. split; simpl.
  - done.
  - destruct (field "kind" manifest) as [| | | |s| |]; try by left.
    destruct (decide (s = "gtk")) as [->|Hne]; [by right |].
    left. repeat (destruct s as [|[[] [] [] [] [] [] [] []] s]; try done).
  - done.
  - by apply dimension_positive.
  - by apply dimension_positive.
  - by destruct (_isObject (field "defaultConfig" manifest)) eqn:E.
Qed.

Lemma candidate_sound rootDir isUser finfo d :
  candidate rootDir isUser finfo = Some d ->
  sound d /\ isUser = WidgetRegistry.isUser d
  /\ dir d = rootDir ++ [name finfo].
Proof.
  unfold candidate. destruct (manifest finfo) as [m|]; [|done].
  destruct (is_directory finfo && truthy m && idOk (idRaw m)) eqn:E; [|done].
  apply andb_true_iff in E as [_ Hid]. intros [= <-].
  split; [by apply describe_sound | done].
Qed.

Lemma discovered_sound roots d :
  d ∈ discovered roots ->
  sound d
  /\ exists r finfo files,
       (r, isUser d) ∈ roots /\ listing r = Some files /\ finfo ∈ files
       /\ dir d = root r ++ [name finfo].
Proof.
  unfold discovered. intros Hd.
  apply list_elem_of_bind in Hd as ([r u] & Hd & Hr). simpl in Hd.
  destruct (listing r) as [files|] eqn:Hl; [|by apply elem_of_nil in Hd].
  apply list_elem_of_omap in Hd as (finfo & Hin & Hc).
  destruct (candidate_sound _ _ _ _ Hc) as (Hs & -> & Hdir).
  split; [done |]. by exists r, finfo, files.
Qed.

(** The map a load leaves behind, for a registry that is not loaded. *)
Lemma loaded_map reg :
  _loaded reg = false ->
  merged (discovered (priority_roots reg)) 
    (scan_roots (priority_roots reg) (mkScan [] ∅ []))
  /\ _widgets (_ensureLoadedAsync reg)
     = outMap (scan_roots (priority_roots reg) (mkScan [] ∅ [])).
Proof.
  intros Hl. split.
  - exact (merged_scan_roots [] _ (priority_roots reg) merged_nil).
  - unfold _ensureLoadedAsync. rewrite Hl.
    by destruct (load_is_scan_in_priority_order reg).
Qed.

(** X1. While the registry has not loaded, [getDescriptor('')] returns
    [null] without loading anything. [getDescriptor(id)] for any other
    id loads the registry and answers from the bundles found under the
    user root and then under the system roots, in that order: the
    descriptor of the first user-scoped bundle whose manifest declares
    that id, else of the first bundle whose manifest declares it, else
    [null]. The descriptor returned carries the id asked for and the
    directory and scope of that bundle. *)
Theorem getDescriptor_answers_by_priority (reg : Registry) (k : string) :
  _loaded reg = false ->
  getDescriptor "" reg = (reg, None)
  /\ (k <> "" ->
      (getDescriptor k reg).1 = _loadOnceAsync reg
      /\ _loaded (getDescriptor k reg).1 = true
      /\ match first_choice k (bundles (priority_roots reg)) with
         | Some b =>
             exists d,
               (getDescriptor k reg).2 = Some d
               /\ d = descriptor_of b
               /\ id d = k /\ declared_id (b_manifest b) = k
               /\ dir d = b_dir b /\ isUser d = b_user b
         | None => (getDescriptor k reg).2 = None
         end).
Proof.
  intros Hl. split; [done |]. intros Hk.
  destruct (loaded_map reg Hl) as [[_ Hget _ _] Hw].
  assert (Hrun : getDescriptor k reg
                 = (_loadOnceAsync reg,
                    JsMap.get k (_widgets (_ensureLoadedAsync reg)))).
  { unfold getDescriptor. destruct k as [|c k]; [done |].
    cbn [truthy_str negb]. unfold _ensureLoadedAsync. by rewrite Hl. }
  rewrite Hrun. cbn [fst snd]. split; [done |]. split; [done |].
  rewrite Hw, Hget, discovered_bundles, preferred_bundles.
  destruct (first_choice k (bundles (priority_roots reg))) as [b|] eqn:Hb;
    [|done].
  exists (descriptor_of b). split; [done |]. split; [done |].
  assert (Hp : preferred k (descriptor_of <$> bundles (priority_roots reg))
               = Some (descriptor_of b))
    by by rewrite preferred_bundles, Hb.
  destruct (preferred_spec _ _ _ Hp) as (Hid & _).
  by rewrite <- (id_descriptor_of b).
Qed.

(** The keys of a loaded map are the ids of its descriptors. *)
Lemma loaded_pairs reg k d :
  _loaded reg = false ->
  (k, d) ∈ _widgets (_ensureLoadedAsync reg) ->
  id d = k /\ d ∈ discovered (priority_roots reg)
  /\ JsMap.get k (_widgets (_ensureLoadedAsync reg)) = Some d.
Proof.
  intros Hl Hin. destruct (loaded_map reg Hl) as [[Hnd Hget _ _] Hw].
  rewrite Hw in Hin |- *.
  apply JsMap.elem_get_NoDup in Hin; [|done].
  pose proof Hin as Hp. rewrite Hget in Hp.
  by destruct (preferred_spec _ _ _ Hp) as (? & ? & _).
Qed.

Lemma listed_pairs reg d :
  d ∈ (listWidgets reg).2 ->
  exists k, (k, d) ∈ _widgets (_ensureLoadedAsync reg).
Proof.
  unfold listWidgets, JsMap.values. cbn [snd]. intros Hd.
  apply list_elem_of_fmap in Hd as ([k d'] & -> & Hin). by exists k.
Qed.

(** X2. Every descriptor that [listWidgets()] returns from a registry
    that had not loaded comes from an accepted manifest: its id is
    non-empty and made of letters, digits, [.], [_] and [-]; its kind is
    ['html'] or ['gtk']; its manifest file is [widget.json] in its
    directory; its default width and height are at least 1; its default
    config is an object. Its directory is an entry of one of the search
    roots, and it is user-scoped exactly when that root is the user
    root. *)
Theorem listed_descriptors_are_sound (reg : Registry) (d : Descriptor) :
  _loaded reg = false ->
  d ∈ (listWidgets reg).2 ->
  sound d
  /\ exists r finfo files,
       (r, isUser d) ∈ priority_roots reg
       /\ listing r = Some files /\ finfo ∈ files
       /\ dir d = root r ++ [name finfo].
Proof.
  intros Hl Hd. destruct (listed_pairs reg d Hd) as [k Hin].
  destruct (loaded_pairs reg k d Hl Hin) as (_ & Hfound & _).
  by apply discovered_sound.
Qed.

Lemma idOk_not_empty s : idOk s = true -> s <> "".
Proof. by destruct s. Qed.

(** X3. On a registry that had not loaded, [getDescriptor(id)] returns
    a descriptor exactly when [listWidgets()] lists that descriptor with
    that id; [getKind(id)] is ['gtk'] exactly when a listed descriptor
    with that id has kind ['gtk'], and is ['html'] in every other
    case. *)
Theorem getDescriptor_agrees_with_listWidgets
    (reg : Registry) (k : string) (d : Descriptor) :
  _loaded reg = false ->
  ((getDescriptor k reg).2 = Some d <-> d ∈ (listWidgets reg).2 /\ id d = k)
  /\ ((getKind k reg).2 = "gtk"
      <-> exists g, g ∈ (listWidgets reg).2 /\ id g = k /\ kind g = "gtk")
  /\ ((getKind k reg).2 = "html"
      <-> ~ exists g, g ∈ (listWidgets reg).2 /\ id g = k /\ kind g = "gtk").
Proof.
  intros Hl.
  assert (Hlookup : forall g,
            (getDescriptor k reg).2 = Some g
            <-> g ∈ (listWidgets reg).2 /\ id g = k).
  { intros g. split.
    - unfold getDescriptor. destruct (truthy_str k) eqn:Hk; [|done].
      cbn [negb snd]. intros Hget.
      apply JsMap.get_Some_elem in Hget.
      destruct (loaded_pairs reg k g Hl Hget) as (Hid & _).
      split; [|done]. unfold listWidgets, JsMap.values. cbn [snd].
      apply list_elem_of_fmap. by exists (k, g).
    - intros [Hin Hid]. destruct (listed_pairs reg g Hin) as [k' Hpair].
      destruct (loaded_pairs reg k' g Hl Hpair) as (Hk' & Hfound & Hget).
      assert (k' = k) as -> by congruence.
      destruct (discovered_sound _ _ Hfound) as [[Hok _ _ _ _ _] _].
      rewrite Hid in Hok. apply idOk_not_empty in Hok.
      unfold getDescriptor. destruct k; [done |]. done. }
  assert (Hgtk : (getKind k reg).2 = "gtk"
                 <-> exists g, g ∈ (listWidgets reg).2 /\ id g = k
                               /\ kind g = "gtk").
  { unfold getKind. cbn [snd]. split.
    - destruct ((getDescriptor k reg).2) as [g|] eqn:Hg; [|done].
      destruct (decide (kind g = "gtk")) as [Hgtk|]; [|done].
      intros _. exists g. destruct (Hlookup g) as [Hfw _].
      by destruct (Hfw eq_refl).
    - intros (g & Hin & Hid & Hgtk).
      destruct (Hlookup g) as [_ Hback]. rewrite (Hback (conj Hin Hid)).
      by rewrite decide_True. }
  split; [apply Hlookup |]. split; [exact Hgtk |].
  assert (Hkinds : (getKind k reg).2 = "gtk" \/ (getKind k reg).2 = "html").
  { unfold getKind. cbn [snd].
    destruct ((getDescriptor k reg).2) as [g|]; [|by right].
    destruct (decide (kind g = "gtk")); [by left | by right]. }
  rewrite <- Hgtk. split.
  - by intros ->.
  - intros Hno. by destruct Hkinds.
Qed.

(** X4. Once loaded, the registry answers from its map: when the
    directories change afterwards, [listWidgets()] returns what it
    returned before and leaves the registry as it is. After [reload()]
    it returns what a scan of the changed roots finds, the user root
    first, and again leaves the registry as it is. *)
Theorem registry_answers_from_cache_until_reload
    (reg : Registry) (user : option Root) (system : list Root) :
  let loaded := (listWidgets reg).1 in
  let changed := with_roots user system loaded in
  listWidgets changed = (changed, (listWidgets reg).2)
  /\ (listWidgets (reload changed)).2
     = JsMap.values
         (outMap (scan_roots (priority_roots changed) (mkScan [] ∅ [])))
  /\ listWidgets (reload changed)
     = (reload changed, (listWidgets (reload changed)).2).
Proof.
  intros loaded changed.
  assert (Hloaded : _loaded loaded = true).
  { unfold loaded, listWidgets, _ensureLoadedAsync. cbn [fst].
    by destruct (_loaded reg) eqn:E. }
  assert (Hsame : _widgets changed = _widgets loaded /\ _loaded changed = true).
  { unfold changed. by destruct loaded. }
  destruct Hsame as [Hw Hc].
  split.
  { unfold listWidgets at 1, _ensureLoadedAsync. rewrite Hc, Hw.
    unfold loaded, listWidgets. cbn [fst snd]. done. }
  set (cleared := mkRegistry (_userRoot changed) (_systemRoots changed) []
                    false (warnings changed)).
  assert (Hr : reload changed = _loadOnceAsync cleared) by done.
  split.
  - unfold listWidgets, _ensureLoadedAsync. rewrite Hr. cbn [snd].
    change (_loaded (_loadOnceAsync cleared)) with true. cbv iota.
    by destruct (load_is_scan_in_priority_order cleared) as [-> _].
  - unfold listWidgets, _ensureLoadedAsync. rewrite Hr.
    change (_loaded (_loadOnceAsync cleared)) with true. done.
Qed.

(** *** An example: a user bundle shadows a system bundle *)

Definition clock_manifest : jsval :=
  JObj [("id", JStr "clock"); ("name", JStr "Clock");
        ("defaultWidth", JNum 300)].

Definition user_widgets : Root :=
  mkRoot ["home"; "u"; "widgets"]
    (Some [mkDirEntry "my-clock" true (Some clock_manifest);
           mkDirEntry "README" false None]).

Definition system_widgets : Root :=
  mkRoot ["usr"; "share"; "widgets"]
    (Some [mkDirEntry "clock" true (Some clock_manifest);
           mkDirEntry "notes" true (Some (JObj [("id", JStr " notes ")]))]).

Definition fresh_registry : Registry :=
  mkRegistry (Some user_widgets) [system_widgets] [] false [].

Definition user_clock : Descriptor :=
  describe ["home"; "u"; "widgets"; "my-clock"]
    ["home"; "u"; "widgets"; "my-clock"; "widget.json"] true clock_manifest.

Lemma user_clock_listed : user_clock ∈ (listWidgets fresh_registry).2.
Proof. vm_compute. by left. Qed.

Lemma getDescriptor_answers_by_priority_witness :
  getDescriptor "" fresh_registry = (fresh_registry, None)
  /\ ("clock" <> "" ->
      (getDescriptor "clock" fresh_registry).1 = _loadOnceAsync fresh_registry
      /\ _loaded (getDescriptor "clock" fresh_registry).1 = true
      /\ match first_choice "clock" (bundles (priority_roots fresh_registry))
         with
         | Some b =>
             exists d,
               (getDescriptor "clock" fresh_registry).2 = Some d
               /\ d = descriptor_of b
               /\ id d = "clock" /\ declared_id (b_manifest b) = "clock"
               /\ dir d = b_dir b /\ isUser d = b_user b
         | None => (getDescriptor "clock" fresh_registry).2 = None
         end).
Proof.
  exact (getDescriptor_answers_by_priority fresh_registry "clock" eq_refl).
Defined.

Lemma listed_descriptors_are_sound_witness :
  sound user_clock
  /\ exists r finfo files,
       (r, isUser user_clock) ∈ priority_roots fresh_registry
       /\ listing r = Some files /\ finfo ∈ files
       /\ dir user_clock = root r ++ [name finfo].
Proof.
  exact (listed_descriptors_are_sound fresh_registry user_clock eq_refl
           user_clock_listed).
Defined.

Lemma getDescriptor_agrees_with_listWidgets_witness :
  ((getDescriptor "clock" fresh_registry).2 = Some user_clock
   <-> user_clock ∈ (listWidgets fresh_registry).2 /\ id user_clock = "clock")
  /\ ((getKind "clock" fresh_registry).2 = "gtk"
      <-> exists g, g ∈ (listWidgets fresh_registry).2
                    /\ id g = "clock" /\ kind g = "gtk")
  /\ ((getKind "clock" fresh_registry).2 = "html"
      <-> ~ exists g, g ∈ (listWidgets fresh_registry).2
                      /\ id g = "clock" /\ kind g = "gtk").
Proof.
  exact (getDescriptor_agrees_with_listWidgets fresh_registry "clock"
           user_clock eq_refl).
Defined.

End WidgetRegistryApiFacts.

(* ===================================================================== *)
(** ** WebWidgetContext: views are confined to their instance             *)
(* ===================================================================== *)

Module WebViewsFacts.
Import Model DingWidgetScheme WebViews DingWidgetSchemeFacts.

(** The events that answer a request. *)
Definition is_finish (e : Event) : bool :=
  match e with
  | FinishError _ _ | FinishResponse _ _ _ => true
  | QueryInfo _ | LoadBytes _ => false
  end.

(** One answer, and nothing after it. *)
Definition answered_once (events : list Event) : Prop :=
  exists before answer,
    events = before ++ [answer]
    /\ is_finish answer = true
    /\ Forall (fun e => is_finish e = false) before.

Lemma answered_once_single e : is_finish e = true -> answered_once [e].
Proof. intros He. by exists [], e. Qed.

Lemma walk_spec fs parts : forall file queried r,
  walk fs file parts = (queried, r) ->
  (exists files, queried = QueryInfo <$> files)
  /\ forall f, r = inl f -> f = foldl Gio.get_child file parts.
Proof.
  induction parts as [|part rest IH]; intros file queried r; cbn [walk foldl].
  - intros [= <- <-]. split; [by exists [] |]. by intros f [= <-].
  - destruct (Gio.query_info fs (Gio.get_child file part)) as [info|].
    + destruct (Gio.is_symlink info).
      * intros [= <- <-]. split; [by eexists [_] | done].
      * destruct (walk fs (Gio.get_child file part) rest) as [q r'] eqn:Hw.
        cbn [fst snd]. intros [= <- <-].
        destruct (IH _ _ _ Hw) as [[files ->] Hf].
        split; [by eexists (_ :: files) | done].
    + intros [= <- <-]. split; [by eexists [_] | done].
Qed.

Lemma queries_answer_nothing (files : list Gio.File) :
  Forall (fun e => is_finish e = false) (QueryInfo <$> files).
Proof. induction files; by constructor. Qed.

Lemma queries_read_nothing (files : list Gio.File) f :
  LoadBytes f ∉ (QueryInfo <$> files).
Proof. intros Hin. apply list_elem_of_fmap in Hin as (? & ? & _). done. Qed.

Lemma foldl_get_child_parts file rel :
  foldl Gio.get_child file (parts_of rel) = PathFacts.resolve file rel.
Proof.
  unfold parts_of, PathFacts.resolve.
  generalize (Str.split_on "/" rel). intros l. revert file.
  induction l as [|p l IH]; intros file; [done |]. cbn [List.filter foldl].
  destruct p as [|c p]; cbn [truthy_str].
  - by rewrite IH.
  - cbn [foldl]. by rewrite IH.
Qed.

(** What [serve] does: one answer at the end, and a read only of the
    file the path resolves to. *)
Lemma serve_spec fs csp rootDir path :
  answered_once (serve fs csp rootDir path)
  /\ forall f, LoadBytes f ∈ serve fs csp rootDir path ->
       f = PathFacts.resolve rootDir (effectiveRelPath path)
       /\ confined (Gio.get_path rootDir) (effectiveRelPath path) = true.
Proof.
  unfold serve. destruct (truthy_str (effectiveRelPath path)); cbn [negb].
  2:{ split; [by apply answered_once_single |].
      intros f Hf. apply list_elem_of_singleton in Hf. done. }
  destruct (confined (Gio.get_path rootDir) (effectiveRelPath path)); cbn [negb].
  2:{ split; [by apply answered_once_single |].
      intros f Hf. apply list_elem_of_singleton in Hf. done. }
  destruct (walk fs rootDir (parts_of (effectiveRelPath path)))
    as [queried [file|[code message]]] eqn:Hw;
    destruct (walk_spec _ _ _ _ _ Hw) as [[files ->] Hfile];
    pose proof (queries_answer_nothing files) as Hq.
  - rewrite (Hfile file eq_refl), foldl_get_child_parts.
    set (target := PathFacts.resolve rootDir (effectiveRelPath path)).
    pose proof (queries_read_nothing files) as Hnot.
    split.
    + destruct (Gio.load_bytes fs target) as [body|].
      * exists ((QueryInfo <$> files) ++ [LoadBytes target]), 
          (FinishResponse (mime_type fs (Gio.get_path target) body) body
             (if truthy_str csp then Some csp else None)).
        split; [by rewrite <- app_assoc |]. split; [done |].
        apply Forall_app. split; [done | by repeat constructor].
      * exists ((QueryInfo <$> files) ++ [LoadBytes target]),
          (FinishError Gio.NOT_FOUND "File not found in widget root").
        split; [by rewrite <- app_assoc |]. split; [done |].
        apply Forall_app. split; [done | by repeat constructor].
    + intros f Hf. split; [|done].
      apply elem_of_app in Hf as [Hf|Hf]; [by apply Hnot in Hf |].
      apply elem_of_cons in Hf as [[= ->]|Hf]; [done |].
      destruct (Gio.load_bytes fs target);
        apply list_elem_of_singleton in Hf; done.
  - split.
    + by exists (QueryInfo <$> files), (FinishError code message).
    + intros f Hf. apply elem_of_app in Hf as [Hf|Hf].
      * by apply queries_read_nothing in Hf.
      * apply list_elem_of_singleton in Hf. done.
Qed.

(** The handler either refuses at a guard, with one error and no file
    access, or serves from the root the context has for the instance
    of the asking view. *)
Lemma handler_cases fs reg csp request m m' events :
  _onDingWidgetUriRequestAsync fs reg csp request m = (m', Returned events) ->
  (exists code message, events = [FinishError code message])
  \/ exists rootDir path,
       _getInstanceRoot reg (WebKit._dingInstanceId (get_web_view request)) m
       = (m', Returned (Some rootDir))
       /\ events = serve fs csp rootDir path.
Proof.
  unfold _onDingWidgetUriRequestAsync.
  set (k := WebKit._dingInstanceId (get_web_view request)).
  assert (Hrefuse : forall code message,
            ret [FinishError code message] m = (m', Returned events) ->
            (exists code message, events = [FinishError code message])
            \/ exists rootDir path,
                 _getInstanceRoot reg k m = (m', Returned (Some rootDir))
                 /\ events = serve fs csp rootDir path).
  { intros code message [= <- <-]. left. by eexists _, _. }
  destruct (get_uri request) as [uri|]; [|by apply Hrefuse].
  destruct (truthy_str uri); cbn [negb]; [|by apply Hrefuse].
  destruct (parsed request) as [guri|]; [|by apply Hrefuse].
  case_bool_decide; cbn [negb]; [|by apply Hrefuse].
  destruct (truthy_ostr (GLib.get_host guri)); cbn [negb]; [|by apply Hrefuse].
  destruct (WebKit._dingWidgetRoot (get_web_view request)) as [boundRoot|];
    [|by apply Hrefuse].
  case_bool_decide; cbn [negb]; [|by apply Hrefuse].
  clear Hrefuse. unfold bind. fold k.
  destruct (_getInstanceRoot reg k m) as [m1 [[rootDir|]|e]] eqn:Hroot;
    [| |done].
  - case_bool_decide; cbn [negb].
    + intros [= <- <-]. right. by eexists _, _.
    + intros [= <- <-]. left. by eexists _, _.
  - intros [= <- <-]. left. by eexists _, _.
Qed.

(** X5. Whenever the scheme handler returns, every file whose bytes
    it loaded lies strictly below the root directory the context has
    for the instance of the requesting view, provided that root is a
    canonical local path (no empty, [.] or [..] component and no
    separator inside a component) other than the file-system root. *)
Theorem handler_reads_only_below_root
    fs reg csp request m m' events (f : Gio.File) :
  _onDingWidgetUriRequestAsync fs reg csp request m = (m', Returned events) ->
  LoadBytes f ∈ events ->
  exists rootDir,
    _getInstanceRoot reg (WebKit._dingInstanceId (get_web_view request)) m
    = (m', Returned (Some rootDir))
    /\ (PathFacts.canonical rootDir -> rootDir <> [] ->
        PathFacts.strictly_below rootDir f = true).
Proof.
  intros Hrun Hf.
  destruct (handler_cases _ _ _ _ _ _ _ Hrun)
    as [(code & message & ->)|(rootDir & path & Hroot & ->)].
  - apply list_elem_of_singleton in Hf. done.
  - exists rootDir. split; [done |]. intros Hc Hne.
    destruct (serve_spec fs csp rootDir path) as [_ Hread].
    destruct (Hread f Hf) as [-> Hconf].
    by rewrite <- confined_spec.
Qed.

(** When the root lookup returns: the context is there, and a root
    it hands out is cached from then on. *)
Lemma getInstanceRoot_returned reg k m m1 r :
  _getInstanceRoot reg k m = (m1, Returned r) ->
  is_Some (_webWidgetContext m)
  /\ forall d, r = Some d ->
       exists ctx1, _webWidgetContext m1 = Some ctx1
                    /\ JsMap.get k (_instanceRoots ctx1) = Some d.
Proof.
  unfold _getInstanceRoot, bind, deref.
  destruct (_webWidgetContext m) as [this|] eqn:Hctx; [|done].
  destruct (JsMap.get k (_instanceRoots this)) as [d0|] eqn:Hc.
  { intros [= <- <-]. split; [done |]. intros d [= <-]. by exists this. }
  unfold get. destruct (getInstance k m) as [inst|]; [|done].
  destruct ((WidgetRegistry.getDescriptor (widgetId inst) reg).2) as [desc|].
  2:{ intros [= <- <-]. split; [done |]. done. }
  unfold WebWidgetContext.modify_this, modify, ret.
  intros [= <- <-]. split; [done |]. intros d [= <-].
  rewrite Hctx. destruct m, this. simpl. eexists. split; [done |]. simpl.
  apply JsMap.get_set_eq.
Qed.

Lemma getInstanceRoot_cached reg k m d :
  (exists ctx, _webWidgetContext m = Some ctx
               /\ JsMap.get k (_instanceRoots ctx) = Some d) ->
  _getInstanceRoot reg k m = (m, Returned (Some d)).
Proof.
  intros (ctx & Hctx & Hd). unfold _getInstanceRoot, bind, deref.
  by rewrite Hctx, Hd.
Qed.

(** The root lookup returns when the context is there and the instance
    is known or its root is cached. *)
Lemma getInstanceRoot_returns reg k m ctx :
  _webWidgetContext m = Some ctx ->
  is_Some (JsMap.get k (_instanceRoots ctx)) \/ is_Some (getInstance k m) ->
  exists m1 r, _getInstanceRoot reg k m = (m1, Returned r).
Proof.
  intros Hctx Hk. unfold _getInstanceRoot, bind, deref. rewrite Hctx.
  destruct (JsMap.get k (_instanceRoots ctx)) as [d|]; [by eexists _, _ |].
  destruct Hk as [[? ?]|[inst Hinst]]; [done |].
  unfold get. rewrite Hinst.
  destruct ((WidgetRegistry.getDescriptor (widgetId inst) reg).2);
    by eexists _, _.
Qed.

(** X6. [_onDingWidgetUriRequest] always returns. Either it does
    nothing to the request, which is exactly when the asynchronous
    handler raised, or it finishes the request once, as the last thing
    it does: every file query and read comes before the answer. When the
    context has a root for the view's instance, or the manager has that
    instance, the request is finished. *)
Theorem request_is_answered_at_most_once fs reg csp request m :
  exists m' events,
    _onDingWidgetUriRequest fs reg csp request m = (m', Returned events)
    /\ (events = [] \/ answered_once events)
    /\ (events = []
        <-> exists e,
              outcome_of (_onDingWidgetUriRequestAsync fs reg csp request m)
              = Threw e)
    /\ forall ctx,
         _webWidgetContext m = Some ctx ->
         is_Some (JsMap.get (WebKit._dingInstanceId (get_web_view request))
                    (_instanceRoots ctx))
         \/ is_Some (getInstance
                       (WebKit._dingInstanceId (get_web_view request)) m) ->
         answered_once events.
Proof.
  unfold _onDingWidgetUriRequest.
  destruct (_onDingWidgetUriRequestAsync fs reg csp request m)
    as [m' [events|e]] eqn:Hrun.
  - exists m', events.
    assert (Hone : answered_once events).
    { destruct (handler_cases _ _ _ _ _ _ _ Hrun)
        as [(code & message & ->)|(rootDir & path & _ & ->)].
      - by apply answered_once_single.
      - apply serve_spec. }
    split; [done |]. split; [by right |]. split; [|done].
    split; [|by intros [e He]].
    intros ->. destruct Hone as (before & answer & Heq & _).
    by destruct before.
  - exists m', []. split; [done |]. split; [by left |].
    split; [split; [by eexists | done] |].
    intros ctx Hctx Hk. exfalso.
    destruct (getInstanceRoot_returns reg _ _ _ Hctx Hk) as (m1 & r & Hroot).
    revert Hrun. unfold _onDingWidgetUriRequestAsync, ret.
    repeat first [ discriminate | case_match ].
    all: unfold bind; rewrite Hroot; repeat case_match; discriminate.
Qed.

(** X7. A view made by [newViewForInstance] for instance [k] is
    confined to [k]. For a request of that view whose URI is non-empty
    and parses as [ding-widget://host/path] with a non-empty host, the
    handler leaves the manager as it is; it refuses with
    [PERMISSION_DENIED] when the host is not [k] or the view got no
    root, and otherwise serves the path from the root of the view. *)
Theorem view_is_confined_to_its_instance
    fs reg reg' csp (widgetId k : string) m m1 wv
    (uri host : string) (path : option string) :
  newViewForInstance reg widgetId k m = (m1, Returned wv) ->
  truthy_str uri = true -> truthy_str host = true ->
  _onDingWidgetUriRequestAsync fs reg' csp
    (mkRequest (Some uri) (Some (GLib.mkUri "ding-widget" (Some host) path)) wv)
    m1
  = (m1,
     Returned
       match WebKit._dingWidgetRoot wv with
       | Some rootDir =>
           if decide (host = k) then serve fs csp rootDir (nullish path "")
           else [FinishError Gio.PERMISSION_DENIED
                   "Widget root not bound to this view"]
       | None =>
           [FinishError Gio.PERMISSION_DENIED
              "Widget root not bound to this view"]
       end).
Proof.
  intros Hnew Huri Hhost. unfold newViewForInstance in Hnew.
  apply RoundTripFacts.bind_returned_inv in Hnew as ([] & m0 & _ & Hnew).
  apply RoundTripFacts.bind_returned_inv in Hnew as (r & m1' & Hroot & Hnew).
  injection Hnew as <- <-.
  unfold _onDingWidgetUriRequestAsync.
  cbn [get_uri parsed get_web_view GLib.get_scheme GLib.get_host GLib.get_path
       WebKit._dingWidgetRoot WebKit._dingInstanceId truthy_ostr].
  rewrite Huri, Hhost. cbn [negb].
  rewrite bool_decide_eq_true_2 by done. cbn [negb].
  destruct r as [d|]; [|done].
  destruct (decide (host = k)) as [->|Hne].
  - rewrite bool_decide_eq_true_2 by done. cbn [negb].
    destruct (getInstanceRoot_returned _ _ _ _ _ Hroot) as [_ Hc].
    unfold bind. rewrite (getInstanceRoot_cached reg' k m1' d (Hc d eq_refl)).
    by rewrite bool_decide_eq_true_2.
  - rewrite bool_decide_eq_false_2 by congruence. done.
Qed.

(** *** The examples of the handler, once more *)

Definition page_events : list Event :=
  [QueryInfo (clock_root ++ ["index.html"]);
   LoadBytes (clock_root ++ ["index.html"]);
   FinishResponse "text/html" "<html/>" (Some policy)].

Lemma page_of_abc_served :
  _onDingWidgetUriRequestAsync clock_files no_widgets policy
    (request_of_abc "/index.html") desktop_with_abc
  = (desktop_with_abc, Returned page_events).
Proof. reflexivity. Qed.

Lemma page_of_abc_read :
  LoadBytes (clock_root ++ ["index.html"]) ∈ page_events.
Proof. right. left. Qed.

Lemma handler_reads_only_below_root_witness :
  exists rootDir,
    _getInstanceRoot no_widgets
      (WebKit._dingInstanceId (get_web_view (request_of_abc "/index.html")))
      desktop_with_abc
    = (desktop_with_abc, Returned (Some rootDir))
    /\ (PathFacts.canonical rootDir -> rootDir <> [] ->
        PathFacts.strictly_below rootDir (clock_root ++ ["index.html"]) = true).
Proof.
  exact (handler_reads_only_below_root clock_files no_widgets policy
           (request_of_abc "/index.html") desktop_with_abc desktop_with_abc
           page_events (clock_root ++ ["index.html"])
           page_of_abc_served page_of_abc_read).
Defined.

Lemma view_of_abc :
  newViewForInstance no_widgets "clock" "abc" desktop_with_abc
  = (desktop_with_abc,
     Returned (WebKit.mkWebView (Some clock_root) "clock" "abc" None)).
Proof. reflexivity. Qed.

Lemma view_is_confined_to_its_instance_witness :
  _onDingWidgetUriRequestAsync clock_files no_widgets policy
    (mkRequest (Some "ding-widget://xyz/index.html")
       (Some (GLib.mkUri "ding-widget" (Some "xyz") (Some "/index.html")))
       (WebKit.mkWebView (Some clock_root) "clock" "abc" None))
    desktop_with_abc
  = (desktop_with_abc,
     Returned
       match WebKit._dingWidgetRoot
               (WebKit.mkWebView (Some clock_root) "clock" "abc" None) with
       | Some rootDir =>
           if decide ("xyz" = "abc")
           then serve clock_files policy rootDir (nullish (Some "/index.html") "")
           else [FinishError Gio.PERMISSION_DENIED
                   "Widget root not bound to this view"]
       | None =>
           [FinishError Gio.PERMISSION_DENIED
              "Widget root not bound to this view"]
       end).
Proof.
  exact (view_is_confined_to_its_instance clock_files no_widgets no_widgets
           policy "clock" "abc" desktop_with_abc desktop_with_abc
           (WebKit.mkWebView (Some clock_root) "clock" "abc" None)
           "ding-widget://xyz/index.html" "xyz" (Some "/index.html")
           view_of_abc eq_refl eq_refl).
Defined.

End WebViewsFacts.

(* ===================================================================== *)
(** ** HtmlWidgetHost: teardown before the surface is ready               *)
(* ===================================================================== *)

Module HostTeardownFacts.
Import HtmlWidgetHost HtmlWidgetHostFacts.

(** [destroy()] on a host that still waits for its surface: the flag is
    set, the empty frame is left as it is, and the missing web view
    makes the call raise. *)
Lemma destroy_waiting h :
  _webView h = None -> _frame h = Some (mkFrame false) ->
  destroy h = (set_destroyed true h, Threw TypeError).
Proof.
  intros Hwv Hf. destruct h as [i w m pu ps ms v d f wp cs]. simpl in *.
  by subst v f.
Qed.

(** Readiness of a host that was destroyed while it waited. *)
Lemma start_resume_destroyed wv url h :
  _webView h = None -> _frame h = Some (mkFrame false) ->
  _destroyed h = true ->
  _start_resume wv url h
  = (mkHost (_instanceId h) (_widgetId h) (_mode h) (_prefsUri h) [] []
       (Some (WebKit.set_uri (Some (snd (first_load url))) wv)) true
       (Some (mkFrame true)) []
       (surface_calls h ++ [fst (first_load url)]),
     Returned tt).
Proof.
  intros Hwv Hf Hd. destruct h as [i w m pu ps ms v d f wp cs]; simpl in *.
  subst v f d.
  assert (Hload : forall h0 : Host,
    _webView h0 = Some wv ->
    match url with
    | Some u => if truthy_str u then load_uri u
                else _loadFallback "Missing entry/prefs URL"
    | None => _loadFallback "Missing entry/prefs URL"
    end h0
    = (log_call (fst (first_load url))
         (set_webView
            (Some (WebKit.set_uri (Some (snd (first_load url))) wv)) h0),
       Returned tt)).
  { intros h0 Hh0. unfold first_load, load_uri, _loadFallback.
    destruct url as [u|]; [destruct (truthy_str u)|];
      rewrite run_bind_get, Hh0; reflexivity. }
  unfold _start_resume, _makeWebView_resume.
  rewrite run_bind_assoc, run_bind_modify.
  unfold frame_set_child.
  rewrite run_bind_assoc.
  erewrite run_bind_deref_some by reflexivity.
  cbn [_child Bool.eqb]. rewrite run_bind_assoc, run_bind_ret, run_bind_modify.
  rewrite run_bind_modify, run_bind_get.
  cbn [_webView set_frame set_webView set_webViewPromise].
  erewrite run_bind_returned by (apply Hload; reflexivity).
  unfold _flushPendingHostStatePatches.
  rewrite run_bind_assoc, run_bind_get.
  change (for_each ?l _sendHostStatePatch)
    with (for_each l (fun v => _evaluateScript (SetHostStateScript v))).
  rewrite run_bind_assoc.
  erewrite run_bind_returned by (apply flush_dead; simpl; eauto).
  rewrite run_bind_modify.
  unfold _flushPendingMessages.
  rewrite run_bind_get.
  change (for_each ?l _postMessage)
    with (for_each l (fun v => _evaluateScript (PostMessageScript v))).
  erewrite run_bind_returned by (apply flush_dead; simpl; eauto).
  reflexivity.
Qed.

(** X8. [destroy()] on a host whose surface is still being built
    throws a [TypeError] after marking the host non-alive, and keeps the
    queued patches and messages. When the surface arrives afterwards,
    the rest of [_start] returns and still loads the page into it; none
    of the queued scripts is evaluated, both queues are emptied, and a
    second [destroy()] then returns normally. *)
Theorem destroy_before_ready_drops_queue_but_loads_page
    (p : Params) (cs : list Call) (wv : WebKit.WebView) (url : option string) :
  let waiting := state_of (do_calls cs (new p)) in
  let d := destroy waiting in
  let ready := _start_resume wv url (state_of d) in
  outcome_of d = Threw TypeError /\
  isAlive (state_of d) = false /\
  _pendingHostStatePatches (state_of d) = queued_patches cs /\
  _pendingPostMessages (state_of d) = queued_messages cs /\
  outcome_of ready = Returned tt /\
  surface_calls (state_of ready) = [fst (first_load url)] /\
  scripts_evaluated (state_of ready) = [] /\
  _pendingHostStatePatches (state_of ready) = [] /\
  _pendingPostMessages (state_of ready) = [] /\
  surface_ready (state_of ready) /\
  outcome_of (destroy (state_of ready)) = Returned tt.
Proof.
  intros waiting d ready.
  assert (Hw : waiting
               = set_messages (queued_messages cs)
                   (set_patches (queued_patches cs) (new p))).
  { unfold waiting. by rewrite do_calls_queued. }
  assert (Hd : d = (set_destroyed true waiting, Threw TypeError)).
  { unfold d. apply destroy_waiting; by rewrite Hw. }
  assert (Hr : ready
               = (mkHost (p_instanceId p) (p_widgetId p) (_mode (new p))
                    (_prefsUri (new p)) [] []
                    (Some (WebKit.set_uri (Some (snd (first_load url))) wv))
                    true (Some (mkFrame true)) [] [fst (first_load url)],
                  Returned tt)).
  { unfold ready. rewrite Hd. unfold state_of. cbn [fst].
    rewrite start_resume_destroyed by (by rewrite Hw). by rewrite Hw. }
  rewrite Hd, Hr. unfold state_of, outcome_of, isAlive. cbn [fst snd].
  rewrite Hw.
  unfold first_load.
  destruct url as [u|]; [destruct (truthy_str u)|]; repeat split; by eauto.
Qed.

End HostTeardownFacts.

(* ===================================================================== *)
(** ** WidgetManager: invariants of methods that may raise                *)
(* ===================================================================== *)

Module InvariantFacts.
Import Model WidgetManager WidgetManagerApi.

(** *** Invariants of methods that may raise *)

(** [c] leaves [I] in place, whether it returns or raises. *)
Definition preserves (I : Manager -> Prop) {A} (c : M Manager A) : Prop :=
  forall m, I m -> I (state_of (c m)).

(** [I] holds once [c] has run from [m]. *)
Definition after (I : Manager -> Prop) {A} (c : M Manager A) (m : Manager)
  : Prop :=
  I (state_of (c m)).

Section Rules.
Context (I : Manager -> Prop).

Lemma after_preserves {A} (c : M Manager A) m :
  I m -> preserves I c -> after I c m.
Proof. intros Hm Hc. by apply Hc. Qed.

Lemma preserves_after {A} (c : M Manager A) :
  (forall m, I m -> after I c m) -> preserves I c.
Proof. done. Qed.

Lemma preserves_ret {A} (a : A) : preserves I (ret a).
Proof. by intros m. Qed.

Lemma preserves_throw {A} e : preserves I (@throw Manager A e).
Proof. by intros m. Qed.

Lemma preserves_bind {A B} (c : M Manager A) (k : A -> M Manager B) :
  preserves I c -> (forall a, preserves I (k a)) -> preserves I (x <- c ;; k x).
Proof.
  intros Hc Hk m Hm. specialize (Hc m Hm). unfold bind, state_of in *.
  destruct (c m) as [m1 [a|e]]; [by apply Hk | done].
Qed.

Lemma preserves_get {B} (k : Manager -> M Manager B) :
  (forall s, I s -> after I (k s) s) -> preserves I (x <- get ;; k x).
Proof. intros Hk m Hm. rewrite run_bind_get. by apply Hk. Qed.

Lemma preserves_deref {A B} (field : Manager -> option A)
    (k : A -> M Manager B) :
  (forall x, preserves I (k x)) -> preserves I (x <- deref field ;; k x).
Proof.
  intros Hk m Hm. unfold bind, deref. destruct (field m); [by apply Hk | done].
Qed.

Lemma preserves_modify f : (forall m, I m -> I (f m)) -> preserves I (modify f).
Proof. intros Hf m Hm. by apply Hf. Qed.

Lemma preserves_for_each {A} (xs : list A) (body : A -> M Manager unit) :
  (forall x, preserves I (body x)) -> preserves I (for_each xs body).
Proof.
  intros Hb. induction xs as [|x xs IH]; simpl.
  - apply preserves_ret.
  - apply preserves_bind; [apply Hb | intros _; apply IH].
Qed.

Lemma preserves_try_catch (c : M Manager unit) :
  preserves I c -> preserves I (try_catch c).
Proof.
  intros Hc m Hm. specialize (Hc m Hm). unfold try_catch, state_of in *.
  by destruct (c m).
Qed.

Lemma preserves_on_instance_host {A} k (c : M HtmlWidgetHost.Host A)
    (absent : M Manager A) :
  (forall m h, I m -> I (update_instance k (set_host h) m)) ->
  preserves I absent -> preserves I (on_instance_host k c absent).
Proof.
  intros Hf Habs m Hm. unfold on_instance_host.
  destruct (JsMap.get k (_instances m)) as [i|]; [|by apply Habs].
  destruct (host i); [|by apply Habs]. by apply Hf.
Qed.

Lemma preserves_on_prefs_host {A} (c : M HtmlWidgetHost.Host A)
    (absent : M Manager A) :
  (forall m ctx h, I m -> _webWidgetContext m = Some ctx ->
     I (set_webWidgetContext (Some (set_prefsHost h ctx)) m)) ->
  preserves I absent -> preserves I (on_prefs_host c absent).
Proof.
  intros Hf Habs m Hm. unfold on_prefs_host.
  destruct (_webWidgetContext m) as [ctx|] eqn:Hctx; [|by apply Habs].
  destruct (_prefsHost ctx); [|by apply Habs]. by apply Hf.
Qed.

(** Running a field update at a known state. *)
Lemma after_modify f m : I (f m) -> after I (modify f) m.
Proof. done. Qed.

Lemma after_bind_modify {B} f (k : unit -> M Manager B) m :
  after I (k tt) (f m) -> after I (x <- modify f ;; k x) m.
Proof. done. Qed.

Lemma after_bind_get {B} (k : Manager -> M Manager B) m :
  after I (k m) m -> after I (x <- get ;; k x) m.
Proof. done. Qed.

Lemma after_ret {A} (a : A) m : I m -> after I (ret a) m.
Proof. done. Qed.

End Rules.

(** *** Dispatch on string literals *)

Ltac literal_cases :=
  repeat (try assumption;
          match goal with
          | |- context [match ?x with _ => _ end] =>
              is_var x; destruct x; cbv beta iota
          end);
  try assumption.

(** Whatever holds of every branch of the dispatch on the message type
    holds of the dispatch. *)
Lemma message_type_cases {A} (Q : A -> Prop) (t : jsval)
    (update get_ ready open_ close_ other : A) :
  Q update -> Q get_ -> Q ready -> Q open_ -> Q close_ -> Q other ->
  Q (match t with
     | JStr "updateConfig" => update
     | JStr "getConfig" => get_
     | JStr "hostReady" => ready
     | JStr "openPreferences" => open_
     | JStr "closePreferences" => close_
     | _ => other
     end).
Proof. intros. literal_cases. Qed.

Lemma mode_cases {A} (Q : A -> Prop) (mode : jsval) (prefs widget both : A) :
  Q prefs -> Q widget -> Q both ->
  Q (match mode with
     | JStr "prefs" => prefs
     | JStr "widget" => widget
     | _ => both
     end).
Proof. intros. literal_cases. Qed.

Lemma log_cases {A} (Q : A -> Prop) (t : jsval) (log other : A) :
  Q log -> Q other ->
  Q (match t with
     | JStr "log" => log
     | _ => other
     end).
Proof. intros. literal_cases. Qed.

(** A field that an update does not write. *)
Ltac unchanged :=
  intros;
  unfold update_instance, put, unparent, raise_child,
    WebWidgetContext.modify_this, WebWidgetContext.on_window;
  repeat case_match;
  repeat match goal with m : Manager |- _ => destruct m end;
  reflexivity.

Ltac preserves_step leaf :=
  lazymatch goal with
  | |- preserves _ (ret _) => apply preserves_ret
  | |- preserves _ (throw _) => apply preserves_throw
  | |- preserves _ (bind get _) =>
      apply preserves_get; intros ? ?; cbv beta zeta
  | |- preserves _ (bind (deref _) _) => apply preserves_deref; intros ?
  | |- preserves _ (bind _ _) => apply preserves_bind; [| intros ?]
  | |- preserves _ (for_each _ _) => apply preserves_for_each; intros ?
  | |- preserves _ (try_catch _) => apply preserves_try_catch
  | |- preserves _ (WebWidgetContext.if_context _) =>
      unfold WebWidgetContext.if_context
  | |- preserves _ (WebWidgetContext.modify_this _) =>
      apply preserves_modify; leaf
  | |- preserves _ (modify _) => apply preserves_modify; leaf
  | |- preserves _ (on_instance_host _ _ _) =>
      apply preserves_on_instance_host; [leaf |]
  | |- preserves _ (on_prefs_host _ _) =>
      apply preserves_on_prefs_host; [leaf |]
  | |- preserves ?I (match ?x with _ => _ end) =>
      lazymatch type of x with
      | jsval =>
          first [ apply (message_type_cases (preserves I))
                | apply (mode_cases (preserves I))
                | apply (log_cases (preserves I))
                | destruct x eqn:? ]
      | _ => destruct x eqn:?
      end
  | |- after ?I (match ?x with _ => _ end) ?m =>
      lazymatch type of x with
      | jsval =>
          first [ apply (message_type_cases (fun c => after I c m))
                | apply (mode_cases (fun c => after I c m))
                | apply (log_cases (fun c => after I c m))
                | destruct x eqn:? ]
      | _ => destruct x eqn:?
      end
  | |- after _ _ _ => apply after_preserves; [assumption |]
  end.

(** [known] closes the goals about methods already dealt with; it
    looks at the name of the method only. *)
Ltac preserves_auto leaf known :=
  repeat first [ known | preserves_step leaf ].

(** *** [loadState] in three parts *)

(** The check of the version. *)
Definition check_version (version : jsval) : M Manager unit :=
  match version with
  | JNum q => if Qeq_bool q 1 then ret tt
              else modify (warn WarnUnknownStateVersion)
  | _ => modify (warn WarnUnknownStateVersion)
  end.

(** What [loadState] does between setting the suppression flag and
    restoring it: the two loops and the selection. *)
Definition rebuild (prevSelection : option string) (doc : list InstData)
  : M Manager unit :=
  seen <- load_instances ∅ doc ;;
  m <- get ;;
  for_each (JsMap.keys (_instances m)) (drop_unseen seen) ;;;
  m <- get ;;
  match prevSelection with
  | Some p =>
      if truthy_str p && JsMap.has p (_instances m)
      then selectInstance prevSelection
      else selectInstance None
  | None => selectInstance None
  end.

Lemma check_version_returns version m :
  exists m0,
    check_version version m = (m0, Returned tt)
    /\ (m0 = m \/ m0 = warn WarnUnknownStateVersion m).
Proof.
  unfold check_version. destruct version; try (eexists; split; [done | by right]).
  destruct (Qeq_bool q 1); eexists; (split; [done | auto]).
Qed.

Lemma loadState_parts version doc m :
  exists m0,
    check_version version m = (m0, Returned tt)
    /\ (m0 = m \/ m0 = warn WarnUnknownStateVersion m)
    /\ loadState (StateObject version (Some doc)) m
       = match rebuild (_selectedInstanceId m0) doc
                 (set_suppressStateEvents true m0) with
         | (m1, Returned _) =>
             (set_suppressStateEvents (_suppressStateEvents m0) m1, Returned tt)
         | (m1, Threw e) => (m1, Threw e)
         end.
Proof.
  destruct (check_version_returns version m) as (m0 & Hcheck & Hm0).
  exists m0. split; [done |]. split; [done |].
  unfold loadState. fold (check_version version).
  rewrite (run_bind_returned _ _ _ _ _ Hcheck).
  rewrite run_bind_get. cbv zeta. rewrite run_bind_modify.
  unfold rebuild, bind, get.
  destruct (load_instances ∅ doc (set_suppressStateEvents true m0))
    as [m1 [seen|e]]; [|done].
  destruct (for_each (JsMap.keys (_instances m1)) (drop_unseen seen) m1)
    as [m2 [[]|e]]; [|done].
  match goal with
  | |- match ?c with _ => _ end = _ => destruct c as [m3 [[]|e]]
  end; done.
Qed.

End InvariantFacts.

(* ===================================================================== *)
(** ** WidgetManager: what loadState leaves alone                         *)
(* ===================================================================== *)

Module PersistenceFacts.
Import Model WidgetManager WidgetManagerApi InvariantFacts.

(** State events are suppressed and the preferences hold [P]. *)
Definition suppressed (P : Preferences) (m : Manager) : Prop :=
  _suppressStateEvents m = true /\ _preferences m = P.

Lemma suppressed_frame P m m' :
  _suppressStateEvents m' = _suppressStateEvents m ->
  _preferences m' = _preferences m ->
  suppressed P m -> suppressed P m'.
Proof. unfold suppressed. by intros -> ->. Qed.

Ltac suppressed_leaf :=
  intros;
  lazymatch goal with
  | H : suppressed _ ?m |- suppressed _ ?m' =>
      apply (suppressed_frame _ m m'); [unchanged | unchanged | exact H]
  end.

Create HintDb suppressed discriminated.

Ltac suppressed_auto :=
  preserves_auto suppressed_leaf ltac:(solve [auto 1 with suppressed nocore]).

(** While state events are suppressed, a state change writes nothing. *)
Lemma suppressed_stateChanged P : preserves (suppressed P) _stateChanged.
Proof.
  intros m [Hs Hp]. unfold _stateChanged. rewrite run_bind_get, Hs. by split.
Qed.

#[local] Hint Extern 0 (preserves _ _stateChanged) =>
  apply suppressed_stateChanged : suppressed.

Lemma suppressed_closePreferencesIfAny P :
  preserves (suppressed P) WebWidgetContext.closePreferencesIfAny.
Proof.
  unfold WebWidgetContext.closePreferencesIfAny,
    WebWidgetContext.window_destroy, WebWidgetContext.on_window.
  suppressed_auto.
Qed.

#[local] Hint Extern 0 (preserves _ WebWidgetContext.closePreferencesIfAny) =>
  apply suppressed_closePreferencesIfAny : suppressed.

Lemma suppressed_pushPatchtoTarget P k patch :
  preserves (suppressed P) (WebWidgetContext._pushPatchtoTarget k patch).
Proof. unfold WebWidgetContext._pushPatchtoTarget. suppressed_auto. Qed.

#[local] Hint Extern 0 (preserves _ (WebWidgetContext._pushPatchtoTarget _ _)) =>
  apply suppressed_pushPatchtoTarget : suppressed.

Lemma suppressed_selectInstance P k :
  preserves (suppressed P) (selectInstance k).
Proof.
  unfold selectInstance, _detachChrome, _updateWidgetsSelectionState,
    _raiseInstance, _raiseAddButton, _ensureChrome, _attachChromeToInstance,
    place_button, WebWidgetContext.closePreferencesForInstance,
    WebWidgetContext.updateHtmlWidgetSelected.
  suppressed_auto.
Qed.

#[local] Hint Extern 0 (preserves _ (selectInstance _)) =>
  apply suppressed_selectInstance : suppressed.

Lemma suppressed_load_instance P seen d :
  preserves (suppressed P) (load_instance seen d).
Proof.
  unfold load_instance, _ensureInstanceActor, _createActorForInstance,
    _ensureWebWidgetContext, _positionInstanceActor,
    WebWidgetContext._initWebKitRuntime.
  suppressed_auto.
Qed.

Lemma suppressed_rebuild P sel doc : preserves (suppressed P) (rebuild sel doc).
Proof.
  unfold rebuild. apply preserves_bind.
  - generalize (∅ : gset string). induction doc as [|d doc IH]; intros seen.
    + apply preserves_ret.
    + simpl. apply preserves_bind; [apply suppressed_load_instance | done].
  - intros seen. unfold drop_unseen, _removeActor. suppressed_auto.
Qed.

(** X9. [loadState] never writes the stored widget state: whatever
    its argument, and whether it returns or raises, the preferences are
    those from before the call. *)
Theorem loadState_never_writes_widgetState (state : StateArg) (m : Manager) :
  _preferences (state_of (loadState state m)) = _preferences m.
Proof.
  destruct state as [| |version [doc|]]; try done.
  - destruct (loadState_parts version doc m) as (m0 & _ & Hm0 & ->).
    assert (Hp : _preferences m0 = _preferences m).
    { destruct Hm0 as [->| ->]; [done | by destruct m]. }
    destruct (suppressed_rebuild (_preferences m) (_selectedInstanceId m0) doc
                (set_suppressStateEvents true m0)) as [_ Hkeep].
    { split; [by destruct m0 | by destruct m0]. }
    unfold state_of in *.
    destruct (rebuild _ _ _) as [m1 [[]|e]]; simpl in *; [|done].
    by destruct m1.
  - unfold loadState. destruct version; try (by destruct m).
    destruct (Qeq_bool q 1); by destruct m.
Qed.

(** X10. [loadState] with an [instances] array restores the
    suppression of state events only when it returns: if it returns,
    [_suppressStateEvents] is what it was before the call; if it raises,
    the flag is left set. *)
Theorem loadState_restores_suppression_only_on_return
    (version : jsval) (doc : list InstData) (m : Manager) :
  match loadState (StateObject version (Some doc)) m with
  | (m', Returned _) => _suppressStateEvents m' = _suppressStateEvents m
  | (m', Threw _) => _suppressStateEvents m' = true
  end.
Proof.
  destruct (loadState_parts version doc m) as (m0 & _ & Hm0 & ->).
  assert (Hs : _suppressStateEvents m0 = _suppressStateEvents m).
  { destruct Hm0 as [->| ->]; [done | by destruct m]. }
  destruct (suppressed_rebuild (_preferences m0) (_selectedInstanceId m0) doc
              (set_suppressStateEvents true m0)) as [Hflag _].
  { split; by destruct m0. }
  unfold state_of in *.
  destruct (rebuild _ _ _) as [m1 [[]|e]]; simpl in *; [|done].
  rewrite <- Hs. by destruct m1.
Qed.

End PersistenceFacts.

(* ===================================================================== *)
(** ** WidgetManager: the instance map over a session                     *)
(* ===================================================================== *)

Module InstanceMapFacts.
Import Model WidgetManager WidgetManagerApi InvariantFacts.

(** An update of an instance that keeps its id and its kind of entry. *)
Definition same_entry_kind (g : Instance -> Instance) : Prop :=
  forall i, instanceId (g i) = instanceId i
            /\ _isAddButton (g i) = _isAddButton i.

Create HintDb on_map discriminated.

Section InstanceMap.
(** A property of the instance map that survives the replacement of an
    instance by one with the same id and the same kind of entry, the
    insertion of a widget under a key not yet there, and the removal
    of whatever is no add button. *)
Context (P : list (string * Instance) -> Prop).
Context (P_update : forall l k i i',
  P l -> JsMap.get k l = Some i ->
  instanceId i' = instanceId i -> _isAddButton i' = _isAddButton i ->
  P (JsMap.set k i' l)).
Context (P_insert : forall l k i',
  P l -> JsMap.get k l = None ->
  instanceId i' = k -> _isAddButton i' = false ->
  P (JsMap.set k i' l)).
Context (P_delete : forall l k,
  P l -> (forall i, JsMap.get k l = Some i -> _isAddButton i = false) ->
  P (JsMap.delete k l)).

Definition on_map (m : Manager) : Prop := P (_instances m).

Lemma on_map_inert f m :
  _instances (f m) = _instances m -> on_map m -> on_map (f m).
Proof. unfold on_map. by intros ->. Qed.

Lemma on_map_update k g m :
  same_entry_kind g -> on_map m -> on_map (update_instance k g m).
Proof.
  intros Hg Hm. unfold on_map, update_instance in *.
  destruct (JsMap.get k (_instances m)) as [i|] eqn:E; [|done].
  destruct (Hg i). destruct m; simpl in *. by eapply P_update.
Qed.

Lemma same_entry_kind_set_host h : same_entry_kind (set_host h).
Proof. by intros []. Qed.

Lemma same_entry_kind_set_config c : same_entry_kind (set_config c).
Proof. by intros []. Qed.

Lemma same_entry_kind_new_actor a h :
  same_entry_kind (fun i => set_actor a (set_host h i)).
Proof. by intros []. Qed.

Lemma same_entry_kind_reload w d :
  same_entry_kind
    (fun i => instance_of_data (instanceId i) w d (actor i) (host i)
                (_isAddButton i)).
Proof. by intros []. Qed.

Ltac on_map_leaf :=
  intros;
  lazymatch goal with
  | |- on_map (update_instance _ _ _) =>
      apply on_map_update;
      [ first [ apply same_entry_kind_set_host
              | apply same_entry_kind_set_config
              | apply same_entry_kind_new_actor
              | apply same_entry_kind_reload ]
      | assumption ]
  | |- on_map _ => apply on_map_inert; [unchanged | assumption]
  end.

Ltac on_map_auto :=
  preserves_auto on_map_leaf ltac:(solve [auto 1 with on_map nocore]).

Lemma on_map_exportState : preserves on_map exportState.
Proof.
  unfold exportState, _computeZIndexByInstanceId, _sortedInstancesForExport.
  on_map_auto.
Qed.

#[local] Hint Extern 0 (preserves _ exportState) =>
  apply on_map_exportState : on_map.

Lemma on_map_stateChanged : preserves on_map _stateChanged.
Proof. unfold _stateChanged. on_map_auto. Qed.

#[local] Hint Extern 0 (preserves _ _stateChanged) =>
  apply on_map_stateChanged : on_map.

Lemma on_map_closePreferencesIfAny :
  preserves on_map WebWidgetContext.closePreferencesIfAny.
Proof.
  unfold WebWidgetContext.closePreferencesIfAny,
    WebWidgetContext.window_destroy, WebWidgetContext.on_window.
  on_map_auto.
Qed.

#[local] Hint Extern 0 (preserves _ WebWidgetContext.closePreferencesIfAny) =>
  apply on_map_closePreferencesIfAny : on_map.

Lemma on_map_selectInstance k : preserves on_map (selectInstance k).
Proof.
  unfold selectInstance, _detachChrome, _updateWidgetsSelectionState,
    _raiseInstance, _raiseAddButton, _ensureChrome, _attachChromeToInstance,
    place_button, WebWidgetContext.closePreferencesForInstance,
    WebWidgetContext.updateHtmlWidgetSelected,
    WebWidgetContext._pushPatchtoTarget.
  on_map_auto.
Qed.

#[local] Hint Extern 0 (preserves _ (selectInstance _)) =>
  apply on_map_selectInstance : on_map.

Lemma on_map_clearSelectedInstance : preserves on_map clearSelectedInstance.
Proof.
  unfold clearSelectedInstance, _detachChrome, _updateWidgetsSelectionState,
    WebWidgetContext.updateHtmlWidgetSelected,
    WebWidgetContext._pushPatchtoTarget.
  on_map_auto.
Qed.

Lemma on_map_updateInstanceConfig k c :
  preserves on_map (updateInstanceConfig k c).
Proof.
  unfold updateInstanceConfig. on_map_auto.
Qed.

#[local] Hint Extern 0 (preserves _ (updateInstanceConfig _ _)) =>
  apply on_map_updateInstanceConfig : on_map.

Lemma on_map_openPreferencesForInstance k uri :
  preserves on_map (WebWidgetContext.openPreferencesForInstance k uri).
Proof.
  unfold WebWidgetContext.openPreferencesForInstance,
    WebWidgetContext.open_new_preferences, WebWidgetContext.new_window,
    WebWidgetContext._initWebKitRuntime, WebWidgetContext.present,
    WebWidgetContext.on_window.
  on_map_auto.
Qed.

#[local] Hint Extern 0 (preserves _ (WebWidgetContext.openPreferencesForInstance _ _)) =>
  apply on_map_openPreferencesForInstance : on_map.

Lemma on_map_openPreferencesForSelectedInstance :
  preserves on_map _openPreferencesForSelectedInstance.
Proof.
  unfold _openPreferencesForSelectedInstance, _ensureWebWidgetContext.
  on_map_auto.
Qed.

Lemma on_map_closePreferencesForInstance k :
  preserves on_map (WebWidgetContext.closePreferencesForInstance k).
Proof.
  unfold WebWidgetContext.closePreferencesForInstance.
  on_map_auto.
Qed.

#[local] Hint Extern 0 (preserves _ (WebWidgetContext.closePreferencesForInstance _)) =>
  apply on_map_closePreferencesForInstance : on_map.

Lemma on_map_close_request w :
  preserves on_map (WebWidgetContext.close_request w).
Proof.
  unfold WebWidgetContext.close_request, WebWidgetContext.window_destroy,
    WebWidgetContext.on_window.
  on_map_auto.
Qed.

Lemma on_map_pushPatchtoTarget k patch :
  preserves on_map (WebWidgetContext._pushPatchtoTarget k patch).
Proof. unfold WebWidgetContext._pushPatchtoTarget. on_map_auto. Qed.

#[local] Hint Extern 0 (preserves _ (WebWidgetContext._pushPatchtoTarget _ _)) =>
  apply on_map_pushPatchtoTarget : on_map.

Lemma on_map_postToBoth k msg :
  preserves on_map (WebWidgetContext._postToBoth k msg).
Proof.
  unfold WebWidgetContext._postToBoth, WebWidgetContext._postToWidget,
    WebWidgetContext._postToPrefs.
  on_map_auto.
Qed.

#[local] Hint Extern 0 (preserves _ (WebWidgetContext._postToBoth _ _)) =>
  apply on_map_postToBoth : on_map.

Lemma on_map_pushConfigChangedForInstance k mode :
  preserves on_map (WebWidgetContext._pushConfigChangedForInstance k mode).
Proof.
  unfold WebWidgetContext._pushConfigChangedForInstance. on_map_auto.
Qed.

#[local] Hint Extern 0
  (preserves _ (WebWidgetContext._pushConfigChangedForInstance _ _)) =>
  apply on_map_pushConfigChangedForInstance : on_map.

Lemma on_map_doWidgetGetConfig k mode requestId :
  preserves on_map (WebWidgetContext._doWidgetGetConfig k mode requestId).
Proof.
  unfold WebWidgetContext._doWidgetGetConfig, WebWidgetContext._routeAndPost,
    WebWidgetContext._postToWidget, WebWidgetContext._postToPrefs.
  on_map_auto.
Qed.

#[local] Hint Extern 0
  (preserves _ (WebWidgetContext._doWidgetGetConfig _ _ _)) =>
  apply on_map_doWidgetGetConfig : on_map.

Lemma on_map_pushFullHostStateForInstance env k :
  preserves on_map (WidgetMessages._pushFullHostStateForInstance env k).
Proof. unfold WidgetMessages._pushFullHostStateForInstance. on_map_auto. Qed.

#[local] Hint Extern 0
  (preserves _ (WidgetMessages._pushFullHostStateForInstance _ _)) =>
  apply on_map_pushFullHostStateForInstance : on_map.

Lemma on_map_dispatchWidgetMessage_resume env payload k inst wv :
  preserves on_map
    (WidgetMessages._dispatchWidgetMessage_resume env payload k inst wv).
Proof. unfold WidgetMessages._dispatchWidgetMessage_resume. on_map_auto. Qed.

#[local] Hint Extern 0
  (preserves _ (WidgetMessages._dispatchWidgetMessage_resume _ _ _ _ _)) =>
  apply on_map_dispatchWidgetMessage_resume : on_map.

Lemma on_map_dispatchWidgetMessage env payload :
  preserves on_map (WidgetMessages._dispatchWidgetMessage env payload).
Proof. unfold WidgetMessages._dispatchWidgetMessage. on_map_auto. Qed.

Lemma on_map_dispatchWidgetMessage_continue env payload :
  preserves on_map (WidgetMessages._dispatchWidgetMessage_continue env payload).
Proof. unfold WidgetMessages._dispatchWidgetMessage_continue. on_map_auto. Qed.

#[local] Hint Extern 0
  (preserves _ (WidgetMessages._dispatchWidgetMessage_continue _ _)) =>
  apply on_map_dispatchWidgetMessage_continue : on_map.

Lemma on_map_surface_arrives env k wv url :
  preserves on_map (WidgetMessages.surface_arrives env k wv url).
Proof. unfold WidgetMessages.surface_arrives. on_map_auto. Qed.

#[local] Hint Extern 0
  (preserves _ (WidgetMessages._dispatchWidgetMessage _ _)) =>
  apply on_map_dispatchWidgetMessage : on_map.

Lemma on_map_message env payload :
  preserves on_map (WidgetMessages._onWidgetScriptMessage env payload).
Proof. unfold WidgetMessages._onWidgetScriptMessage. on_map_auto. Qed.

Lemma on_map_notifications :
  preserves on_map onThemeChanged
  /\ preserves on_map onAnimationChanged
  /\ forall mon onTop,
       preserves on_map (handleWidgetContainerLayerChange mon onTop).
Proof.
  unfold onThemeChanged, onAnimationChanged, handleWidgetContainerLayerChange,
    _updateTheme, _updateAnimation, _updateWidgetLayerChange,
    _sendLayerStateToInstance, _raiseAddButton,
    WebWidgetContext.updateHtmlWidgetTheme,
    WebWidgetContext.updateHtmlWidgetAnimation,
    WebWidgetContext.updateHtmlWidgetLayer.
  split; [|split; [|intros mon onTop]];
    on_map_auto.
Qed.

Lemma on_map_stopWebkitIfUnneeded : preserves on_map _stopWebkitIfUnneeded.
Proof.
  unfold _stopWebkitIfUnneeded, WebWidgetContext.destroy.
  on_map_auto.
Qed.

(** *** Removal *)

Lemma on_map_delete k m :
  (forall i, getInstance k m = Some i -> _isAddButton i = false) ->
  on_map m -> on_map (set_instances (JsMap.delete k (_instances m)) m).
Proof.
  intros Hk Hm. unfold on_map. destruct m; simpl in *. by apply P_delete.
Qed.

(** [_removeActor(k)] for a [k] that names no add button. *)
Definition removable (k : string) (m : Manager) : Prop :=
  forall i, getInstance k m = Some i -> _isAddButton i = false.

Lemma removable_inert k f m :
  _instances (f m) = _instances m -> removable k m -> removable k (f m).
Proof. unfold removable, getInstance. by intros ->. Qed.

Lemma removable_update k k' g m :
  same_entry_kind g -> removable k m -> removable k (update_instance k' g m).
Proof.
  intros Hg Hr i. destruct (decide (k' = k)) as [->|Hne].
  - destruct (getInstance k m) as [i0|] eqn:E.
    + rewrite (RoundTripFacts.getInstance_update_eq _ _ _ _ E).
      intros [= <-]. destruct (Hg i0) as [_ ->]. by apply Hr.
    + rewrite RoundTripFacts.getInstance_update_None by done. apply Hr.
  - rewrite RoundTripFacts.getInstance_update_ne by done. apply Hr.
Qed.

Lemma on_map_removeActor k m :
  removable k m -> on_map m -> on_map (state_of (_removeActor k m)).
Proof.
  intros Hk Hm. unfold _removeActor. rewrite run_bind_get.
  destruct (JsMap.get k (_instances m)) as [inst|] eqn:E; [|done].
  set (m1 := match actor inst with Some a => unparent a m | None => m end).
  assert (H1 : (match actor inst with
                | Some a => modify (unparent a)
                | None => ret tt
                end) m = (m1, Returned tt)).
  { unfold m1. by destruct (actor inst). }
  assert (Hm1 : on_map m1 /\ removable k m1).
  { unfold m1. destruct (actor inst); [|done].
    split; [apply on_map_inert | apply removable_inert]; try done; unchanged. }
  destruct Hm1 as [Hm1 Hk1].
  rewrite (run_bind_returned _ _ _ _ _ H1).
  unfold bind at 1, on_instance_host.
  destruct (JsMap.get k (_instances m1)) as [i1|] eqn:E1.
  - destruct (host i1) as [h|].
    + set (r := HtmlWidgetHost.destroy h). cbv zeta.
      set (m2 := update_instance k (set_host (Some r.1)) m1).
      assert (Hm2 : on_map m2 /\ removable k m2).
      { split; [apply on_map_update | apply removable_update]; try done;
          apply same_entry_kind_set_host. }
      destruct Hm2 as [Hm2 Hk2]. cbn [snd].
      destruct (r.2); [|done]. by apply on_map_delete.
    + by apply on_map_delete.
  - by apply on_map_delete.
Qed.

Lemma on_map_drop_unseen seen k : preserves on_map (drop_unseen seen k).
Proof.
  intros m Hm. unfold drop_unseen. rewrite run_bind_get.
  destruct (JsMap.get k (_instances m)) as [instance|] eqn:E.
  - destruct (_isAddButton instance) eqn:Hadd; [done |].
    case_bool_decide; [done |].
    apply on_map_removeActor; [|done].
    intros i Hi. unfold getInstance in Hi. congruence.
  - case_bool_decide; [done |].
    apply on_map_removeActor; [|done].
    intros i Hi. unfold getInstance in Hi. congruence.
Qed.

#[local] Hint Extern 0 (preserves _ (drop_unseen _ _)) =>
  apply on_map_drop_unseen : on_map.

(** *** Loading *)

Lemma on_map_load_tail seen k : preserves on_map (RoundTripFacts.load_tail seen k).
Proof.
  unfold RoundTripFacts.load_tail, _ensureInstanceActor,
    _createActorForInstance, _ensureWebWidgetContext, _positionInstanceActor,
    WebWidgetContext._initWebKitRuntime.
  on_map_auto.
Qed.

Lemma on_map_load_instance seen d : preserves on_map (load_instance seen d).
Proof.
  intros m Hm. unfold load_instance.
  destruct (d_instanceId d) as [k|]; [|done].
  destruct (d_widgetId d) as [w|]; [|done].
  destruct (negb (truthy_str k) || negb (truthy_str w)); [done |].
  rewrite run_bind_get.
  set (m1 := match JsMap.get k (_instances m) with
             | Some _ =>
                 update_instance k
                   (fun i => instance_of_data (instanceId i) w d (actor i)
                               (host i) (_isAddButton i)) m
             | None =>
                 set_instances
                   (JsMap.set k (instance_of_data k w d None None false)
                      (_instances m)) m
             end).
  assert (H1 : (match JsMap.get k (_instances m) with
                | Some _ =>
                    modify (update_instance k
                      (fun i => instance_of_data (instanceId i) w d (actor i)
                                  (host i) (_isAddButton i)))
                | None =>
                    modify (set_instances
                      (JsMap.set k (instance_of_data k w d None None false)
                         (_instances m)))
                end) m = (m1, Returned tt)).
  { unfold m1. by destruct (JsMap.get k (_instances m)). }
  assert (Hm1 : on_map m1).
  { unfold m1. destruct (JsMap.get k (_instances m)) eqn:E.
    - apply on_map_update; [apply same_entry_kind_reload | done].
    - unfold on_map. destruct m; simpl in *. by apply P_insert. }
  rewrite (run_bind_returned _ _ _ _ _ H1).
  by apply (on_map_load_tail seen k).
Qed.

Lemma on_map_rebuild sel doc : preserves on_map (rebuild sel doc).
Proof.
  unfold rebuild. apply preserves_bind.
  - generalize (∅ : gset string). induction doc as [|d doc IH]; intros seen.
    + apply preserves_ret.
    + simpl. apply preserves_bind; [apply on_map_load_instance | done].
  - intros seen.
    on_map_auto.
Qed.

Lemma on_map_loadState state : preserves on_map (loadState state).
Proof.
  intros m Hm. destruct state as [| |version [doc|]]; try done.
  - destruct (loadState_parts version doc m) as (m0 & _ & Hm0 & ->).
    assert (H0 : on_map (set_suppressStateEvents true m0)).
    { destruct Hm0 as [->| ->]; unfold on_map in *; by destruct m. }
    pose proof (on_map_rebuild (_selectedInstanceId m0) doc _ H0) as Hr.
    unfold state_of in *.
    destruct (rebuild _ _ _) as [m1 [[]|e]]; simpl in *; [|done].
    unfold on_map in *. by destruct m1.
  - unfold loadState. destruct version; try (unfold on_map in *; by destruct m).
    destruct (Qeq_bool q 1); unfold on_map in *; by destruct m.
Qed.

#[local] Hint Extern 0 (preserves _ (loadState _)) =>
  apply on_map_loadState : on_map.

(** *** Removal on request *)

Section AnyRemoval.
Context (P_delete_any : forall l k, P l -> P (JsMap.delete k l)).

Lemma on_map_removeActor_any k : preserves on_map (_removeActor k).
Proof.
  unfold _removeActor. on_map_auto.
  intros m Hm. unfold on_map in *. destruct m; simpl in *.
  by apply P_delete_any.
Qed.

Lemma on_map_removeInstance k : preserves on_map (removeInstance k).
Proof.
  unfold removeInstance.
  apply preserves_bind; [apply on_map_removeActor_any | intros _; on_map_auto].
Qed.

Lemma on_map_deleteSelectedInstance : preserves on_map deleteSelectedInstance.
Proof.
  unfold deleteSelectedInstance.
  preserves_auto on_map_leaf
    ltac:(first [ solve [auto 1 with on_map nocore]
                | apply on_map_removeInstance
                | apply on_map_stopWebkitIfUnneeded ]).
Qed.

End AnyRemoval.

End InstanceMap.

(** *** What can happen to a manager *)

(** The calls the desktop makes, the clicks on the chrome, the messages
    of the widgets and the arrival of a surface, after which the
    messages that waited for it are handled; each runs in a turn of its
    own, so that one that raises ends there and the next one runs on
    what it left. *)
Inductive Turn :=
| TurnLoadState (state : StateArg)
| TurnExportState
| TurnSelect (k : option string)
| TurnClearSelection
| TurnDeleteSelected
| TurnRemove (k : string)
| TurnUpdateConfig (k : string) (config : jsval)
| TurnOpenPreferences
| TurnPreferences (c : PreferencesWindowFacts.PrefsCall)
| TurnMessage (env : WidgetMessages.Locale) (payload : jsval)
| TurnThemeChanged
| TurnAnimationChanged
| TurnLayerChanged (monitorIndex : Z) (onTop : bool)
| TurnSurfaceReady (env : WidgetMessages.Locale) (k : string)
    (wv : WebKit.WebView) (url : option string)
| TurnPreferencesSurfaceReady (wv : WebKit.WebView) (url : option string).

Definition do_turn (t : Turn) : M Manager unit :=
  match t with
  | TurnLoadState state => loadState state
  | TurnExportState => exportState ;;; ret tt
  | TurnSelect k => selectInstance k
  | TurnClearSelection => clearSelectedInstance
  | TurnDeleteSelected => deleteSelectedInstance ;;; ret tt
  | TurnRemove k => removeInstance k
  | TurnUpdateConfig k config => updateInstanceConfig k config
  | TurnOpenPreferences => _openPreferencesForSelectedInstance
  | TurnPreferences c => PreferencesWindowFacts.do_prefs_call c
  | TurnMessage env payload => WidgetMessages._onWidgetScriptMessage env payload
  | TurnThemeChanged => onThemeChanged
  | TurnAnimationChanged => onAnimationChanged
  | TurnLayerChanged monitorIndex onTop =>
      handleWidgetContainerLayerChange monitorIndex onTop
  | TurnSurfaceReady env k wv url =>
      WidgetMessages.surface_arrives env k wv url
  | TurnPreferencesSurfaceReady wv url =>
      on_prefs_host (HtmlWidgetHost._start_resume wv url) (ret tt)
  end.

(** The managers after each turn. *)
Fixpoint trace (turns : list Turn) (m : Manager) : list Manager :=
  match turns with
  | [] => []
  | t :: turns =>
      let m' := state_of (do_turn t m) in
      m' :: trace turns m'
  end.

Lemma trace_invariant (I : Manager -> Prop) :
  (forall t, preserves I (do_turn t)) ->
  forall turns m, I m -> Forall I (trace turns m).
Proof.
  intros Hturn turns. induction turns as [|t turns IH]; intros m Hm; simpl.
  - constructor.
  - pose proof (Hturn t m Hm). constructor; [done | by apply IH].
Qed.

Section Turns.
Context (P : list (string * Instance) -> Prop).
Context (P_update : forall l k i i',
  P l -> JsMap.get k l = Some i ->
  instanceId i' = instanceId i -> _isAddButton i' = _isAddButton i ->
  P (JsMap.set k i' l)).
Context (P_insert : forall l k i',
  P l -> JsMap.get k l = None ->
  instanceId i' = k -> _isAddButton i' = false ->
  P (JsMap.set k i' l)).
Context (P_delete : forall l k, P l -> P (JsMap.delete k l)).

Lemma on_map_do_turn t : preserves (on_map P) (do_turn t).
Proof.
  assert (P_delete' : forall l k,
            P l -> (forall i, JsMap.get k l = Some i -> _isAddButton i = false) ->
            P (JsMap.delete k l)) by auto.
  destruct t as [state| |k| | |k|k config| |c|env payload| | |mon onTop
                |env k wv url|wv url]; simpl.
  - by apply on_map_loadState.
  - apply preserves_bind; [by apply on_map_exportState | intros; apply preserves_ret].
  - by apply on_map_selectInstance.
  - by apply on_map_clearSelectedInstance.
  - apply preserves_bind;
      [by apply on_map_deleteSelectedInstance | intros; apply preserves_ret].
  - by apply on_map_removeInstance.
  - by apply on_map_updateInstanceConfig.
  - by apply on_map_openPreferencesForSelectedInstance.
  - destruct c as [k uri| |k|]; simpl.
    + by apply on_map_openPreferencesForInstance.
    + by apply on_map_closePreferencesIfAny.
    + by apply on_map_closePreferencesForInstance.
    + apply preserves_get. intros s Hs. cbv beta.
      destruct (find Gtk.alive (gtk_windows s)); [|done].
      apply after_preserves; [done | by apply on_map_close_request].
  - by apply on_map_message.
  - by apply on_map_notifications.
  - by apply on_map_notifications.
  - by apply on_map_notifications.
  - by apply on_map_surface_arrives.
  - apply preserves_on_prefs_host; [|apply preserves_ret].
    intros m ctx h Hm _. unfold on_map in *. by destruct m.
Qed.

End Turns.

(** *** The instance map stays a map *)

Definition filed (l : list (string * Instance)) : Prop :=
  NoDup (JsMap.keys l)
  /\ forall k i, JsMap.get k l = Some i -> instanceId i = k.

Lemma filed_consistent m : on_map filed m <-> RoundTripFacts.consistent m.
Proof. done. Qed.

Lemma filed_set l k i' :
  filed l -> instanceId i' = k -> filed (JsMap.set k i' l).
Proof.
  intros [Hnd Hkeyed] Hid. split; [by apply JsMap.NoDup_keys_set |].
  intros k' x. destruct (decide (k = k')) as [<-|Hne].
  - rewrite JsMap.get_set_eq. by intros [= <-].
  - rewrite JsMap.get_set_ne by done. apply Hkeyed.
Qed.

Lemma filed_update l k i i' :
  filed l -> JsMap.get k l = Some i ->
  instanceId i' = instanceId i -> _isAddButton i' = _isAddButton i ->
  filed (JsMap.set k i' l).
Proof.
  intros Hl Hget Hid _. apply filed_set; [done |].
  rewrite Hid. by apply (proj2 Hl).
Qed.

Lemma filed_delete l k : filed l -> filed (JsMap.delete k l).
Proof.
  intros [Hnd Hkeyed]. split; [by apply JsMap.NoDup_keys_delete |].
  intros k' x. destruct (decide (k = k')) as [<-|Hne].
  - by rewrite JsMap.get_delete_eq.
  - rewrite JsMap.get_delete_ne by done. apply Hkeyed.
Qed.

(** X11. The instance map stays consistent. Start from a manager
    whose map has no key twice and holds every instance under its own
    id; after each of any sequence of manager calls, script messages and
    surface arrivals, whether they return or raise, the map again has
    no key twice and holds every instance under its own id. *)
Theorem instance_map_stays_consistent (turns : list Turn) (m : Manager) :
  RoundTripFacts.consistent m ->
  Forall RoundTripFacts.consistent (trace turns m).
Proof.
  intros Hm. apply (trace_invariant (on_map filed)); [|done].
  intros t. apply on_map_do_turn.
  - intros l k i i' Hl Hget Hid _. apply filed_set; [done |].
    rewrite Hid. by apply (proj2 Hl).
  - intros l k i' Hl _ Hid _. by apply filed_set.
  - intros l k Hl. by apply filed_delete.
Qed.

(** *** [loadState] leaves the add buttons in the map *)

Definition has_add_button (k : string) (l : list (string * Instance)) : Prop :=
  exists i, JsMap.get k l = Some i /\ _isAddButton i = true.

(** X12. [loadState] never removes an add-widget button: an instance
    marked [_isAddButton] is found under the same key and is still
    marked after the call, whatever the argument and whether the call
    returns or raises. *)
Theorem loadState_keeps_add_buttons
    (state : StateArg) (m : Manager) (k : string) (i : Instance) :
  getInstance k m = Some i -> _isAddButton i = true ->
  exists i',
    getInstance k (state_of (loadState state m)) = Some i'
    /\ _isAddButton i' = true.
Proof.
  intros Hget Hadd.
  apply (on_map_loadState (has_add_button k)); [| | |by exists i].
  - intros l k' i0 i' (x & Hx & Hxa) Hget' _ Hsame.
    destruct (decide (k' = k)) as [->|Hne].
    + exists i'. rewrite JsMap.get_set_eq. split; [done |].
      rewrite Hsame. congruence.
    + exists x. by rewrite JsMap.get_set_ne.
  - intros l k' i' (x & Hx & Hxa) Hnone _ _.
    exists x. rewrite JsMap.get_set_ne; [done | congruence].
  - intros l k' (x & Hx & Hxa) Hk'.
    exists x. rewrite JsMap.get_delete_ne; [done |].
    intros ->. specialize (Hk' x Hx). congruence.
Qed.

(** A session on the desktop that shows [old]: select it, load a state
    document with two clocks, delete the selection, then a stray
    removal. *)
Definition session_on_old : list Turn :=
  [TurnSelect (Some "old");
   TurnLoadState (StateObject (JNum 1) (Some RoundTripFacts.two_clocks));
   TurnSelect (Some "A");
   TurnDeleteSelected;
   TurnRemove "nobody"].

Lemma instance_map_stays_consistent_witness :
  Forall RoundTripFacts.consistent
    (trace session_on_old RoundTripFacts.desktop_with_old).
Proof.
  exact (instance_map_stays_consistent session_on_old
           RoundTripFacts.desktop_with_old
           RoundTripFacts.desktop_with_old_consistent).
Defined.

(** The add-widget button of monitor 0, as [_ensureAddWidgetButton]
    files it. *)
Definition add_button : Instance :=
  mkInstance "__ding-add-button-0" "__ding-add-button" "chrome" 0 0 0 64 64
    (Some (Gtk.WAddButton 0)) None (JObj []) None None true.

(** The desktop that shows [old] and the add-widget button. *)
Definition desktop_with_add_button : Manager :=
  set_instances
    (JsMap.set "__ding-add-button-0" add_button
       (_instances RoundTripFacts.desktop_with_old))
    RoundTripFacts.desktop_with_old.

Lemma loadState_keeps_add_buttons_witness :
  exists i',
    getInstance "__ding-add-button-0"
      (state_of
         (loadState (StateObject (JNum 1) (Some RoundTripFacts.two_clocks))
            desktop_with_add_button))
    = Some i'
    /\ _isAddButton i' = true.
Proof.
  exact (loadState_keeps_add_buttons
           (StateObject (JNum 1) (Some RoundTripFacts.two_clocks))
           desktop_with_add_button "__ding-add-button-0" add_button
           eq_refl eq_refl).
Defined.

End InstanceMapFacts.

(* ===================================================================== *)
(** ** The preferences window over a session                              *)
(* ===================================================================== *)

Module WindowInvariantFacts.
Import Model WidgetManager WidgetManagerApi InvariantFacts InstanceMapFacts.
Import PreferencesWindowFacts.

Lemma one_window_frame m m' :
  gtk_windows m' = gtk_windows m -> prefs_window m' = prefs_window m ->
  one_window m -> one_window m'.
Proof. unfold one_window. by intros -> ->. Qed.

Ltac prefs_unchanged :=
  unfold prefs_window, update_instance, put, unparent, raise_child,
    WebWidgetContext.modify_this;
  repeat case_match;
  repeat match goal with m : Manager |- _ => destruct m end;
  simpl in *; subst;
  repeat match goal with
         | c : option Context |- _ => destruct c
         | c : Context |- _ => destruct c
         end;
  reflexivity.

Ltac window_leaf :=
  intros;
  lazymatch goal with
  | H : one_window ?m |- one_window ?m' =>
      apply (one_window_frame m m'); [unchanged | prefs_unchanged | exact H]
  end.

Create HintDb one_window discriminated.

Ltac window_auto :=
  preserves_auto window_leaf ltac:(solve [auto 1 with one_window nocore]).

Lemma window_closePreferencesIfAny :
  preserves one_window WebWidgetContext.closePreferencesIfAny.
Proof. intros m Hm. by apply one_window_closePreferencesIfAny. Qed.

Lemma window_openPreferencesForInstance k uri :
  preserves one_window (WebWidgetContext.openPreferencesForInstance k uri).
Proof. intros m Hm. by apply one_window_openPreferencesForInstance. Qed.

Lemma window_closePreferencesForInstance k :
  preserves one_window (WebWidgetContext.closePreferencesForInstance k).
Proof. intros m Hm. by apply one_window_closePreferencesForInstance. Qed.

#[local] Hint Extern 0 (preserves _ WebWidgetContext.closePreferencesIfAny) =>
  apply window_closePreferencesIfAny : one_window.
#[local] Hint Extern 0
  (preserves _ (WebWidgetContext.openPreferencesForInstance _ _)) =>
  apply window_openPreferencesForInstance : one_window.
#[local] Hint Extern 0
  (preserves _ (WebWidgetContext.closePreferencesForInstance _)) =>
  apply window_closePreferencesForInstance : one_window.

(** A context made while there is none refers to no window, as the
    missing one did. *)
Lemma window_ensureWebWidgetContext :
  preserves one_window _ensureWebWidgetContext.
Proof.
  intros m Hm. unfold _ensureWebWidgetContext. rewrite run_bind_get.
  destruct (_webWidgetContext m) eqn:Hctx; [done |].
  apply (one_window_frame m); [by destruct m | | done].
  unfold prefs_window. rewrite Hctx. by destruct m.
Qed.

#[local] Hint Extern 0 (preserves _ _ensureWebWidgetContext) =>
  apply window_ensureWebWidgetContext : one_window.

Lemma window_exportState : preserves one_window exportState.
Proof.
  unfold exportState, _computeZIndexByInstanceId, _sortedInstancesForExport.
  window_auto.
Qed.

#[local] Hint Extern 0 (preserves _ exportState) =>
  apply window_exportState : one_window.

Lemma window_stateChanged : preserves one_window _stateChanged.
Proof. unfold _stateChanged. window_auto. Qed.

#[local] Hint Extern 0 (preserves _ _stateChanged) =>
  apply window_stateChanged : one_window.

Lemma window_pushPatchtoTarget k patch :
  preserves one_window (WebWidgetContext._pushPatchtoTarget k patch).
Proof. unfold WebWidgetContext._pushPatchtoTarget. window_auto. Qed.

#[local] Hint Extern 0 (preserves _ (WebWidgetContext._pushPatchtoTarget _ _)) =>
  apply window_pushPatchtoTarget : one_window.

Lemma window_selectInstance k : preserves one_window (selectInstance k).
Proof.
  unfold selectInstance, _detachChrome, _updateWidgetsSelectionState,
    _raiseInstance, _raiseAddButton, _ensureChrome, _attachChromeToInstance,
    place_button, WebWidgetContext.updateHtmlWidgetSelected.
  window_auto.
Qed.

#[local] Hint Extern 0 (preserves _ (selectInstance _)) =>
  apply window_selectInstance : one_window.

Lemma window_clearSelectedInstance : preserves one_window clearSelectedInstance.
Proof.
  unfold clearSelectedInstance, _detachChrome, _updateWidgetsSelectionState,
    WebWidgetContext.updateHtmlWidgetSelected.
  window_auto.
Qed.

Lemma window_updateInstanceConfig k c :
  preserves one_window (updateInstanceConfig k c).
Proof. unfold updateInstanceConfig. window_auto. Qed.

#[local] Hint Extern 0 (preserves _ (updateInstanceConfig _ _)) =>
  apply window_updateInstanceConfig : one_window.

Lemma window_openPreferencesForSelectedInstance :
  preserves one_window _openPreferencesForSelectedInstance.
Proof. unfold _openPreferencesForSelectedInstance. window_auto. Qed.

Lemma window_removeActor k : preserves one_window (_removeActor k).
Proof. unfold _removeActor. window_auto. Qed.

#[local] Hint Extern 0 (preserves _ (_removeActor _)) =>
  apply window_removeActor : one_window.

Lemma window_load_instance seen d :
  preserves one_window (load_instance seen d).
Proof.
  unfold load_instance, _ensureInstanceActor, _createActorForInstance,
    _positionInstanceActor, WebWidgetContext._initWebKitRuntime.
  window_auto.
Qed.

Lemma window_rebuild sel doc : preserves one_window (rebuild sel doc).
Proof.
  unfold rebuild. apply preserves_bind.
  - generalize (∅ : gset string). induction doc as [|d doc IH]; intros seen.
    + apply preserves_ret.
    + simpl. apply preserves_bind; [apply window_load_instance | done].
  - intros seen. unfold drop_unseen. window_auto.
Qed.

Lemma window_loadState state : preserves one_window (loadState state).
Proof.
  intros m Hm. destruct state as [| |version [doc|]]; try done.
  - destruct (loadState_parts version doc m) as (m0 & _ & Hm0 & ->).
    assert (H0 : one_window (set_suppressStateEvents true m0)).
    { destruct Hm0 as [->| ->]; by destruct m. }
    pose proof (window_rebuild (_selectedInstanceId m0) doc _ H0) as Hr.
    unfold state_of in *.
    destruct (rebuild _ _ _) as [m1 [[]|e]]; simpl in *; [|done].
    by destruct m1.
  - unfold loadState. destruct version; try (by destruct m).
    destruct (Qeq_bool q 1); by destruct m.
Qed.

(** The context goes only once its window is closed. *)
Lemma window_stopWebkitIfUnneeded : preserves one_window _stopWebkitIfUnneeded.
Proof.
  intros m Hm. unfold _stopWebkitIfUnneeded. rewrite run_bind_get.
  destruct (_webWidgetContext m) eqn:Hctx; [|done].
  destruct (existsb _ _); [done |].
  unfold WebWidgetContext.destroy.
  destruct (one_window_closePreferencesIfAny m Hm) as [Hone Hret].
  unfold state_of, outcome_of in *. unfold bind at 1 2.
  destruct (WebWidgetContext.closePreferencesIfAny m) as [m1 [[]|e]];
    simpl in *; [|done].
  destruct (Hret eq_refl) as (ctx & Hctx1 & Hnone).
  destruct Hone as [Hids Halive]. split; [by destruct m1 |].
  intros w Hw Ha.
  assert (Hw1 : w ∈ gtk_windows m1) by (by destruct m1).
  specialize (Halive w Hw1 Ha). unfold prefs_window in Halive.
  rewrite Hctx1 in Halive. simpl in Halive. congruence.
Qed.

#[local] Hint Extern 0 (preserves _ _stopWebkitIfUnneeded) =>
  apply window_stopWebkitIfUnneeded : one_window.

Lemma window_deleteSelectedInstance : preserves one_window deleteSelectedInstance.
Proof. unfold deleteSelectedInstance, removeInstance. window_auto. Qed.

Lemma window_postToBoth k msg :
  preserves one_window (WebWidgetContext._postToBoth k msg).
Proof.
  unfold WebWidgetContext._postToBoth, WebWidgetContext._postToWidget,
    WebWidgetContext._postToPrefs.
  window_auto.
Qed.

#[local] Hint Extern 0 (preserves _ (WebWidgetContext._postToBoth _ _)) =>
  apply window_postToBoth : one_window.

Lemma window_doWidgetGetConfig k mode requestId :
  preserves one_window (WebWidgetContext._doWidgetGetConfig k mode requestId).
Proof.
  unfold WebWidgetContext._doWidgetGetConfig, WebWidgetContext._routeAndPost,
    WebWidgetContext._postToWidget, WebWidgetContext._postToPrefs.
  window_auto.
Qed.

#[local] Hint Extern 0
  (preserves _ (WebWidgetContext._doWidgetGetConfig _ _ _)) =>
  apply window_doWidgetGetConfig : one_window.

Lemma window_dispatchWidgetMessage_resume env payload k inst wv :
  preserves one_window
    (WidgetMessages._dispatchWidgetMessage_resume env payload k inst wv).
Proof.
  unfold WidgetMessages._dispatchWidgetMessage_resume,
    WidgetMessages._pushFullHostStateForInstance,
    WebWidgetContext._pushConfigChangedForInstance.
  window_auto.
Qed.

#[local] Hint Extern 0
  (preserves _ (WidgetMessages._dispatchWidgetMessage_resume _ _ _ _ _)) =>
  apply window_dispatchWidgetMessage_resume : one_window.

Lemma window_message env payload :
  preserves one_window (WidgetMessages._onWidgetScriptMessage env payload).
Proof.
  unfold WidgetMessages._onWidgetScriptMessage,
    WidgetMessages._dispatchWidgetMessage.
  window_auto.
Qed.

Lemma window_surface_arrives env k wv url :
  preserves one_window (WidgetMessages.surface_arrives env k wv url).
Proof.
  unfold WidgetMessages.surface_arrives,
    WidgetMessages._dispatchWidgetMessage_continue.
  window_auto.
Qed.

Lemma window_notifications :
  preserves one_window onThemeChanged
  /\ preserves one_window onAnimationChanged
  /\ forall mon onTop,
       preserves one_window (handleWidgetContainerLayerChange mon onTop).
Proof.
  unfold onThemeChanged, onAnimationChanged, handleWidgetContainerLayerChange,
    _updateTheme, _updateAnimation, _updateWidgetLayerChange,
    _sendLayerStateToInstance, _raiseAddButton,
    WebWidgetContext.updateHtmlWidgetTheme,
    WebWidgetContext.updateHtmlWidgetAnimation,
    WebWidgetContext.updateHtmlWidgetLayer.
  split; [|split; [|intros mon onTop]]; window_auto.
Qed.

Lemma window_do_turn t : preserves one_window (do_turn t).
Proof.
  destruct t as [state| |k| | |k|k config| |c|env payload| | |mon onTop
                |env k wv url|wv url]; simpl.
  - apply window_loadState.
  - window_auto.
  - apply window_selectInstance.
  - apply window_clearSelectedInstance.
  - apply preserves_bind;
      [apply window_deleteSelectedInstance | intros; apply preserves_ret].
  - unfold removeInstance. window_auto.
  - apply window_updateInstanceConfig.
  - apply window_openPreferencesForSelectedInstance.
  - intros m Hm. by apply one_window_do_prefs_call.
  - apply window_message.
  - apply window_notifications.
  - apply window_notifications.
  - apply window_notifications.
  - apply window_surface_arrives.
  - window_auto.
Qed.

(** X13. At most one preferences window is open. Start from a manager
    that has created no window; after each of any sequence of manager
    calls, script messages and surface arrivals, whether they return or
    raise, at most one of the windows created so far is alive. *)
Theorem at_most_one_window_whatever_happens (turns : list Turn) (m : Manager) :
  gtk_windows m = [] ->
  Forall (fun m' => length (open_windows m') <= 1) (trace turns m).
Proof.
  intros Hnone. assert (Hone : one_window m).
  { split; rewrite Hnone; [done |]. intros w Hw. by apply elem_of_nil in Hw. }
  eapply Forall_impl.
  - by apply (trace_invariant one_window window_do_turn).
  - intros m'. apply one_window_open.
Qed.

(** A session that starts with no window: load two clocks, open the
    preferences of [A], move the selection to [B] before the
    preferences surface of [A] was handed over, ask for the preferences
    of [B], and delete [B]. *)
Definition session_with_preferences : list Turn :=
  [TurnLoadState (StateObject (JNum 1) (Some [clock_entry "A"; clock_entry "B"]));
   TurnSelect (Some "A");
   TurnOpenPreferences;
   TurnSelect (Some "B");
   TurnOpenPreferences;
   TurnDeleteSelected].

Lemma at_most_one_window_whatever_happens_witness :
  Forall (fun m' => length (open_windows m') <= 1)
    (trace session_with_preferences empty_desktop).
Proof.
  exact (at_most_one_window_whatever_happens session_with_preferences
           empty_desktop eq_refl).
Defined.

End WindowInvariantFacts.

(* ===================================================================== *)
(** ** WidgetManager: the order of the export                             *)
(* ===================================================================== *)

Module ExportOrderFacts.
Import Model WidgetManager.

(** *** The stacking index *)

(** The position of the first child that carries the id [k]. *)
Fixpoint first_position (k : string) (children : list Gtk.Child) : option nat :=
  match children with
  | [] => None
  | child :: rest =>
      if decide (Gtk.widgetInstanceId child = Some k) then Some 0
      else S <$> first_position k rest
  end.

(** The ids that get a stacking index: those of the widgets proper. *)
Definition indexed (insts : list (string * Instance)) (k : string) : bool :=
  truthy_str k
  && match JsMap.get k insts with
     | Some inst => negb (_isAddButton inst)
     | None => false
     end.

(** The first container, in the order of the surface map, that has a
    child for [k] decides. *)
Fixpoint first_container (k : string) (containers : list (list Gtk.Child))
  : option nat :=
  match containers with
  | [] => None
  | children :: rest =>
      match first_position k children with
      | Some i => Some i
      | None => first_container k rest
      end
  end.

Lemma scan_children_get insts children : forall i z k,
  JsMap.get k (scan_children insts children i z)
  = match JsMap.get k z with
    | Some v => Some v
    | None =>
        if indexed insts k
        then (fun p => i + p) <$> first_position k children
        else None
    end.
Proof.
  induction children as [|child rest IH]; intros i z k; cbn [scan_children].
  - destruct (JsMap.get k z); [done |]. by destruct (indexed insts k).
  - rewrite IH. cbn [first_position].
    destruct (Gtk.widgetInstanceId child) as [k'|] eqn:Hid.
    2:{ rewrite decide_False by done.
        destruct (JsMap.get k z); [done |].
        destruct (indexed insts k); [|done].
        destruct (first_position k rest); simpl; [f_equal; lia | done]. }
    destruct (decide (k' = k)) as [->|Hne].
    + rewrite decide_True by done. unfold indexed, JsMap.has.
      destruct (truthy_str k); cbn [andb].
      2:{ by destruct (JsMap.get k z). }
      destruct (JsMap.get k insts) as [inst|].
      2:{ by destruct (JsMap.get k z). }
      destruct (_isAddButton inst); cbn [negb andb].
      { by destruct (JsMap.get k z). }
      destruct (JsMap.get k z) as [v|] eqn:Hz; cbn [negb].
      * by rewrite Hz.
      * rewrite JsMap.get_set_eq. simpl. f_equal. lia.
    + rewrite decide_False by congruence.
      assert (Hsame : JsMap.get k
                (if truthy_str k'
                 then match JsMap.get k' insts with
                      | Some inst =>
                          if negb (_isAddButton inst) && negb (JsMap.has k' z)
                          then JsMap.set k' i z else z
                      | None => z
                      end
                 else z) = JsMap.get k z).
      { destruct (truthy_str k'); [|done].
        destruct (JsMap.get k' insts) as [inst|]; [|done].
        destruct (negb (_isAddButton inst) && negb (JsMap.has k' z)); [|done].
        by rewrite JsMap.get_set_ne. }
      rewrite Hsame. destruct (JsMap.get k z); [done |].
      destruct (indexed insts k); [|done].
      destruct (first_position k rest); simpl; [f_equal; lia | done].
Qed.

Lemma scan_surfaces_get insts (containers : list (list Gtk.Child)) :
  forall z k,
  JsMap.get k (foldl (fun z children => scan_children insts children 0 z)
                 z containers)
  = match JsMap.get k z with
    | Some v => Some v
    | None => if indexed insts k then first_container k containers else None
    end.
Proof.
  induction containers as [|children rest IH]; intros z k; cbn [foldl].
  - destruct (JsMap.get k z); [done |]. by destruct (indexed insts k).
  - rewrite IH, scan_children_get. cbn [first_container].
    destruct (JsMap.get k z); [done |].
    destruct (indexed insts k); [|done].
    destruct (first_position k children); simpl; [done | done].
Qed.

(** X14. [_computeZIndexByInstanceId] returns and leaves the manager
    as it is. An id has an index only when it is non-empty and names an
    instance that is no add button; the index is then the position of
    the first child carrying that id in the first widget container, in
    the order of the surface map, that has such a child. *)
Theorem stacking_index_is_first_position (m : Manager) (k : string) :
  exists z,
    _computeZIndexByInstanceId m = (m, Returned z)
    /\ JsMap.get k z
       = if indexed (_instances m) k
         then first_container k
                (widgetContainer <$> JsMap.values (_surfaces m))
         else None.
Proof.
  eexists. split; [reflexivity |].
  pose proof (scan_surfaces_get (_instances m)
                (widgetContainer <$> JsMap.values (_surfaces m)) [] k) as H.
  cbn [JsMap.get] in H. rewrite <- H. clear H.
  f_equal. generalize (@nil (string * nat)).
  induction (JsMap.values (_surfaces m)) as [|s l IH]; intros z; [done |].
  cbn [foldl fmap list_fmap]. apply IH.
Qed.

(** *** The order of the export *)









End ExportOrderFacts.

(* ===================================================================== *)
(** ** WidgetManager: the round trip and the order of the export          *)
(* ===================================================================== *)

Module RoundTripOrderFacts.
Import Model WidgetManager RoundTripFacts ExportOrderFacts.



(** *** An example: the export does not keep the order of the document *)







End RoundTripOrderFacts.

(* ===================================================================== *)
(** ** WidgetManager: selection                                           *)
(* ===================================================================== *)

Module SelectionFacts.
Import Model WidgetManager WidgetManagerApi InvariantFacts.

(** *** Methods that only talk to hosts *)

Create HintDb host_only discriminated.

Section HostOnly.
(** A property of the manager that looks at the selection, at the
    suppression flag, at the preferences and at the instances, and not
    at their hosts. *)
Context (I : Manager -> Prop).
Context (I_inert : forall m m',
  _instances m' = _instances m ->
  _selectedInstanceId m' = _selectedInstanceId m ->
  _suppressStateEvents m' = _suppressStateEvents m ->
  _preferences m' = _preferences m -> I m -> I m').
Context (I_host : forall k h m, I m -> I (update_instance k (set_host h) m)).

Ltac host_only_leaf :=
  intros;
  lazymatch goal with
  | H : I ?m |- I (update_instance _ (set_host _) ?m) => by apply I_host
  | H : I ?m |- I ?m' =>
      apply (I_inert m m');
      [unchanged | unchanged | unchanged | unchanged | exact H]
  end.

Ltac host_only_auto :=
  preserves_auto host_only_leaf ltac:(solve [auto 1 with host_only nocore]).

Lemma host_only_closePreferencesIfAny :
  preserves I WebWidgetContext.closePreferencesIfAny.
Proof.
  unfold WebWidgetContext.closePreferencesIfAny,
    WebWidgetContext.window_destroy, WebWidgetContext.on_window.
  host_only_auto.
Qed.

#[local] Hint Extern 0 (preserves _ WebWidgetContext.closePreferencesIfAny) =>
  apply host_only_closePreferencesIfAny : host_only.

Lemma host_only_closePreferencesForInstance k :
  preserves I (WebWidgetContext.closePreferencesForInstance k).
Proof. unfold WebWidgetContext.closePreferencesForInstance. host_only_auto. Qed.

#[local] Hint Extern 0
  (preserves _ (WebWidgetContext.closePreferencesForInstance _)) =>
  apply host_only_closePreferencesForInstance : host_only.

Lemma host_only_pushPatchtoTarget k patch :
  preserves I (WebWidgetContext._pushPatchtoTarget k patch).
Proof. unfold WebWidgetContext._pushPatchtoTarget. host_only_auto. Qed.

#[local] Hint Extern 0 (preserves _ (WebWidgetContext._pushPatchtoTarget _ _)) =>
  apply host_only_pushPatchtoTarget : host_only.

Lemma host_only_detachChrome : preserves I _detachChrome.
Proof. unfold _detachChrome. host_only_auto. Qed.

#[local] Hint Extern 0 (preserves _ _detachChrome) =>
  apply host_only_detachChrome : host_only.

Lemma host_only_updateWidgetsSelectionState :
  preserves I _updateWidgetsSelectionState.
Proof.
  unfold _updateWidgetsSelectionState,
    WebWidgetContext.updateHtmlWidgetSelected.
  host_only_auto.
Qed.

#[local] Hint Extern 0 (preserves _ _updateWidgetsSelectionState) =>
  apply host_only_updateWidgetsSelectionState : host_only.

(** What [selectInstance] does once it has settled on a widget. *)
Lemma host_only_show_selection k :
  preserves I
    (_raiseInstance k ;;; _ensureChrome ;;; _attachChromeToInstance k ;;;
     _updateWidgetsSelectionState).
Proof.
  unfold _raiseInstance, _raiseAddButton, _ensureChrome,
    _attachChromeToInstance, place_button.
  host_only_auto.
Qed.

Lemma host_only_postToBoth k msg :
  preserves I (WebWidgetContext._postToBoth k msg).
Proof.
  unfold WebWidgetContext._postToBoth, WebWidgetContext._postToWidget,
    WebWidgetContext._postToPrefs.
  host_only_auto.
Qed.

#[local] Hint Extern 0 (preserves _ (WebWidgetContext._postToBoth _ _)) =>
  apply host_only_postToBoth : host_only.

Lemma host_only_pushConfigChangedForInstance k mode :
  preserves I (WebWidgetContext._pushConfigChangedForInstance k mode).
Proof.
  unfold WebWidgetContext._pushConfigChangedForInstance. host_only_auto.
Qed.

#[local] Hint Extern 0
  (preserves _ (WebWidgetContext._pushConfigChangedForInstance _ _)) =>
  apply host_only_pushConfigChangedForInstance : host_only.

Lemma host_only_doWidgetGetConfig k mode requestId :
  preserves I (WebWidgetContext._doWidgetGetConfig k mode requestId).
Proof.
  unfold WebWidgetContext._doWidgetGetConfig, WebWidgetContext._routeAndPost,
    WebWidgetContext._postToWidget, WebWidgetContext._postToPrefs.
  host_only_auto.
Qed.

Lemma host_only_pushFullHostStateForInstance env k :
  preserves I (WidgetMessages._pushFullHostStateForInstance env k).
Proof. unfold WidgetMessages._pushFullHostStateForInstance. host_only_auto. Qed.

Lemma host_only_openPreferencesForInstance k uri :
  preserves I (WebWidgetContext.openPreferencesForInstance k uri).
Proof.
  unfold WebWidgetContext.openPreferencesForInstance,
    WebWidgetContext.open_new_preferences, WebWidgetContext.new_window,
    WebWidgetContext._initWebKitRuntime, WebWidgetContext.present,
    WebWidgetContext.on_window.
  host_only_auto.
Qed.

Lemma host_only_stopWebkitIfUnneeded : preserves I _stopWebkitIfUnneeded.
Proof.
  unfold _stopWebkitIfUnneeded, WebWidgetContext.destroy. host_only_auto.
Qed.

Lemma host_only_notifications :
  preserves I onThemeChanged
  /\ preserves I onAnimationChanged
  /\ forall mon onTop, preserves I (handleWidgetContainerLayerChange mon onTop).
Proof.
  unfold onThemeChanged, onAnimationChanged, handleWidgetContainerLayerChange,
    _updateTheme, _updateAnimation, _updateWidgetLayerChange,
    _sendLayerStateToInstance, _raiseAddButton,
    WebWidgetContext.updateHtmlWidgetTheme,
    WebWidgetContext.updateHtmlWidgetAnimation,
    WebWidgetContext.updateHtmlWidgetLayer.
  split; [|split; [|intros mon onTop]]; host_only_auto.
Qed.

End HostOnly.

(** *** What is selected *)

(** Everything of an instance but its host. *)
Definition shown (i : Instance) : Instance := set_host None i.

(** The selection is [sel]; the instances, hosts apart, the
    suppression flag and the preferences are those of [m0]. *)
Definition as_in (sel : option string) (m0 m : Manager) : Prop :=
  _selectedInstanceId m = sel
  /\ (forall k, shown <$> getInstance k m = shown <$> getInstance k m0)
  /\ _suppressStateEvents m = _suppressStateEvents m0
  /\ _preferences m = _preferences m0.

Lemma as_in_inert sel m0 m m' :
  _instances m' = _instances m ->
  _selectedInstanceId m' = _selectedInstanceId m ->
  _suppressStateEvents m' = _suppressStateEvents m ->
  _preferences m' = _preferences m ->
  as_in sel m0 m -> as_in sel m0 m'.
Proof. unfold as_in, getInstance. by intros -> -> -> ->. Qed.

Lemma as_in_host sel m0 k h m :
  as_in sel m0 m -> as_in sel m0 (update_instance k (set_host h) m).
Proof.
  intros (Hsel & Hi & Hsup & Hp).
  assert (Hflags : _selectedInstanceId (update_instance k (set_host h) m)
                   = _selectedInstanceId m
                   /\ _suppressStateEvents (update_instance k (set_host h) m)
                      = _suppressStateEvents m
                   /\ _preferences (update_instance k (set_host h) m)
                      = _preferences m).
  { unfold update_instance.
    destruct (JsMap.get k (_instances m)); [|done]. by destruct m. }
  unfold as_in. destruct Hflags as (-> & -> & ->).
  split; [done |]. split; [|done].
  - intros k'. rewrite <- Hi. destruct (decide (k = k')) as [<-|Hne].
    + destruct (getInstance k m) as [i|] eqn:E.
      * rewrite (RoundTripFacts.getInstance_update_eq _ _ _ _ E). simpl.
        by destruct i.
      * rewrite RoundTripFacts.getInstance_update_None by done. by rewrite E.
    + by rewrite RoundTripFacts.getInstance_update_ne.
Qed.

Lemma as_in_select sel sel' m0 m :
  as_in sel m0 m -> as_in sel' m0 (set_selectedInstanceId sel' m).
Proof.
  intros (_ & Hi & Hsup & Hp). split; [by destruct m |].
  split; [|by destruct m]. intros k. rewrite <- Hi. by destruct m.
Qed.

Ltac as_in_sides := first [apply as_in_inert | apply as_in_host].

(** A widget that is shown: it has an actor and is no add button. *)
Definition selectable (k : option string) (m : Manager) : bool :=
  match k with
  | Some s =>
      truthy_str s
      && match getInstance s m with
         | Some i => bool_decide (is_Some (actor i)) && negb (_isAddButton i)
         | None => false
         end
  | None => false
  end.

Lemma actor_shown i : actor (shown i) = actor i.
Proof. by destruct i. Qed.

Lemma isAddButton_shown i : _isAddButton (shown i) = _isAddButton i.
Proof. by destruct i. Qed.

Lemma selectable_as_in sel m0 m k :
  as_in sel m0 m -> selectable k m = selectable k m0.
Proof.
  intros (_ & Hi & _). destruct k as [s|]; [|done]. simpl. f_equal.
  specialize (Hi s).
  destruct (getInstance s m) as [i|], (getInstance s m0) as [i0|];
    simpl in Hi; try done.
  injection Hi as Hi.
  rewrite <- (actor_shown i), <- (isAddButton_shown i), Hi.
  by rewrite actor_shown, isAddButton_shown.
Qed.

Lemma selectInstance_returned (k : option string) (m m' : Manager) :
  selectInstance k m = (m', Returned tt) ->
  as_in (if selectable k m then k else None) m m'.
Proof.
  intros Hrun. unfold selectInstance in Hrun.
  rewrite run_bind_get in Hrun.
  apply RoundTripFacts.bind_returned_inv in Hrun as ([] & m1 & Hrun1 & Hrun).
  assert (H1 : as_in (_selectedInstanceId m) m m1).
  { assert (Hp : forall c : M Manager unit,
              preserves (as_in (_selectedInstanceId m) m) c ->
              c m = (m1, Returned tt) -> as_in (_selectedInstanceId m) m m1).
    { intros c Hc Hrunc. specialize (Hc m). unfold state_of in Hc.
      rewrite Hrunc in Hc. by apply Hc. }
    revert Hrun1. apply Hp.
    preserves_auto idtac
      ltac:(first [ apply host_only_closePreferencesIfAny;
                    as_in_sides ]). }
  rewrite run_bind_modify in Hrun.
  assert (H2 : forall sel, as_in sel m (set_selectedInstanceId sel m1))
    by (intros sel; by eapply as_in_select).
  assert (Hfin : forall (v : option string) (c : M Manager unit) m2,
            as_in v m m2 -> preserves (as_in v m) c ->
            c m2 = (m', Returned tt) -> as_in v m m').
  { intros v c m2 Hm2 Hc Hrunc. specialize (Hc m2 Hm2). unfold state_of in Hc.
    by rewrite Hrunc in Hc. }
  assert (Hdrop : forall m2,
            as_in None m m2 ->
            forall c : M Manager unit,
              preserves (as_in None m) c ->
              (_detachChrome ;;; _updateWidgetsSelectionState ;;; c) m2
              = (m', Returned tt) ->
              as_in None m m').
  { intros m2 Hm2 c Hc. apply (Hfin None); [done |].
    apply preserves_bind;
      [apply host_only_detachChrome; as_in_sides | intros _].
    apply preserves_bind;
      [apply host_only_updateWidgetsSelectionState; as_in_sides | intros _].
    exact Hc. }
  assert (Hclose : preserves (as_in None m)
            (WebWidgetContext.if_context WebWidgetContext.closePreferencesIfAny)).
  { unfold WebWidgetContext.if_context.
    preserves_auto idtac
      ltac:(first [ apply host_only_closePreferencesIfAny; as_in_sides ]). }
  destruct k as [s|]; cbn [truthy_ostr] in Hrun.
  2:{ cbn [selectable]. apply Hdrop in Hrun; [done | done | done]. }
  destruct (truthy_str s) eqn:Hs; cbv beta iota in Hrun.
  2:{ cbn [selectable]. rewrite Hs. cbn [andb].
      apply Hdrop in Hrun; [done | done | done]. }
  specialize (H2 (Some s)).
  rewrite run_bind_get in Hrun.
  rewrite <- (selectable_as_in _ _ _ (Some s) H2).
  cbn [selectable]. rewrite Hs. cbn [andb].
  change (JsMap.get s (_instances (set_selectedInstanceId (Some s) m1)))
    with (getInstance s (set_selectedInstanceId (Some s) m1)) in Hrun.
  assert (Hinvalid :
            (modify (set_selectedInstanceId None) ;;;
             _detachChrome ;;; _updateWidgetsSelectionState ;;;
             WebWidgetContext.if_context
               (WebWidgetContext.closePreferencesForInstance None))
              (set_selectedInstanceId (Some s) m1) = (m', Returned tt) ->
            as_in None m m').
  { rewrite run_bind_modify. apply Hdrop; [by eapply as_in_select |].
    unfold WebWidgetContext.if_context.
    preserves_auto idtac
      ltac:(first [ apply host_only_closePreferencesForInstance;
                    as_in_sides ]). }
  destruct (getInstance s (set_selectedInstanceId (Some s) m1)) as [i|].
  2:{ by apply Hinvalid. }
  destruct i as [x0 x1 x2 x3 x4 x5 x6 x7 [a|] x9 x10 x11 x12 [|]];
    cbn [actor _isAddButton bool_decide negb andb].
  - rewrite bool_decide_eq_true_2 by by eexists.
    by apply Hinvalid.
  - rewrite bool_decide_eq_true_2 by by eexists.
    cbn [negb andb].
    apply (Hfin (Some s)) in Hrun; [done | done |].
    apply host_only_show_selection; as_in_sides.
  - rewrite bool_decide_eq_false_2 by (by intros [? ?]).
    by apply Hinvalid.
  - rewrite bool_decide_eq_false_2 by (by intros [? ?]).
    by apply Hinvalid.
Qed.

(** X16. Whenever [selectInstance(id)] returns: the selection is [id]
    when [id] is non-empty and names an instance that has an actor and
    is no add button, and is empty otherwise; a selected id names such
    an instance of the resulting manager; the instances are those from
    before, their hosts apart; the preferences are untouched. *)
Theorem selectInstance_selects_shown_widgets_only
    (k : option string) (m m' : Manager) :
  selectInstance k m = (m', Returned tt) ->
  _selectedInstanceId m' = (if selectable k m then k else None)
  /\ selectable (_selectedInstanceId m') m'
     = bool_decide (is_Some (_selectedInstanceId m'))
  /\ (forall k', shown <$> getInstance k' m' = shown <$> getInstance k' m)
  /\ _preferences m' = _preferences m.
Proof.
  intros Hrun. pose proof (selectInstance_returned k m m' Hrun) as Has.
  assert (Hsame : forall x, selectable x m' = selectable x m).
  { intros x. by eapply selectable_as_in. }
  destruct Has as (Hsel & Hshown & _ & Hprefs).
  split; [done |]. split; [|done].
  rewrite Hsel, Hsame. destruct (selectable k m) eqn:Hk.
  - rewrite Hk. destruct k; [|done]. by rewrite bool_decide_eq_true_2.
  - done.
Qed.

Lemma select_old_returns :
  selectInstance (Some "old") RoundTripFacts.desktop_with_old
  = (state_of (selectInstance (Some "old") RoundTripFacts.desktop_with_old),
     Returned tt).
Proof. by vm_compute. Qed.

Lemma selectInstance_selects_shown_widgets_only_witness :
  let m := RoundTripFacts.desktop_with_old in
  let m' := state_of (selectInstance (Some "old") m) in
  _selectedInstanceId m' = (if selectable (Some "old") m then Some "old" else None)
  /\ selectable (_selectedInstanceId m') m'
     = bool_decide (is_Some (_selectedInstanceId m'))
  /\ (forall k', shown <$> getInstance k' m' = shown <$> getInstance k' m)
  /\ _preferences m' = _preferences m.
Proof.
  exact (selectInstance_selects_shown_widgets_only (Some "old")
           RoundTripFacts.desktop_with_old _ select_old_returns).
Defined.

End SelectionFacts.

(* ===================================================================== *)
(** ** WidgetManager: deleting the selected widget                        *)
(* ===================================================================== *)

Module DeletionFacts.
Import Model WidgetManager WidgetManagerApi InvariantFacts InstanceMapFacts.
Import SelectionFacts.

(** What the export and the selection read stays as it is. *)
Definition stored_as (m0 m : Manager) : Prop :=
  _instances m = _instances m0 /\ _surfaces m = _surfaces m0
  /\ _preferences m = _preferences m0
  /\ _selectedInstanceId m = _selectedInstanceId m0.

Lemma stored_as_frame m0 m m' :
  _instances m' = _instances m -> _surfaces m' = _surfaces m ->
  _preferences m' = _preferences m ->
  _selectedInstanceId m' = _selectedInstanceId m ->
  stored_as m0 m -> stored_as m0 m'.
Proof. unfold stored_as. by intros -> -> -> ->. Qed.

Ltac stored_leaf :=
  intros;
  lazymatch goal with
  | H : stored_as _ ?m |- stored_as _ ?m' =>
      apply (stored_as_frame _ m m');
      [unchanged | unchanged | unchanged | unchanged | exact H]
  end.

(** Shutting the web context down touches neither the instance map
    nor the containers, the preferences or the selection. *)
Lemma stored_stopWebkitIfUnneeded m0 :
  preserves (stored_as m0) _stopWebkitIfUnneeded.
Proof.
  unfold _stopWebkitIfUnneeded, WebWidgetContext.destroy,
    WebWidgetContext.closePreferencesIfAny, WebWidgetContext.window_destroy,
    WebWidgetContext.on_window.
  preserves_auto stored_leaf fail.
Qed.

(** The selection, the suppression flag and the preferences. *)
Definition flags_as (m0 m : Manager) : Prop :=
  _selectedInstanceId m = _selectedInstanceId m0
  /\ _suppressStateEvents m = _suppressStateEvents m0
  /\ _preferences m = _preferences m0.

Lemma flags_as_frame m0 m m' :
  _selectedInstanceId m' = _selectedInstanceId m ->
  _suppressStateEvents m' = _suppressStateEvents m ->
  _preferences m' = _preferences m ->
  flags_as m0 m -> flags_as m0 m'.
Proof. unfold flags_as. by intros -> -> ->. Qed.

Lemma flags_removeActor m0 k : preserves (flags_as m0) (_removeActor k).
Proof.
  unfold _removeActor.
  preserves_auto
    ltac:(intros;
          lazymatch goal with
          | H : flags_as _ ?m |- flags_as _ ?m' =>
              apply (flags_as_frame _ m m');
              [unchanged | unchanged | unchanged | exact H]
          end) fail.
Qed.

Lemma exportState_reads m m' :
  _instances m' = _instances m -> _surfaces m' = _surfaces m ->
  forall doc, exportState m = (m, Returned doc) ->
              exportState m' = (m', Returned doc).
Proof.
  intros Hi Hs doc. unfold exportState, _computeZIndexByInstanceId,
    _sortedInstancesForExport, bind, get, ret. rewrite Hi, Hs.
  by intros [= <-].
Qed.

(** The ids an export lists are keys of the instance map. *)
Lemma exported_ids_are_keys m doc s :
  RoundTripFacts.consistent m ->
  exportState m = (m, Returned doc) ->
  s ∈ e_instanceId <$> instances doc ->
  is_Some (getInstance s m).
Proof.
  intros [Hnd Hkeyed]. unfold exportState, _computeZIndexByInstanceId,
    _sortedInstancesForExport, bind, get, ret. intros [= <-]. simpl.
  intros Hin. apply list_elem_of_fmap in Hin as (e & -> & He).
  apply list_elem_of_fmap in He as (i & -> & Hi). simpl.
  rewrite WidgetManagerFacts.array_sort_Permutation in Hi.
  apply list_elem_of_In, filter_In in Hi as [Hi _].
  apply list_elem_of_In in Hi. unfold JsMap.values in Hi.
  apply list_elem_of_fmap in Hi as ([k i'] & -> & Hpair). simpl.
  apply JsMap.elem_get_NoDup in Hpair; [|done].
  rewrite (Hkeyed k i' Hpair). by exists i'.
Qed.

(** X17. Whenever [deleteSelectedInstance()] returns on a consistent
    manager: its result tells whether an instance was selected; when
    none was, the manager is as before; when one was, the selection is
    empty, the instance is gone from the map, every other instance is
    as before, its host apart, and, unless state events are suppressed,
    the stored widget state is the export of the resulting manager and
    does not list the deleted id. *)
Theorem deleteSelectedInstance_removes_the_selected_widget
    (m m' : Manager) (b : bool) :
  RoundTripFacts.consistent m ->
  deleteSelectedInstance m = (m', Returned b) ->
  b = truthy_ostr (_selectedInstanceId m)
  /\ (b = false -> m' = m)
  /\ (b = true ->
      _selectedInstanceId m' = None
      /\ (forall s, _selectedInstanceId m = Some s ->
            getInstance s m' = None
            /\ forall k, k <> s ->
                 shown <$> getInstance k m' = shown <$> getInstance k m)
      /\ (_suppressStateEvents m = false ->
          exists doc,
            exportState m' = (m', Returned doc)
            /\ widgetState (_preferences m') = Some doc
            /\ forall s, _selectedInstanceId m = Some s ->
                 s ∉ e_instanceId <$> instances doc)).
Proof.
  intros Hm Hrun. unfold deleteSelectedInstance in Hrun.
  rewrite run_bind_get in Hrun.
  destruct (_selectedInstanceId m) as [s|] eqn:Hsel.
  2:{ injection Hrun as <- <-. by repeat split. }
  cbn [truthy_ostr]. destruct (truthy_str s) eqn:Hs; cbn [negb] in Hrun.
  2:{ injection Hrun as <- <-. by repeat split. }
  apply RoundTripFacts.bind_returned_inv in Hrun as ([] & m1 & Hrun1 & Hrun).
  apply RoundTripFacts.bind_returned_inv in Hrun as ([] & m3 & Hrun2 & Hrun).
  apply RoundTripFacts.bind_returned_inv in Hrun as ([] & m4 & Hrun4 & Hrun).
  injection Hrun as Hm4 Hb. subst m4 b.
  unfold removeInstance in Hrun2.
  apply RoundTripFacts.bind_returned_inv in Hrun2 as ([] & m2 & Hrun2 & Hrun3).
  (* the selection is cleared *)
  destruct (selectInstance_returned None m m1 Hrun1)
    as (Hsel1 & Hshown1 & Hsup1 & _).
  cbn [selectable] in Hsel1.
  assert (Hc1 : RoundTripFacts.consistent m1).
  { pose proof (on_map_selectInstance filed filed_update None m Hm) as H.
    unfold state_of in H. by rewrite Hrun1 in H. }
  (* the instance goes *)
  destruct (RoundTripFacts.removeActor_returned s m1 m2 (proj1 Hc1) Hrun2)
    as (Hgone & Hothers & Hnd2).
  assert (Hc2 : RoundTripFacts.consistent m2).
  { pose proof (on_map_removeActor_any filed filed_update filed_delete s m1 Hc1)
      as H.
    unfold state_of in H. by rewrite Hrun2 in H. }
  pose proof (flags_removeActor m1 s m1) as Hflags.
  unfold state_of in Hflags. rewrite Hrun2 in Hflags.
  destruct Hflags as (Hsel2 & Hsup2 & _); [by repeat split |]. simpl in *.
  (* the state is written *)
  assert (H3 : _instances m3 = _instances m2 /\ _surfaces m3 = _surfaces m2
               /\ _selectedInstanceId m3 = _selectedInstanceId m2
               /\ _suppressStateEvents m3 = _suppressStateEvents m2
               /\ (_suppressStateEvents m2 = false ->
                   exists doc, exportState m2 = (m2, Returned doc)
                               /\ widgetState (_preferences m3) = Some doc)).
  { revert Hrun3. unfold _stateChanged. rewrite run_bind_get.
    destruct (_suppressStateEvents m2) eqn:Hsup.
    - intros [= <-]. by repeat split.
    - unfold exportState, _computeZIndexByInstanceId,
        _sortedInstancesForExport, bind, get, ret, modify.
      intros [= <-]. destruct m2 as [? ? ? ? ? ? []]. simpl.
      repeat split; try done. intros _. by eexists. }
  destruct H3 as (Hi3 & Hs3 & Hsel3 & Hsup3 & Hwritten).
  (* the web context may go *)
  pose proof (stored_stopWebkitIfUnneeded m3 m3) as H4.
  unfold state_of in H4. rewrite Hrun4 in H4.
  destruct H4 as (Hi4 & Hs4 & Hp4 & Hsel4); [by repeat split |]. simpl in *.
  assert (Hget4 : forall k, getInstance k m' = getInstance k m2).
  { intros k. unfold getInstance. by rewrite Hi4, Hi3. }
  split; [done |]. split; [done |]. intros _.
  split; [by rewrite Hsel4, Hsel3, Hsel2 |]. split.
  - intros s' [= <-]. split; [by rewrite Hget4 |].
    intros k Hne. rewrite Hget4, Hothers by done. apply Hshown1.
  - intros Hsup.
    assert (Hsup2' : _suppressStateEvents m2 = false) by congruence.
    destruct (Hwritten Hsup2') as (doc & Hexp & Hdoc).
    exists doc. split; [|split].
    + apply (exportState_reads m2); [by rewrite Hi4, Hi3 | by rewrite Hs4, Hs3 |].
      done.
    + by rewrite Hp4.
    + intros s' [= <-] Hin.
      destruct (exported_ids_are_keys m2 doc s Hc2 Hexp Hin) as [i Hi].
      congruence.
Qed.

(** The desktop that shows [old], with [old] selected. *)
Definition desktop_with_old_selected : Manager :=
  set_selectedInstanceId (Some "old") RoundTripFacts.desktop_with_old.

Lemma desktop_with_old_selected_consistent :
  RoundTripFacts.consistent desktop_with_old_selected.
Proof. exact RoundTripFacts.desktop_with_old_consistent. Qed.

Lemma delete_old_returns :
  deleteSelectedInstance desktop_with_old_selected
  = (state_of (deleteSelectedInstance desktop_with_old_selected),
     Returned true).
Proof. by vm_compute. Qed.

Lemma deleteSelectedInstance_removes_the_selected_widget_witness :
  let m := desktop_with_old_selected in
  let m' := state_of (deleteSelectedInstance m) in
  true = truthy_ostr (_selectedInstanceId m)
  /\ (true = false -> m' = m)
  /\ (true = true ->
      _selectedInstanceId m' = None
      /\ (forall s, _selectedInstanceId m = Some s ->
            getInstance s m' = None
            /\ forall k, k <> s ->
                 shown <$> getInstance k m' = shown <$> getInstance k m)
      /\ (_suppressStateEvents m = false ->
          exists doc,
            exportState m' = (m', Returned doc)
            /\ widgetState (_preferences m') = Some doc
            /\ forall s, _selectedInstanceId m = Some s ->
                 s ∉ e_instanceId <$> instances doc)).
Proof.
  exact (deleteSelectedInstance_removes_the_selected_widget
           desktop_with_old_selected _ true
           desktop_with_old_selected_consistent delete_old_returns).
Defined.

End DeletionFacts.

(* ===================================================================== *)
(** ** Script messages: what a message may change                         *)
(* ===================================================================== *)

Module MessageFrameFacts.
Import Model WidgetManager WidgetManagerApi InvariantFacts SelectionFacts.
Import WidgetMessages.

(** What a message of type [t] for instance [k] carrying [config] may
    have done to the instance found under [k']: nothing but to its
    host, or, for an [updateConfig] naming it, the replacement of its
    config. *)
Definition touched (payload : jsval) (k' : string)
    (before after : option Instance) : Prop :=
  shown <$> after = shown <$> before
  \/ (field "type" payload = JStr "updateConfig"
      /\ field "instanceId" payload = JStr k'
      /\ is_object (field "config" payload) = true
      /\ shown <$> after
         = set_config (field "config" payload) <$> (shown <$> before)).

(** The state after [updateInstanceConfig]. *)
Lemma updateInstanceConfig_state k config m :
  let m1 := state_of (updateInstanceConfig k config m) in
  _selectedInstanceId m1 = _selectedInstanceId m
  /\ _suppressStateEvents m1 = _suppressStateEvents m
  /\ JsMap.keys (_instances m1) = JsMap.keys (_instances m)
  /\ getInstance k m1 = set_config config <$> getInstance k m
  /\ forall k', k' <> k -> getInstance k' m1 = getInstance k' m.
Proof.
  unfold updateInstanceConfig. rewrite run_bind_get.
  change (JsMap.get k (_instances m)) with (getInstance k m).
  destruct (getInstance k m) as [i|] eqn:E.
  2:{ cbv zeta. unfold state_of, ret. cbn [fst]. rewrite E. by repeat split. }
  rewrite run_bind_modify.
  destruct (WidgetMessagesFacts.stateChanged_touches_preferences
              (update_instance k (set_config config) m)) as [p ->].
  cbn [state_of fst].
  assert (Hget : forall x,
            getInstance x (set_preferences p
                             (update_instance k (set_config config) m))
            = getInstance x (update_instance k (set_config config) m)).
  { intros x. unfold getInstance. by destruct (update_instance _ _ _). }
  split; [|split; [|split; [|split]]].
  - unchanged.
  - unchanged.
  - transitivity (JsMap.keys (_instances (update_instance k (set_config config) m))).
    + by destruct (update_instance _ _ _).
    + apply RoundTripFacts.keys_update.
  - rewrite Hget. by rewrite (RoundTripFacts.getInstance_update_eq _ _ _ _ E).
  - intros k' Hne. rewrite Hget.
    by rewrite RoundTripFacts.getInstance_update_ne.
Qed.

(** The selection and the keys are those of [m0], and every instance
    is as in [m0] but for its host. *)
Definition framed (m0 m : Manager) : Prop :=
  _selectedInstanceId m = _selectedInstanceId m0
  /\ JsMap.keys (_instances m) = JsMap.keys (_instances m0)
  /\ _suppressStateEvents m = _suppressStateEvents m0
  /\ _preferences m = _preferences m0
  /\ forall k, shown <$> getInstance k m = shown <$> getInstance k m0.

Lemma framed_inert m0 m m' :
  _instances m' = _instances m ->
  _selectedInstanceId m' = _selectedInstanceId m ->
  _suppressStateEvents m' = _suppressStateEvents m ->
  _preferences m' = _preferences m ->
  framed m0 m -> framed m0 m'.
Proof. unfold framed, getInstance. by intros -> -> -> ->. Qed.

Lemma framed_host m0 k h m :
  framed m0 m -> framed m0 (update_instance k (set_host h) m).
Proof.
  intros (Hsel & Hkeys & Hsup & Hp & Hi).
  destruct (as_in_host (_selectedInstanceId m0) m0 k h m) as (? & ? & ? & ?);
    [by repeat split |].
  repeat split; try done. by rewrite RoundTripFacts.keys_update.
Qed.

Ltac framed_sides := first [apply framed_inert | apply framed_host].

Lemma framed_refl m : framed m m.
Proof. by repeat split. Qed.

Lemma framed_after (c : M Manager unit) m0 m :
  framed m0 m -> preserves (framed m0) c -> framed m0 (state_of (c m)).
Proof. intros Hm Hc. by apply Hc. Qed.

(** The dispatch on the type, the [updateConfig] branch knowing that
    it was chosen. *)
Lemma message_type_cases_eq {A} (Q : A -> Prop) (t : jsval)
    (update get_ ready open_ close_ other : A) :
  (t = JStr "updateConfig" -> Q update) ->
  Q get_ -> Q ready -> Q open_ -> Q close_ -> Q other ->
  Q (match t with
     | JStr "updateConfig" => update
     | JStr "getConfig" => get_
     | JStr "hostReady" => ready
     | JStr "openPreferences" => open_
     | JStr "closePreferences" => close_
     | _ => other
     end).
Proof.
  intros Hupdate. intros.
  repeat (try assumption;
          match goal with
          | |- context [match ?x with _ => _ end] =>
              is_var x; destruct x; cbv beta iota
          end);
  try assumption.
  by apply Hupdate.
Qed.

Lemma shown_set_config c i : shown (set_config c i) = set_config c (shown i).
Proof. by destruct i. Qed.

(** What a message leaves as it was. *)
Definition message_frame (payload : jsval) (m m' : Manager) : Prop :=
  _selectedInstanceId m' = _selectedInstanceId m
  /\ JsMap.keys (_instances m') = JsMap.keys (_instances m)
  /\ (forall k, touched payload k (getInstance k m) (getInstance k m'))
  /\ (field "type" payload <> JStr "updateConfig" ->
      _preferences m' = _preferences m).

Lemma message_frame_framed payload m m' :
  framed m m' -> message_frame payload m m'.
Proof.
  intros (Hsel & Hkeys & _ & Hp & Hi). repeat split; try done.
  intros k. by left.
Qed.

Lemma resume_frame env payload k inst webView m :
  field "instanceId" payload = JStr k ->
  message_frame payload m
    (state_of (_dispatchWidgetMessage_resume env payload k inst webView m)).
Proof.
  intros Hid.
  assert (Hsame : message_frame payload m m)
    by apply message_frame_framed, framed_refl.
  unfold _dispatchWidgetMessage_resume.
  destruct (negb _); [done |].
  apply (message_type_cases_eq
           (fun c => message_frame payload m (state_of (c m)))).
  - (* updateConfig *)
    intros Htype.
    assert (Hpush : preserves (framed m)
              (WebWidgetContext._pushConfigChangedForInstance k
                 (default_null (field "mode" payload)))).
    { apply host_only_pushConfigChangedForInstance; framed_sides. }
    destruct (is_object (field "config" payload)) eqn:Hobj.
    2:{ rewrite run_bind_ret. apply message_frame_framed.
        apply framed_after; [apply framed_refl | done]. }
    pose proof (updateInstanceConfig_state k (field "config" payload) m) as Hu.
    cbv zeta in Hu. destruct Hu as (Hsel1 & Hsup1 & Hkeys1 & Hk1 & Hother1).
    set (r := updateInstanceConfig k (field "config" payload) m) in *.
    set (m1 := state_of r) in *.
    assert (Hm1 : forall m2, framed m1 m2 -> message_frame payload m m2).
    { intros m2 (Hsel2 & Hkeys2 & _ & _ & Hi2). repeat split.
      - by rewrite Hsel2.
      - by rewrite Hkeys2.
      - intros k'. destruct (decide (k' = k)) as [->|Hne].
        + right. repeat split; try done.
          rewrite Hi2, Hk1. destruct (getInstance k m); [|done]. simpl.
          by rewrite shown_set_config.
        + left. by rewrite Hi2, Hother1.
      - done. }
    unfold bind. fold r. destruct r as [m1' [[]|e]] eqn:Hr; subst m1;
      cbn [state_of fst] in *.
    + apply Hm1. apply framed_after; [apply framed_refl |].
      apply host_only_pushConfigChangedForInstance; framed_sides.
    + apply Hm1, framed_refl.
  - apply message_frame_framed, framed_after; [apply framed_refl |].
    apply host_only_doWidgetGetConfig; framed_sides.
  - apply message_frame_framed, framed_after; [apply framed_refl |].
    apply preserves_bind; [|intros _].
    + apply host_only_pushFullHostStateForInstance; framed_sides.
    + apply host_only_pushConfigChangedForInstance; framed_sides.
  - apply message_frame_framed, framed_after; [apply framed_refl |].
    destruct (hasPreferences inst) as [[|]|]; try apply preserves_ret.
    destruct (truthy_ostr (prefsUri inst)); [|apply preserves_ret].
    apply host_only_openPreferencesForInstance; framed_sides.
  - apply message_frame_framed, framed_after; [apply framed_refl |].
    apply host_only_closePreferencesForInstance; framed_sides.
  - done.
Qed.

Lemma dispatch_frame env payload m :
  message_frame payload m (state_of (_dispatchWidgetMessage env payload m)).
Proof.
  assert (Hsame : message_frame payload m m)
    by apply message_frame_framed, framed_refl.
  unfold _dispatchWidgetMessage. rewrite run_bind_get.
  destruct (field "instanceId" payload) as [| | | |k| |] eqn:Hid; try done.
  destruct (getInstance k m) as [inst|] eqn:Hinst; [|done].
  destruct (host inst) as [h|]; [|done].
  destruct (HtmlWidgetHost._webView h) as [webView|];
    [by apply resume_frame |].
  apply message_frame_framed, framed_after; [apply framed_refl |].
  apply preserves_on_instance_host; [|apply preserves_ret].
  intros m0 h0 Hm0. by apply framed_host.
Qed.

Lemma continue_frame env payload m :
  message_frame payload m
    (state_of (try_catch (_dispatchWidgetMessage_continue env payload) m)).
Proof.
  assert (Hsame : message_frame payload m m)
    by apply message_frame_framed, framed_refl.
  assert (Htry : forall c : M Manager unit,
            state_of (try_catch c m) = state_of (c m)).
  { intros c. unfold try_catch, state_of. by destruct (c m). }
  rewrite Htry.
  unfold _dispatchWidgetMessage_continue. rewrite run_bind_get.
  destruct (field "instanceId" payload) as [| | | |k| |] eqn:Hid; try done.
  destruct (getInstance k m) as [inst|] eqn:Hinst; [|done].
  destruct (host inst) as [h|]; [|done].
  destruct (HtmlWidgetHost._webView h) as [webView|]; [|done].
  by apply resume_frame.
Qed.

(** *** The messages that waited for a surface *)

(** What the messages [waiting] may have done between them to the
    instance found under [k']: nothing but to its host, or one of
    them, an [updateConfig] naming it, has put its config there. *)
Definition touched_by (waiting : list jsval) (k' : string)
    (before after : option Instance) : Prop :=
  shown <$> after = shown <$> before
  \/ exists payload,
       payload ∈ waiting
       /\ field "type" payload = JStr "updateConfig"
       /\ field "instanceId" payload = JStr k'
       /\ is_object (field "config" payload) = true
       /\ shown <$> after
          = set_config (field "config" payload) <$> (shown <$> before).

Definition arrival_frame (waiting : list jsval) (m m' : Manager) : Prop :=
  _selectedInstanceId m' = _selectedInstanceId m
  /\ JsMap.keys (_instances m') = JsMap.keys (_instances m)
  /\ (forall k, touched_by waiting k (getInstance k m) (getInstance k m'))
  /\ ((forall payload, payload ∈ waiting ->
         field "type" payload <> JStr "updateConfig") ->
      _preferences m' = _preferences m).

Lemma arrival_frame_framed waiting m m' :
  framed m m' -> arrival_frame waiting m m'.
Proof.
  intros (Hsel & Hkeys & _ & Hp & Hi). repeat split; try done.
  intros k. by left.
Qed.

Lemma set_config_twice c1 c2 (i : option Instance) :
  set_config c2 <$> (set_config c1 <$> i) = set_config c2 <$> i.
Proof. by destruct i as [[]|]. Qed.

Lemma arrival_frame_step waiting payload m m1 m2 :
  arrival_frame waiting m m1 -> message_frame payload m1 m2 ->
  arrival_frame (waiting ++ [payload]) m m2.
Proof.
  intros (Hsel1 & Hkeys1 & Hi1 & Hp1) (Hsel2 & Hkeys2 & Hi2 & Hp2).
  split; [by rewrite Hsel2 |]. split; [by rewrite Hkeys2 |]. split.
  - intros k. unfold touched_by.
    destruct (Hi2 k) as [Hsame|(Hty & Hid & Hobj & Hnew)].
    + rewrite Hsame. destruct (Hi1 k) as [?|(p & Hin & ?)]; [by left |].
      right. exists p. split; [|done]. apply elem_of_app. by left.
    + right. exists payload. split; [apply elem_of_app; right; by left |].
      repeat split; try done. rewrite Hnew.
      destruct (Hi1 k) as [->|(p & _ & _ & _ & _ & ->)]; [done |].
      apply set_config_twice.
  - intros Hnone. rewrite Hp2, Hp1; [done | |].
    + intros p Hin. apply Hnone, elem_of_app. by left.
    + apply Hnone, elem_of_app. right. by left.
Qed.

Lemma arrival_frame_loop env m rest : forall done m1,
  arrival_frame done m m1 ->
  arrival_frame (done ++ rest) m
    (state_of
       (for_each rest
          (fun payload => try_catch (_dispatchWidgetMessage_continue env payload))
          m1)).
Proof.
  induction rest as [|payload rest IH]; intros done m1 Hm1.
  - by rewrite app_nil_r.
  - cbn [for_each].
    pose proof (continue_frame env payload m1) as Hstep.
    unfold bind. unfold try_catch in Hstep. unfold try_catch at 1.
    destruct (_dispatchWidgetMessage_continue env payload m1) as [m2 o].
    cbn [state_of fst] in Hstep.
    replace (done ++ payload :: rest) with ((done ++ [payload]) ++ rest)
      by by rewrite <- app_assoc.
    apply IH. by eapply arrival_frame_step.
Qed.

Lemma surface_arrives_frame env k wv url m :
  arrival_frame (suspended k m) m
    (state_of (surface_arrives env k wv url m)).
Proof.
  unfold surface_arrives. rewrite run_bind_get.
  assert (Hstart : framed m
            (state_of (on_instance_host k
                         (HtmlWidgetHost._start_resume wv url) (ret tt) m))).
  { apply framed_after; [apply framed_refl |].
    apply preserves_on_instance_host; [|apply preserves_ret].
    intros m0 h0 Hm0. by apply framed_host. }
  unfold bind at 1.
  destruct (on_instance_host k (HtmlWidgetHost._start_resume wv url)
              (ret tt) m) as [m1 [[]|e]]; cbn [state_of fst] in Hstart.
  - apply (arrival_frame_loop env m (suspended k m) [] m1).
    by apply arrival_frame_framed.
  - by apply arrival_frame_framed.
Qed.

(** A message for an instance whose host has no view yet is kept with
    the promise of that host, and nothing else happens. *)
Lemma message_is_suspended env payload m k inst h :
  is_object payload = true -> field "type" payload <> JStr "log" ->
  field "instanceId" payload = JStr k -> truthy_str k = true ->
  getInstance k m = Some inst -> host inst = Some h ->
  HtmlWidgetHost._webView h = None ->
  _onWidgetScriptMessage env payload m
  = (update_instance k
       (set_host
          (Some (HtmlWidgetHost.set_webViewPromise
                   (HtmlWidgetHost._webViewPromise h ++ [payload]) h)))
       m,
     Returned tt).
Proof.
  intros Hobj Hlog Hid Hk Hinst Hhost Hwv.
  assert (Hdispatch : _onWidgetScriptMessage env payload m
                      = _dispatchWidgetMessage env payload m).
  { unfold _onWidgetScriptMessage. rewrite Hobj. cbn [negb].
    rewrite Hid, Hk.
    destruct (field "type" payload) as [| | | |t| |]; try done.
    repeat (destruct t as [|[[] [] [] [] [] [] [] []] t]; try done). }
  rewrite Hdispatch. unfold _dispatchWidgetMessage.
  rewrite run_bind_get, Hid, Hinst, Hhost, Hwv.
  unfold on_instance_host. fold (getInstance k m). by rewrite Hinst, Hhost.
Qed.

(** X18. A script message changes at most one config, whether it is
    handled at once or waits for the surface of its instance. After
    [_onWidgetScriptMessage], whatever the payload and whether the
    handling returns or raises, the selection and the keys of the
    instance map are as before; every instance is as before, its host
    apart, unless the message is an [updateConfig] naming it with an
    object-valued config, which may have replaced its config by that
    object; and the preferences are untouched unless the message type
    is [updateConfig]. A message for an instance whose host has no view
    yet is kept with the promise of that host and changes nothing else.
    When the surface of an instance arrives and the messages kept with
    its host are handled, the selection and the keys are as before,
    every instance is as before, its host apart, unless one of those
    messages is an [updateConfig] naming it with an object-valued
    config, which may have replaced its config by that object; and the
    preferences are untouched unless one of them is an
    [updateConfig]. *)
Theorem script_message_changes_at_most_one_config
    (env : Locale) (payload : jsval) (m : Manager) :
  (let m' := state_of (_onWidgetScriptMessage env payload m) in
   _selectedInstanceId m' = _selectedInstanceId m
   /\ JsMap.keys (_instances m') = JsMap.keys (_instances m)
   /\ (forall k, touched payload k (getInstance k m) (getInstance k m'))
   /\ (field "type" payload <> JStr "updateConfig" ->
       _preferences m' = _preferences m))
  /\ (forall k inst h,
        is_object payload = true -> field "type" payload <> JStr "log" ->
        field "instanceId" payload = JStr k -> truthy_str k = true ->
        getInstance k m = Some inst -> host inst = Some h ->
        HtmlWidgetHost._webView h = None ->
        _onWidgetScriptMessage env payload m
        = (update_instance k
             (set_host
                (Some (HtmlWidgetHost.set_webViewPromise
                         (HtmlWidgetHost._webViewPromise h ++ [payload]) h)))
             m,
           Returned tt))
  /\ (forall k wv url,
        let m' := state_of (surface_arrives env k wv url m) in
        _selectedInstanceId m' = _selectedInstanceId m
        /\ JsMap.keys (_instances m') = JsMap.keys (_instances m)
        /\ (forall k',
              touched_by (suspended k m) k'
                (getInstance k' m) (getInstance k' m'))
        /\ ((forall waiting, waiting ∈ suspended k m ->
               field "type" waiting <> JStr "updateConfig") ->
            _preferences m' = _preferences m)).
Proof.
  split; [|split].
  - cbv zeta. fold (message_frame payload m
                      (state_of (_onWidgetScriptMessage env payload m))).
    assert (Hsame : message_frame payload m m)
      by apply message_frame_framed, framed_refl.
    unfold _onWidgetScriptMessage.
    destruct (negb (is_object payload)); [done |].
    apply (log_cases (fun c => message_frame payload m (state_of (c m))));
      [done |].
    destruct (field "instanceId" payload) as [| | | |k| |] eqn:Hid; try done.
    destruct (truthy_str k); [|done].
    apply dispatch_frame.
  - intros k inst h. apply message_is_suspended.
  - intros k wv url. exact (surface_arrives_frame env k wv url m).
Qed.

(** *** An example: a message that waits for its surface *)

(** The desktop that shows [old], whose surface has not arrived yet. *)
Definition waiting_desktop : Manager :=
  set_webWidgetContext (Some (mkContext true None None None []))
    RoundTripFacts.desktop_with_pending_old.

Definition paint_red : jsval :=
  JObj [("instanceId", JStr "old"); ("type", JStr "updateConfig");
        ("config", JObj [("color", JStr "red")]); ("mode", JStr "widget")].

(** The message is kept while the surface is missing; when the surface
    arrives the config is replaced, saved and announced to the page. *)
Lemma waiting_updateConfig_is_handled_on_arrival :
  let env := mkLocale "en_US" "ltr" in
  let kept := state_of (_onWidgetScriptMessage env paint_red waiting_desktop) in
  let r := surface_arrives env "old"
             (WebKit.mkWebView (Some ["usr"; "share"; "widgets"; "notes"])
                "notes" "old" None)
             (Some "ding-widget://old/index.html") kept in
  suspended "old" kept = [paint_red]
  /\ config <$> getInstance "old" kept = Some (JObj [])
  /\ outcome_of r = Returned tt
  /\ suspended "old" (state_of r) = []
  /\ config <$> getInstance "old" (state_of r)
     = Some (JObj [("color", JStr "red")])
  /\ (fun doc => e_config <$> instances doc)
       <$> widgetState (_preferences (state_of r))
     = Some [JObj [("color", JStr "red")]]
  /\ (getInstance "old" (state_of r) ≫= host)
       ≫= (fun h => last (HtmlWidgetHost.scripts_evaluated h))
     = Some (HtmlWidgetHost.PostMessageScript
               (JObj [("_dingInternal", JBool true);
                      ("type", JStr "configChanged");
                      ("instanceId", JStr "old");
                      ("config", JObj [("color", JStr "red")]);
                      ("reason", JStr "configSaved");
                      ("sourceMode", JStr "widget")])).
Proof. vm_compute. by repeat split. Qed.

End MessageFrameFacts.

(* ===================================================================== *)
(** ** Script messages: the getConfig request                             *)
(* ===================================================================== *)

Module GetConfigFacts.
Import Model WidgetMessages WidgetMessagesFacts InvariantFacts.

(** The dispatch on the mode, every branch knowing why it was
    chosen. *)
Lemma mode_cases_eq {A} (Q : A -> Prop) (mode : jsval) (prefs widget both : A) :
  (mode = JStr "prefs" -> Q prefs) ->
  (mode = JStr "widget" -> Q widget) ->
  (mode <> JStr "prefs" -> mode <> JStr "widget" -> Q both) ->
  Q (match mode with
     | JStr "prefs" => prefs
     | JStr "widget" => widget
     | _ => both
     end).
Proof.
  intros Hprefs Hwidget Hboth.
  repeat (match goal with
          | |- context [match ?x with _ => _ end] =>
              is_var x; destruct x; cbv beta iota
          end);
  first [ by apply Hprefs | by apply Hwidget | by apply Hboth ].
Qed.

(** The reply to a [getConfig] request. *)
Definition config_reply (requestId : jsval) (inst : Instance) : jsval :=
  JObj [("_dingInternal", JBool true);
        ("requestId", requestId);
        ("config", or_else (config inst) (JObj []))].

(** The reply evaluated in the widget surface of [k]. *)
Definition answered_in_widget (k : string) (h : HtmlWidgetHost.Host)
    (reply : jsval) (m : Manager) : Manager :=
  update_instance k
    (set_host
       (Some (HtmlWidgetHostFacts.log_calls
                [HtmlWidgetHost.EvaluateJavascript
                   (HtmlWidgetHost.PostMessageScript reply)] h))) m.

(** The reply posted to the preferences host, when it is the one of
    [k]. *)
Definition answered_in_prefs (k : string) (ctx : Context) (reply : jsval)
    (m : Manager) : Manager :=
  match _prefsHost ctx with
  | Some ph =>
      if same_id (_prefsInstanceId ctx) k then
        set_webWidgetContext
          (Some (set_prefsHost
                   (Some (state_of (HtmlWidgetHost.postMessage reply ph))) ctx))
          m
      else m
  | None => m
  end.

Lemma postToWidget_live k m inst h msg :
  is_object msg = true -> live_surface k m inst h ->
  WebWidgetContext._postToWidget k msg m
  = (answered_in_widget k h msg m, Returned tt).
Proof.
  intros Hobj [Hget Hiid Hhost Halive (wv & Hwv & Huri)].
  unfold WebWidgetContext._postToWidget, on_instance_host, answered_in_widget.
  unfold getInstance in Hget. rewrite Hget, Hhost. cbv zeta.
  rewrite postMessage_live by eauto. done.
Qed.

Lemma postToPrefs_known k m inst ctx msg :
  getInstance k m = Some inst -> instanceId inst = k ->
  _webWidgetContext m = Some ctx ->
  WebWidgetContext._postToPrefs k msg m
  = (answered_in_prefs k ctx msg m, Returned tt).
Proof.
  intros Hget Hiid Hctx. unfold WebWidgetContext._postToPrefs.
  rewrite run_bind_get, Hget.
  erewrite run_bind_deref_some by exact Hctx. rewrite Hiid.
  unfold answered_in_prefs.
  destruct (same_id (_prefsInstanceId ctx) k); [|by destruct (_prefsHost ctx)].
  unfold on_prefs_host. rewrite Hctx.
  destruct (_prefsHost ctx) as [ph|]; [|done]. cbv zeta.
  by rewrite postMessage_returns.
Qed.

(** X19. A [getConfig] request for an instance whose live surface
    shows its ding-widget:// page is answered where it was asked. The
    reply carries the request id and the config of the instance. With
    mode ['widget'] it is evaluated in the widget surface and nowhere
    else; with mode ['prefs'] it is posted to the preferences host, if
    that host belongs to the instance, and nowhere else; with any other
    mode both happen. The handler returns and nothing else changes. *)
Theorem getConfig_is_answered_where_it_was_asked
    (env : Locale) (m : Manager) (k : string) (payload : jsval)
    (inst : Instance) (h : HtmlWidgetHost.Host) (ctx : Context) :
  field "instanceId" payload = JStr k ->
  field "type" payload = JStr "getConfig" ->
  _webWidgetContext m = Some ctx ->
  live_surface k m inst h ->
  let r := _dispatchWidgetMessage env payload m in
  let reply := config_reply (field "requestId" payload) inst in
  (field "mode" payload = JStr "widget" ->
   r = (answered_in_widget k h reply m, Returned tt))
  /\ (field "mode" payload = JStr "prefs" ->
      r = (answered_in_prefs k ctx reply m, Returned tt))
  /\ (field "mode" payload <> JStr "widget" ->
      field "mode" payload <> JStr "prefs" ->
      r = (answered_in_prefs k ctx reply (answered_in_widget k h reply m),
           Returned tt)).
Proof.
  intros Hid Hty Hctx Hlive r reply.
  pose proof Hlive as [Hget Hiid Hhost Halive (wv & Hwv & Huri)].
  assert (Hr : r = WebWidgetContext._routeAndPost (field "mode" payload) k
                     reply m).
  { unfold r, _dispatchWidgetMessage. rewrite run_bind_get, Hid, Hget, Hhost,
      Hwv. unfold _dispatchWidgetMessage_resume. rewrite Huri.
    cbn [negb]. rewrite Hty.
    unfold WebWidgetContext._doWidgetGetConfig. rewrite run_bind_get, Hget.
    done. }
  assert (Hwidget : WebWidgetContext._postToWidget k reply m
                    = (answered_in_widget k h reply m, Returned tt))
    by exact (postToWidget_live k m inst h reply eq_refl Hlive).
  assert (Hprefs : WebWidgetContext._postToPrefs k reply m
                   = (answered_in_prefs k ctx reply m, Returned tt))
    by exact (postToPrefs_known k m inst ctx reply Hget Hiid Hctx).
  assert (Hboth : WebWidgetContext._postToBoth k reply m
                  = (answered_in_prefs k ctx reply
                       (answered_in_widget k h reply m), Returned tt)).
  { unfold WebWidgetContext._postToBoth.
    erewrite run_bind_returned by exact Hwidget.
    apply (postToPrefs_known k _
             (set_host
                (Some (HtmlWidgetHostFacts.log_calls
                         [HtmlWidgetHost.EvaluateJavascript
                            (HtmlWidgetHost.PostMessageScript reply)] h))
                inst)).
    - unfold answered_in_widget.
      by rewrite (RoundTripFacts.getInstance_update_eq _ _ _ _ Hget).
    - by destruct inst.
    - unfold answered_in_widget. by rewrite RoundTripFacts.context_update. }
  rewrite Hr. unfold WebWidgetContext._routeAndPost.
  apply (mode_cases_eq
           (fun c => (field "mode" payload = JStr "widget" -> c m = _)
                     /\ (field "mode" payload = JStr "prefs" -> c m = _)
                     /\ (field "mode" payload <> JStr "widget" ->
                         field "mode" payload <> JStr "prefs" -> c m = _))).
  - intros Hmode. rewrite Hmode. split; [done |]. split; [done |].
    by intros _ Hne.
  - intros Hmode. rewrite Hmode. split; [done |]. split; [done |].
    by intros Hne.
  - intros Hnp Hnw. split; [done |]. split; [done |]. done.
Qed.

(** The preferences page of [X] asks for its configuration. *)
Definition example_getConfig : jsval :=
  JObj [("instanceId", JStr "X"); ("type", JStr "getConfig");
        ("requestId", JNum 7); ("mode", JStr "prefs")].

Lemma example_surface_live :
  live_surface "X" example_manager example_instance example_widget_host.
Proof. split; try reflexivity. eexists. split; reflexivity. Qed.

Lemma getConfig_is_answered_where_it_was_asked_witness :
  let r := _dispatchWidgetMessage (mkLocale "en_US" "ltr") example_getConfig
             example_manager in
  let reply := config_reply (JNum 7) example_instance in
  (field "mode" example_getConfig = JStr "widget" ->
   r = (answered_in_widget "X" example_widget_host reply example_manager,
        Returned tt))
  /\ (field "mode" example_getConfig = JStr "prefs" ->
      r = (answered_in_prefs "X" example_context reply example_manager,
           Returned tt))
  /\ (field "mode" example_getConfig <> JStr "widget" ->
      field "mode" example_getConfig <> JStr "prefs" ->
      r = (answered_in_prefs "X" example_context reply
             (answered_in_widget "X" example_widget_host reply example_manager),
           Returned tt)).
Proof.
  exact (getConfig_is_answered_where_it_was_asked (mkLocale "en_US" "ltr")
           example_manager "X" example_getConfig example_instance
           example_widget_host example_context eq_refl eq_refl eq_refl
           example_surface_live).
Defined.

End GetConfigFacts.

(* ===================================================================== *)
(** ** The preferences window: opening it                                 *)
(* ===================================================================== *)

Module PreferencesOpenFacts.
Import Model WebWidgetContext PreferencesWindowFacts.

#[local] Arguments HtmlWidgetHost.destroy : simpl never.

(** Closing the preferences with the surface handed over, or with no
    window open: the window the context referred to is destroyed and
    the context refers to none. *)
Lemma closePreferencesIfAny_settled sf ins ch sel rt pw ph pi roots sup pr
    wins na cons :
  RoundTripFacts.settled ph ->
  closePreferencesIfAny
    (mkManager sf ins ch sel (Some (mkContext rt pw ph pi roots)) sup pr wins
       na cons)
  = (mkManager sf ins ch sel
       (Some (match pw with
              | Some _ => mkContext rt None None None roots
              | None => mkContext rt pw ph pi roots
              end))
       sup pr
       (match pw with
        | Some w =>
            (fun x => if decide (Gtk.win_id x = w) then set_alive false x else x)
              <$> wins
        | None => wins
        end) na cons,
     Returned tt).
Proof.
  intros Hready. unfold closePreferencesIfAny.
  erewrite run_bind_deref_some by reflexivity. cbn [_prefsWindow].
  destruct pw as [w|]; [|done].
  unfold bind at 1. unfold on_prefs_host. cbn [_webWidgetContext _prefsHost].
  destruct ph as [h|].
  - destruct (HtmlWidgetHostFacts.destroy_ready h (Hready h eq_refl))
      as (Hret & _).
    unfold outcome_of in Hret. cbv zeta. rewrite Hret. reflexivity.
  - reflexivity.
Qed.

Lemma filter_alive_killed (w : nat) (wins : list Gtk.Window) :
  (forall x, x ∈ wins -> Gtk.alive x = true -> Gtk.win_id x = w) ->
  List.filter Gtk.alive
    ((fun x => if decide (Gtk.win_id x = w) then set_alive false x else x)
       <$> wins) = [].
Proof.
  induction wins as [|x wins IH]; intros Hall; [done |]. csimpl.
  rewrite IH by (intros y Hy; apply Hall; by right).
  destruct (decide (Gtk.win_id x = w)) as [Hx|Hx].
  - by destruct x.
  - destruct (Gtk.alive x) eqn:Ha; [|done].
    exfalso. apply Hx, Hall; [by left | done].
Qed.

Lemma filter_alive_none (wins : list Gtk.Window) :
  (forall x, x ∈ wins -> Gtk.alive x = true -> False) ->
  List.filter Gtk.alive wins = [].
Proof.
  induction wins as [|x wins IH]; intros Hall; [done |]. simpl.
  rewrite IH by (intros y Hy; apply Hall; by right).
  destruct (Gtk.alive x) eqn:Ha; [|done].
  exfalso. by apply (Hall x); [left |].
Qed.

Lemma present_new n (wins : list Gtk.Window) :
  Gtk.win_id <$> wins = seq 0 (length wins) -> n = length wins ->
  (fun x => if decide (Gtk.win_id x = n) then add_presented x else x)
    <$> (wins ++ [Gtk.mkWindow n true 0])
  = wins ++ [Gtk.mkWindow n true 1].
Proof.
  intros Hids ->. rewrite fmap_app. f_equal.
  - assert (Hlt : Forall (fun x => Gtk.win_id x < length wins) wins).
    { apply Forall_forall. intros x Hx.
      assert (Hin : Gtk.win_id x ∈ seq 0 (length wins)).
      { rewrite <- Hids. apply list_elem_of_fmap. by exists x. }
      apply elem_of_seq in Hin. lia. }
    clear Hids. revert Hlt. generalize (length wins). intros n.
    induction wins as [|x wins IH]; intros Hlt; [done |].
    apply Forall_cons in Hlt as [Hx Hlt]. csimpl.
    rewrite decide_False by lia. by rewrite (IH Hlt).
  - simpl. by rewrite decide_True.
Qed.

(** X20. Opening the preferences when nothing stands in the way. For
    the selected instance and a non-empty URI, when no preferences
    window is open or the open one belongs to another instance, the
    preferences surface, if any, has been handed over, and every window
    still alive is the one the context refers to,
    [openPreferencesForInstance] returns. Afterwards exactly one window
    is open, a new one that was presented once; the context refers to
    that window and to the instance, holds a new host in [prefs] mode
    for the URI, and has its runtime set up; the instance map and the
    selection are as before. *)
Theorem openPreferences_replaces_the_window
    (m : Manager) (ctx : Context) (k uri : string) (inst : Instance) :
  truthy_str k = true -> truthy_str uri = true ->
  _selectedInstanceId m = Some k ->
  getInstance k m = Some inst ->
  _webWidgetContext m = Some ctx ->
  _prefsWindow ctx = None \/ _prefsInstanceId ctx <> Some k ->
  RoundTripFacts.settled (_prefsHost ctx) ->
  one_window m ->
  exists m' ctx',
    openPreferencesForInstance (Some k) (Some uri) m = (m', Returned tt)
    /\ _webWidgetContext m' = Some ctx'
    /\ _prefsWindow ctx' = Some (length (gtk_windows m))
    /\ _prefsInstanceId ctx' = Some k
    /\ _prefsHost ctx'
       = Some (HtmlWidgetHost.new
                 (HtmlWidgetHost.mkParams k (widgetId inst) (Some "prefs")
                    (Some uri)))
    /\ runtime ctx' = true
    /\ open_windows m' = [Gtk.mkWindow (length (gtk_windows m)) true 1]
    /\ _instances m' = _instances m
    /\ _selectedInstanceId m' = Some k.
Proof.
  intros Hk Huri Hsel Hinst Hctx Hother Hready [Hids Halive].
  destruct m as [sf ins ch sel octx sup pr wins na cons].
  destruct ctx as [rt pw ph pi roots]. simpl in *. subst sel octx.
  unfold prefs_window in Halive. simpl in Halive.
  assert (Hopen : openPreferencesForInstance (Some k) (Some uri)
                    (mkManager sf ins ch (Some k)
                       (Some (mkContext rt pw ph pi roots)) sup pr wins na cons)
                  = open_new_preferences k (Some uri)
                      (mkManager sf ins ch (Some k)
                         (Some (mkContext rt pw ph pi roots)) sup pr wins na
                         cons)).
  { unfold openPreferencesForInstance. cbn [truthy_ostr]. rewrite Hk, Huri.
    cbn [negb orb]. rewrite run_bind_get.
    unfold getSelectedInstanceId, same_id. cbn [_selectedInstanceId truthy_ostr].
    rewrite Hk. rewrite bool_decide_eq_true_2 by done. cbn [negb orb].
    erewrite run_bind_deref_some by reflexivity. cbn [_prefsWindow _prefsInstanceId].
    destruct pw as [w|]; [|done].
    destruct Hother as [?|Hne]; [done |].
    by rewrite bool_decide_eq_false_2. }
  set (wins1 := match pw with
                | Some w =>
                    (fun x => if decide (Gtk.win_id x = w) then set_alive false x
                              else x) <$> wins
                | None => wins
                end).
  assert (Hlen : length wins1 = length wins).
  { unfold wins1. destruct pw; [by rewrite length_fmap | done]. }
  assert (Hids1 : Gtk.win_id <$> wins1 = seq 0 (length wins1)).
  { rewrite Hlen. unfold wins1. destruct pw as [w|]; [|done].
    rewrite <- Hids, <- list_fmap_compose. apply list_fmap_ext.
    intros i x _. simpl. destruct (decide (Gtk.win_id x = w)); [|done].
    by destruct x. }
  assert (Hdead : List.filter Gtk.alive wins1 = []).
  { unfold wins1. destruct pw as [w|].
    - apply filter_alive_killed. intros x Hx Ha.
      specialize (Halive x Hx Ha). by injection Halive.
    - apply filter_alive_none. intros x Hx Ha. by specialize (Halive x Hx Ha). }
  assert (Hclose := closePreferencesIfAny_settled sf ins ch (Some k) rt pw ph pi
                      roots sup pr wins na cons Hready).
  fold wins1 in Hclose.
  assert (Hctx1 : exists rt0 c0 p0,
             match pw with
             | Some _ => mkContext rt None None None roots
             | None => mkContext rt pw ph pi roots
             end = mkContext rt0 None c0 p0 roots).
  { destruct pw; eauto. }
  destruct Hctx1 as (rt0 & c0 & p0 & Hctx1). rewrite Hctx1 in Hclose.
  clearbody wins1. clear Hctx1.
  assert (Hrun :
    ( _initWebKitRuntime ;;;
      modify_this
        (set_prefsHost
           (Some (HtmlWidgetHost.new
                    (HtmlWidgetHost.mkParams k (widgetId inst) (Some "prefs")
                       (Some uri))))) ;;;
      this <- deref _webWidgetContext ;;
      modify_this
        (set_prefs (Some (length wins1)) (_prefsHost this) (Some k)) ;;;
      present (length wins1))
      (mkManager sf ins ch (Some k) (Some (mkContext rt0 None c0 p0 roots))
         sup pr (wins1 ++ [Gtk.mkWindow (length wins1) true 0]) na cons)
    = (mkManager sf ins ch (Some k)
         (Some (mkContext true (Some (length wins1))
                  (Some (HtmlWidgetHost.new
                           (HtmlWidgetHost.mkParams k (widgetId inst)
                              (Some "prefs") (Some uri))))
                  (Some k) roots))
         sup pr
         ((fun x => if decide (Gtk.win_id x = length wins1)
                    then add_presented x else x)
            <$> (wins1 ++ [Gtk.mkWindow (length wins1) true 0])) na cons,
       Returned tt)).
  { destruct rt0; reflexivity. }
  rewrite (present_new _ _ Hids1) in Hrun by done.
  eexists _, _. split.
  { etransitivity; [exact Hopen |]. unfold open_new_preferences.
    erewrite run_bind_returned by exact Hclose.
    rewrite run_bind_get. unfold getInstance in *. cbn [_instances] in *.
    rewrite Hinst.
    unfold new_window. rewrite run_bind_assoc, run_bind_get.
    cbn [gtk_windows]. rewrite run_bind_assoc, run_bind_modify.
    rewrite run_bind_ret. cbn [set_gtk_windows].
    exact Hrun. }
  unfold open_windows. cbn. rewrite List.filter_app, Hdead, Hlen.
  by repeat split.
Qed.

(** The desktop with clocks [A] and [B] loaded and [A] selected; no
    preferences window was opened yet. *)
Definition desktop_with_A_selected : Manager :=
  state_of
    ((WidgetManager.loadState
        (StateObject (JNum 1) (Some [clock_entry "A"; clock_entry "B"])) ;;;
      WidgetManager.selectInstance (Some "A")) empty_desktop).

Definition context_of_A : Context := mkContext true None None None [].

Lemma A_is_selected : _selectedInstanceId desktop_with_A_selected = Some "A".
Proof. by vm_compute. Qed.

Lemma A_is_filed : is_Some (getInstance "A" desktop_with_A_selected).
Proof. vm_compute. by eexists. Qed.

Lemma A_has_context :
  _webWidgetContext desktop_with_A_selected = Some context_of_A.
Proof. by vm_compute. Qed.

Lemma A_has_no_window : one_window desktop_with_A_selected.
Proof.
  assert (Hnone : gtk_windows desktop_with_A_selected = []) by by vm_compute.
  split; rewrite Hnone; [reflexivity |].
  intros w Hw. destruct (proj1 (elem_of_nil w) Hw).
Qed.

Lemma openPreferences_replaces_the_window_witness :
  exists inst m' ctx',
    getInstance "A" desktop_with_A_selected = Some inst
    /\ openPreferencesForInstance (Some "A") (Some "prefs.html")
         desktop_with_A_selected = (m', Returned tt)
    /\ _webWidgetContext m' = Some ctx'
    /\ _prefsInstanceId ctx' = Some "A"
    /\ open_windows m'
       = [Gtk.mkWindow (length (gtk_windows desktop_with_A_selected)) true 1].
Proof.
  destruct A_is_filed as [inst Hinst].
  destruct (openPreferences_replaces_the_window desktop_with_A_selected
              context_of_A "A" "prefs.html" inst eq_refl eq_refl
              A_is_selected Hinst A_has_context (or_introl eq_refl)
              (fun h' (H : None = Some h') =>
                 match H in _ = o
                       return match o with
                              | Some _ => HtmlWidgetHost.surface_ready h'
                              | None => True
                              end
                 with eq_refl => I end)
              A_has_no_window)
    as (m' & ctx' & Hrun & Hctx & _ & Hid & _ & _ & Hopen & _).
  exists inst, m', ctx'.
  split; [exact Hinst |]. split; [exact Hrun |]. split; [exact Hctx |].
  split; [exact Hid | exact Hopen].
Defined.

End PreferencesOpenFacts.

(* ===================================================================== *)
(** ** WidgetManager: a new config is saved                               *)
(* ===================================================================== *)

Module ConfigSavedFacts.
Import Model WidgetManager.

Lemma isAddButton_set_config c i : _isAddButton (set_config c i) = _isAddButton i.
Proof. by destruct i. Qed.

(** [exportState] returns and leaves the manager as it is; an instance
    of the map that is no add button is in the document. *)
Lemma exportState_lists m :
  exists doc,
    exportState m = (m, Returned doc)
    /\ forall k i, getInstance k m = Some i -> _isAddButton i = false ->
                   export_instance i ∈ instances doc.
Proof.
  eexists. split; [reflexivity |]. intros k i Hget Hadd. cbn [instances].
  apply list_elem_of_fmap. exists i. split; [done |].
  rewrite WidgetManagerFacts.array_sort_Permutation.
  apply list_elem_of_In, filter_In. split; [|by rewrite Hadd].
  apply list_elem_of_In. unfold JsMap.values. apply list_elem_of_fmap. exists (k, i).
  split; [done |]. by apply JsMap.get_Some_elem.
Qed.

(** X21. [updateInstanceConfig(id, config)] always returns. For an
    unknown id nothing changes. Otherwise the instance under [id] gets
    the new config and every other instance stays as it is; while state
    events are suppressed the preferences are untouched; when they are
    not, the stored widget state is the export of the resulting manager
    and, for an instance that is no add button, lists the instance with
    its new config ([{}] for a nullish one). *)
Theorem updateInstanceConfig_is_saved
    (k : string) (config : jsval) (m : Manager) :
  let r := updateInstanceConfig k config m in
  let m' := state_of r in
  outcome_of r = Returned tt
  /\ (getInstance k m = None -> m' = m)
  /\ (forall inst, getInstance k m = Some inst ->
        getInstance k m' = Some (set_config config inst)
        /\ (forall k', k' <> k -> getInstance k' m' = getInstance k' m)
        /\ (_suppressStateEvents m = true -> _preferences m' = _preferences m)
        /\ (_suppressStateEvents m = false ->
            exists doc,
              exportState m' = (m', Returned doc)
              /\ widgetState (_preferences m') = Some doc
              /\ (_isAddButton inst = false ->
                  export_instance (set_config config inst) ∈ instances doc))).
Proof.
  intros r m'. subst m' r. unfold updateInstanceConfig.
  rewrite run_bind_get.
  change (JsMap.get k (_instances m)) with (getInstance k m).
  destruct (getInstance k m) as [i|] eqn:Hget.
  2:{ split; [done |]. split; [done |]. by intros inst. }
  rewrite run_bind_modify.
  set (m1 := update_instance k (set_config config) m).
  assert (Hk : getInstance k m1 = Some (set_config config i))
    by by apply RoundTripFacts.getInstance_update_eq.
  assert (Hother : forall k', k' <> k -> getInstance k' m1 = getInstance k' m).
  { intros k' Hne. by apply RoundTripFacts.getInstance_update_ne. }
  assert (Hflags : _suppressStateEvents m1 = _suppressStateEvents m
                   /\ _preferences m1 = _preferences m).
  { unfold m1, update_instance. fold (getInstance k m). rewrite Hget.
    by destruct m. }
  destruct Hflags as [Hsup Hprefs].
  destruct (exportState_lists m1) as (doc & Hexport & Hlists).
  unfold _stateChanged. rewrite run_bind_get, Hsup.
  destruct (_suppressStateEvents m) eqn:Hs.
  - split; [done |]. split; [done |]. intros inst [= <-].
    unfold state_of, ret. cbn [fst]. by repeat split.
  - erewrite run_bind_returned by exact Hexport.
    unfold modify, state_of, outcome_of. cbn [fst snd].
    split; [done |]. split; [done |]. intros inst [= <-].
    set (m2 := set_preferences _ m1).
    assert (Hsame : _instances m2 = _instances m1
                    /\ _surfaces m2 = _surfaces m1).
    { unfold m2. by destruct m1. }
    destruct Hsame as [Hi Hsf].
    split; [unfold getInstance in *; by rewrite Hi |].
    split; [intros k' Hne; unfold getInstance in *; rewrite Hi; by apply Hother |].
    split; [done |]. intros _. exists doc.
    split; [|split].
    + revert Hexport. unfold exportState, _computeZIndexByInstanceId,
        _sortedInstancesForExport, bind, get, ret. rewrite Hi, Hsf.
      by intros [= <-].
    + unfold m2. destruct m1 as [? ? ? ? ? ? []]. reflexivity.
    + intros Hadd. apply (Hlists k); [done |].
      by rewrite isAddButton_set_config.
Qed.

End ConfigSavedFacts.
